(** * Fleet cost intelligence: the analytics pipeline, embedded and verified

    A shallow embedding of the backend's analytics core
    (utils/timeUtils.ts, utils/geoCalculations.ts, analytics/baseMetrics.ts,
    the efficiency and risk scorers, the cost model and the fleet
    aggregator) together with the properties the specification states
    about it.

    Numbers.  A JavaScript [number] is an IEEE 754 double.  The
    development reads it in two ways.

    - [num] (module [JS]): an exact real, or one of the three special
      values [+Infinity], [-Infinity], [NaN], with the special-value
      rules of the language (NaN absorbs, compares false with
      everything, [Infinity - Infinity] is NaN, ...).  Rounding and the
      overflow of finite values are outside this reading.  The theorems
      over [num] are therefore stated in forms that rounding does not
      disturb: order comparisons, counts, sums accumulated in the order
      in which the code accumulates them, what a final [clamp] or
      [safeDivide] lets through; and where a finite result is concluded,
      the hypotheses bound the magnitudes that enter it (for the
      great-circle distance: coordinates in range and points at most a
      quarter turn apart, which keeps the haversine term away from 1).

    - [Double.num] (module [Double]): the binary64 numbers themselves.
      The part of the code that only adds, subtracts, multiplies,
      divides and compares is embedded a second time over them and
      evaluated there; this is where the statements that rounding does
      disturb are decided. *)

From Stdlib Require Import Reals Lra Lia ZArith List String Bool Arith.
From Stdlib Require Import Permutation Sorted.
From Stdlib Require Floats.
Import ListNotations.

Open Scope string_scope.
Open Scope list_scope.

(* ================================================================== *)
(** ** JavaScript numbers *)
(* ================================================================== *)

Module JS.

Inductive num : Type :=
| Fin (r : R)
| PInf
| NInf
| NaN.

Definition Rltb (x y : R) : bool := if Rlt_dec x y then true else false.
Definition Rleb (x y : R) : bool := if Rle_dec x y then true else false.
Definition Reqb (x y : R) : bool := if Req_dec_T x y then true else false.

Definition zero : num := Fin 0.
Definition ofZ (z : Z) : num := Fin (IZR z).
Definition ofNat (n : nat) : num := Fin (INR n).

(** [Number.isFinite], [Number.isNaN]. *)
Definition isFinite (x : num) : bool :=
  match x with Fin _ => true | _ => false end.

Definition isNaN (x : num) : bool :=
  match x with NaN => true | _ => false end.

(** Unary minus. *)
Definition neg (x : num) : num :=
  match x with
  | Fin r => Fin (- r)
  | PInf => NInf
  | NInf => PInf
  | NaN => NaN
  end.

(** [x + y]. *)
Definition add (x y : num) : num :=
  match x, y with
  | NaN, _ | _, NaN => NaN
  | Fin a, Fin b => Fin (a + b)
  | PInf, NInf | NInf, PInf => NaN
  | PInf, _ | _, PInf => PInf
  | NInf, _ | _, NInf => NInf
  end.

(** [x - y]. *)
Definition sub (x y : num) : num := add x (neg y).

(** The infinity carrying the sign of a non-zero real. *)
Definition infOfSign (positive : bool) : num :=
  if positive then PInf else NInf.

(** [x * y]. *)
Definition mul (x y : num) : num :=
  match x, y with
  | NaN, _ | _, NaN => NaN
  | Fin a, Fin b => Fin (a * b)
  | Fin a, PInf | PInf, Fin a =>
      if Reqb a 0 then NaN else infOfSign (Rltb 0 a)
  | Fin a, NInf | NInf, Fin a =>
      if Reqb a 0 then NaN else infOfSign (Rltb a 0)
  | PInf, PInf | NInf, NInf => PInf
  | PInf, NInf | NInf, PInf => NInf
  end.

(** [x / y].  A finite non-zero value over zero is an infinity (the model
    has one zero, taken as [+0]); zero over zero and infinity over
    infinity are NaN. *)
Definition div (x y : num) : num :=
  match x, y with
  | NaN, _ | _, NaN => NaN
  | Fin a, Fin b =>
      if Reqb b 0
      then (if Reqb a 0 then NaN else infOfSign (Rltb 0 a))
      else Fin (a / b)
  | Fin _, PInf | Fin _, NInf => Fin 0
  | PInf, Fin b => infOfSign (Rleb 0 b)
  | NInf, Fin b => infOfSign (Rltb b 0)
  | PInf, PInf | PInf, NInf | NInf, PInf | NInf, NInf => NaN
  end.

(** [x < y]: false as soon as one side is NaN. *)
Definition lt (x y : num) : bool :=
  match x, y with
  | NaN, _ | _, NaN => false
  | Fin a, Fin b => Rltb a b
  | NInf, NInf => false
  | NInf, _ => true
  | PInf, _ => false
  | Fin _, PInf => true
  | Fin _, NInf => false
  end.

(** [x === y]: NaN is not equal to itself. *)
Definition strictEq (x y : num) : bool :=
  match x, y with
  | Fin a, Fin b => Reqb a b
  | PInf, PInf | NInf, NInf => true
  | _, _ => false
  end.

Definition gt (x y : num) : bool := lt y x.
Definition le (x y : num) : bool := lt x y || strictEq x y.
Definition ge (x y : num) : bool := le y x.
Definition strictNe (x y : num) : bool := negb (strictEq x y).

(** [Math.max(x, y)] and [Math.min(x, y)]: NaN if either argument is. *)
Definition max (x y : num) : num :=
  match x, y with
  | NaN, _ | _, NaN => NaN
  | _, _ => if lt x y then y else x
  end.

Definition min (x y : num) : num :=
  match x, y with
  | NaN, _ | _, NaN => NaN
  | _, _ => if lt y x then y else x
  end.

(** [Math.sin], [Math.cos]: NaN outside the finite numbers. *)
Definition sin (x : num) : num :=
  match x with Fin r => Fin (Rtrigo_def.sin r) | _ => NaN end.

Definition cos (x : num) : num :=
  match x with Fin r => Fin (Rtrigo_def.cos r) | _ => NaN end.

(** [Math.sqrt]: NaN on negative numbers. *)
Definition sqrt (x : num) : num :=
  match x with
  | Fin r => if Rltb r 0 then NaN else Fin (R_sqrt.sqrt r)
  | PInf => PInf
  | NInf | NaN => NaN
  end.

(** The two-argument arctangent on reals: the angle of the point [(x, y)],
    in [(-PI, PI]]. *)
Definition Ratan2 (y x : R) : R :=
  if Rltb 0 x then atan (y / x)
  else if Rltb x 0 then
    (if Rleb 0 y then atan (y / x) + PI else atan (y / x) - PI)
  else if Rltb 0 y then PI / 2
  else if Rltb y 0 then - (PI / 2)
  else 0.

(** [Math.atan2(y, x)]. *)
Definition atan2 (y x : num) : num :=
  match y, x with
  | NaN, _ | _, NaN => NaN
  | Fin a, Fin b => Fin (Ratan2 a b)
  | Fin a, PInf => Fin 0
  | Fin a, NInf => if Rleb 0 a then Fin PI else Fin (- PI)
  | PInf, Fin _ => Fin (PI / 2)
  | NInf, Fin _ => Fin (- (PI / 2))
  | PInf, PInf => Fin (PI / 4)
  | NInf, PInf => Fin (- (PI / 4))
  | PInf, NInf => Fin (3 * PI / 4)
  | NInf, NInf => Fin (- (3 * PI / 4))
  end.

Definition PI : num := Fin Rtrigo1.PI.

End JS.

Import JS.

Declare Scope js_scope.
Delimit Scope js_scope with js.
Bind Scope js_scope with num.
Notation "x + y" := (JS.add x y) : js_scope.
Notation "x - y" := (JS.sub x y) : js_scope.
Notation "x * y" := (JS.mul x y) : js_scope.
Notation "x / y" := (JS.div x y) : js_scope.
Notation "x <? y" := (JS.lt x y) (at level 70) : js_scope.
Notation "x <=? y" := (JS.le x y) (at level 70) : js_scope.
Notation "x >? y" := (JS.gt x y) (at level 70) : js_scope.
Notation "x >=? y" := (JS.ge x y) (at level 70) : js_scope.
Notation "x === y" := (JS.strictEq x y) (at level 70) : js_scope.
Notation "x !== y" := (JS.strictNe x y) (at level 70) : js_scope.

Coercion JS.Fin : R >-> JS.num.

Open Scope R_scope.

(** A score lies in the closed interval [[0, 100]]: it is a finite number
    between the two bounds. *)
Definition inRange0to100 (x : num) : Prop :=
  exists r : R, x = Fin r /\ 0 <= r <= 100.

(* ================================================================== *)
(** ** utils/timeUtils.ts *)
(* ================================================================== *)

(** [safeDivide(numerator, denominator, fallback = 0)]. *)
Definition safeDivide (numerator denominator fallback : num) : num :=
  if (denominator === Fin 0)%js || negb (isFinite denominator)
  then fallback
  else
    let result := (numerator / denominator)%js in
    if negb (isFinite result) then fallback else result.

(** The call with the default third argument. *)
Definition safeDivide0 (numerator denominator : num) : num :=
  safeDivide numerator denominator (Fin 0).

(** [clamp(value, min, max) = Math.min(Math.max(value, min), max)]. *)
Definition clamp (value lo hi : num) : num :=
  JS.min (JS.max value lo) hi.

(** [minutesToHours]. *)
Definition minutesToHours (minutes : num) : num := (minutes / Fin 60)%js.

(* ================================================================== *)
(** ** types/*.ts: the data model *)
(* ================================================================== *)

(** Each interface of the source is a record in a module of its name, so
    that the fields keep the names they have in the source. *)

Module GeoLocation.
Record t : Type := mk { lat : num; lng : num }.
End GeoLocation.

Module GPSTrackPoint.
Record t : Type := mk {
  latitude : num;
  longitude : num;
  speed : num;
  timestamp : string;
  ignitionOn : bool
}.
End GPSTrackPoint.

Module GPSTrackResponse.
Record t : Type := mk {
  vehicleId : string;
  startTime : string;
  endTime : string;
  points : list GPSTrackPoint.t
}.
End GPSTrackResponse.

Module IdleEvent.
Record t : Type := mk {
  startTime : string;
  endTime : string;
  durationMinutes : num;
  location : GeoLocation.t
}.
End IdleEvent.

Module BaseVehicleMetrics.
Record t : Type := mk {
  vehicleId : string;
  periodStart : string;
  periodEnd : string;
  totalDistanceKm : num;
  totalMovingTimeMinutes : num;
  totalIdleTimeMinutes : num;
  totalTimeMinutes : num;
  averageSpeedKmh : num;
  maxSpeedKmh : num;
  numberOfStops : num;
  longIdleEvents : list IdleEvent.t;
  totalPointsAnalyzed : num
}.
End BaseVehicleMetrics.

(** [DerivedVehicleMetrics extends BaseVehicleMetrics]: the base record
    and the five added fields. *)
Module DerivedVehicleMetrics.
Record t : Type := mk {
  base : BaseVehicleMetrics.t;
  idleRatio : num;
  aggressiveDrivingRatio : num;
  timeOverSpeedThresholdMinutes : num;
  efficiencyScore : num;
  riskScore : num
}.
Definition vehicleId (m : t) : string := BaseVehicleMetrics.vehicleId (base m).
End DerivedVehicleMetrics.

Module VehicleRanking.
Record t : Type := mk {
  vehicleId : string;
  vehicleName : string;
  score : num;
  rank : nat
}.
End VehicleRanking.

Module AnalyticsConfig.
Record t : Type := mk {
  idleSpeedThresholdKmh : num;
  speedingThresholdKmh : num;
  longIdleThresholdMinutes : num;
  expectedKmPerHour : num;
  stopPenaltyFactor : num;
  idleRiskFactor : num;
  varianceFactor : num
}.
End AnalyticsConfig.

Module EfficiencyWeights.
Record t : Type := mk {
  idleRatio : num;
  utilizationRate : num;
  distanceEfficiency : num;
  stopEfficiency : num
}.
End EfficiencyWeights.

Module RiskWeights.
Record t : Type := mk {
  speedingRatio : num;
  longIdleFrequency : num;
  maxSpeedSeverity : num;
  erraticPattern : num
}.
End RiskWeights.

Module FinancialConstants.
Record t : Type := mk {
  fuelCostPerLiter : num;
  idleConsumptionLitersPerHour : num;
  speedingInsuranceMultiplier : num;
  operationalCostPerKm : num;
  baseInsuranceCostPerVehicle : num;
  operatingDaysPerMonth : num;
  currencyCode : string
}.
End FinancialConstants.

(** [type VehicleState = 'moving' | 'idle' | 'off']. *)
Inductive VehicleState : Type := moving | idle | off.

Definition VehicleState_eqb (a b : VehicleState) : bool :=
  match a, b with
  | moving, moving | idle, idle | off, off => true
  | _, _ => false
  end.

(** [interface IdleEventTracker]. *)
Module IdleEventTracker.
Record t : Type := mk {
  isInIdleState : bool;
  idleStartTime : option string;
  idleStartLocation : option GeoLocation.t;
  accumulatedIdleMinutes : num;
  idlePoints : list GPSTrackPoint.t
}.
End IdleEventTracker.

(** [interface MetricsAccumulator]. *)
Module MetricsAccumulator.
Record t : Type := mk {
  totalDistanceKm : num;
  totalMovingTimeMinutes : num;
  totalIdleTimeMinutes : num;
  maxSpeedKmh : num;
  numberOfStops : num;
  speedSamples : list num;
  longIdleEvents : list IdleEvent.t
}.
End MetricsAccumulator.

(** The three variables the loop of [computeBaseMetrics] updates. *)
Module LoopState.
Record t : Type := mk {
  accumulator : MetricsAccumulator.t;
  idleTracker : IdleEventTracker.t;
  previousState : option VehicleState
}.
End LoopState.

(* ================================================================== *)
(** ** config/constants.ts *)
(* ================================================================== *)

Definition EARTH_RADIUS_KM : num := Fin 6371.
Definition DEG_TO_RAD : num := (JS.PI / Fin 180)%js.
Definition MONTHS_PER_YEAR : num := Fin 12.
Definition SPEED_EXCESS_REFERENCE_KMH : num := Fin 40.
Definition MINUTES_PER_DAY : num := Fin 1440.

Definition ANALYTICS_CONFIG : AnalyticsConfig.t :=
  {| AnalyticsConfig.idleSpeedThresholdKmh := Fin 2;
     AnalyticsConfig.speedingThresholdKmh := Fin 110;
     AnalyticsConfig.longIdleThresholdMinutes := Fin 10;
     AnalyticsConfig.expectedKmPerHour := Fin 35;
     AnalyticsConfig.stopPenaltyFactor := Fin 50;
     AnalyticsConfig.idleRiskFactor := Fin 15;
     AnalyticsConfig.varianceFactor := Fin 2 |}.

Definition FINANCIAL_DEFAULTS : FinancialConstants.t :=
  {| FinancialConstants.fuelCostPerLiter := Fin (185 / 100);
     FinancialConstants.idleConsumptionLitersPerHour := Fin (25 / 10);
     FinancialConstants.speedingInsuranceMultiplier := Fin (115 / 100);
     FinancialConstants.operationalCostPerKm := Fin (12 / 100);
     FinancialConstants.baseInsuranceCostPerVehicle := Fin 2400;
     FinancialConstants.operatingDaysPerMonth := Fin 22;
     FinancialConstants.currencyCode := "USD" |}.

(* ================================================================== *)
(** ** utils/geoCalculations.ts *)
(* ================================================================== *)

Definition degreesToRadians (degrees : num) : num := (degrees * DEG_TO_RAD)%js.

(** [haversineDistance(lat1, lon1, lat2, lon2)]. *)
Definition haversineDistance (lat1 lon1 lat2 lon2 : num) : num :=
  if (lat1 === lat2)%js && (lon1 === lon2)%js then Fin 0
  else
    let dLat := degreesToRadians (lat2 - lat1)%js in
    let dLon := degreesToRadians (lon2 - lon1)%js in
    let lat1Rad := degreesToRadians lat1 in
    let lat2Rad := degreesToRadians lat2 in
    let a :=
      (JS.sin (dLat / Fin 2) * JS.sin (dLat / Fin 2) +
       JS.cos lat1Rad * JS.cos lat2Rad *
       JS.sin (dLon / Fin 2) * JS.sin (dLon / Fin 2))%js in
    let c := (Fin 2 * JS.atan2 (JS.sqrt a) (JS.sqrt (Fin 1 - a)))%js in
    (EARTH_RADIUS_KM * c)%js.

(** One turn of the loop of [calculateCentroid]: the three running sums. *)
Definition centroidStep (xyz : num * num * num) (point : GPSTrackPoint.t)
  : num * num * num :=
  let '(x, y, z) := xyz in
  let latRad := degreesToRadians (GPSTrackPoint.latitude point) in
  let lonRad := degreesToRadians (GPSTrackPoint.longitude point) in
  ((x + JS.cos latRad * JS.cos lonRad)%js,
   (y + JS.cos latRad * JS.sin lonRad)%js,
   (z + JS.sin latRad)%js).

(** [calculateCentroid(points)]: [None] is the source's [null]. *)
Definition calculateCentroid (points : list GPSTrackPoint.t)
  : option GeoLocation.t :=
  match points with
  | [] => None
  | [firstPoint] =>
      Some {| GeoLocation.lat := GPSTrackPoint.latitude firstPoint;
              GeoLocation.lng := GPSTrackPoint.longitude firstPoint |}
  | _ =>
      let '(x, y, z) := fold_left centroidStep points (Fin 0, Fin 0, Fin 0) in
      let count := ofNat (List.length points) in
      let x := (x / count)%js in
      let y := (y / count)%js in
      let z := (z / count)%js in
      let centralLon := JS.atan2 y x in
      let centralSquareRoot := JS.sqrt (x * x + y * y)%js in
      let centralLat := JS.atan2 z centralSquareRoot in
      Some {| GeoLocation.lat := (centralLat * (Fin 180 / JS.PI))%js;
              GeoLocation.lng := (centralLon * (Fin 180 / JS.PI))%js |}
  end.

(* ================================================================== *)
(** ** Timestamps, durations and the base metrics engine *)
(* ================================================================== *)

Section BaseMetrics.

(** The host's date parser, [new Date(s).getTime()]: the instant in
    milliseconds since the epoch, or [None] where it answers NaN
    (Invalid Date). *)
Variable Date_getTime : string -> option Z.

(** [parseTimestamp(timestamp)]: [null] on the empty string and on an
    invalid date; the result is kept as its [getTime()]. *)
Definition parseTimestamp (timestamp : string) : option Z :=
  if String.eqb timestamp "" then None else Date_getTime timestamp.

(** [getDurationMinutes(startTime, endTime)]. *)
Definition getDurationMinutes (startTime endTime : string) : num :=
  match parseTimestamp startTime, parseTimestamp endTime with
  | Some start, Some end_ =>
      let durationMs := (ofZ end_ - ofZ start)%js in
      if (durationMs <? Fin 0)%js then Fin 0
      else (durationMs / (Fin 1000 * Fin 60))%js
  | _, _ => Fin 0
  end.

(** [getPointDurationMinutes(point1, point2)]. *)
Definition getPointDurationMinutes (point1 point2 : GPSTrackPoint.t) : num :=
  getDurationMinutes (GPSTrackPoint.timestamp point1)
                     (GPSTrackPoint.timestamp point2).

(** *** analytics/baseMetrics.ts *)

(** [classifyPointState(point, config)]. *)
Definition classifyPointState (point : GPSTrackPoint.t)
  (config : AnalyticsConfig.t) : VehicleState :=
  if negb (GPSTrackPoint.ignitionOn point) then off
  else if (GPSTrackPoint.speed point <?
           AnalyticsConfig.idleSpeedThresholdKmh config)%js then idle
  else moving.

(** [isStopTransition(previousState, currentState)]. *)
Definition isStopTransition (previousState currentState : VehicleState) : bool :=
  VehicleState_eqb previousState moving &&
  (VehicleState_eqb currentState idle || VehicleState_eqb currentState off).

(** [createIdleTracker()]. *)
Definition createIdleTracker : IdleEventTracker.t :=
  {| IdleEventTracker.isInIdleState := false;
     IdleEventTracker.idleStartTime := None;
     IdleEventTracker.idleStartLocation := None;
     IdleEventTracker.accumulatedIdleMinutes := Fin 0;
     IdleEventTracker.idlePoints := [] |}.

(** [enterIdleState(tracker, point)]: every field of the tracker is
    overwritten. *)
Definition enterIdleState (tracker : IdleEventTracker.t)
  (point : GPSTrackPoint.t) : IdleEventTracker.t :=
  {| IdleEventTracker.isInIdleState := true;
     IdleEventTracker.idleStartTime := Some (GPSTrackPoint.timestamp point);
     IdleEventTracker.idleStartLocation :=
       Some {| GeoLocation.lat := GPSTrackPoint.latitude point;
               GeoLocation.lng := GPSTrackPoint.longitude point |};
     IdleEventTracker.accumulatedIdleMinutes := Fin 0;
     IdleEventTracker.idlePoints := [point] |}.

(** [accumulateIdleTime(tracker, point, durationMinutes)]. *)
Definition accumulateIdleTime (tracker : IdleEventTracker.t)
  (point : GPSTrackPoint.t) (durationMinutes : num) : IdleEventTracker.t :=
  {| IdleEventTracker.isInIdleState := IdleEventTracker.isInIdleState tracker;
     IdleEventTracker.idleStartTime := IdleEventTracker.idleStartTime tracker;
     IdleEventTracker.idleStartLocation :=
       IdleEventTracker.idleStartLocation tracker;
     IdleEventTracker.accumulatedIdleMinutes :=
       (IdleEventTracker.accumulatedIdleMinutes tracker + durationMinutes)%js;
     IdleEventTracker.idlePoints :=
       IdleEventTracker.idlePoints tracker ++ [point] |}.

(** The location of a finished idle event,
    [centroid ?? tracker.idleStartLocation ?? { lat: 0, lng: 0 }]. *)
Definition idleEventLocation (tracker : IdleEventTracker.t) : GeoLocation.t :=
  match calculateCentroid (IdleEventTracker.idlePoints tracker) with
  | Some centroid => centroid
  | None =>
      match IdleEventTracker.idleStartLocation tracker with
      | Some startLocation => startLocation
      | None => {| GeoLocation.lat := Fin 0; GeoLocation.lng := Fin 0 |}
      end
  end.

(** [exitIdleState(tracker, endTime, longIdleThresholdMinutes)]: the reset
    tracker and the event, if the run qualifies as long. *)
Definition exitIdleState (tracker : IdleEventTracker.t) (endTime : string)
  (longIdleThresholdMinutes : num)
  : IdleEventTracker.t * option IdleEvent.t :=
  let event :=
    if (IdleEventTracker.accumulatedIdleMinutes tracker >=?
        longIdleThresholdMinutes)%js
    then
      match IdleEventTracker.idleStartTime tracker with
      | Some idleStartTime =>
          Some {| IdleEvent.startTime := idleStartTime;
                  IdleEvent.endTime := endTime;
                  IdleEvent.durationMinutes :=
                    IdleEventTracker.accumulatedIdleMinutes tracker;
                  IdleEvent.location := idleEventLocation tracker |}
      | None => None
      end
    else None in
  (createIdleTracker, event).

(** [calculateSegmentDistance(prevPoint, currPoint, prevState)]. *)
Definition calculateSegmentDistance (prevPoint currPoint : GPSTrackPoint.t)
  (prevState : VehicleState) : num :=
  if negb (VehicleState_eqb prevState moving) then Fin 0
  else haversineDistance
         (GPSTrackPoint.latitude prevPoint) (GPSTrackPoint.longitude prevPoint)
         (GPSTrackPoint.latitude currPoint) (GPSTrackPoint.longitude currPoint).

(** [createEmptyMetrics(vehicleId, periodStart, periodEnd, totalTimeMinutes)]. *)
Definition createEmptyMetrics (vehicleId periodStart periodEnd : string)
  (totalTimeMinutes : num) : BaseVehicleMetrics.t :=
  {| BaseVehicleMetrics.vehicleId := vehicleId;
     BaseVehicleMetrics.periodStart := periodStart;
     BaseVehicleMetrics.periodEnd := periodEnd;
     BaseVehicleMetrics.totalDistanceKm := Fin 0;
     BaseVehicleMetrics.totalMovingTimeMinutes := Fin 0;
     BaseVehicleMetrics.totalIdleTimeMinutes := Fin 0;
     BaseVehicleMetrics.totalTimeMinutes := totalTimeMinutes;
     BaseVehicleMetrics.averageSpeedKmh := Fin 0;
     BaseVehicleMetrics.maxSpeedKmh := Fin 0;
     BaseVehicleMetrics.numberOfStops := Fin 0;
     BaseVehicleMetrics.longIdleEvents := [];
     BaseVehicleMetrics.totalPointsAnalyzed := Fin 0 |}.

(** The object spreads [{ ...accumulator, field: value }] of the loop, one
    per group of fields the source replaces together. *)
Definition withMaxSpeed (a : MetricsAccumulator.t) (v : num)
  : MetricsAccumulator.t :=
  {| MetricsAccumulator.totalDistanceKm := MetricsAccumulator.totalDistanceKm a;
     MetricsAccumulator.totalMovingTimeMinutes :=
       MetricsAccumulator.totalMovingTimeMinutes a;
     MetricsAccumulator.totalIdleTimeMinutes :=
       MetricsAccumulator.totalIdleTimeMinutes a;
     MetricsAccumulator.maxSpeedKmh := v;
     MetricsAccumulator.numberOfStops := MetricsAccumulator.numberOfStops a;
     MetricsAccumulator.speedSamples := MetricsAccumulator.speedSamples a;
     MetricsAccumulator.longIdleEvents := MetricsAccumulator.longIdleEvents a |}.

Definition withSpeedSamples (a : MetricsAccumulator.t) (v : list num)
  : MetricsAccumulator.t :=
  {| MetricsAccumulator.totalDistanceKm := MetricsAccumulator.totalDistanceKm a;
     MetricsAccumulator.totalMovingTimeMinutes :=
       MetricsAccumulator.totalMovingTimeMinutes a;
     MetricsAccumulator.totalIdleTimeMinutes :=
       MetricsAccumulator.totalIdleTimeMinutes a;
     MetricsAccumulator.maxSpeedKmh := MetricsAccumulator.maxSpeedKmh a;
     MetricsAccumulator.numberOfStops := MetricsAccumulator.numberOfStops a;
     MetricsAccumulator.speedSamples := v;
     MetricsAccumulator.longIdleEvents := MetricsAccumulator.longIdleEvents a |}.

Definition withMovingSegment (a : MetricsAccumulator.t) (distance time : num)
  : MetricsAccumulator.t :=
  {| MetricsAccumulator.totalDistanceKm := distance;
     MetricsAccumulator.totalMovingTimeMinutes := time;
     MetricsAccumulator.totalIdleTimeMinutes :=
       MetricsAccumulator.totalIdleTimeMinutes a;
     MetricsAccumulator.maxSpeedKmh := MetricsAccumulator.maxSpeedKmh a;
     MetricsAccumulator.numberOfStops := MetricsAccumulator.numberOfStops a;
     MetricsAccumulator.speedSamples := MetricsAccumulator.speedSamples a;
     MetricsAccumulator.longIdleEvents := MetricsAccumulator.longIdleEvents a |}.

Definition withIdleTime (a : MetricsAccumulator.t) (v : num)
  : MetricsAccumulator.t :=
  {| MetricsAccumulator.totalDistanceKm := MetricsAccumulator.totalDistanceKm a;
     MetricsAccumulator.totalMovingTimeMinutes :=
       MetricsAccumulator.totalMovingTimeMinutes a;
     MetricsAccumulator.totalIdleTimeMinutes := v;
     MetricsAccumulator.maxSpeedKmh := MetricsAccumulator.maxSpeedKmh a;
     MetricsAccumulator.numberOfStops := MetricsAccumulator.numberOfStops a;
     MetricsAccumulator.speedSamples := MetricsAccumulator.speedSamples a;
     MetricsAccumulator.longIdleEvents := MetricsAccumulator.longIdleEvents a |}.

Definition withStops (a : MetricsAccumulator.t) (v : num)
  : MetricsAccumulator.t :=
  {| MetricsAccumulator.totalDistanceKm := MetricsAccumulator.totalDistanceKm a;
     MetricsAccumulator.totalMovingTimeMinutes :=
       MetricsAccumulator.totalMovingTimeMinutes a;
     MetricsAccumulator.totalIdleTimeMinutes :=
       MetricsAccumulator.totalIdleTimeMinutes a;
     MetricsAccumulator.maxSpeedKmh := MetricsAccumulator.maxSpeedKmh a;
     MetricsAccumulator.numberOfStops := v;
     MetricsAccumulator.speedSamples := MetricsAccumulator.speedSamples a;
     MetricsAccumulator.longIdleEvents := MetricsAccumulator.longIdleEvents a |}.

Definition withEvents (a : MetricsAccumulator.t) (v : list IdleEvent.t)
  : MetricsAccumulator.t :=
  {| MetricsAccumulator.totalDistanceKm := MetricsAccumulator.totalDistanceKm a;
     MetricsAccumulator.totalMovingTimeMinutes :=
       MetricsAccumulator.totalMovingTimeMinutes a;
     MetricsAccumulator.totalIdleTimeMinutes :=
       MetricsAccumulator.totalIdleTimeMinutes a;
     MetricsAccumulator.maxSpeedKmh := MetricsAccumulator.maxSpeedKmh a;
     MetricsAccumulator.numberOfStops := MetricsAccumulator.numberOfStops a;
     MetricsAccumulator.speedSamples := MetricsAccumulator.speedSamples a;
     MetricsAccumulator.longIdleEvents := v |}.

(** [if (result.event) accumulator = { ...accumulator, longIdleEvents:
    [...accumulator.longIdleEvents, result.event] }]. *)
Definition pushEvent (a : MetricsAccumulator.t) (event : option IdleEvent.t)
  : MetricsAccumulator.t :=
  match event with
  | Some e => withEvents a (MetricsAccumulator.longIdleEvents a ++ [e])
  | None => a
  end.

(** The accumulator, tracker and [previousState] before the loop. *)
Definition initialLoopState : LoopState.t :=
  {| LoopState.accumulator :=
       {| MetricsAccumulator.totalDistanceKm := Fin 0;
          MetricsAccumulator.totalMovingTimeMinutes := Fin 0;
          MetricsAccumulator.totalIdleTimeMinutes := Fin 0;
          MetricsAccumulator.maxSpeedKmh := Fin 0;
          MetricsAccumulator.numberOfStops := Fin 0;
          MetricsAccumulator.speedSamples := [];
          MetricsAccumulator.longIdleEvents := [] |};
     LoopState.idleTracker := createIdleTracker;
     LoopState.previousState := None |}.

(** The segment step of the loop body: the time from [prevPoint] to
    [currentPoint] goes to the state of [prevPoint], and a stop is counted
    on a stop transition. *)
Definition processSegment (prevPoint currentPoint : GPSTrackPoint.t)
  (previousState currentState : VehicleState)
  (accumulator : MetricsAccumulator.t) (idleTracker : IdleEventTracker.t)
  : MetricsAccumulator.t * IdleEventTracker.t :=
  let segmentDuration := getPointDurationMinutes prevPoint currentPoint in
  let '(accumulator, idleTracker) :=
    match previousState with
    | moving =>
        let segmentDistance :=
          calculateSegmentDistance prevPoint currentPoint previousState in
        (withMovingSegment accumulator
           (MetricsAccumulator.totalDistanceKm accumulator + segmentDistance)%js
           (MetricsAccumulator.totalMovingTimeMinutes accumulator
            + segmentDuration)%js,
         idleTracker)
    | idle =>
        (withIdleTime accumulator
           (MetricsAccumulator.totalIdleTimeMinutes accumulator
            + segmentDuration)%js,
         accumulateIdleTime idleTracker currentPoint segmentDuration)
    | off => (accumulator, idleTracker)
    end in
  let accumulator :=
    if isStopTransition previousState currentState
    then withStops accumulator
           (MetricsAccumulator.numberOfStops accumulator + Fin 1)%js
    else accumulator in
  (accumulator, idleTracker).

(** The idle-transition step of the loop body. *)
Definition processIdleTransition (currentPoint : GPSTrackPoint.t)
  (config : AnalyticsConfig.t)
  (previousState : option VehicleState) (currentState : VehicleState)
  (accumulator : MetricsAccumulator.t) (idleTracker : IdleEventTracker.t)
  : MetricsAccumulator.t * IdleEventTracker.t :=
  let previousIsIdle :=
    match previousState with Some idle => true | _ => false end in
  if VehicleState_eqb currentState idle && negb previousIsIdle then
    (accumulator, enterIdleState idleTracker currentPoint)
  else if negb (VehicleState_eqb currentState idle) && previousIsIdle then
    let result :=
      exitIdleState idleTracker (GPSTrackPoint.timestamp currentPoint)
        (AnalyticsConfig.longIdleThresholdMinutes config) in
    (pushEvent accumulator (snd result), fst result)
  else (accumulator, idleTracker).

(** What one turn of the loop does with the current point, given the point
    before it ([None] when [i = 0] or the slot is missing). *)
Definition processPoint (config : AnalyticsConfig.t)
  (prevPoint : option GPSTrackPoint.t) (currentPoint : GPSTrackPoint.t)
  (s : LoopState.t) : LoopState.t :=
  let accumulator := LoopState.accumulator s in
  let idleTracker := LoopState.idleTracker s in
  let previousState := LoopState.previousState s in
  let currentState := classifyPointState currentPoint config in
  let accumulator :=
    if GPSTrackPoint.ignitionOn currentPoint &&
       (GPSTrackPoint.speed currentPoint >?
        MetricsAccumulator.maxSpeedKmh accumulator)%js
    then withMaxSpeed accumulator (GPSTrackPoint.speed currentPoint)
    else accumulator in
  let accumulator :=
    if VehicleState_eqb currentState moving
    then withSpeedSamples accumulator
           (MetricsAccumulator.speedSamples accumulator
            ++ [GPSTrackPoint.speed currentPoint])
    else accumulator in
  let '(accumulator, idleTracker) :=
    match prevPoint, previousState with
    | Some prevPoint, Some previousState =>
        processSegment prevPoint currentPoint previousState currentState
          accumulator idleTracker
    | _, _ => (accumulator, idleTracker)
    end in
  let '(accumulator, idleTracker) :=
    processIdleTransition currentPoint config previousState currentState
      accumulator idleTracker in
  {| LoopState.accumulator := accumulator;
     LoopState.idleTracker := idleTracker;
     LoopState.previousState := Some currentState |}.

(** The body of [for (let i = 0; i < points.length; i++)]: a missing slot
    is skipped ([continue]); the segment is processed when [i > 0]. *)
Definition loopIteration (points : list GPSTrackPoint.t)
  (config : AnalyticsConfig.t) (s : LoopState.t) (i : nat) : LoopState.t :=
  match nth_error points i with
  | None => s
  | Some currentPoint =>
      processPoint config
        (if (0 <? i)%nat then nth_error points (i - 1) else None)
        currentPoint s
  end.

(** The post-loop step: a run still open when the track ends is finished
    with the last point's timestamp. *)
Definition finalizeOpenIdle (points : list GPSTrackPoint.t)
  (config : AnalyticsConfig.t) (s : LoopState.t) : MetricsAccumulator.t :=
  let accumulator := LoopState.accumulator s in
  if IdleEventTracker.isInIdleState (LoopState.idleTracker s) then
    match nth_error points (List.length points - 1) with
    | Some lastPoint =>
        let result :=
          exitIdleState (LoopState.idleTracker s)
            (GPSTrackPoint.timestamp lastPoint)
            (AnalyticsConfig.longIdleThresholdMinutes config) in
        pushEvent accumulator (snd result)
    | None => accumulator
    end
  else accumulator.

(** [computeBaseMetrics(track, config)]. *)
Definition computeBaseMetrics (track : GPSTrackResponse.t)
  (config : AnalyticsConfig.t) : BaseVehicleMetrics.t :=
  let vehicleId := GPSTrackResponse.vehicleId track in
  let startTime := GPSTrackResponse.startTime track in
  let endTime := GPSTrackResponse.endTime track in
  let points := GPSTrackResponse.points track in
  let totalTimeMinutes := getDurationMinutes startTime endTime in
  match points with
  | [] => createEmptyMetrics vehicleId startTime endTime totalTimeMinutes
  | [singlePoint] =>
      {| BaseVehicleMetrics.vehicleId := vehicleId;
         BaseVehicleMetrics.periodStart := startTime;
         BaseVehicleMetrics.periodEnd := endTime;
         BaseVehicleMetrics.totalDistanceKm := Fin 0;
         BaseVehicleMetrics.totalMovingTimeMinutes := Fin 0;
         BaseVehicleMetrics.totalIdleTimeMinutes := Fin 0;
         BaseVehicleMetrics.totalTimeMinutes := totalTimeMinutes;
         BaseVehicleMetrics.averageSpeedKmh := Fin 0;
         BaseVehicleMetrics.maxSpeedKmh :=
           if GPSTrackPoint.ignitionOn singlePoint
           then GPSTrackPoint.speed singlePoint else Fin 0;
         BaseVehicleMetrics.numberOfStops := Fin 0;
         BaseVehicleMetrics.longIdleEvents := [];
         BaseVehicleMetrics.totalPointsAnalyzed := Fin 1 |}
  | _ =>
      let s :=
        fold_left (loopIteration points config)
          (seq 0 (List.length points)) initialLoopState in
      let accumulator := finalizeOpenIdle points config s in
      let averageSpeedKmh :=
        safeDivide0 (MetricsAccumulator.totalDistanceKm accumulator)
          (MetricsAccumulator.totalMovingTimeMinutes accumulator / Fin 60)%js in
      {| BaseVehicleMetrics.vehicleId := vehicleId;
         BaseVehicleMetrics.periodStart := startTime;
         BaseVehicleMetrics.periodEnd := endTime;
         BaseVehicleMetrics.totalDistanceKm :=
           MetricsAccumulator.totalDistanceKm accumulator;
         BaseVehicleMetrics.totalMovingTimeMinutes :=
           MetricsAccumulator.totalMovingTimeMinutes accumulator;
         BaseVehicleMetrics.totalIdleTimeMinutes :=
           MetricsAccumulator.totalIdleTimeMinutes accumulator;
         BaseVehicleMetrics.totalTimeMinutes := totalTimeMinutes;
         BaseVehicleMetrics.averageSpeedKmh := averageSpeedKmh;
         BaseVehicleMetrics.maxSpeedKmh :=
           MetricsAccumulator.maxSpeedKmh accumulator;
         BaseVehicleMetrics.numberOfStops :=
           MetricsAccumulator.numberOfStops accumulator;
         BaseVehicleMetrics.longIdleEvents :=
           MetricsAccumulator.longIdleEvents accumulator;
         BaseVehicleMetrics.totalPointsAnalyzed :=
           ofNat (List.length points) |}
  end.

(** *** The loop, read point by point

    [walkPoints] is the loop with the index replaced by the list it walks:
    it hands [processPoint] the point before the current one.  The
    theorems go through it ([loop_is_walk] below relates the two). *)
Fixpoint walkPoints (config : AnalyticsConfig.t)
  (prevPoint : option GPSTrackPoint.t) (rest : list GPSTrackPoint.t)
  (s : LoopState.t) : LoopState.t :=
  match rest with
  | [] => s
  | currentPoint :: rest' =>
      walkPoints config (Some currentPoint) rest'
        (processPoint config prevPoint currentPoint s)
  end.

Definition lastPoint (points : list GPSTrackPoint.t) : option GPSTrackPoint.t :=
  match rev points with [] => None | p :: _ => Some p end.

(** The state of the point before the current one is the loop's
    [previousState]. *)
Definition tracksState (config : AnalyticsConfig.t)
  (prev : option GPSTrackPoint.t) (s : LoopState.t) : Prop :=
  LoopState.previousState s
  = option_map (fun p => classifyPointState p config) prev.

(** *** The words of the specification

    The definitions below follow the specification's sentences, not the
    code: they are what the loop is compared with. *)

(** The inter-point segments [(points[i-1], points[i])], in order; the
    first one starts at [prev] when there is one. *)
Fixpoint segmentsFrom (prev : option GPSTrackPoint.t)
  (rest : list GPSTrackPoint.t) : list (GPSTrackPoint.t * GPSTrackPoint.t) :=
  match rest with
  | [] => []
  | current :: rest' =>
      match prev with
      | Some p => (p, current) :: segmentsFrom (Some current) rest'
      | None => segmentsFrom (Some current) rest'
      end
  end.

Definition segments (points : list GPSTrackPoint.t)
  : list (GPSTrackPoint.t * GPSTrackPoint.t) :=
  segmentsFrom None points.

(** A running sum in source order, starting from zero. *)
Definition sumNum (l : list num) : num := fold_left JS.add l (Fin 0).

Definition segmentMinutes (seg : GPSTrackPoint.t * GPSTrackPoint.t) : num :=
  getPointDurationMinutes (fst seg) (snd seg).

(** The great-circle length of a segment, in kilometres. *)
Definition segmentKm (seg : GPSTrackPoint.t * GPSTrackPoint.t) : num :=
  haversineDistance
    (GPSTrackPoint.latitude (fst seg)) (GPSTrackPoint.longitude (fst seg))
    (GPSTrackPoint.latitude (snd seg)) (GPSTrackPoint.longitude (snd seg)).

(** The segments whose earlier point is in state [st]. *)
Definition segmentsInState (config : AnalyticsConfig.t) (st : VehicleState)
  (segs : list (GPSTrackPoint.t * GPSTrackPoint.t))
  : list (GPSTrackPoint.t * GPSTrackPoint.t) :=
  filter (fun seg => VehicleState_eqb (classifyPointState (fst seg) config) st)
         segs.

(** The time the engine drops: the duration of the segments that start in
    state [off]. *)
Definition droppedOffTime (config : AnalyticsConfig.t)
  (points : list GPSTrackPoint.t) : num :=
  sumNum (map segmentMinutes (segmentsInState config off (segments points))).

(** The track is chronologically ordered with parseable timestamps:
    [times] are the instants of its points, and they do not decrease. *)
Definition chronological (points : list GPSTrackPoint.t) (times : list Z) : Prop :=
  map (fun p => parseTimestamp (GPSTrackPoint.timestamp p)) points
    = map Some times
  /\ Sorted Z.le times.

(** The lengths, in milliseconds, of the segments between consecutive
    instants. *)
Fixpoint gapsFrom (t : Z) (times : list Z) : list Z :=
  match times with
  | [] => []
  | t' :: rest => (t' - t)%Z :: gapsFrom t' rest
  end.

Definition gaps (times : list Z) : list Z :=
  match times with
  | [] => []
  | first :: rest => gapsFrom first rest
  end.

(** A stop: the earlier point is moving and the later one idle or off. *)
Definition isStopPair (config : AnalyticsConfig.t)
  (seg : GPSTrackPoint.t * GPSTrackPoint.t) : bool :=
  match classifyPointState (fst seg) config,
        classifyPointState (snd seg) config with
  | moving, idle | moving, off => true
  | _, _ => false
  end.

Definition countStops (config : AnalyticsConfig.t)
  (points : list GPSTrackPoint.t) : nat :=
  List.length (filter (isStopPair config) (segments points)).

(** A maximal contiguous idle run: its points, all idle, and the point
    that ends it ([None] when the track ends inside the run). *)
Record IdleRun : Type := mkIdleRun {
  runPoints : list GPSTrackPoint.t;
  runNext : option GPSTrackPoint.t
}.

Definition isIdlePoint (config : AnalyticsConfig.t) (p : GPSTrackPoint.t) : bool :=
  VehicleState_eqb (classifyPointState p config) idle.

(** The runs of a track, left to right: idle points extend the run in
    progress ([current]); any other point closes it. *)
Fixpoint collectRuns (config : AnalyticsConfig.t)
  (current : list GPSTrackPoint.t) (points : list GPSTrackPoint.t)
  : list IdleRun :=
  match points with
  | [] =>
      match current with
      | [] => []
      | _ => [mkIdleRun current None]
      end
  | p :: rest =>
      if isIdlePoint config p then collectRuns config (current ++ [p]) rest
      else
        match current with
        | [] => collectRuns config [] rest
        | _ => mkIdleRun current (Some p) :: collectRuns config [] rest
        end
  end.

Definition idleRuns (config : AnalyticsConfig.t)
  (points : list GPSTrackPoint.t) : list IdleRun :=
  collectRuns config [] points.

(** The points sampled for the run's location: the run and the point that
    ends it. *)
Definition runSamples (r : IdleRun) : list GPSTrackPoint.t :=
  runPoints r ++ match runNext r with Some q => [q] | None => [] end.

(** The run's accumulated idle minutes: the sum of the durations of the
    segments that start at a point of the run. *)
Definition runMinutes (r : IdleRun) : num :=
  sumNum (map segmentMinutes (segments (runSamples r))).

Definition runStartTime (r : IdleRun) : option string :=
  option_map GPSTrackPoint.timestamp (hd_error (runPoints r)).

(** The run's end: the timestamp of the point that ends it, or of the
    last point of the track. *)
Definition runEndTime (r : IdleRun) : option string :=
  option_map GPSTrackPoint.timestamp (lastPoint (runSamples r)).

Definition isLongRun (config : AnalyticsConfig.t) (r : IdleRun) : bool :=
  (runMinutes r >=? AnalyticsConfig.longIdleThresholdMinutes config)%js.

(** A run and the event emitted for it agree on start, end and duration. *)
Definition eventOfRun (r : IdleRun) (e : IdleEvent.t) : Prop :=
  runStartTime r = Some (IdleEvent.startTime e) /\
  runEndTime r = Some (IdleEvent.endTime e) /\
  IdleEvent.durationMinutes e = runMinutes r.

(** The event's location is the centroid [calculateCentroid] returns for
    the run's samples. *)
Definition locatedAtCentroid (r : IdleRun) (e : IdleEvent.t) : Prop :=
  runSamples r <> [] /\
  calculateCentroid (runSamples r) = Some (IdleEvent.location e).

(** The tracker the loop holds while the run [current] is open. *)
Definition openTracker (current : list GPSTrackPoint.t) : IdleEventTracker.t :=
  {| IdleEventTracker.isInIdleState := true;
     IdleEventTracker.idleStartTime :=
       option_map GPSTrackPoint.timestamp (hd_error current);
     IdleEventTracker.idleStartLocation :=
       option_map
         (fun p => {| GeoLocation.lat := GPSTrackPoint.latitude p;
                      GeoLocation.lng := GPSTrackPoint.longitude p |})
         (hd_error current);
     IdleEventTracker.accumulatedIdleMinutes :=
       sumNum (map segmentMinutes (segments current));
     IdleEventTracker.idlePoints := current |}.

(** The event [exitIdleState] gives when it closes the run [r]. *)
Definition closeRun (config : AnalyticsConfig.t) (r : IdleRun)
  : option IdleEvent.t :=
  match runEndTime r with
  | Some endTime =>
      snd (exitIdleState
             (openTracker (runSamples r))
             endTime (AnalyticsConfig.longIdleThresholdMinutes config))
  | None => None
  end.


(** The events of a list of runs, in order: one for each run that
    [exitIdleState] finds long. *)
Definition emittedEvents (config : AnalyticsConfig.t) (runs : list IdleRun)
  : list IdleEvent.t :=
  flat_map
    (fun r => match closeRun config r with Some e => [e] | None => [] end)
    runs.

(** The loop state while the walk has [current] as its open run, [prev]
    being the point before the current one: outside a run the tracker is
    the reset one; inside, it is the tracker of the run so far. *)
Definition runInProgress (config : AnalyticsConfig.t)
  (prev : option GPSTrackPoint.t) (current : list GPSTrackPoint.t)
  (s : LoopState.t) : Prop :=
  match current with
  | [] =>
      LoopState.idleTracker s = createIdleTracker /\
      tracksState config prev s /\
      LoopState.previousState s <> Some idle
  | h :: t =>
      LoopState.idleTracker s = openTracker current /\
      LoopState.previousState s = Some idle /\
      prev = Some (last t h)
  end.


(** [x >= 0], as the language evaluates it. *)
Definition nonNegative (x : num) : Prop := (x >=? Fin 0)%js = true.

(** A point whose coordinates are finite numbers. *)
Definition finiteCoordinates (p : GPSTrackPoint.t) : Prop :=
  isFinite (GPSTrackPoint.latitude p) = true /\
  isFinite (GPSTrackPoint.longitude p) = true.

(** The minutes of a list of idle events, summed. *)
Definition eventMinutes (events : list IdleEvent.t) : num :=
  sumNum (map IdleEvent.durationMinutes events).

(** The accumulator and the tracker hold finite, non-negative totals, and
    the minutes of the events emitted so far, with those of the open run,
    stay within the idle time. *)
Definition soundTotals (a : MetricsAccumulator.t) (tr : IdleEventTracker.t)
  : Prop :=
  exists d m i e x : R,
    MetricsAccumulator.totalDistanceKm a = Fin d /\
    MetricsAccumulator.totalMovingTimeMinutes a = Fin m /\
    MetricsAccumulator.totalIdleTimeMinutes a = Fin i /\
    eventMinutes (MetricsAccumulator.longIdleEvents a) = Fin e /\
    IdleEventTracker.accumulatedIdleMinutes tr = Fin x /\
    0 <= d /\ 0 <= m /\ 0 <= i /\ 0 <= e /\ 0 <= x /\ e + x <= i /\
    nonNegative (MetricsAccumulator.maxSpeedKmh a) /\
    nonNegative (MetricsAccumulator.numberOfStops a).

End BaseMetrics.

(* ================================================================== *)
(** ** The location of an idle event, in the specification's words *)
(* ================================================================== *)

(** The specification's location of an idle event: the "spherical
    centroid of sampled points", computed by "3D unit-vector averaging".
    Each sample is taken to the unit vector of its latitude and
    longitude, the vectors are averaged coordinate by coordinate, and the
    mean vector is taken back to a latitude and a longitude in degrees. *)
Definition unitVector (p : GPSTrackPoint.t) : num * num * num :=
  let latRad := degreesToRadians (GPSTrackPoint.latitude p) in
  let lonRad := degreesToRadians (GPSTrackPoint.longitude p) in
  ((JS.cos latRad * JS.cos lonRad)%js,
   (JS.cos latRad * JS.sin lonRad)%js,
   JS.sin latRad).

Definition meanOf (coordinate : num * num * num -> num)
  (vectors : list (num * num * num)) : num :=
  (sumNum (map coordinate vectors) / ofNat (List.length vectors))%js.

Definition radiansToDegrees (radians : num) : num :=
  (radians * (Fin 180 / JS.PI))%js.

Definition sphericalCentroid (points : list GPSTrackPoint.t) : GeoLocation.t :=
  let vectors := map unitVector points in
  let x := meanOf (fun v => fst (fst v)) vectors in
  let y := meanOf (fun v => snd (fst v)) vectors in
  let z := meanOf snd vectors in
  {| GeoLocation.lat :=
       radiansToDegrees (JS.atan2 z (JS.sqrt (x * x + y * y)%js));
     GeoLocation.lng := radiansToDegrees (JS.atan2 y x) |}.

(** The event is located at the spherical centroid of the run's samples;
    the centroid of a single sample is the sample. *)
Definition locatedAtSphericalCentroid (r : IdleRun) (e : IdleEvent.t) : Prop :=
  match runSamples r with
  | [] => False
  | [p] =>
      IdleEvent.location e
      = {| GeoLocation.lat := GPSTrackPoint.latitude p;
           GeoLocation.lng := GPSTrackPoint.longitude p |}
  | samples => IdleEvent.location e = sphericalCentroid samples
  end.

(* ================================================================== *)
(** ** The efficiency scorer *)
(* ================================================================== *)

(** [calculateIdleScore(metrics)]. *)
Definition calculateIdleScore (metrics : BaseVehicleMetrics.t) : num :=
  let operationalTime :=
    (BaseVehicleMetrics.totalIdleTimeMinutes metrics
     + BaseVehicleMetrics.totalMovingTimeMinutes metrics)%js in
  let idleRatio :=
    safeDivide0 (BaseVehicleMetrics.totalIdleTimeMinutes metrics)
                operationalTime in
  let score := ((Fin 1 - idleRatio) * Fin 100)%js in
  clamp score (Fin 0) (Fin 100).

(** [calculateUtilizationScore(metrics)]. *)
Definition calculateUtilizationScore (metrics : BaseVehicleMetrics.t) : num :=
  let utilizationRate :=
    safeDivide0 (BaseVehicleMetrics.totalMovingTimeMinutes metrics)
                (BaseVehicleMetrics.totalTimeMinutes metrics) in
  let score := (utilizationRate * Fin 100)%js in
  clamp score (Fin 0) (Fin 100).

(** [calculateDistanceScore(metrics, expectedKmPerHour)]. *)
Definition calculateDistanceScore (metrics : BaseVehicleMetrics.t)
  (expectedKmPerHour : num) : num :=
  let totalHours := (BaseVehicleMetrics.totalTimeMinutes metrics / Fin 60)%js in
  let kmPerHour :=
    safeDivide0 (BaseVehicleMetrics.totalDistanceKm metrics) totalHours in
  let efficiencyRatio := safeDivide0 kmPerHour expectedKmPerHour in
  let score := (efficiencyRatio * Fin 100)%js in
  clamp score (Fin 0) (Fin 100).

(** [calculateStopScore(metrics, stopPenaltyFactor)]. *)
Definition calculateStopScore (metrics : BaseVehicleMetrics.t)
  (stopPenaltyFactor : num) : num :=
  let stopsPerKm :=
    safeDivide0 (BaseVehicleMetrics.numberOfStops metrics)
      (JS.max (Fin 1) (BaseVehicleMetrics.totalDistanceKm metrics)) in
  let score := (Fin 100 - stopsPerKm * stopPenaltyFactor)%js in
  clamp score (Fin 0) (Fin 100).

(** [interface EfficiencyComponents]. *)
Module EfficiencyComponents.
Record t : Type := mk {
  idleScore : num;
  utilizationScore : num;
  distanceScore : num;
  stopScore : num
}.
End EfficiencyComponents.

(** [computeEfficiencyComponents(metrics, config)]. *)
Definition computeEfficiencyComponents (metrics : BaseVehicleMetrics.t)
  (config : AnalyticsConfig.t) : EfficiencyComponents.t :=
  {| EfficiencyComponents.idleScore := calculateIdleScore metrics;
     EfficiencyComponents.utilizationScore := calculateUtilizationScore metrics;
     EfficiencyComponents.distanceScore :=
       calculateDistanceScore metrics (AnalyticsConfig.expectedKmPerHour config);
     EfficiencyComponents.stopScore :=
       calculateStopScore metrics (AnalyticsConfig.stopPenaltyFactor config) |}.

(** [calculateEfficiencyScore(metrics, weights, config)]. *)
Definition calculateEfficiencyScore (metrics : BaseVehicleMetrics.t)
  (weights : EfficiencyWeights.t) (config : AnalyticsConfig.t) : num :=
  if (BaseVehicleMetrics.totalTimeMinutes metrics === Fin 0)%js then Fin 0
  else
    let components := computeEfficiencyComponents metrics config in
    let weightedScore :=
      (EfficiencyComponents.idleScore components
         * EfficiencyWeights.idleRatio weights
       + EfficiencyComponents.utilizationScore components
         * EfficiencyWeights.utilizationRate weights
       + EfficiencyComponents.distanceScore components
         * EfficiencyWeights.distanceEfficiency weights
       + EfficiencyComponents.stopScore components
         * EfficiencyWeights.stopEfficiency weights)%js in
    clamp weightedScore (Fin 0) (Fin 100).

(* ================================================================== *)
(** ** The risk scorer *)
(* ================================================================== *)

(** [calculateSpeedingScore(metrics)]. *)
Definition calculateSpeedingScore (metrics : DerivedVehicleMetrics.t) : num :=
  let score :=
    (DerivedVehicleMetrics.aggressiveDrivingRatio metrics * Fin 100)%js in
  clamp score (Fin 0) (Fin 100).

(** [calculateLongIdleFrequencyScore(metrics, idleRiskFactor)]. *)
Definition calculateLongIdleFrequencyScore (metrics : DerivedVehicleMetrics.t)
  (idleRiskFactor : num) : num :=
  let b := DerivedVehicleMetrics.base metrics in
  let totalDays :=
    safeDivide (BaseVehicleMetrics.totalTimeMinutes b) MINUTES_PER_DAY (Fin 1) in
  let longIdlesPerDay :=
    safeDivide0 (ofNat (List.length (BaseVehicleMetrics.longIdleEvents b)))
                (JS.max (Fin 1) totalDays) in
  let score := (longIdlesPerDay * idleRiskFactor)%js in
  clamp score (Fin 0) (Fin 100).

(** [calculateMaxSpeedSeverityScore(metrics, speedingThresholdKmh)]. *)
Definition calculateMaxSpeedSeverityScore (metrics : DerivedVehicleMetrics.t)
  (speedingThresholdKmh : num) : num :=
  let b := DerivedVehicleMetrics.base metrics in
  let speedExcess :=
    JS.max (Fin 0) (BaseVehicleMetrics.maxSpeedKmh b - speedingThresholdKmh)%js in
  let severityRatio := safeDivide0 speedExcess SPEED_EXCESS_REFERENCE_KMH in
  let score := (severityRatio * Fin 100)%js in
  clamp score (Fin 0) (Fin 100).

(** [calculateErraticPatternScore(metrics)]. *)
Definition calculateErraticPatternScore (metrics : DerivedVehicleMetrics.t)
  : num :=
  let b := DerivedVehicleMetrics.base metrics in
  if (BaseVehicleMetrics.averageSpeedKmh b === Fin 0)%js then
    (if (BaseVehicleMetrics.maxSpeedKmh b >? Fin 0)%js then Fin 50 else Fin 0)
  else
    let speedRatio :=
      safeDivide (BaseVehicleMetrics.maxSpeedKmh b)
                 (BaseVehicleMetrics.averageSpeedKmh b) (Fin 1) in
    let erraticRatio := (speedRatio - Fin 1)%js in
    let score := (erraticRatio * Fin 100)%js in
    clamp score (Fin 0) (Fin 100).

(** [interface RiskComponents]. *)
Module RiskComponents.
Record t : Type := mk {
  speedingScore : num;
  longIdleFrequencyScore : num;
  maxSpeedSeverityScore : num;
  erraticPatternScore : num
}.
End RiskComponents.

(** [computeRiskComponents(metrics, config)]. *)
Definition computeRiskComponents (metrics : DerivedVehicleMetrics.t)
  (config : AnalyticsConfig.t) : RiskComponents.t :=
  {| RiskComponents.speedingScore := calculateSpeedingScore metrics;
     RiskComponents.longIdleFrequencyScore :=
       calculateLongIdleFrequencyScore metrics
         (AnalyticsConfig.idleRiskFactor config);
     RiskComponents.maxSpeedSeverityScore :=
       calculateMaxSpeedSeverityScore metrics
         (AnalyticsConfig.speedingThresholdKmh config);
     RiskComponents.erraticPatternScore :=
       calculateErraticPatternScore metrics |}.

(** [calculateRiskScore(metrics, weights, config)]. *)
Definition calculateRiskScore (metrics : DerivedVehicleMetrics.t)
  (weights : RiskWeights.t) (config : AnalyticsConfig.t) : num :=
  if (BaseVehicleMetrics.totalTimeMinutes (DerivedVehicleMetrics.base metrics)
      === Fin 0)%js then Fin 0
  else
    let components := computeRiskComponents metrics config in
    let weightedScore :=
      (RiskComponents.speedingScore components
         * RiskWeights.speedingRatio weights
       + RiskComponents.longIdleFrequencyScore components
         * RiskWeights.longIdleFrequency weights
       + RiskComponents.maxSpeedSeverityScore components
         * RiskWeights.maxSpeedSeverity weights
       + RiskComponents.erraticPatternScore components
         * RiskWeights.erraticPattern weights)%js in
    clamp weightedScore (Fin 0) (Fin 100).

(* ================================================================== *)
(** ** The cost model *)
(* ================================================================== *)

(** [calculateInsuranceMultiplier(riskScore, financials)]. *)
Definition calculateInsuranceMultiplier (riskScore : num)
  (financials : FinancialConstants.t) : num :=
  let clampedScore := JS.max (Fin 0) (JS.min (Fin 100) riskScore) in
  let excessMultiplier :=
    (FinancialConstants.speedingInsuranceMultiplier financials - Fin 1)%js in
  let riskFraction := (clampedScore / Fin 100)%js in
  let multiplier := (Fin 1 + riskFraction * excessMultiplier)%js in
  multiplier.

(** [calculateSpeedingRiskCost(riskScore, financials)]. *)
Definition calculateSpeedingRiskCost (riskScore : num)
  (financials : FinancialConstants.t) : num :=
  if (riskScore <=? Fin 0)%js then Fin 0
  else
    let multiplier := calculateInsuranceMultiplier riskScore financials in
    let additionalPremium :=
      (FinancialConstants.baseInsuranceCostPerVehicle financials
       * (multiplier - Fin 1))%js in
    additionalPremium.

(* ================================================================== *)
(** ** The fleet aggregator: rankings *)
(* ================================================================== *)

(** The sortable entries [{ vehicleId, score }] of the ranking functions. *)
Module ScoreEntry.
Record t : Type := mk { vehicleId : string; score : num }.
End ScoreEntry.

(** [SortCompare] of [Array.prototype.sort]: a NaN answer of the
    comparator counts as [+0]. *)
Definition sortCompare {A : Type} (comparefn : A -> A -> num) (x y : A) : num :=
  let v := comparefn x y in
  if isNaN v then Fin 0 else v.

(** [Array.prototype.sort(comparefn)] is a stable sort.  It is modelled by
    stable insertion: each element, taken in input order, goes after the
    elements that do not have to follow it.  For a consistent comparator
    every stable sort gives this arrangement. *)
Fixpoint insertSorted {A : Type} (comparefn : A -> A -> num) (x : A)
  (sorted : list A) : list A :=
  match sorted with
  | [] => [x]
  | y :: rest =>
      if (sortCompare comparefn y x >? Fin 0)%js then x :: y :: rest
      else y :: insertSorted comparefn x rest
  end.

Definition Array_sort {A : Type} (comparefn : A -> A -> num) (l : list A)
  : list A :=
  fold_left (fun sorted x => insertSorted comparefn x sorted) l [].

(** [a] does not have to follow [b]: the comparator does not answer a
    positive number on [(a, b)]. *)
Definition notAfter {A : Type} (comparefn : A -> A -> num) (a b : A) : Prop :=
  (sortCompare comparefn a b >? Fin 0)%js = false.

(** [array.map((entry, index) => f(entry, index))], indices from [start]. *)
Fixpoint mapWithIndex {A B : Type} (f : A -> nat -> B) (start : nat)
  (l : list A) : list B :=
  match l with
  | [] => []
  | x :: rest => f x start :: mapWithIndex f (S start) rest
  end.

Section Rankings.

(** [String.prototype.localeCompare]: negative, zero or positive; the
    collation is the host's. *)
Variable localeCompare : string -> string -> Z.

(** [createRanking(vehicleId, vehicleName, score, rank)]. *)
Definition createRanking (vehicleId vehicleName : string) (score : num)
  (rank : nat) : VehicleRanking.t :=
  {| VehicleRanking.vehicleId := vehicleId;
     VehicleRanking.vehicleName := vehicleName;
     VehicleRanking.score := score;
     VehicleRanking.rank := rank |}.

(** [compareByScoreDesc(a, b)]. *)
Definition compareByScoreDesc (a b : ScoreEntry.t) : num :=
  if (ScoreEntry.score b !== ScoreEntry.score a)%js
  then (ScoreEntry.score b - ScoreEntry.score a)%js
  else ofZ (localeCompare (ScoreEntry.vehicleId a) (ScoreEntry.vehicleId b)).

(** The body shared by [rankByEfficiency] and [rankByRisk]: sort the
    entries, then number them from 1. *)
Definition rankEntries (entries : list ScoreEntry.t) : list VehicleRanking.t :=
  let sorted := Array_sort compareByScoreDesc entries in
  mapWithIndex
    (fun entry index =>
       createRanking (ScoreEntry.vehicleId entry) (ScoreEntry.vehicleId entry)
         (ScoreEntry.score entry) (index + 1))
    0 sorted.

(** [rankByEfficiency(metrics)]. *)
Definition rankByEfficiency (metrics : list DerivedVehicleMetrics.t)
  : list VehicleRanking.t :=
  match metrics with
  | [] => []
  | _ =>
      let entries :=
        map (fun m =>
               {| ScoreEntry.vehicleId := DerivedVehicleMetrics.vehicleId m;
                  ScoreEntry.score := DerivedVehicleMetrics.efficiencyScore m |})
            metrics in
      rankEntries entries
  end.

(** [rankByRisk(metrics)]. *)
Definition rankByRisk (metrics : list DerivedVehicleMetrics.t)
  : list VehicleRanking.t :=
  match metrics with
  | [] => []
  | _ =>
      let entries :=
        map (fun m =>
               {| ScoreEntry.vehicleId := DerivedVehicleMetrics.vehicleId m;
                  ScoreEntry.score := DerivedVehicleMetrics.riskScore m |})
            metrics in
      rankEntries entries
  end.

(** *** The words of the specification *)

(** The collation is a total order on identifiers. *)
Definition collationIsTotalOrder : Prop :=
  (forall a b, localeCompare a b = 0%Z <-> a = b) /\
  (forall a b, (localeCompare a b < 0)%Z <-> (0 < localeCompare b a)%Z) /\
  (forall a b c, (localeCompare a b < 0)%Z -> (localeCompare b c < 0)%Z ->
                 (localeCompare a c < 0)%Z).

(** [a] may stand before [b] in a ranking: a higher score, or the same
    score and a vehicleId that is not later in the collation. *)
Definition rankedBefore (a b : VehicleRanking.t) : Prop :=
  (VehicleRanking.score b <? VehicleRanking.score a)%js = true \/
  ((VehicleRanking.score a === VehicleRanking.score b)%js = true /\
   (localeCompare (VehicleRanking.vehicleId a) (VehicleRanking.vehicleId b)
    <= 0)%Z).

(** The vehicle and score of a ranking entry, of a vehicle's efficiency
    and of its risk. *)
Definition rankedVehicle (r : VehicleRanking.t) : string * num :=
  (VehicleRanking.vehicleId r, VehicleRanking.score r).

Definition efficiencyOf (m : DerivedVehicleMetrics.t) : string * num :=
  (DerivedVehicleMetrics.vehicleId m, DerivedVehicleMetrics.efficiencyScore m).

Definition riskOf (m : DerivedVehicleMetrics.t) : string * num :=
  (DerivedVehicleMetrics.vehicleId m, DerivedVehicleMetrics.riskScore m).

(** What the specification asks of a ranking [ranking] of the vehicles
    [vehicles] (given as identifier and score): one entry per vehicle,
    ordered, with the ranks 1..N. *)
Definition isRankingOf (vehicles : list (string * num))
  (ranking : list VehicleRanking.t) : Prop :=
  Permutation (map rankedVehicle ranking) vehicles /\
  StronglySorted rankedBefore ranking /\
  map VehicleRanking.rank ranking = seq 1 (List.length vehicles).


(** The score of an entry is a number (not NaN). *)
Definition hasScore (e : ScoreEntry.t) : Prop :=
  isNaN (ScoreEntry.score e) = false.

Definition efficiencyEntry (m : DerivedVehicleMetrics.t) : ScoreEntry.t :=
  {| ScoreEntry.vehicleId := DerivedVehicleMetrics.vehicleId m;
     ScoreEntry.score := DerivedVehicleMetrics.efficiencyScore m |}.

Definition riskEntry (m : DerivedVehicleMetrics.t) : ScoreEntry.t :=
  {| ScoreEntry.vehicleId := DerivedVehicleMetrics.vehicleId m;
     ScoreEntry.score := DerivedVehicleMetrics.riskScore m |}.

Definition entryVehicle (e : ScoreEntry.t) : string * num :=
  (ScoreEntry.vehicleId e, ScoreEntry.score e).

End Rankings.

(* ================================================================== *)
(** ** Well-formed scoring knobs *)
(* ================================================================== *)

(** The weights are finite numbers (they need not sum to 1). *)
Definition finiteEfficiencyWeights (w : EfficiencyWeights.t) : Prop :=
  isFinite (EfficiencyWeights.idleRatio w) = true /\
  isFinite (EfficiencyWeights.utilizationRate w) = true /\
  isFinite (EfficiencyWeights.distanceEfficiency w) = true /\
  isFinite (EfficiencyWeights.stopEfficiency w) = true.

Definition finiteRiskWeights (w : RiskWeights.t) : Prop :=
  isFinite (RiskWeights.speedingRatio w) = true /\
  isFinite (RiskWeights.longIdleFrequency w) = true /\
  isFinite (RiskWeights.maxSpeedSeverity w) = true /\
  isFinite (RiskWeights.erraticPattern w) = true.

(** A finite number of magnitude at most [bound]. *)
Definition withinMagnitude (bound : R) (x : num) : Prop :=
  exists r : R, x = Fin r /\ Rabs r <= bound.

(** Weights of magnitude at most [10^300], whatever their signs and their
    sum: a weighted sum of four scores of [[0, 100]] stays well below the
    largest double. *)
Definition moderateEfficiencyWeights (w : EfficiencyWeights.t) : Prop :=
  withinMagnitude (10 ^ 300) (EfficiencyWeights.idleRatio w) /\
  withinMagnitude (10 ^ 300) (EfficiencyWeights.utilizationRate w) /\
  withinMagnitude (10 ^ 300) (EfficiencyWeights.distanceEfficiency w) /\
  withinMagnitude (10 ^ 300) (EfficiencyWeights.stopEfficiency w).

Definition moderateRiskWeights (w : RiskWeights.t) : Prop :=
  withinMagnitude (10 ^ 300) (RiskWeights.speedingRatio w) /\
  withinMagnitude (10 ^ 300) (RiskWeights.longIdleFrequency w) /\
  withinMagnitude (10 ^ 300) (RiskWeights.maxSpeedSeverity w) /\
  withinMagnitude (10 ^ 300) (RiskWeights.erraticPattern w).

(* ================================================================== *)
(** ** Sample inputs *)
(* ================================================================== *)

(** A weight table with a NaN entry. *)
Definition nanEfficiencyWeights : EfficiencyWeights.t :=
  {| EfficiencyWeights.idleRatio := NaN;
     EfficiencyWeights.utilizationRate := Fin (3 / 10);
     EfficiencyWeights.distanceEfficiency := Fin (2 / 10);
     EfficiencyWeights.stopEfficiency := Fin (1 / 10) |}.

Definition EFFICIENCY_WEIGHTS : EfficiencyWeights.t :=
  {| EfficiencyWeights.idleRatio := Fin (4 / 10);
     EfficiencyWeights.utilizationRate := Fin (3 / 10);
     EfficiencyWeights.distanceEfficiency := Fin (2 / 10);
     EfficiencyWeights.stopEfficiency := Fin (1 / 10) |}.

Definition RISK_WEIGHTS : RiskWeights.t :=
  {| RiskWeights.speedingRatio := Fin (45 / 100);
     RiskWeights.longIdleFrequency := Fin (25 / 100);
     RiskWeights.maxSpeedSeverity := Fin (20 / 100);
     RiskWeights.erraticPattern := Fin (10 / 100) |}.

(** One hour of driving: 30 km, 40 minutes moving, 20 idle, 3 stops. *)
Definition sampleBaseMetrics : BaseVehicleMetrics.t :=
  {| BaseVehicleMetrics.vehicleId := "vehicle-001";
     BaseVehicleMetrics.periodStart := "2024-01-15T09:00:00Z";
     BaseVehicleMetrics.periodEnd := "2024-01-15T10:00:00Z";
     BaseVehicleMetrics.totalDistanceKm := Fin 30;
     BaseVehicleMetrics.totalMovingTimeMinutes := Fin 40;
     BaseVehicleMetrics.totalIdleTimeMinutes := Fin 20;
     BaseVehicleMetrics.totalTimeMinutes := Fin 60;
     BaseVehicleMetrics.averageSpeedKmh := Fin 45;
     BaseVehicleMetrics.maxSpeedKmh := Fin 500;
     BaseVehicleMetrics.numberOfStops := Fin 3;
     BaseVehicleMetrics.longIdleEvents := [];
     BaseVehicleMetrics.totalPointsAnalyzed := Fin 61 |}.

Definition sampleDerivedMetrics : DerivedVehicleMetrics.t :=
  {| DerivedVehicleMetrics.base := sampleBaseMetrics;
     DerivedVehicleMetrics.idleRatio := Fin (1 / 3);
     DerivedVehicleMetrics.aggressiveDrivingRatio := Fin 1;
     DerivedVehicleMetrics.timeOverSpeedThresholdMinutes := Fin 40;
     DerivedVehicleMetrics.efficiencyScore := Fin 0;
     DerivedVehicleMetrics.riskScore := Fin 0 |}.

(** The instants of a few timestamps of 15 January 2024, as the host's
    parser gives them; every other string is an invalid date here. *)
Definition sampleDate_getTime (s : string) : option Z :=
  if String.eqb s "2024-01-15T09:00:00Z" then Some 1705309200000%Z
  else if String.eqb s "2024-01-15T09:10:00Z" then Some 1705309800000%Z
  else if String.eqb s "2024-01-15T09:15:00Z" then Some 1705310100000%Z
  else if String.eqb s "2024-01-15T09:30:00Z" then Some 1705311000000%Z
  else if String.eqb s "2024-01-15T10:00:00Z" then Some 1705312800000%Z
  else None.

Definition samplePoint (speed : num) (timestamp : string) (ignitionOn : bool)
  : GPSTrackPoint.t :=
  {| GPSTrackPoint.latitude := Fin (407128 / 10000);
     GPSTrackPoint.longitude := Fin (- (74006 / 1000));
     GPSTrackPoint.speed := speed;
     GPSTrackPoint.timestamp := timestamp;
     GPSTrackPoint.ignitionOn := ignitionOn |}.

Definition sampleTrack (points : list GPSTrackPoint.t) : GPSTrackResponse.t :=
  {| GPSTrackResponse.vehicleId := "vehicle-001";
     GPSTrackResponse.startTime := "2024-01-15T09:00:00Z";
     GPSTrackResponse.endTime := "2024-01-15T10:00:00Z";
     GPSTrackResponse.points := points |}.

(** A drive of one hour: ten minutes moving, twenty idle, thirty with the
    ignition off, then moving again. *)
Definition sampleDrive : list GPSTrackPoint.t :=
  [ samplePoint (Fin 60) "2024-01-15T09:00:00Z" true;
    samplePoint (Fin 0) "2024-01-15T09:10:00Z" true;
    samplePoint (Fin 0) "2024-01-15T09:30:00Z" false;
    samplePoint (Fin 50) "2024-01-15T10:00:00Z" true ].

Definition sampleDriveTimes : list Z :=
  [ 1705309200000; 1705309800000; 1705311000000; 1705312800000 ]%Z.

(** A single sample with the ignition on: standing still, and with a
    negative speed reading. *)
Definition singleIdlePoint : GPSTrackPoint.t :=
  samplePoint (Fin 0) "2024-01-15T09:00:00Z" true.

Definition negativeSpeedPoint : GPSTrackPoint.t :=
  samplePoint (Fin (-5)) "2024-01-15T09:00:00Z" true.

(** The default configuration with the long-idle threshold set to zero:
    every idle run is long. *)
Definition zeroThresholdConfig : AnalyticsConfig.t :=
  {| AnalyticsConfig.idleSpeedThresholdKmh := Fin 2;
     AnalyticsConfig.speedingThresholdKmh := Fin 110;
     AnalyticsConfig.longIdleThresholdMinutes := Fin 0;
     AnalyticsConfig.expectedKmPerHour := Fin 35;
     AnalyticsConfig.stopPenaltyFactor := Fin 50;
     AnalyticsConfig.idleRiskFactor := Fin 15;
     AnalyticsConfig.varianceFactor := Fin 2 |}.

(** A collation for the examples: the lexicographic order of the
    character codes. *)
Definition lexCompare (a b : string) : Z :=
  match String.compare a b with
  | Lt => (-1)%Z
  | Eq => 0%Z
  | Gt => 1%Z
  end.

(** Scored metrics of a vehicle. *)
Definition scoredVehicle (vehicleId : string) (efficiencyScore riskScore : num)
  : DerivedVehicleMetrics.t :=
  {| DerivedVehicleMetrics.base :=
       {| BaseVehicleMetrics.vehicleId := vehicleId;
          BaseVehicleMetrics.periodStart := "2024-01-15T09:00:00Z";
          BaseVehicleMetrics.periodEnd := "2024-01-15T10:00:00Z";
          BaseVehicleMetrics.totalDistanceKm := Fin 30;
          BaseVehicleMetrics.totalMovingTimeMinutes := Fin 40;
          BaseVehicleMetrics.totalIdleTimeMinutes := Fin 20;
          BaseVehicleMetrics.totalTimeMinutes := Fin 60;
          BaseVehicleMetrics.averageSpeedKmh := Fin 45;
          BaseVehicleMetrics.maxSpeedKmh := Fin 90;
          BaseVehicleMetrics.numberOfStops := Fin 3;
          BaseVehicleMetrics.longIdleEvents := [];
          BaseVehicleMetrics.totalPointsAnalyzed := Fin 61 |};
     DerivedVehicleMetrics.idleRatio := Fin (1 / 3);
     DerivedVehicleMetrics.aggressiveDrivingRatio := Fin 0;
     DerivedVehicleMetrics.timeOverSpeedThresholdMinutes := Fin 0;
     DerivedVehicleMetrics.efficiencyScore := efficiencyScore;
     DerivedVehicleMetrics.riskScore := riskScore |}.

Definition sampleFleet : list DerivedVehicleMetrics.t :=
  [ scoredVehicle "v2" (Fin 70) (Fin 10);
    scoredVehicle "v1" (Fin 70) (Fin 35);
    scoredVehicle "v3" (Fin 90) (Fin 10) ].

(** Two vehicles, one of them with a NaN efficiency score, in both
    input orders. *)
Definition nanScoreFleet : list DerivedVehicleMetrics.t :=
  [ scoredVehicle "a" NaN (Fin 0); scoredVehicle "b" (Fin 5) (Fin 0) ].

Definition nanScoreFleetReversed : list DerivedVehicleMetrics.t :=
  [ scoredVehicle "b" (Fin 5) (Fin 0); scoredVehicle "a" NaN (Fin 0) ].

(** What a collation guarantees: its answers are consistent (a total
    preorder).  It may rate two different strings equal. *)
Definition collationIsPreorder (localeCompare : string -> string -> Z) : Prop :=
  (forall a b, (localeCompare a b < 0)%Z <-> (0 < localeCompare b a)%Z) /\
  (forall a b c, (localeCompare a b <= 0)%Z -> (localeCompare b c <= 0)%Z ->
                 (localeCompare a c <= 0)%Z).

(** The collation tells the identifiers [ids] apart. *)
Definition collationSeparates (localeCompare : string -> string -> Z)
  (ids : list string) : Prop :=
  forall a b, In a ids -> In b ids -> localeCompare a b = 0%Z -> a = b.

(** A collation in the manner of the host's: control characters are
    ignored, the other characters are compared by their codes. *)
Fixpoint collationKey (s : string) : string :=
  match s with
  | EmptyString => EmptyString
  | String c rest =>
      if (Ascii.nat_of_ascii c <? 32)%nat then collationKey rest
      else String c (collationKey rest)
  end.

Definition ignoringControls (a b : string) : Z :=
  lexCompare (collationKey a) (collationKey b).

(** The identifier ["a"] followed by the control character U+0001. *)
Definition markedId : string := String.append "a" (String (Ascii.ascii_of_nat 1) "").

(** Two vehicles with the same scores whose identifiers differ by a
    control character, in both input orders. *)
Definition tiedFleet : list DerivedVehicleMetrics.t :=
  [ scoredVehicle markedId (Fin 70) (Fin 10);
    scoredVehicle "a" (Fin 70) (Fin 10) ].

Definition tiedFleetReversed : list DerivedVehicleMetrics.t :=
  [ scoredVehicle "a" (Fin 70) (Fin 10);
    scoredVehicle markedId (Fin 70) (Fin 10) ].

(** Two moving samples, the second with a NaN latitude. *)
Definition nanLatitudeDrive : list GPSTrackPoint.t :=
  [ samplePoint (Fin 60) "2024-01-15T09:00:00Z" true;
    {| GPSTrackPoint.latitude := NaN;
       GPSTrackPoint.longitude := Fin (- (74006 / 1000));
       GPSTrackPoint.speed := Fin 60;
       GPSTrackPoint.timestamp := "2024-01-15T09:10:00Z";
       GPSTrackPoint.ignitionOn := true |} ].

(* ================================================================== *)
(** * The rest of the pipeline *)
(* ================================================================== *)

(** ** More of the language: [Math.ceil], the remainder, [slice] *)

(** The greatest integer not above a real, the least integer not below
    it, and the integer part towards zero. *)
Definition Rfloor (r : R) : Z := (up r - 1)%Z.
Definition Rceil (r : R) : Z := (- Rfloor (- r))%Z.
Definition Rtrunc (r : R) : Z := if Rleb 0 r then Rfloor r else Rceil r.

(** [Math.ceil(x)]. *)
Definition Math_ceil (x : num) : num :=
  match x with
  | Fin r => Fin (IZR (Rceil r))
  | _ => x
  end.

(** [x % y]: the remainder of the division truncated towards zero; NaN
    on an infinite dividend and on a zero divisor, the dividend itself on
    an infinite divisor. *)
Definition JS_rem (x y : num) : num :=
  match x, y with
  | NaN, _ | _, NaN => NaN
  | PInf, _ | NInf, _ => NaN
  | Fin a, PInf | Fin a, NInf => Fin a
  | Fin a, Fin b =>
      if Reqb b 0 then NaN else Fin (a - b * IZR (Rtrunc (a / b)))
  end.

(** The final index of [array.slice(0, end)] on an array of [len]
    elements: [end] goes through [ToIntegerOrInfinity]; a negative index
    counts from the end of the array. *)
Definition sliceEnd (len : nat) (end_ : num) : nat :=
  match end_ with
  | NaN => 0%nat
  | NInf => 0%nat
  | PInf => len
  | Fin r =>
      let relativeEnd := Rtrunc r in
      if (relativeEnd <? 0)%Z
      then Z.to_nat (Z.max (Z.of_nat len + relativeEnd) 0)
      else Nat.min (Z.to_nat relativeEnd) len
  end.

(** [array.slice(0, end)]. *)
Definition Array_slice_from_0 {A : Type} (l : list A) (end_ : num) : list A :=
  firstn (sliceEnd (List.length l) end_) l.

(* ================================================================== *)
(** ** utils/timeUtils.ts, continued *)
(* ================================================================== *)

Section TimeRanges.

Variable Date_getTime : string -> option Z.

(** [getDayCount(startTime, endTime)]. *)
Definition getDayCount (startTime endTime : string) : num :=
  match parseTimestamp Date_getTime startTime,
        parseTimestamp Date_getTime endTime with
  | Some start, Some end_ =>
      let durationMs := (ofZ end_ - ofZ start)%js in
      if (durationMs <? Fin 0)%js then Fin 0
      else
        let days :=
          (durationMs / (Fin 1000 * Fin 60 * Fin 60 * Fin 24))%js in
        JS.max (Fin 1) (Math_ceil days)
  | _, _ => Fin 0
  end.

(** [isWithinRange(timestamp, rangeStart, rangeEnd)]. *)
Definition isWithinRange (timestamp rangeStart rangeEnd : string) : bool :=
  match parseTimestamp Date_getTime timestamp,
        parseTimestamp Date_getTime rangeStart,
        parseTimestamp Date_getTime rangeEnd with
  | Some date, Some start, Some end_ =>
      let time := ofZ date in
      (time >=? ofZ start)%js && (time <=? ofZ end_)%js
  | _, _, _ => false
  end.

(** [new Date(timestamp).getTime()] as a number: NaN on an invalid
    date. *)
Definition Date_time (timestamp : string) : num :=
  match Date_getTime timestamp with
  | Some t => ofZ t
  | None => NaN
  end.

(* ---------------------------------------------------------------- *)
(** *** utils/geoCalculations.ts, continued *)

(** [calculateSpeedBetweenPoints(point1, point2)]. *)
Definition calculateSpeedBetweenPoints (point1 point2 : GPSTrackPoint.t)
  : num :=
  let time1 := Date_time (GPSTrackPoint.timestamp point1) in
  let time2 := Date_time (GPSTrackPoint.timestamp point2) in
  let timeDiffHours := ((time2 - time1) / (Fin 1000 * Fin 60 * Fin 60))%js in
  if (timeDiffHours <=? Fin 0)%js then Fin 0
  else
    let distance :=
      haversineDistance
        (GPSTrackPoint.latitude point1) (GPSTrackPoint.longitude point1)
        (GPSTrackPoint.latitude point2) (GPSTrackPoint.longitude point2) in
    (distance / timeDiffHours)%js.

End TimeRanges.

(** The body of the loop of [calculateTrackDistance]: a missing slot is
    skipped. *)
Definition trackDistanceIteration (points : list GPSTrackPoint.t)
  (totalDistance : num) (i : nat) : num :=
  match nth_error points (i - 1), nth_error points i with
  | Some prevPoint, Some currPoint =>
      let segmentDistance :=
        haversineDistance
          (GPSTrackPoint.latitude prevPoint) (GPSTrackPoint.longitude prevPoint)
          (GPSTrackPoint.latitude currPoint) (GPSTrackPoint.longitude currPoint)
      in
      (totalDistance + segmentDistance)%js
  | _, _ => totalDistance
  end.

(** [calculateTrackDistance(points)]: [for (let i = 1; i < points.length;
    i++)]. *)
Definition calculateTrackDistance (points : list GPSTrackPoint.t) : num :=
  if (List.length points <? 2)%nat then Fin 0
  else
    fold_left (trackDistanceIteration points)
      (seq 1 (List.length points - 1)) (Fin 0).

(** [calculateBearing(lat1, lon1, lat2, lon2)]. *)
Definition calculateBearing (lat1 lon1 lat2 lon2 : num) : num :=
  let lat1Rad := degreesToRadians lat1 in
  let lat2Rad := degreesToRadians lat2 in
  let dLon := degreesToRadians (lon2 - lon1)%js in
  let y := (JS.sin dLon * JS.cos lat2Rad)%js in
  let x :=
    (JS.cos lat1Rad * JS.sin lat2Rad
     - JS.sin lat1Rad * JS.cos lat2Rad * JS.cos dLon)%js in
  let bearing := (JS.atan2 y x * (Fin 180 / JS.PI))%js in
  let bearing := JS_rem (bearing + Fin 360)%js (Fin 360) in
  bearing.

(** [isValidCoordinate(latitude, longitude)]: both arguments have the
    type [number], so the two [typeof] tests hold. *)
Definition isValidCoordinate (latitude longitude : num) : bool :=
  negb (isNaN latitude) &&
  negb (isNaN longitude) &&
  (latitude >=? Fin (-90))%js &&
  (latitude <=? Fin 90)%js &&
  (longitude >=? Fin (-180))%js &&
  (longitude <=? Fin 180)%js.

(** [filterValidPoints(points)]. *)
Definition filterValidPoints (points : list GPSTrackPoint.t)
  : list GPSTrackPoint.t :=
  filter
    (fun point =>
       isValidCoordinate (GPSTrackPoint.latitude point)
                         (GPSTrackPoint.longitude point))
    points.

(** Coordinates on the globe: a finite latitude in [[-90, 90]] and a
    finite longitude in [[-180, 180]]. *)
Definition onTheGlobe (latitude longitude : num) : Prop :=
  exists lat lng : R,
    latitude = Fin lat /\ longitude = Fin lng /\
    -90 <= lat <= 90 /\ -180 <= lng <= 180.

Definition validCoordinates (p : GPSTrackPoint.t) : Prop :=
  onTheGlobe (GPSTrackPoint.latitude p) (GPSTrackPoint.longitude p).

(** The haversine term [a] of two points given in degrees, as a real. *)
Definition haversineA (lat1 lon1 lat2 lon2 : R) : R :=
  let dLat := (lat2 + - lat1) * (Rtrigo1.PI / 180) in
  let dLon := (lon2 + - lon1) * (Rtrigo1.PI / 180) in
  Rtrigo_def.sin (dLat / 2) * Rtrigo_def.sin (dLat / 2)
  + Rtrigo_def.cos (lat1 * (Rtrigo1.PI / 180))
    * Rtrigo_def.cos (lat2 * (Rtrigo1.PI / 180))
    * Rtrigo_def.sin (dLon / 2) * Rtrigo_def.sin (dLon / 2).

(** Two points at most a quarter turn apart in latitude and in
    longitude. *)
Definition withinAQuarterTurn (seg : GPSTrackPoint.t * GPSTrackPoint.t) : Prop :=
  exists lat1 lon1 lat2 lon2 : R,
    GPSTrackPoint.latitude (fst seg) = Fin lat1 /\
    GPSTrackPoint.longitude (fst seg) = Fin lon1 /\
    GPSTrackPoint.latitude (snd seg) = Fin lat2 /\
    GPSTrackPoint.longitude (snd seg) = Fin lon2 /\
    Rabs (lat2 - lat1) <= 90 /\ Rabs (lon2 - lon1) <= 90.

(** Coordinates in range, and consecutive points at most a quarter turn
    apart. *)
Definition plausibleTrack (points : list GPSTrackPoint.t) : Prop :=
  Forall validCoordinates points /\
  Forall withinAQuarterTurn (segments points).

(* ================================================================== *)
(** ** analytics/baseMetrics.ts, continued *)
(* ================================================================== *)

(** [getOperationalRatio(metrics)]. *)
Definition getOperationalRatio (metrics : BaseVehicleMetrics.t) : num :=
  let operationalTime :=
    (BaseVehicleMetrics.totalMovingTimeMinutes metrics
     + BaseVehicleMetrics.totalIdleTimeMinutes metrics)%js in
  safeDivide0 operationalTime (BaseVehicleMetrics.totalTimeMinutes metrics).

(** The highest speed among the samples taken with the ignition on,
    starting from [start]: a sample replaces the running maximum when it
    is greater. *)
Definition ignitionOnMaxSpeed (start : num) (points : list GPSTrackPoint.t)
  : num :=
  fold_left
    (fun best p =>
       if GPSTrackPoint.ignitionOn p && (GPSTrackPoint.speed p >? best)%js
       then GPSTrackPoint.speed p else best)
    points start.

(* ================================================================== *)
(** ** analytics/derivedMetrics.ts *)
(* ================================================================== *)

(** [interface SpeedingAnalysis]. *)
Module SpeedingAnalysis.
Record t : Type := mk {
  timeOverThresholdMinutes : num;
  speedingSegmentCount : num;
  maxSpeedingSpeed : num
}.
End SpeedingAnalysis.

(** The four variables the loop of [analyzeSpeedingTime] updates. *)
Module SpeedingLoop.
Record t : Type := mk {
  timeOverThresholdMinutes : num;
  speedingSegmentCount : num;
  maxSpeedingSpeed : num;
  previousWasSpeeding : bool
}.
End SpeedingLoop.

(** [isSpeedingPoint(point, speedingThresholdKmh)]. *)
Definition isSpeedingPoint (point : GPSTrackPoint.t)
  (speedingThresholdKmh : num) : bool :=
  GPSTrackPoint.ignitionOn point &&
  (GPSTrackPoint.speed point >=? speedingThresholdKmh)%js.

(** [calculateIdleRatio(baseMetrics)]. *)
Definition calculateIdleRatio (baseMetrics : BaseVehicleMetrics.t) : num :=
  let operationalTime :=
    (BaseVehicleMetrics.totalIdleTimeMinutes baseMetrics
     + BaseVehicleMetrics.totalMovingTimeMinutes baseMetrics)%js in
  safeDivide0 (BaseVehicleMetrics.totalIdleTimeMinutes baseMetrics)
              operationalTime.

(** [calculateAggressiveDrivingRatio(timeOverThresholdMinutes,
    totalMovingTimeMinutes)]. *)
Definition calculateAggressiveDrivingRatio
  (timeOverThresholdMinutes totalMovingTimeMinutes : num) : num :=
  safeDivide0 timeOverThresholdMinutes totalMovingTimeMinutes.

(** The speeds of the points classified as moving:
    [for (const point of points) if (state === 'moving')
    movingSpeeds.push(point.speed)]. *)
Definition movingSpeeds (points : list GPSTrackPoint.t)
  (config : AnalyticsConfig.t) : list num :=
  fold_left
    (fun movingSpeeds point =>
       if VehicleState_eqb (classifyPointState point config) moving
       then movingSpeeds ++ [GPSTrackPoint.speed point]
       else movingSpeeds)
    points [].

(** [calculateSpeedVariance(track, config)]. *)
Definition calculateSpeedVariance (track : GPSTrackResponse.t)
  (config : AnalyticsConfig.t) : num :=
  let movingSpeeds := movingSpeeds (GPSTrackResponse.points track) config in
  if (List.length movingSpeeds <? 2)%nat then Fin 0
  else
    let sum := fold_left (fun acc speed => (acc + speed)%js) movingSpeeds (Fin 0) in
    let mean := (sum / ofNat (List.length movingSpeeds))%js in
    let squaredDiffs :=
      map (fun speed => let diff := (speed - mean)%js in (diff * diff)%js)
          movingSpeeds in
    let variance :=
      (fold_left (fun acc sq => (acc + sq)%js) squaredDiffs (Fin 0)
       / ofNat (List.length movingSpeeds))%js in
    variance.

(** [calculateSpeedStdDev(track, config)]. *)
Definition calculateSpeedStdDev (track : GPSTrackResponse.t)
  (config : AnalyticsConfig.t) : num :=
  let variance := calculateSpeedVariance track config in
  JS.sqrt variance.

Section DerivedMetrics.

Variable Date_getTime : string -> option Z.

(** The state of the loop of [analyzeSpeedingTime] before its first
    turn. *)
Definition initialSpeedingLoop : SpeedingLoop.t :=
  {| SpeedingLoop.timeOverThresholdMinutes := Fin 0;
     SpeedingLoop.speedingSegmentCount := Fin 0;
     SpeedingLoop.maxSpeedingSpeed := Fin 0;
     SpeedingLoop.previousWasSpeeding := false |}.

(** What one turn of the loop does with the pair
    [(currentPoint, nextPoint)]. *)
Definition processSpeedingPair (config : AnalyticsConfig.t)
  (currentPoint nextPoint : GPSTrackPoint.t) (s : SpeedingLoop.t)
  : SpeedingLoop.t :=
  let isSpeeding :=
    isSpeedingPoint currentPoint (AnalyticsConfig.speedingThresholdKmh config) in
  if isSpeeding then
    let segmentDuration :=
      getPointDurationMinutes Date_getTime currentPoint nextPoint in
    {| SpeedingLoop.timeOverThresholdMinutes :=
         (SpeedingLoop.timeOverThresholdMinutes s + segmentDuration)%js;
       SpeedingLoop.speedingSegmentCount :=
         if negb (SpeedingLoop.previousWasSpeeding s)
         then (SpeedingLoop.speedingSegmentCount s + Fin 1)%js
         else SpeedingLoop.speedingSegmentCount s;
       SpeedingLoop.maxSpeedingSpeed :=
         if (GPSTrackPoint.speed currentPoint
             >? SpeedingLoop.maxSpeedingSpeed s)%js
         then GPSTrackPoint.speed currentPoint
         else SpeedingLoop.maxSpeedingSpeed s;
       SpeedingLoop.previousWasSpeeding := isSpeeding |}
  else
    {| SpeedingLoop.timeOverThresholdMinutes :=
         SpeedingLoop.timeOverThresholdMinutes s;
       SpeedingLoop.speedingSegmentCount :=
         SpeedingLoop.speedingSegmentCount s;
       SpeedingLoop.maxSpeedingSpeed := SpeedingLoop.maxSpeedingSpeed s;
       SpeedingLoop.previousWasSpeeding := isSpeeding |}.

(** The body of [for (let i = 0; i < points.length - 1; i++)]: a missing
    slot is skipped ([continue]). *)
Definition speedingIteration (points : list GPSTrackPoint.t)
  (config : AnalyticsConfig.t) (s : SpeedingLoop.t) (i : nat)
  : SpeedingLoop.t :=
  match nth_error points i, nth_error points (i + 1) with
  | Some currentPoint, Some nextPoint =>
      processSpeedingPair config currentPoint nextPoint s
  | _, _ => s
  end.

(** [analyzeSpeedingTime(track, config)]. *)
Definition analyzeSpeedingTime (track : GPSTrackResponse.t)
  (config : AnalyticsConfig.t) : SpeedingAnalysis.t :=
  let points := GPSTrackResponse.points track in
  if (List.length points <? 2)%nat then
    {| SpeedingAnalysis.timeOverThresholdMinutes := Fin 0;
       SpeedingAnalysis.speedingSegmentCount := Fin 0;
       SpeedingAnalysis.maxSpeedingSpeed := Fin 0 |}
  else
    let s :=
      fold_left (speedingIteration points config)
        (seq 0 (List.length points - 1)) initialSpeedingLoop in
    {| SpeedingAnalysis.timeOverThresholdMinutes :=
         SpeedingLoop.timeOverThresholdMinutes s;
       SpeedingAnalysis.speedingSegmentCount :=
         SpeedingLoop.speedingSegmentCount s;
       SpeedingAnalysis.maxSpeedingSpeed := SpeedingLoop.maxSpeedingSpeed s |}.

(** [computeDerivedMetrics(baseMetrics, track, config)]. *)
Definition computeDerivedMetrics (baseMetrics : BaseVehicleMetrics.t)
  (track : GPSTrackResponse.t) (config : AnalyticsConfig.t)
  : DerivedVehicleMetrics.t :=
  let idleRatio := calculateIdleRatio baseMetrics in
  let speedingAnalysis := analyzeSpeedingTime track config in
  let aggressiveDrivingRatio :=
    calculateAggressiveDrivingRatio
      (SpeedingAnalysis.timeOverThresholdMinutes speedingAnalysis)
      (BaseVehicleMetrics.totalMovingTimeMinutes baseMetrics) in
  {| DerivedVehicleMetrics.base := baseMetrics;
     DerivedVehicleMetrics.idleRatio := idleRatio;
     DerivedVehicleMetrics.aggressiveDrivingRatio := aggressiveDrivingRatio;
     DerivedVehicleMetrics.timeOverSpeedThresholdMinutes :=
       SpeedingAnalysis.timeOverThresholdMinutes speedingAnalysis;
     DerivedVehicleMetrics.efficiencyScore := Fin 0;
     DerivedVehicleMetrics.riskScore := Fin 0 |}.

(** The loop of [analyzeSpeedingTime], read pair by pair. *)
Fixpoint walkSpeedingPairs (config : AnalyticsConfig.t)
  (pairs : list (GPSTrackPoint.t * GPSTrackPoint.t)) (s : SpeedingLoop.t)
  : SpeedingLoop.t :=
  match pairs with
  | [] => s
  | (currentPoint, nextPoint) :: rest =>
      walkSpeedingPairs config rest
        (processSpeedingPair config currentPoint nextPoint s)
  end.

(** The segments whose earlier point is speeding. *)
Definition speedingSegments (config : AnalyticsConfig.t)
  (segs : list (GPSTrackPoint.t * GPSTrackPoint.t))
  : list (GPSTrackPoint.t * GPSTrackPoint.t) :=
  filter
    (fun seg =>
       isSpeedingPoint (fst seg) (AnalyticsConfig.speedingThresholdKmh config))
    segs.

(** The number of places where speeding starts in a sequence of
    speeding flags, [previousWasSpeeding] being the flag before the
    first. *)
Fixpoint countSpeedingStarts (previousWasSpeeding : bool) (flags : list bool)
  : nat :=
  match flags with
  | [] => 0
  | isSpeeding :: rest =>
      ((if isSpeeding && negb previousWasSpeeding then 1 else 0)
       + countSpeedingStarts isSpeeding rest)%nat
  end.

(** The speeding flags of the points that start a segment. *)
Definition speedingFlags (config : AnalyticsConfig.t)
  (segs : list (GPSTrackPoint.t * GPSTrackPoint.t)) : list bool :=
  map
    (fun seg =>
       isSpeedingPoint (fst seg) (AnalyticsConfig.speedingThresholdKmh config))
    segs.

End DerivedMetrics.

(** A ratio: a finite number between 0 and 1. *)
Definition inUnitInterval (x : num) : Prop :=
  exists r : R, x = Fin r /\ 0 <= r <= 1.

(* ================================================================== *)
(** ** The scorers: breakdowns, levels and the primary factor *)
(* ================================================================== *)

(** The [contributions] of [getEfficiencyBreakdown]. *)
Module EfficiencyContributions.
Record t : Type := mk {
  idle : num;
  utilization : num;
  distance : num;
  stop : num
}.
End EfficiencyContributions.

(** The result of [getEfficiencyBreakdown]. *)
Module EfficiencyBreakdown.
Record t : Type := mk {
  components : EfficiencyComponents.t;
  weights : EfficiencyWeights.t;
  contributions : EfficiencyContributions.t;
  finalScore : num
}.
End EfficiencyBreakdown.

(** [getEfficiencyBreakdown(metrics, weights, config)]. *)
Definition getEfficiencyBreakdown (metrics : BaseVehicleMetrics.t)
  (weights : EfficiencyWeights.t) (config : AnalyticsConfig.t)
  : EfficiencyBreakdown.t :=
  let components := computeEfficiencyComponents metrics config in
  let finalScore := calculateEfficiencyScore metrics weights config in
  {| EfficiencyBreakdown.components := components;
     EfficiencyBreakdown.weights := weights;
     EfficiencyBreakdown.contributions :=
       {| EfficiencyContributions.idle :=
            (EfficiencyComponents.idleScore components
             * EfficiencyWeights.idleRatio weights)%js;
          EfficiencyContributions.utilization :=
            (EfficiencyComponents.utilizationScore components
             * EfficiencyWeights.utilizationRate weights)%js;
          EfficiencyContributions.distance :=
            (EfficiencyComponents.distanceScore components
             * EfficiencyWeights.distanceEfficiency weights)%js;
          EfficiencyContributions.stop :=
            (EfficiencyComponents.stopScore components
             * EfficiencyWeights.stopEfficiency weights)%js |};
     EfficiencyBreakdown.finalScore := finalScore |}.

(** The [contributions] of [getRiskBreakdown]. *)
Module RiskContributions.
Record t : Type := mk {
  speeding : num;
  longIdleFrequency : num;
  maxSpeedSeverity : num;
  erraticPattern : num
}.
End RiskContributions.

(** The result of [getRiskBreakdown]. *)
Module RiskBreakdown.
Record t : Type := mk {
  components : RiskComponents.t;
  weights : RiskWeights.t;
  contributions : RiskContributions.t;
  finalScore : num
}.
End RiskBreakdown.

(** [getRiskBreakdown(metrics, weights, config)]. *)
Definition getRiskBreakdown (metrics : DerivedVehicleMetrics.t)
  (weights : RiskWeights.t) (config : AnalyticsConfig.t) : RiskBreakdown.t :=
  let components := computeRiskComponents metrics config in
  let finalScore := calculateRiskScore metrics weights config in
  {| RiskBreakdown.components := components;
     RiskBreakdown.weights := weights;
     RiskBreakdown.contributions :=
       {| RiskContributions.speeding :=
            (RiskComponents.speedingScore components
             * RiskWeights.speedingRatio weights)%js;
          RiskContributions.longIdleFrequency :=
            (RiskComponents.longIdleFrequencyScore components
             * RiskWeights.longIdleFrequency weights)%js;
          RiskContributions.maxSpeedSeverity :=
            (RiskComponents.maxSpeedSeverityScore components
             * RiskWeights.maxSpeedSeverity weights)%js;
          RiskContributions.erraticPattern :=
            (RiskComponents.erraticPatternScore components
             * RiskWeights.erraticPattern weights)%js |};
     RiskBreakdown.finalScore := finalScore |}.

(** ['low' | 'moderate' | 'elevated' | 'high' | 'critical']. *)
Module RiskLevel.
Inductive t : Type := low | moderate | elevated | high | critical.

(** The position of a level on the scale, from [low]. *)
Definition severity (l : t) : nat :=
  match l with
  | low => 0 | moderate => 1 | elevated => 2 | high => 3 | critical => 4
  end.
End RiskLevel.

(** [getRiskLevel(score)]. *)
Definition getRiskLevel (score : num) : RiskLevel.t :=
  if (score <=? Fin 20)%js then RiskLevel.low
  else if (score <=? Fin 40)%js then RiskLevel.moderate
  else if (score <=? Fin 60)%js then RiskLevel.elevated
  else if (score <=? Fin 80)%js then RiskLevel.high
  else RiskLevel.critical.

(** ['speeding' | 'longIdleFrequency' | 'maxSpeedSeverity' |
    'erraticPattern']. *)
Module RiskFactor.
Inductive factor : Type :=
  speeding | longIdleFrequency | maxSpeedSeverity | erraticPattern.
Record t : Type := mk { name : factor; value : num }.
End RiskFactor.

(** The array [factors] of [getPrimaryRiskFactor], before it is sorted. *)
Definition riskFactors (contributions : RiskContributions.t)
  : list RiskFactor.t :=
  [ RiskFactor.mk RiskFactor.speeding
      (RiskContributions.speeding contributions);
    RiskFactor.mk RiskFactor.longIdleFrequency
      (RiskContributions.longIdleFrequency contributions);
    RiskFactor.mk RiskFactor.maxSpeedSeverity
      (RiskContributions.maxSpeedSeverity contributions);
    RiskFactor.mk RiskFactor.erraticPattern
      (RiskContributions.erraticPattern contributions) ].

(** The comparator [(a, b) => b.value - a.value]. *)
Definition byValueDesc (a b : RiskFactor.t) : num :=
  (RiskFactor.value b - RiskFactor.value a)%js.

(** [getPrimaryRiskFactor(metrics, weights, config)]:
    [factors.sort((a, b) => b.value - a.value)], then
    [factors[0]?.name ?? 'speeding']. *)
Definition getPrimaryRiskFactor (metrics : DerivedVehicleMetrics.t)
  (weights : RiskWeights.t) (config : AnalyticsConfig.t) : RiskFactor.factor :=
  let breakdown := getRiskBreakdown metrics weights config in
  let contributions := RiskBreakdown.contributions breakdown in
  let factors := riskFactors contributions in
  let factors := Array_sort byValueDesc factors in
  match factors with
  | first :: _ => RiskFactor.name first
  | [] => RiskFactor.speeding
  end.

(** The contribution of a factor, by name. *)
Definition contributionOf (contributions : RiskContributions.t)
  (factor : RiskFactor.factor) : num :=
  match factor with
  | RiskFactor.speeding => RiskContributions.speeding contributions
  | RiskFactor.longIdleFrequency =>
      RiskContributions.longIdleFrequency contributions
  | RiskFactor.maxSpeedSeverity =>
      RiskContributions.maxSpeedSeverity contributions
  | RiskFactor.erraticPattern => RiskContributions.erraticPattern contributions
  end.

(** The position of a factor in the array [factors]. *)
Definition factorIndex (factor : RiskFactor.factor) : nat :=
  match factor with
  | RiskFactor.speeding => 0
  | RiskFactor.longIdleFrequency => 1
  | RiskFactor.maxSpeedSeverity => 2
  | RiskFactor.erraticPattern => 3
  end.

(** The weights are finite, non-negative and sum to 1. *)
Definition properEfficiencyWeights (w : EfficiencyWeights.t) : Prop :=
  exists a b c d : R,
    EfficiencyWeights.idleRatio w = Fin a /\
    EfficiencyWeights.utilizationRate w = Fin b /\
    EfficiencyWeights.distanceEfficiency w = Fin c /\
    EfficiencyWeights.stopEfficiency w = Fin d /\
    0 <= a /\ 0 <= b /\ 0 <= c /\ 0 <= d /\ a + b + c + d = 1.

Definition properRiskWeights (w : RiskWeights.t) : Prop :=
  exists a b c d : R,
    RiskWeights.speedingRatio w = Fin a /\
    RiskWeights.longIdleFrequency w = Fin b /\
    RiskWeights.maxSpeedSeverity w = Fin c /\
    RiskWeights.erraticPattern w = Fin d /\
    0 <= a /\ 0 <= b /\ 0 <= c /\ 0 <= d /\ a + b + c + d = 1.

(* ================================================================== *)
(** ** The cost model, continued *)
(* ================================================================== *)

(** [interface VehicleCostEstimation]. *)
Module VehicleCostEstimation.
Record t : Type := mk {
  vehicleId : string;
  dailyIdleCost : num;
  monthlyProjectedIdleCost : num;
  speedingRiskCost : num;
  dailyTotalLoss : num;
  monthlyProjectedLoss : num;
  annualProjectedLoss : num
}.
End VehicleCostEstimation.

(** [interface FleetCostEstimation]. *)
Module FleetCostEstimation.
Record t : Type := mk {
  periodStart : string;
  periodEnd : string;
  totalDailyIdleCost : num;
  totalMonthlyProjectedIdleCost : num;
  totalRiskAdjustedAnnualCost : num;
  costByVehicle : list VehicleCostEstimation.t;
  highestCostVehicle : option VehicleCostEstimation.t
}.
End FleetCostEstimation.

(** [calculateDailyIdleCost(totalIdleTimeMinutes, financials)]. *)
Definition calculateDailyIdleCost (totalIdleTimeMinutes : num)
  (financials : FinancialConstants.t) : num :=
  if (totalIdleTimeMinutes <=? Fin 0)%js then Fin 0
  else
    let idleTimeHours := minutesToHours totalIdleTimeMinutes in
    let litersConsumed :=
      (idleTimeHours
       * FinancialConstants.idleConsumptionLitersPerHour financials)%js in
    let cost :=
      (litersConsumed * FinancialConstants.fuelCostPerLiter financials)%js in
    cost.

(** [calculateMonthlyProjectedIdleCost(dailyIdleCost, financials)]. *)
Definition calculateMonthlyProjectedIdleCost (dailyIdleCost : num)
  (financials : FinancialConstants.t) : num :=
  (dailyIdleCost * FinancialConstants.operatingDaysPerMonth financials)%js.

(** [calculateAnnualProjectedLoss(monthlyIdleCost, speedingRiskCost)]. *)
Definition calculateAnnualProjectedLoss (monthlyIdleCost speedingRiskCost : num)
  : num :=
  let annualIdleCost := (monthlyIdleCost * MONTHS_PER_YEAR)%js in
  (annualIdleCost + speedingRiskCost)%js.

(** [calculateVehicleCosts(metrics, financials)]. *)
Definition calculateVehicleCosts (metrics : DerivedVehicleMetrics.t)
  (financials : FinancialConstants.t) : VehicleCostEstimation.t :=
  let dailyIdleCost :=
    calculateDailyIdleCost
      (BaseVehicleMetrics.totalIdleTimeMinutes
         (DerivedVehicleMetrics.base metrics))
      financials in
  let monthlyProjectedIdleCost :=
    calculateMonthlyProjectedIdleCost dailyIdleCost financials in
  let speedingRiskCost :=
    calculateSpeedingRiskCost (DerivedVehicleMetrics.riskScore metrics)
      financials in
  let dailyTotalLoss := dailyIdleCost in
  let monthlyProjectedLoss := monthlyProjectedIdleCost in
  let annualProjectedLoss :=
    calculateAnnualProjectedLoss monthlyProjectedIdleCost speedingRiskCost in
  {| VehicleCostEstimation.vehicleId := DerivedVehicleMetrics.vehicleId metrics;
     VehicleCostEstimation.dailyIdleCost := dailyIdleCost;
     VehicleCostEstimation.monthlyProjectedIdleCost := monthlyProjectedIdleCost;
     VehicleCostEstimation.speedingRiskCost := speedingRiskCost;
     VehicleCostEstimation.dailyTotalLoss := dailyTotalLoss;
     VehicleCostEstimation.monthlyProjectedLoss := monthlyProjectedLoss;
     VehicleCostEstimation.annualProjectedLoss := annualProjectedLoss |}.

(** [findHighestCostVehicle(vehicleCosts)]: [None] is the source's
    [null]; the loop starts from the first element and runs over the
    whole array. *)
Definition findHighestCostVehicle (vehicleCosts : list VehicleCostEstimation.t)
  : option VehicleCostEstimation.t :=
  match vehicleCosts with
  | [] => None
  | first :: _ =>
      Some
        (fold_left
           (fun highest cost =>
              if (VehicleCostEstimation.annualProjectedLoss cost
                  >? VehicleCostEstimation.annualProjectedLoss highest)%js
              then cost else highest)
           vehicleCosts first)
  end.

(** The three running totals of the loop of [calculateFleetCosts]. *)
Definition addVehicleCost (totals : num * num * num)
  (cost : VehicleCostEstimation.t) : num * num * num :=
  let '(totalDailyIdleCost, totalMonthlyProjectedIdleCost,
        totalRiskAdjustedAnnualCost) := totals in
  ((totalDailyIdleCost + VehicleCostEstimation.dailyIdleCost cost)%js,
   (totalMonthlyProjectedIdleCost
    + VehicleCostEstimation.monthlyProjectedIdleCost cost)%js,
   (totalRiskAdjustedAnnualCost
    + VehicleCostEstimation.annualProjectedLoss cost)%js).

(** [calculateFleetCosts(vehicleCosts, periodStart, periodEnd)]. *)
Definition calculateFleetCosts (vehicleCosts : list VehicleCostEstimation.t)
  (periodStart periodEnd : string) : FleetCostEstimation.t :=
  if (List.length vehicleCosts =? 0)%nat then
    {| FleetCostEstimation.periodStart := periodStart;
       FleetCostEstimation.periodEnd := periodEnd;
       FleetCostEstimation.totalDailyIdleCost := Fin 0;
       FleetCostEstimation.totalMonthlyProjectedIdleCost := Fin 0;
       FleetCostEstimation.totalRiskAdjustedAnnualCost := Fin 0;
       FleetCostEstimation.costByVehicle := [];
       FleetCostEstimation.highestCostVehicle := None |}
  else
    let '(totalDailyIdleCost, totalMonthlyProjectedIdleCost,
          totalRiskAdjustedAnnualCost) :=
      fold_left addVehicleCost vehicleCosts (Fin 0, Fin 0, Fin 0) in
    let highestCostVehicle := findHighestCostVehicle vehicleCosts in
    {| FleetCostEstimation.periodStart := periodStart;
       FleetCostEstimation.periodEnd := periodEnd;
       FleetCostEstimation.totalDailyIdleCost := totalDailyIdleCost;
       FleetCostEstimation.totalMonthlyProjectedIdleCost :=
         totalMonthlyProjectedIdleCost;
       FleetCostEstimation.totalRiskAdjustedAnnualCost :=
         totalRiskAdjustedAnnualCost;
       FleetCostEstimation.costByVehicle := vehicleCosts;
       FleetCostEstimation.highestCostVehicle := highestCostVehicle |}.

(** [calculateFleetCostsFromMetrics(vehicleMetrics, periodStart,
    periodEnd, financials)]. *)
Definition calculateFleetCostsFromMetrics
  (vehicleMetrics : list DerivedVehicleMetrics.t)
  (periodStart periodEnd : string) (financials : FinancialConstants.t)
  : FleetCostEstimation.t :=
  let vehicleCosts :=
    map (fun metrics => calculateVehicleCosts metrics financials)
        vehicleMetrics in
  calculateFleetCosts vehicleCosts periodStart periodEnd.

(** [calculateCostPercentage(vehicleCost, totalFleetCost)]. *)
Definition calculateCostPercentage (vehicleCost totalFleetCost : num) : num :=
  (safeDivide0 vehicleCost totalFleetCost * Fin 100)%js.

(** [calculatePotentialIdleSavings(currentIdleCost, reductionPercent)]. *)
Definition calculatePotentialIdleSavings
  (currentIdleCost reductionPercent : num) : num :=
  let reductionFraction :=
    (JS.max (Fin 0) (JS.min (Fin 100) reductionPercent) / Fin 100)%js in
  (currentIdleCost * reductionFraction)%js.

(** [calculatePotentialRiskSavings(currentRiskScore, targetRiskScore,
    financials)]. *)
Definition calculatePotentialRiskSavings
  (currentRiskScore targetRiskScore : num) (financials : FinancialConstants.t)
  : num :=
  let currentCost := calculateSpeedingRiskCost currentRiskScore financials in
  let targetCost := calculateSpeedingRiskCost targetRiskScore financials in
  JS.max (Fin 0) (currentCost - targetCost)%js.

(** ['idle' | 'speeding'], and the result of [identifyCostDriver]. *)
Module CostDriver.
Inductive driver : Type := idle | speeding.
Record t : Type := mk {
  primaryDriver : driver;
  idlePercentage : num;
  speedingPercentage : num
}.
End CostDriver.

(** [identifyCostDriver(costs)]. *)
Definition identifyCostDriver (costs : VehicleCostEstimation.t)
  : CostDriver.t :=
  let annualIdleCost :=
    (VehicleCostEstimation.monthlyProjectedIdleCost costs
     * MONTHS_PER_YEAR)%js in
  let totalAnnual := VehicleCostEstimation.annualProjectedLoss costs in
  let idlePercentage :=
    (safeDivide0 annualIdleCost totalAnnual * Fin 100)%js in
  let speedingPercentage :=
    (safeDivide0 (VehicleCostEstimation.speedingRiskCost costs) totalAnnual
     * Fin 100)%js in
  {| CostDriver.primaryDriver :=
       if (idlePercentage >=? speedingPercentage)%js
       then CostDriver.idle else CostDriver.speeding;
     CostDriver.idlePercentage := idlePercentage;
     CostDriver.speedingPercentage := speedingPercentage |}.

(** The financial constants are finite and non-negative, and the
    insurance multiplier is at least 1. *)
Definition soundFinancials (financials : FinancialConstants.t) : Prop :=
  exists fuel liters multiplier base days : R,
    FinancialConstants.fuelCostPerLiter financials = Fin fuel /\
    FinancialConstants.idleConsumptionLitersPerHour financials = Fin liters /\
    FinancialConstants.speedingInsuranceMultiplier financials = Fin multiplier /\
    FinancialConstants.baseInsuranceCostPerVehicle financials = Fin base /\
    FinancialConstants.operatingDaysPerMonth financials = Fin days /\
    0 <= fuel /\ 0 <= liters /\ 1 <= multiplier /\ 0 <= base /\ 0 <= days.

(** Sound financial constants of moderate size: prices and consumption up
    to [10^50], a multiplier up to [10^9], a base insurance cost up to
    [10^100] and up to [10^6] operating days, so that no product of the
    cost model leaves the range of the finite numbers. *)
Definition moderateFinancials (financials : FinancialConstants.t) : Prop :=
  exists fuel liters multiplier base days : R,
    FinancialConstants.fuelCostPerLiter financials = Fin fuel /\
    FinancialConstants.idleConsumptionLitersPerHour financials = Fin liters /\
    FinancialConstants.speedingInsuranceMultiplier financials = Fin multiplier /\
    FinancialConstants.baseInsuranceCostPerVehicle financials = Fin base /\
    FinancialConstants.operatingDaysPerMonth financials = Fin days /\
    0 <= fuel <= 10 ^ 50 /\ 0 <= liters <= 10 ^ 50 /\
    1 <= multiplier <= 10 ^ 9 /\ 0 <= base <= 10 ^ 100 /\
    0 <= days <= 10 ^ 6.

(* ================================================================== *)
(** ** The fleet aggregator, continued *)
(* ================================================================== *)

(** [interface FleetMetrics]. *)
Module FleetMetrics.
Record t : Type := mk {
  periodStart : string;
  periodEnd : string;
  totalVehicles : num;
  totalDistanceKm : num;
  totalIdleTimeMinutes : num;
  totalMovingTimeMinutes : num;
  averageIdleRatio : num;
  averageEfficiencyScore : num;
  averageRiskScore : num;
  vehiclesByEfficiency : list VehicleRanking.t;
  vehiclesByRisk : list VehicleRanking.t;
  topRiskVehicles : list VehicleRanking.t
}.
End FleetMetrics.

(** The six running sums of the loop of [aggregateFleetMetrics]. *)
Module FleetSums.
Record t : Type := mk {
  totalDistanceKm : num;
  totalIdleTimeMinutes : num;
  totalMovingTimeMinutes : num;
  sumIdleRatio : num;
  sumEfficiencyScore : num;
  sumRiskScore : num
}.
End FleetSums.

(** [getTopRiskVehicles(riskRankings, count = 3)]. *)
Definition getTopRiskVehicles (riskRankings : list VehicleRanking.t)
  (count : num) : list VehicleRanking.t :=
  Array_slice_from_0 riskRankings count.

(** [createEmptyFleetMetrics(periodStart, periodEnd)]. *)
Definition createEmptyFleetMetrics (periodStart periodEnd : string)
  : FleetMetrics.t :=
  {| FleetMetrics.periodStart := periodStart;
     FleetMetrics.periodEnd := periodEnd;
     FleetMetrics.totalVehicles := Fin 0;
     FleetMetrics.totalDistanceKm := Fin 0;
     FleetMetrics.totalIdleTimeMinutes := Fin 0;
     FleetMetrics.totalMovingTimeMinutes := Fin 0;
     FleetMetrics.averageIdleRatio := Fin 0;
     FleetMetrics.averageEfficiencyScore := Fin 0;
     FleetMetrics.averageRiskScore := Fin 0;
     FleetMetrics.vehiclesByEfficiency := [];
     FleetMetrics.vehiclesByRisk := [];
     FleetMetrics.topRiskVehicles := [] |}.

(** One turn of [for (const metrics of vehicleMetrics)]. *)
Definition addVehicleMetrics (sums : FleetSums.t)
  (metrics : DerivedVehicleMetrics.t) : FleetSums.t :=
  let b := DerivedVehicleMetrics.base metrics in
  {| FleetSums.totalDistanceKm :=
       (FleetSums.totalDistanceKm sums
        + BaseVehicleMetrics.totalDistanceKm b)%js;
     FleetSums.totalIdleTimeMinutes :=
       (FleetSums.totalIdleTimeMinutes sums
        + BaseVehicleMetrics.totalIdleTimeMinutes b)%js;
     FleetSums.totalMovingTimeMinutes :=
       (FleetSums.totalMovingTimeMinutes sums
        + BaseVehicleMetrics.totalMovingTimeMinutes b)%js;
     FleetSums.sumIdleRatio :=
       (FleetSums.sumIdleRatio sums
        + DerivedVehicleMetrics.idleRatio metrics)%js;
     FleetSums.sumEfficiencyScore :=
       (FleetSums.sumEfficiencyScore sums
        + DerivedVehicleMetrics.efficiencyScore metrics)%js;
     FleetSums.sumRiskScore :=
       (FleetSums.sumRiskScore sums
        + DerivedVehicleMetrics.riskScore metrics)%js |}.

Definition zeroFleetSums : FleetSums.t :=
  {| FleetSums.totalDistanceKm := Fin 0;
     FleetSums.totalIdleTimeMinutes := Fin 0;
     FleetSums.totalMovingTimeMinutes := Fin 0;
     FleetSums.sumIdleRatio := Fin 0;
     FleetSums.sumEfficiencyScore := Fin 0;
     FleetSums.sumRiskScore := Fin 0 |}.

(** [createEmptyFleetCostEstimation(periodStart, periodEnd)]. *)
Definition createEmptyFleetCostEstimation (periodStart periodEnd : string)
  : FleetCostEstimation.t :=
  {| FleetCostEstimation.periodStart := periodStart;
     FleetCostEstimation.periodEnd := periodEnd;
     FleetCostEstimation.totalDailyIdleCost := Fin 0;
     FleetCostEstimation.totalMonthlyProjectedIdleCost := Fin 0;
     FleetCostEstimation.totalRiskAdjustedAnnualCost := Fin 0;
     FleetCostEstimation.costByVehicle := [];
     FleetCostEstimation.highestCostVehicle := None |}.

(** [aggregateFleetCosts(vehicleCosts, periodStart, periodEnd)], the
    aggregator's own copy of [calculateFleetCosts]. *)
Definition aggregateFleetCosts (vehicleCosts : list VehicleCostEstimation.t)
  (periodStart periodEnd : string) : FleetCostEstimation.t :=
  if (List.length vehicleCosts =? 0)%nat then
    createEmptyFleetCostEstimation periodStart periodEnd
  else
    let '(totalDailyIdleCost, totalMonthlyProjectedIdleCost,
          totalRiskAdjustedAnnualCost) :=
      fold_left addVehicleCost vehicleCosts (Fin 0, Fin 0, Fin 0) in
    let highestCostVehicle := findHighestCostVehicle vehicleCosts in
    {| FleetCostEstimation.periodStart := periodStart;
       FleetCostEstimation.periodEnd := periodEnd;
       FleetCostEstimation.totalDailyIdleCost := totalDailyIdleCost;
       FleetCostEstimation.totalMonthlyProjectedIdleCost :=
         totalMonthlyProjectedIdleCost;
       FleetCostEstimation.totalRiskAdjustedAnnualCost :=
         totalRiskAdjustedAnnualCost;
       FleetCostEstimation.costByVehicle := vehicleCosts;
       FleetCostEstimation.highestCostVehicle := highestCostVehicle |}.

(** ['excellent' | 'good' | 'fair' | 'poor' | 'critical']. *)
Module HealthStatus.
Inductive t : Type := excellent | good | fair | poor | critical.

(** The position of a status on the scale, from [critical]. *)
Definition grade (s : t) : nat :=
  match s with
  | critical => 0 | poor => 1 | fair => 2 | good => 3 | excellent => 4
  end.
End HealthStatus.

(** [getFleetHealthStatus(averageEfficiencyScore)]. *)
Definition getFleetHealthStatus (averageEfficiencyScore : num)
  : HealthStatus.t :=
  if (averageEfficiencyScore >=? Fin 80)%js then HealthStatus.excellent
  else if (averageEfficiencyScore >=? Fin 60)%js then HealthStatus.good
  else if (averageEfficiencyScore >=? Fin 40)%js then HealthStatus.fair
  else if (averageEfficiencyScore >=? Fin 20)%js then HealthStatus.poor
  else HealthStatus.critical.

(** [getFleetRiskStatus(averageRiskScore)]. *)
Definition getFleetRiskStatus (averageRiskScore : num) : RiskLevel.t :=
  if (averageRiskScore <=? Fin 20)%js then RiskLevel.low
  else if (averageRiskScore <=? Fin 40)%js then RiskLevel.moderate
  else if (averageRiskScore <=? Fin 60)%js then RiskLevel.elevated
  else if (averageRiskScore <=? Fin 80)%js then RiskLevel.high
  else RiskLevel.critical.

(** [calculateHighRiskPercentage(vehicleMetrics, riskThreshold = 60)]. *)
Definition calculateHighRiskPercentage
  (vehicleMetrics : list DerivedVehicleMetrics.t) (riskThreshold : num) : num :=
  if (List.length vehicleMetrics =? 0)%nat then Fin 0
  else
    let highRiskCount :=
      List.length
        (filter
           (fun m => (DerivedVehicleMetrics.riskScore m >=? riskThreshold)%js)
           vehicleMetrics) in
    (safeDivide0 (ofNat highRiskCount) (ofNat (List.length vehicleMetrics))
     * Fin 100)%js.

(** [getVehiclesNeedingAttention(vehicleMetrics, efficiencyThreshold = 50,
    riskThreshold = 60)]. *)
Definition getVehiclesNeedingAttention
  (vehicleMetrics : list DerivedVehicleMetrics.t)
  (efficiencyThreshold riskThreshold : num) : list string :=
  map DerivedVehicleMetrics.vehicleId
    (filter
       (fun m =>
          (DerivedVehicleMetrics.efficiencyScore m <? efficiencyThreshold)%js
          || (DerivedVehicleMetrics.riskScore m >=? riskThreshold)%js)
       vehicleMetrics).

Section FleetAggregation.

Variable localeCompare : string -> string -> Z.

(** [aggregateFleetMetrics(vehicleMetrics, periodStart, periodEnd)]. *)
Definition aggregateFleetMetrics (vehicleMetrics : list DerivedVehicleMetrics.t)
  (periodStart periodEnd : string) : FleetMetrics.t :=
  if (List.length vehicleMetrics =? 0)%nat then
    createEmptyFleetMetrics periodStart periodEnd
  else
    let totalVehicles := ofNat (List.length vehicleMetrics) in
    let sums := fold_left addVehicleMetrics vehicleMetrics zeroFleetSums in
    let averageIdleRatio :=
      safeDivide0 (FleetSums.sumIdleRatio sums) totalVehicles in
    let averageEfficiencyScore :=
      safeDivide0 (FleetSums.sumEfficiencyScore sums) totalVehicles in
    let averageRiskScore :=
      safeDivide0 (FleetSums.sumRiskScore sums) totalVehicles in
    let vehiclesByEfficiency := rankByEfficiency localeCompare vehicleMetrics in
    let vehiclesByRisk := rankByRisk localeCompare vehicleMetrics in
    let topRiskVehicles := getTopRiskVehicles vehiclesByRisk (Fin 3) in
    {| FleetMetrics.periodStart := periodStart;
       FleetMetrics.periodEnd := periodEnd;
       FleetMetrics.totalVehicles := totalVehicles;
       FleetMetrics.totalDistanceKm := FleetSums.totalDistanceKm sums;
       FleetMetrics.totalIdleTimeMinutes := FleetSums.totalIdleTimeMinutes sums;
       FleetMetrics.totalMovingTimeMinutes :=
         FleetSums.totalMovingTimeMinutes sums;
       FleetMetrics.averageIdleRatio := averageIdleRatio;
       FleetMetrics.averageEfficiencyScore := averageEfficiencyScore;
       FleetMetrics.averageRiskScore := averageRiskScore;
       FleetMetrics.vehiclesByEfficiency := vehiclesByEfficiency;
       FleetMetrics.vehiclesByRisk := vehiclesByRisk;
       FleetMetrics.topRiskVehicles := topRiskVehicles |}.

End FleetAggregation.

(* ================================================================== *)
(** ** The analytics service: one vehicle's metrics, scored *)
(* ================================================================== *)

Section AnalyticsService.

Variable Date_getTime : string -> option Z.

(** [computeFullMetrics(track)]: every step runs with its default
    configuration and weights. *)
Definition computeFullMetrics (track : GPSTrackResponse.t)
  : DerivedVehicleMetrics.t :=
  let baseMetrics := computeBaseMetrics Date_getTime track ANALYTICS_CONFIG in
  let derivedMetrics :=
    computeDerivedMetrics Date_getTime baseMetrics track ANALYTICS_CONFIG in
  let efficiencyScore :=
    calculateEfficiencyScore baseMetrics EFFICIENCY_WEIGHTS ANALYTICS_CONFIG in
  let riskScore :=
    calculateRiskScore derivedMetrics RISK_WEIGHTS ANALYTICS_CONFIG in
  {| DerivedVehicleMetrics.base := DerivedVehicleMetrics.base derivedMetrics;
     DerivedVehicleMetrics.idleRatio :=
       DerivedVehicleMetrics.idleRatio derivedMetrics;
     DerivedVehicleMetrics.aggressiveDrivingRatio :=
       DerivedVehicleMetrics.aggressiveDrivingRatio derivedMetrics;
     DerivedVehicleMetrics.timeOverSpeedThresholdMinutes :=
       DerivedVehicleMetrics.timeOverSpeedThresholdMinutes derivedMetrics;
     DerivedVehicleMetrics.efficiencyScore := efficiencyScore;
     DerivedVehicleMetrics.riskScore := riskScore |}.

(** [computeVehicleCosts(metrics)]. *)
Definition computeVehicleCosts (metrics : DerivedVehicleMetrics.t)
  : VehicleCostEstimation.t :=
  calculateVehicleCosts metrics FINANCIAL_DEFAULTS.

End AnalyticsService.

(* ================================================================== *)
(** ** Sample inputs, continued *)
(* ================================================================== *)

(** The cost estimate of a vehicle that idles 5 a day, with the given
    annual loss. *)
Definition sampleCost (vehicleId : string) (annualProjectedLoss : num)
  : VehicleCostEstimation.t :=
  {| VehicleCostEstimation.vehicleId := vehicleId;
     VehicleCostEstimation.dailyIdleCost := Fin 5;
     VehicleCostEstimation.monthlyProjectedIdleCost := Fin 110;
     VehicleCostEstimation.speedingRiskCost := Fin 0;
     VehicleCostEstimation.dailyTotalLoss := Fin 5;
     VehicleCostEstimation.monthlyProjectedLoss := Fin 110;
     VehicleCostEstimation.annualProjectedLoss := annualProjectedLoss |}.

(** Three vehicles, the last two tied for the highest annual loss. *)
Definition sampleCosts : list VehicleCostEstimation.t :=
  [ sampleCost "v1" (Fin 1320); sampleCost "v2" (Fin 2000);
    sampleCost "v3" (Fin 2000) ].


(* ================================================================== *)
(** * The same code on IEEE 754 doubles *)
(* ================================================================== *)

(** The engine computes on binary64 floating-point numbers.  The part of
    the code that only adds, subtracts, multiplies, divides and compares
    is embedded here a second time, over Rocq's primitive floats, whose
    operations are those of IEEE 754 in the rounding mode of the language
    (to nearest, ties to even): a term of this module evaluates to the
    number the engine computes.  [Math.sin], [Math.cos] and [Math.atan2],
    which the language leaves to the implementation, are parameters. *)

Module Double.

Import PrimFloat.
#[local] Set Warnings "-inexact-float".
Local Open Scope float_scope.

Definition num : Type := float.

Notation "x >? y" := (PrimFloat.ltb y x) (at level 70) : float_scope.
Notation "x >=? y" := (PrimFloat.leb y x) (at level 70) : float_scope.
Notation "x === y" := (PrimFloat.eqb x y) (at level 70) : float_scope.
Notation "x !== y" := (negb (PrimFloat.eqb x y)) (at level 70) : float_scope.

(** [Number.isNaN], [Number.isFinite]. *)
Definition isNaN (x : num) : bool := negb (x =? x).

Definition isFinite (x : num) : bool := abs x <? infinity.

(** The number of an integer of the host (a time value, a length): exact
    up to [2^53] in magnitude. *)
Definition ofZ (z : Z) : num :=
  match z with
  | Z0 => 0
  | Zpos _ => of_uint63 (Uint63.of_Z z)
  | Zneg p => - of_uint63 (Uint63.of_Z (Zpos p))
  end.

Definition ofNat (n : nat) : num := ofZ (Z.of_nat n).

(** [Math.max(x, y)] and [Math.min(x, y)]: NaN if either argument is;
    [+0] is larger than [-0]. *)
Definition Math_max (x y : num) : num :=
  if isNaN x || isNaN y then nan
  else if x <? y then y
  else if y <? x then x
  else match classify x with FloatClass.NZero => y | _ => x end.

Definition Math_min (x y : num) : num :=
  if isNaN x || isNaN y then nan
  else if y <? x then y
  else if x <? y then x
  else match classify x with FloatClass.PZero => y | _ => x end.

(** [Math.PI]. *)
Definition Math_PI : num := 3.141592653589793.

(** The implementation-approximated functions of the host. *)
Record Libm : Type := mkLibm {
  Math_sin : num -> num;
  Math_cos : num -> num;
  Math_atan2 : num -> num -> num
}.

(** ** utils/timeUtils.ts *)

(** [safeDivide(numerator, denominator, fallback = 0)]. *)
Definition safeDivide (numerator denominator fallback : num) : num :=
  if (denominator === 0) || negb (isFinite denominator)
  then fallback
  else
    let result := numerator / denominator in
    if negb (isFinite result) then fallback else result.

Definition safeDivide0 (numerator denominator : num) : num :=
  safeDivide numerator denominator 0.

(** [clamp(value, min, max) = Math.min(Math.max(value, min), max)]. *)
Definition clamp (value lo hi : num) : num :=
  Math_min (Math_max value lo) hi.

(** ** types/*.ts: the data model *)

Module GeoLocation.
Record t : Type := mk { lat : num; lng : num }.
End GeoLocation.

Module GPSTrackPoint.
Record t : Type := mk {
  latitude : num;
  longitude : num;
  speed : num;
  timestamp : string;
  ignitionOn : bool
}.
End GPSTrackPoint.

Module GPSTrackResponse.
Record t : Type := mk {
  vehicleId : string;
  startTime : string;
  endTime : string;
  points : list GPSTrackPoint.t
}.
End GPSTrackResponse.

Module IdleEvent.
Record t : Type := mk {
  startTime : string;
  endTime : string;
  durationMinutes : num;
  location : GeoLocation.t
}.
End IdleEvent.

Module BaseVehicleMetrics.
Record t : Type := mk {
  vehicleId : string;
  periodStart : string;
  periodEnd : string;
  totalDistanceKm : num;
  totalMovingTimeMinutes : num;
  totalIdleTimeMinutes : num;
  totalTimeMinutes : num;
  averageSpeedKmh : num;
  maxSpeedKmh : num;
  numberOfStops : num;
  longIdleEvents : list IdleEvent.t;
  totalPointsAnalyzed : num
}.
End BaseVehicleMetrics.


Module AnalyticsConfig.
Record t : Type := mk {
  idleSpeedThresholdKmh : num;
  speedingThresholdKmh : num;
  longIdleThresholdMinutes : num;
  expectedKmPerHour : num;
  stopPenaltyFactor : num;
  idleRiskFactor : num;
  varianceFactor : num
}.
End AnalyticsConfig.

Module EfficiencyWeights.
Record t : Type := mk {
  idleRatio : num;
  utilizationRate : num;
  distanceEfficiency : num;
  stopEfficiency : num
}.
End EfficiencyWeights.

Module FinancialConstants.
Record t : Type := mk {
  fuelCostPerLiter : num;
  idleConsumptionLitersPerHour : num;
  speedingInsuranceMultiplier : num;
  operationalCostPerKm : num;
  baseInsuranceCostPerVehicle : num;
  operatingDaysPerMonth : num;
  currencyCode : string
}.
End FinancialConstants.

(** [interface IdleEventTracker]. *)
Module IdleEventTracker.
Record t : Type := mk {
  isInIdleState : bool;
  idleStartTime : option string;
  idleStartLocation : option GeoLocation.t;
  accumulatedIdleMinutes : num;
  idlePoints : list GPSTrackPoint.t
}.
End IdleEventTracker.

(** [interface MetricsAccumulator]. *)
Module MetricsAccumulator.
Record t : Type := mk {
  totalDistanceKm : num;
  totalMovingTimeMinutes : num;
  totalIdleTimeMinutes : num;
  maxSpeedKmh : num;
  numberOfStops : num;
  speedSamples : list num;
  longIdleEvents : list IdleEvent.t
}.
End MetricsAccumulator.

(** The three variables the loop of [computeBaseMetrics] updates. *)
Module LoopState.
Record t : Type := mk {
  accumulator : MetricsAccumulator.t;
  idleTracker : IdleEventTracker.t;
  previousState : option VehicleState
}.
End LoopState.

(** ** config/constants.ts *)

Definition EARTH_RADIUS_KM : num := 6371.
Definition DEG_TO_RAD : num := (Math_PI / 180).
Definition MONTHS_PER_YEAR : num := 12.
Definition SPEED_EXCESS_REFERENCE_KMH : num := 40.
Definition MINUTES_PER_DAY : num := 1440.

Definition ANALYTICS_CONFIG : AnalyticsConfig.t :=
  {| AnalyticsConfig.idleSpeedThresholdKmh := 2;
     AnalyticsConfig.speedingThresholdKmh := 110;
     AnalyticsConfig.longIdleThresholdMinutes := 10;
     AnalyticsConfig.expectedKmPerHour := 35;
     AnalyticsConfig.stopPenaltyFactor := 50;
     AnalyticsConfig.idleRiskFactor := 15;
     AnalyticsConfig.varianceFactor := 2 |}.

Definition FINANCIAL_DEFAULTS : FinancialConstants.t :=
  {| FinancialConstants.fuelCostPerLiter := 1.85;
     FinancialConstants.idleConsumptionLitersPerHour := 2.5;
     FinancialConstants.speedingInsuranceMultiplier := 1.15;
     FinancialConstants.operationalCostPerKm := 0.12;
     FinancialConstants.baseInsuranceCostPerVehicle := 2400;
     FinancialConstants.operatingDaysPerMonth := 22;
     FinancialConstants.currencyCode := "USD" |}.

(** ** utils/geoCalculations.ts, utils/timeUtils.ts, analytics/baseMetrics.ts *)

Section Host.

(** The host's date parser and its mathematical library. *)
Variable Date_getTime : string -> option Z.
Variable libm : Libm.

Definition degreesToRadians (degrees : num) : num := (degrees * DEG_TO_RAD).

(** [haversineDistance(lat1, lon1, lat2, lon2)]. *)
Definition haversineDistance (lat1 lon1 lat2 lon2 : num) : num :=
  if (lat1 === lat2) && (lon1 === lon2) then 0
  else
    let dLat := degreesToRadians (lat2 - lat1) in
    let dLon := degreesToRadians (lon2 - lon1) in
    let lat1Rad := degreesToRadians lat1 in
    let lat2Rad := degreesToRadians lat2 in
    let a :=
      (Math_sin libm (dLat / 2) * Math_sin libm (dLat / 2) +
       Math_cos libm lat1Rad * Math_cos libm lat2Rad *
       Math_sin libm (dLon / 2) * Math_sin libm (dLon / 2)) in
    let c := (2 * Math_atan2 libm (sqrt a) (sqrt (1 - a))) in
    (EARTH_RADIUS_KM * c).

(** One turn of the loop of [calculateCentroid]: the three running sums. *)
Definition centroidStep (xyz : num * num * num) (point : GPSTrackPoint.t)
  : num * num * num :=
  let '(x, y, z) := xyz in
  let latRad := degreesToRadians (GPSTrackPoint.latitude point) in
  let lonRad := degreesToRadians (GPSTrackPoint.longitude point) in
  ((x + Math_cos libm latRad * Math_cos libm lonRad),
   (y + Math_cos libm latRad * Math_sin libm lonRad),
   (z + Math_sin libm latRad)).

(** [calculateCentroid(points)]: [None] is the source's [null]. *)
Definition calculateCentroid (points : list GPSTrackPoint.t)
  : option GeoLocation.t :=
  match points with
  | [] => None
  | [firstPoint] =>
      Some {| GeoLocation.lat := GPSTrackPoint.latitude firstPoint;
              GeoLocation.lng := GPSTrackPoint.longitude firstPoint |}
  | _ =>
      let '(x, y, z) := fold_left centroidStep points (0, 0, 0) in
      let count := ofNat (List.length points) in
      let x := (x / count) in
      let y := (y / count) in
      let z := (z / count) in
      let centralLon := Math_atan2 libm y x in
      let centralSquareRoot := sqrt (x * x + y * y) in
      let centralLat := Math_atan2 libm z centralSquareRoot in
      Some {| GeoLocation.lat := (centralLat * (180 / Math_PI));
              GeoLocation.lng := (centralLon * (180 / Math_PI)) |}
  end.

(** [parseTimestamp(timestamp)]. *)
Definition parseTimestamp (timestamp : string) : option Z :=
  if String.eqb timestamp "" then None else Date_getTime timestamp.

(** [getDurationMinutes(startTime, endTime)]. *)
Definition getDurationMinutes (startTime endTime : string) : num :=
  match parseTimestamp startTime, parseTimestamp endTime with
  | Some start, Some end_ =>
      let durationMs := ofZ end_ - ofZ start in
      if durationMs <? 0 then 0
      else durationMs / (1000 * 60)
  | _, _ => 0
  end.

(** [getPointDurationMinutes(point1, point2)]. *)
Definition getPointDurationMinutes (point1 point2 : GPSTrackPoint.t) : num :=
  getDurationMinutes (GPSTrackPoint.timestamp point1)
                     (GPSTrackPoint.timestamp point2).

(** *** analytics/baseMetrics.ts *)

(** [classifyPointState(point, config)]. *)
Definition classifyPointState (point : GPSTrackPoint.t)
  (config : AnalyticsConfig.t) : VehicleState :=
  if negb (GPSTrackPoint.ignitionOn point) then off
  else if (GPSTrackPoint.speed point <?
           AnalyticsConfig.idleSpeedThresholdKmh config) then idle
  else moving.

(** [isStopTransition(previousState, currentState)]. *)
Definition isStopTransition (previousState currentState : VehicleState) : bool :=
  VehicleState_eqb previousState moving &&
  (VehicleState_eqb currentState idle || VehicleState_eqb currentState off).

(** [createIdleTracker()]. *)
Definition createIdleTracker : IdleEventTracker.t :=
  {| IdleEventTracker.isInIdleState := false;
     IdleEventTracker.idleStartTime := None;
     IdleEventTracker.idleStartLocation := None;
     IdleEventTracker.accumulatedIdleMinutes := 0;
     IdleEventTracker.idlePoints := [] |}.

(** [enterIdleState(tracker, point)]: every field of the tracker is
    overwritten. *)
Definition enterIdleState (tracker : IdleEventTracker.t)
  (point : GPSTrackPoint.t) : IdleEventTracker.t :=
  {| IdleEventTracker.isInIdleState := true;
     IdleEventTracker.idleStartTime := Some (GPSTrackPoint.timestamp point);
     IdleEventTracker.idleStartLocation :=
       Some {| GeoLocation.lat := GPSTrackPoint.latitude point;
               GeoLocation.lng := GPSTrackPoint.longitude point |};
     IdleEventTracker.accumulatedIdleMinutes := 0;
     IdleEventTracker.idlePoints := [point] |}.

(** [accumulateIdleTime(tracker, point, durationMinutes)]. *)
Definition accumulateIdleTime (tracker : IdleEventTracker.t)
  (point : GPSTrackPoint.t) (durationMinutes : num) : IdleEventTracker.t :=
  {| IdleEventTracker.isInIdleState := IdleEventTracker.isInIdleState tracker;
     IdleEventTracker.idleStartTime := IdleEventTracker.idleStartTime tracker;
     IdleEventTracker.idleStartLocation :=
       IdleEventTracker.idleStartLocation tracker;
     IdleEventTracker.accumulatedIdleMinutes :=
       (IdleEventTracker.accumulatedIdleMinutes tracker + durationMinutes);
     IdleEventTracker.idlePoints :=
       IdleEventTracker.idlePoints tracker ++ [point] |}.

(** The location of a finished idle event,
    [centroid ?? tracker.idleStartLocation ?? { lat: 0, lng: 0 }]. *)
Definition idleEventLocation (tracker : IdleEventTracker.t) : GeoLocation.t :=
  match calculateCentroid (IdleEventTracker.idlePoints tracker) with
  | Some centroid => centroid
  | None =>
      match IdleEventTracker.idleStartLocation tracker with
      | Some startLocation => startLocation
      | None => {| GeoLocation.lat := 0; GeoLocation.lng := 0 |}
      end
  end.

(** [exitIdleState(tracker, endTime, longIdleThresholdMinutes)]: the reset
    tracker and the event, if the run qualifies as long. *)
Definition exitIdleState (tracker : IdleEventTracker.t) (endTime : string)
  (longIdleThresholdMinutes : num)
  : IdleEventTracker.t * option IdleEvent.t :=
  let event :=
    if (IdleEventTracker.accumulatedIdleMinutes tracker >=?
        longIdleThresholdMinutes)
    then
      match IdleEventTracker.idleStartTime tracker with
      | Some idleStartTime =>
          Some {| IdleEvent.startTime := idleStartTime;
                  IdleEvent.endTime := endTime;
                  IdleEvent.durationMinutes :=
                    IdleEventTracker.accumulatedIdleMinutes tracker;
                  IdleEvent.location := idleEventLocation tracker |}
      | None => None
      end
    else None in
  (createIdleTracker, event).

(** [calculateSegmentDistance(prevPoint, currPoint, prevState)]. *)
Definition calculateSegmentDistance (prevPoint currPoint : GPSTrackPoint.t)
  (prevState : VehicleState) : num :=
  if negb (VehicleState_eqb prevState moving) then 0
  else haversineDistance
         (GPSTrackPoint.latitude prevPoint) (GPSTrackPoint.longitude prevPoint)
         (GPSTrackPoint.latitude currPoint) (GPSTrackPoint.longitude currPoint).

(** [createEmptyMetrics(vehicleId, periodStart, periodEnd, totalTimeMinutes)]. *)
Definition createEmptyMetrics (vehicleId periodStart periodEnd : string)
  (totalTimeMinutes : num) : BaseVehicleMetrics.t :=
  {| BaseVehicleMetrics.vehicleId := vehicleId;
     BaseVehicleMetrics.periodStart := periodStart;
     BaseVehicleMetrics.periodEnd := periodEnd;
     BaseVehicleMetrics.totalDistanceKm := 0;
     BaseVehicleMetrics.totalMovingTimeMinutes := 0;
     BaseVehicleMetrics.totalIdleTimeMinutes := 0;
     BaseVehicleMetrics.totalTimeMinutes := totalTimeMinutes;
     BaseVehicleMetrics.averageSpeedKmh := 0;
     BaseVehicleMetrics.maxSpeedKmh := 0;
     BaseVehicleMetrics.numberOfStops := 0;
     BaseVehicleMetrics.longIdleEvents := [];
     BaseVehicleMetrics.totalPointsAnalyzed := 0 |}.

(** The object spreads [{ ...accumulator, field: value }] of the loop, one
    per group of fields the source replaces together. *)
Definition withMaxSpeed (a : MetricsAccumulator.t) (v : num)
  : MetricsAccumulator.t :=
  {| MetricsAccumulator.totalDistanceKm := MetricsAccumulator.totalDistanceKm a;
     MetricsAccumulator.totalMovingTimeMinutes :=
       MetricsAccumulator.totalMovingTimeMinutes a;
     MetricsAccumulator.totalIdleTimeMinutes :=
       MetricsAccumulator.totalIdleTimeMinutes a;
     MetricsAccumulator.maxSpeedKmh := v;
     MetricsAccumulator.numberOfStops := MetricsAccumulator.numberOfStops a;
     MetricsAccumulator.speedSamples := MetricsAccumulator.speedSamples a;
     MetricsAccumulator.longIdleEvents := MetricsAccumulator.longIdleEvents a |}.

Definition withSpeedSamples (a : MetricsAccumulator.t) (v : list num)
  : MetricsAccumulator.t :=
  {| MetricsAccumulator.totalDistanceKm := MetricsAccumulator.totalDistanceKm a;
     MetricsAccumulator.totalMovingTimeMinutes :=
       MetricsAccumulator.totalMovingTimeMinutes a;
     MetricsAccumulator.totalIdleTimeMinutes :=
       MetricsAccumulator.totalIdleTimeMinutes a;
     MetricsAccumulator.maxSpeedKmh := MetricsAccumulator.maxSpeedKmh a;
     MetricsAccumulator.numberOfStops := MetricsAccumulator.numberOfStops a;
     MetricsAccumulator.speedSamples := v;
     MetricsAccumulator.longIdleEvents := MetricsAccumulator.longIdleEvents a |}.

Definition withMovingSegment (a : MetricsAccumulator.t) (distance time : num)
  : MetricsAccumulator.t :=
  {| MetricsAccumulator.totalDistanceKm := distance;
     MetricsAccumulator.totalMovingTimeMinutes := time;
     MetricsAccumulator.totalIdleTimeMinutes :=
       MetricsAccumulator.totalIdleTimeMinutes a;
     MetricsAccumulator.maxSpeedKmh := MetricsAccumulator.maxSpeedKmh a;
     MetricsAccumulator.numberOfStops := MetricsAccumulator.numberOfStops a;
     MetricsAccumulator.speedSamples := MetricsAccumulator.speedSamples a;
     MetricsAccumulator.longIdleEvents := MetricsAccumulator.longIdleEvents a |}.

Definition withIdleTime (a : MetricsAccumulator.t) (v : num)
  : MetricsAccumulator.t :=
  {| MetricsAccumulator.totalDistanceKm := MetricsAccumulator.totalDistanceKm a;
     MetricsAccumulator.totalMovingTimeMinutes :=
       MetricsAccumulator.totalMovingTimeMinutes a;
     MetricsAccumulator.totalIdleTimeMinutes := v;
     MetricsAccumulator.maxSpeedKmh := MetricsAccumulator.maxSpeedKmh a;
     MetricsAccumulator.numberOfStops := MetricsAccumulator.numberOfStops a;
     MetricsAccumulator.speedSamples := MetricsAccumulator.speedSamples a;
     MetricsAccumulator.longIdleEvents := MetricsAccumulator.longIdleEvents a |}.

Definition withStops (a : MetricsAccumulator.t) (v : num)
  : MetricsAccumulator.t :=
  {| MetricsAccumulator.totalDistanceKm := MetricsAccumulator.totalDistanceKm a;
     MetricsAccumulator.totalMovingTimeMinutes :=
       MetricsAccumulator.totalMovingTimeMinutes a;
     MetricsAccumulator.totalIdleTimeMinutes :=
       MetricsAccumulator.totalIdleTimeMinutes a;
     MetricsAccumulator.maxSpeedKmh := MetricsAccumulator.maxSpeedKmh a;
     MetricsAccumulator.numberOfStops := v;
     MetricsAccumulator.speedSamples := MetricsAccumulator.speedSamples a;
     MetricsAccumulator.longIdleEvents := MetricsAccumulator.longIdleEvents a |}.

Definition withEvents (a : MetricsAccumulator.t) (v : list IdleEvent.t)
  : MetricsAccumulator.t :=
  {| MetricsAccumulator.totalDistanceKm := MetricsAccumulator.totalDistanceKm a;
     MetricsAccumulator.totalMovingTimeMinutes :=
       MetricsAccumulator.totalMovingTimeMinutes a;
     MetricsAccumulator.totalIdleTimeMinutes :=
       MetricsAccumulator.totalIdleTimeMinutes a;
     MetricsAccumulator.maxSpeedKmh := MetricsAccumulator.maxSpeedKmh a;
     MetricsAccumulator.numberOfStops := MetricsAccumulator.numberOfStops a;
     MetricsAccumulator.speedSamples := MetricsAccumulator.speedSamples a;
     MetricsAccumulator.longIdleEvents := v |}.

(** [if (result.event) accumulator = { ...accumulator, longIdleEvents:
    [...accumulator.longIdleEvents, result.event] }]. *)
Definition pushEvent (a : MetricsAccumulator.t) (event : option IdleEvent.t)
  : MetricsAccumulator.t :=
  match event with
  | Some e => withEvents a (MetricsAccumulator.longIdleEvents a ++ [e])
  | None => a
  end.

(** The accumulator, tracker and [previousState] before the loop. *)
Definition initialLoopState : LoopState.t :=
  {| LoopState.accumulator :=
       {| MetricsAccumulator.totalDistanceKm := 0;
          MetricsAccumulator.totalMovingTimeMinutes := 0;
          MetricsAccumulator.totalIdleTimeMinutes := 0;
          MetricsAccumulator.maxSpeedKmh := 0;
          MetricsAccumulator.numberOfStops := 0;
          MetricsAccumulator.speedSamples := [];
          MetricsAccumulator.longIdleEvents := [] |};
     LoopState.idleTracker := createIdleTracker;
     LoopState.previousState := None |}.

(** The segment step of the loop body: the time from [prevPoint] to
    [currentPoint] goes to the state of [prevPoint], and a stop is counted
    on a stop transition. *)
Definition processSegment (prevPoint currentPoint : GPSTrackPoint.t)
  (previousState currentState : VehicleState)
  (accumulator : MetricsAccumulator.t) (idleTracker : IdleEventTracker.t)
  : MetricsAccumulator.t * IdleEventTracker.t :=
  let segmentDuration := getPointDurationMinutes prevPoint currentPoint in
  let '(accumulator, idleTracker) :=
    match previousState with
    | moving =>
        let segmentDistance :=
          calculateSegmentDistance prevPoint currentPoint previousState in
        (withMovingSegment accumulator
           (MetricsAccumulator.totalDistanceKm accumulator + segmentDistance)
           (MetricsAccumulator.totalMovingTimeMinutes accumulator
            + segmentDuration),
         idleTracker)
    | idle =>
        (withIdleTime accumulator
           (MetricsAccumulator.totalIdleTimeMinutes accumulator
            + segmentDuration),
         accumulateIdleTime idleTracker currentPoint segmentDuration)
    | off => (accumulator, idleTracker)
    end in
  let accumulator :=
    if isStopTransition previousState currentState
    then withStops accumulator
           (MetricsAccumulator.numberOfStops accumulator + 1)
    else accumulator in
  (accumulator, idleTracker).

(** The idle-transition step of the loop body. *)
Definition processIdleTransition (currentPoint : GPSTrackPoint.t)
  (config : AnalyticsConfig.t)
  (previousState : option VehicleState) (currentState : VehicleState)
  (accumulator : MetricsAccumulator.t) (idleTracker : IdleEventTracker.t)
  : MetricsAccumulator.t * IdleEventTracker.t :=
  let previousIsIdle :=
    match previousState with Some idle => true | _ => false end in
  if VehicleState_eqb currentState idle && negb previousIsIdle then
    (accumulator, enterIdleState idleTracker currentPoint)
  else if negb (VehicleState_eqb currentState idle) && previousIsIdle then
    let result :=
      exitIdleState idleTracker (GPSTrackPoint.timestamp currentPoint)
        (AnalyticsConfig.longIdleThresholdMinutes config) in
    (pushEvent accumulator (snd result), fst result)
  else (accumulator, idleTracker).

(** What one turn of the loop does with the current point, given the point
    before it ([None] when [i = 0] or the slot is missing). *)
Definition processPoint (config : AnalyticsConfig.t)
  (prevPoint : option GPSTrackPoint.t) (currentPoint : GPSTrackPoint.t)
  (s : LoopState.t) : LoopState.t :=
  let accumulator := LoopState.accumulator s in
  let idleTracker := LoopState.idleTracker s in
  let previousState := LoopState.previousState s in
  let currentState := classifyPointState currentPoint config in
  let accumulator :=
    if GPSTrackPoint.ignitionOn currentPoint &&
       (GPSTrackPoint.speed currentPoint >?
        MetricsAccumulator.maxSpeedKmh accumulator)
    then withMaxSpeed accumulator (GPSTrackPoint.speed currentPoint)
    else accumulator in
  let accumulator :=
    if VehicleState_eqb currentState moving
    then withSpeedSamples accumulator
           (MetricsAccumulator.speedSamples accumulator
            ++ [GPSTrackPoint.speed currentPoint])
    else accumulator in
  let '(accumulator, idleTracker) :=
    match prevPoint, previousState with
    | Some prevPoint, Some previousState =>
        processSegment prevPoint currentPoint previousState currentState
          accumulator idleTracker
    | _, _ => (accumulator, idleTracker)
    end in
  let '(accumulator, idleTracker) :=
    processIdleTransition currentPoint config previousState currentState
      accumulator idleTracker in
  {| LoopState.accumulator := accumulator;
     LoopState.idleTracker := idleTracker;
     LoopState.previousState := Some currentState |}.

(** The body of [for (let i = 0; i < points.length; i++)]: a missing slot
    is skipped ([continue]); the segment is processed when [i > 0]. *)
Definition loopIteration (points : list GPSTrackPoint.t)
  (config : AnalyticsConfig.t) (s : LoopState.t) (i : nat) : LoopState.t :=
  match nth_error points i with
  | None => s
  | Some currentPoint =>
      processPoint config
        (if (0 <? i)%nat then nth_error points (i - 1) else None)
        currentPoint s
  end.

(** The post-loop step: a run still open when the track ends is finished
    with the last point's timestamp. *)
Definition finalizeOpenIdle (points : list GPSTrackPoint.t)
  (config : AnalyticsConfig.t) (s : LoopState.t) : MetricsAccumulator.t :=
  let accumulator := LoopState.accumulator s in
  if IdleEventTracker.isInIdleState (LoopState.idleTracker s) then
    match nth_error points (List.length points - 1) with
    | Some lastPoint =>
        let result :=
          exitIdleState (LoopState.idleTracker s)
            (GPSTrackPoint.timestamp lastPoint)
            (AnalyticsConfig.longIdleThresholdMinutes config) in
        pushEvent accumulator (snd result)
    | None => accumulator
    end
  else accumulator.

(** [computeBaseMetrics(track, config)]. *)
Definition computeBaseMetrics (track : GPSTrackResponse.t)
  (config : AnalyticsConfig.t) : BaseVehicleMetrics.t :=
  let vehicleId := GPSTrackResponse.vehicleId track in
  let startTime := GPSTrackResponse.startTime track in
  let endTime := GPSTrackResponse.endTime track in
  let points := GPSTrackResponse.points track in
  let totalTimeMinutes := getDurationMinutes startTime endTime in
  match points with
  | [] => createEmptyMetrics vehicleId startTime endTime totalTimeMinutes
  | [singlePoint] =>
      {| BaseVehicleMetrics.vehicleId := vehicleId;
         BaseVehicleMetrics.periodStart := startTime;
         BaseVehicleMetrics.periodEnd := endTime;
         BaseVehicleMetrics.totalDistanceKm := 0;
         BaseVehicleMetrics.totalMovingTimeMinutes := 0;
         BaseVehicleMetrics.totalIdleTimeMinutes := 0;
         BaseVehicleMetrics.totalTimeMinutes := totalTimeMinutes;
         BaseVehicleMetrics.averageSpeedKmh := 0;
         BaseVehicleMetrics.maxSpeedKmh :=
           if GPSTrackPoint.ignitionOn singlePoint
           then GPSTrackPoint.speed singlePoint else 0;
         BaseVehicleMetrics.numberOfStops := 0;
         BaseVehicleMetrics.longIdleEvents := [];
         BaseVehicleMetrics.totalPointsAnalyzed := 1 |}
  | _ =>
      let s :=
        fold_left (loopIteration points config)
          (seq 0 (List.length points)) initialLoopState in
      let accumulator := finalizeOpenIdle points config s in
      let averageSpeedKmh :=
        safeDivide0 (MetricsAccumulator.totalDistanceKm accumulator)
          (MetricsAccumulator.totalMovingTimeMinutes accumulator / 60) in
      {| BaseVehicleMetrics.vehicleId := vehicleId;
         BaseVehicleMetrics.periodStart := startTime;
         BaseVehicleMetrics.periodEnd := endTime;
         BaseVehicleMetrics.totalDistanceKm :=
           MetricsAccumulator.totalDistanceKm accumulator;
         BaseVehicleMetrics.totalMovingTimeMinutes :=
           MetricsAccumulator.totalMovingTimeMinutes accumulator;
         BaseVehicleMetrics.totalIdleTimeMinutes :=
           MetricsAccumulator.totalIdleTimeMinutes accumulator;
         BaseVehicleMetrics.totalTimeMinutes := totalTimeMinutes;
         BaseVehicleMetrics.averageSpeedKmh := averageSpeedKmh;
         BaseVehicleMetrics.maxSpeedKmh :=
           MetricsAccumulator.maxSpeedKmh accumulator;
         BaseVehicleMetrics.numberOfStops :=
           MetricsAccumulator.numberOfStops accumulator;
         BaseVehicleMetrics.longIdleEvents :=
           MetricsAccumulator.longIdleEvents accumulator;
         BaseVehicleMetrics.totalPointsAnalyzed :=
           ofNat (List.length points) |}
  end.

(** *** The words of the specification *)

(** The summed duration of the segments that start at a point with the
    ignition off, accumulated in track order. *)
Fixpoint offTimeFrom (config : AnalyticsConfig.t) (prev : GPSTrackPoint.t)
  (rest : list GPSTrackPoint.t) (total : num) : num :=
  match rest with
  | [] => total
  | current :: rest' =>
      offTimeFrom config current rest'
        (match classifyPointState prev config with
         | off => total + getPointDurationMinutes prev current
         | _ => total
         end)
  end.

Definition droppedOffTime (config : AnalyticsConfig.t)
  (points : list GPSTrackPoint.t) : num :=
  match points with
  | [] => 0
  | first :: rest => offTimeFrom config first rest 0
  end.

(** The span from the first point's instant to the last point's. *)
Definition totalSpan (points : list GPSTrackPoint.t) : num :=
  match points with
  | [] => 0
  | first :: rest =>
      getDurationMinutes (GPSTrackPoint.timestamp first)
        (GPSTrackPoint.timestamp (last rest first))
  end.

(** The minutes of a list of idle events, summed in order. *)
Definition eventMinutes (events : list IdleEvent.t) : num :=
  fold_left (fun total e => total + IdleEvent.durationMinutes e) events 0.

End Host.

(** ** The efficiency scorer *)

(** [calculateIdleScore(metrics)]. *)
Definition calculateIdleScore (metrics : BaseVehicleMetrics.t) : num :=
  let operationalTime :=
    (BaseVehicleMetrics.totalIdleTimeMinutes metrics
     + BaseVehicleMetrics.totalMovingTimeMinutes metrics) in
  let idleRatio :=
    safeDivide0 (BaseVehicleMetrics.totalIdleTimeMinutes metrics)
                operationalTime in
  let score := ((1 - idleRatio) * 100) in
  clamp score 0 100.

(** [calculateUtilizationScore(metrics)]. *)
Definition calculateUtilizationScore (metrics : BaseVehicleMetrics.t) : num :=
  let utilizationRate :=
    safeDivide0 (BaseVehicleMetrics.totalMovingTimeMinutes metrics)
                (BaseVehicleMetrics.totalTimeMinutes metrics) in
  let score := (utilizationRate * 100) in
  clamp score 0 100.

(** [calculateDistanceScore(metrics, expectedKmPerHour)]. *)
Definition calculateDistanceScore (metrics : BaseVehicleMetrics.t)
  (expectedKmPerHour : num) : num :=
  let totalHours := (BaseVehicleMetrics.totalTimeMinutes metrics / 60) in
  let kmPerHour :=
    safeDivide0 (BaseVehicleMetrics.totalDistanceKm metrics) totalHours in
  let efficiencyRatio := safeDivide0 kmPerHour expectedKmPerHour in
  let score := (efficiencyRatio * 100) in
  clamp score 0 100.

(** [calculateStopScore(metrics, stopPenaltyFactor)]. *)
Definition calculateStopScore (metrics : BaseVehicleMetrics.t)
  (stopPenaltyFactor : num) : num :=
  let stopsPerKm :=
    safeDivide0 (BaseVehicleMetrics.numberOfStops metrics)
      (Math_max 1 (BaseVehicleMetrics.totalDistanceKm metrics)) in
  let score := (100 - stopsPerKm * stopPenaltyFactor) in
  clamp score 0 100.

(** [interface EfficiencyComponents]. *)
Module EfficiencyComponents.
Record t : Type := mk {
  idleScore : num;
  utilizationScore : num;
  distanceScore : num;
  stopScore : num
}.
End EfficiencyComponents.

(** [computeEfficiencyComponents(metrics, config)]. *)
Definition computeEfficiencyComponents (metrics : BaseVehicleMetrics.t)
  (config : AnalyticsConfig.t) : EfficiencyComponents.t :=
  {| EfficiencyComponents.idleScore := calculateIdleScore metrics;
     EfficiencyComponents.utilizationScore := calculateUtilizationScore metrics;
     EfficiencyComponents.distanceScore :=
       calculateDistanceScore metrics (AnalyticsConfig.expectedKmPerHour config);
     EfficiencyComponents.stopScore :=
       calculateStopScore metrics (AnalyticsConfig.stopPenaltyFactor config) |}.

(** [calculateEfficiencyScore(metrics, weights, config)]. *)
Definition calculateEfficiencyScore (metrics : BaseVehicleMetrics.t)
  (weights : EfficiencyWeights.t) (config : AnalyticsConfig.t) : num :=
  if (BaseVehicleMetrics.totalTimeMinutes metrics === 0) then 0
  else
    let components := computeEfficiencyComponents metrics config in
    let weightedScore :=
      (EfficiencyComponents.idleScore components
         * EfficiencyWeights.idleRatio weights
       + EfficiencyComponents.utilizationScore components
         * EfficiencyWeights.utilizationRate weights
       + EfficiencyComponents.distanceScore components
         * EfficiencyWeights.distanceEfficiency weights
       + EfficiencyComponents.stopScore components
         * EfficiencyWeights.stopEfficiency weights) in
    clamp weightedScore 0 100.

(** ** The cost model *)

(** [calculateInsuranceMultiplier(riskScore, financials)]. *)
Definition calculateInsuranceMultiplier (riskScore : num)
  (financials : FinancialConstants.t) : num :=
  let clampedScore := Math_max 0 (Math_min 100 riskScore) in
  let excessMultiplier :=
    (FinancialConstants.speedingInsuranceMultiplier financials - 1) in
  let riskFraction := (clampedScore / 100) in
  let multiplier := (1 + riskFraction * excessMultiplier) in
  multiplier.

(** [calculateSpeedingRiskCost(riskScore, financials)]. *)
Definition calculateSpeedingRiskCost (riskScore : num)
  (financials : FinancialConstants.t) : num :=
  if (riskScore <=? 0) then 0
  else
    let multiplier := calculateInsuranceMultiplier riskScore financials in
    let additionalPremium :=
      (FinancialConstants.baseInsuranceCostPerVehicle financials
       * (multiplier - 1)) in
    additionalPremium.

(** ** Sample inputs *)

(** The instants of a few timestamps of 15 January 2024, as the host's
    parser gives them; every other string is an invalid date here. *)
Definition sampleDate_getTime (s : string) : option Z :=
  if String.eqb s "2024-01-15T09:00:00Z" then Some 1705309200000%Z
  else if String.eqb s "2024-01-15T09:00:01Z" then Some 1705309201000%Z
  else if String.eqb s "2024-01-15T09:00:06Z" then Some 1705309206000%Z
  else if String.eqb s "2024-01-15T09:10:01Z" then Some 1705309801000%Z
  else if String.eqb s "2024-01-15T09:11:00Z" then Some 1705309860000%Z
  else if String.eqb s "2024-01-15T09:15:07Z" then Some 1705310107000%Z
  else if String.eqb s "2024-01-15T09:31:20Z" then Some 1705311080000%Z
  else if String.eqb s "2024-01-15T10:00:00Z" then Some 1705312800000%Z
  else None.

Definition samplePoint (speed : num) (timestamp : string) (ignitionOn : bool)
  : GPSTrackPoint.t :=
  {| GPSTrackPoint.latitude := 40.7128;
     GPSTrackPoint.longitude := -74.006;
     GPSTrackPoint.speed := speed;
     GPSTrackPoint.timestamp := timestamp;
     GPSTrackPoint.ignitionOn := ignitionOn |}.

Definition sampleTrack (points : list GPSTrackPoint.t) : GPSTrackResponse.t :=
  {| GPSTrackResponse.vehicleId := "vehicle-001";
     GPSTrackResponse.startTime := "2024-01-15T09:00:00Z";
     GPSTrackResponse.endTime := "2024-01-15T10:00:00Z";
     GPSTrackResponse.points := points |}.

(** Six seconds of driving, sampled after one second and after six. *)
Definition sixSecondDrive : list GPSTrackPoint.t :=
  [ samplePoint 60 "2024-01-15T09:00:00Z" true;
    samplePoint 60 "2024-01-15T09:00:01Z" true;
    samplePoint 60 "2024-01-15T09:00:06Z" true ].

(** Two long idle runs: ten minutes and a second, then, after a minute
    of driving, four minutes and seven seconds followed by sixteen
    minutes and thirteen seconds. *)
Definition twoIdleRuns : list GPSTrackPoint.t :=
  [ samplePoint 0 "2024-01-15T09:00:00Z" true;
    samplePoint 60 "2024-01-15T09:10:01Z" true;
    samplePoint 0 "2024-01-15T09:11:00Z" true;
    samplePoint 0 "2024-01-15T09:15:07Z" true;
    samplePoint 60 "2024-01-15T09:31:20Z" true ].

(** An hour of driving without a stop, and weights of opposite signs
    near the largest finite number. *)
Definition fullHourMetrics : BaseVehicleMetrics.t :=
  {| BaseVehicleMetrics.vehicleId := "vehicle-001";
     BaseVehicleMetrics.periodStart := "2024-01-15T09:00:00Z";
     BaseVehicleMetrics.periodEnd := "2024-01-15T10:00:00Z";
     BaseVehicleMetrics.totalDistanceKm := 35;
     BaseVehicleMetrics.totalMovingTimeMinutes := 60;
     BaseVehicleMetrics.totalIdleTimeMinutes := 0;
     BaseVehicleMetrics.totalTimeMinutes := 60;
     BaseVehicleMetrics.averageSpeedKmh := 35;
     BaseVehicleMetrics.maxSpeedKmh := 60;
     BaseVehicleMetrics.numberOfStops := 0;
     BaseVehicleMetrics.longIdleEvents := [];
     BaseVehicleMetrics.totalPointsAnalyzed := 61 |}.

Definition hugeWeights : EfficiencyWeights.t :=
  {| EfficiencyWeights.idleRatio := 1e308;
     EfficiencyWeights.utilizationRate := -1e308;
     EfficiencyWeights.distanceEfficiency := 0.2;
     EfficiencyWeights.stopEfficiency := 0.1 |}.

(** *** What the engine computes on a track

    The times of a track do not depend on the mathematical library: the
    statements hold whatever it is. *)

(** The three attributed times of a track and the span from its first
    to its last point. *)
Definition attributedTimes (track : GPSTrackResponse.t)
  (config : AnalyticsConfig.t) (movingTime idleTime offTime span : num) : Prop :=
  forall libm : Libm,
    let m := computeBaseMetrics sampleDate_getTime libm track config in
    BaseVehicleMetrics.totalMovingTimeMinutes m = movingTime /\
    BaseVehicleMetrics.totalIdleTimeMinutes m = idleTime /\
    droppedOffTime sampleDate_getTime config (GPSTrackResponse.points track)
    = offTime /\
    totalSpan sampleDate_getTime (GPSTrackResponse.points track) = span.

(** The total idle time of a track and the minutes of its idle events. *)
Definition idleTimes (track : GPSTrackResponse.t)
  (config : AnalyticsConfig.t) (idleTime : num) (events : list num) : Prop :=
  forall libm : Libm,
    let m := computeBaseMetrics sampleDate_getTime libm track config in
    BaseVehicleMetrics.totalIdleTimeMinutes m = idleTime /\
    map IdleEvent.durationMinutes (BaseVehicleMetrics.longIdleEvents m)
    = events.

End Double.

(* ================================================================== *)
(** * Properties *)
(* ================================================================== *)

(** ** Deciding comparisons of reals inside [num] computations *)

Lemma Rltb_true (a b : R) : a < b -> Rltb a b = true.
Proof. intros H; unfold Rltb; destruct (Rlt_dec a b); [reflexivity | contradiction]. Qed.

Lemma Rltb_false (a b : R) : b <= a -> Rltb a b = false.
Proof. intros H; unfold Rltb; destruct (Rlt_dec a b); [lra | reflexivity]. Qed.

Lemma Rleb_true (a b : R) : a <= b -> Rleb a b = true.
Proof. intros H; unfold Rleb; destruct (Rle_dec a b); [reflexivity | contradiction]. Qed.

Lemma Rleb_false (a b : R) : b < a -> Rleb a b = false.
Proof. intros H; unfold Rleb; destruct (Rle_dec a b); [lra | reflexivity]. Qed.

Lemma Reqb_true (a b : R) : a = b -> Reqb a b = true.
Proof. intros H; unfold Reqb; destruct (Req_dec_T a b); [reflexivity | contradiction]. Qed.

Lemma Reqb_false (a b : R) : a <> b -> Reqb a b = false.
Proof. intros H; unfold Reqb; destruct (Req_dec_T a b); [contradiction | reflexivity]. Qed.

Lemma Rltb_iff (a b : R) : Rltb a b = true <-> a < b.
Proof. unfold Rltb; destruct (Rlt_dec a b); split; intros; try lra; try discriminate; auto. Qed.

Lemma Rleb_iff (a b : R) : Rleb a b = true <-> a <= b.
Proof. unfold Rleb; destruct (Rle_dec a b); split; intros; try lra; try discriminate; auto. Qed.

Lemma Reqb_iff (a b : R) : Reqb a b = true <-> a = b.
Proof. unfold Reqb; destruct (Req_dec_T a b); split; intros; try lra; try discriminate; auto. Qed.

(** Split on every comparison of reals in sight and close the branches
    that contradict linear arithmetic. *)
Ltac Rcases :=
  unfold Rltb, Rleb, Reqb in *;
  repeat match goal with
  | |- context [Rlt_dec ?a ?b] => destruct (Rlt_dec a b)
  | |- context [Rle_dec ?a ?b] => destruct (Rle_dec a b)
  | |- context [Req_dec_T ?a ?b] => destruct (Req_dec_T a b)
  | H : context [Rlt_dec ?a ?b] |- _ => destruct (Rlt_dec a b)
  | H : context [Rle_dec ?a ?b] |- _ => destruct (Rle_dec a b)
  | H : context [Req_dec_T ?a ?b] |- _ => destruct (Req_dec_T a b)
  end;
  simpl in *; try discriminate; try lra.

(** Evaluate a closed [num] computation: rewrite each comparison of
    numerals with its truth value. *)
Ltac Reval :=
  repeat progress
    (simpl;
     unfold JS.ge, JS.le, JS.gt, JS.strictNe, JS.max, JS.min, JS.lt,
       JS.strictEq;
     simpl;
     repeat first
       [ rewrite Rltb_true by lra | rewrite Rltb_false by lra
       | rewrite Rleb_true by lra | rewrite Rleb_false by lra
       | rewrite Reqb_true by lra | rewrite Reqb_false by lra ]).

Lemma inRange_Fin (r : R) : 0 <= r <= 100 -> inRange0to100 (Fin r).
Proof. intros H; exists r; split; [reflexivity | exact H]. Qed.

Lemma inRange_not_NaN : ~ inRange0to100 NaN.
Proof. intros [r [H _]]; discriminate H. Qed.

(** ** safeDivide and clamp *)

Lemma safeDivide_finite (n d f : num) :
  isFinite f = true -> isFinite (safeDivide n d f) = true.
Proof.
  intros Hf; unfold safeDivide.
  destruct ((d === Fin 0)%js || negb (isFinite d)); [exact Hf |].
  cbv zeta. destruct (isFinite (n / d)%js) eqn:E; simpl; [exact E | exact Hf].
Qed.

Lemma safeDivide_Fin (n d f : num) :
  isFinite f = true -> exists q : R, safeDivide n d f = Fin q.
Proof.
  intros Hf. pose proof (safeDivide_finite n d f Hf) as H.
  destruct (safeDivide n d f) as [q | | |]; try discriminate H.
  exists q; reflexivity.
Qed.

Lemma clamp_range (x : num) :
  isNaN x = false -> inRange0to100 (clamp x (Fin 0) (Fin 100)).
Proof.
  intros Hx; unfold clamp.
  destruct x as [r | | |]; simpl in *; try discriminate.
  - unfold JS.max, JS.min, JS.lt. 
    destruct (Rltb r 0) eqn:E1.
    + apply Rltb_iff in E1. rewrite Rltb_false by lra.
      apply inRange_Fin; lra.
    + destruct (Rltb 100 r) eqn:E2.
      * apply inRange_Fin; lra.
      * apply inRange_Fin. Rcases.
  - apply inRange_Fin; lra.
  - rewrite Rltb_false by lra. apply inRange_Fin; lra.
Qed.

Lemma clamp_Fin_range (r : R) : inRange0to100 (clamp (Fin r) (Fin 0) (Fin 100)).
Proof. apply clamp_range; reflexivity. Qed.

(** C7 -- [safeDivide] answers the fallback when the denominator is zero
    or not finite, or when the quotient is not finite (as when it
    overflows); otherwise it answers the quotient; with a finite fallback
    the answer is always finite (never NaN, never an infinity). *)
Theorem safeDivide_contract (numerator denominator fallback : num) :
  ((denominator === Fin 0)%js = true \/ isFinite denominator = false \/
   isFinite (numerator / denominator)%js = false ->
   safeDivide numerator denominator fallback = fallback) /\
  ((denominator === Fin 0)%js = false -> isFinite denominator = true ->
   isFinite (numerator / denominator)%js = true ->
   safeDivide numerator denominator fallback = (numerator / denominator)%js) /\
  (isFinite fallback = true ->
   isFinite (safeDivide numerator denominator fallback) = true /\
   isNaN (safeDivide numerator denominator fallback) = false).
Proof.
  repeat split.
  - intros [H | [H | H]]; unfold safeDivide.
    + rewrite H; reflexivity.
    + rewrite H, orb_true_r; reflexivity.
    + destruct ((denominator === Fin 0)%js || negb (isFinite denominator));
        [reflexivity |]. cbv zeta. rewrite H; reflexivity.
  - intros H0 Hd Hq; unfold safeDivide. rewrite H0, Hd, Hq; reflexivity.
  - apply safeDivide_finite; assumption.
  - pose proof (safeDivide_finite numerator denominator fallback H) as Hf.
    destruct (safeDivide numerator denominator fallback); simpl in *;
      try reflexivity; discriminate.
Qed.

Lemma safeDivide_contract_witness :
  safeDivide (Fin 1) (Fin 0) (Fin 7) = Fin 7 /\
  safeDivide PInf (Fin 2) (Fin 7) = Fin 7 /\
  safeDivide (Fin 3) (Fin 2) (Fin 7) = (Fin 3 / Fin 2)%js /\
  isFinite (safeDivide NaN NInf (Fin 7)) = true.
Proof.
  split; [| split; [| split]].
  - apply (proj1 (safeDivide_contract (Fin 1) (Fin 0) (Fin 7))).
    left; simpl; apply Reqb_true; reflexivity.
  - apply (proj1 (safeDivide_contract PInf (Fin 2) (Fin 7))).
    right; right; simpl. rewrite Rleb_true by lra. reflexivity.
  - apply (proj1 (proj2 (safeDivide_contract (Fin 3) (Fin 2) (Fin 7)))).
    + simpl. apply Reqb_false. lra.
    + reflexivity.
    + simpl. rewrite Reqb_false by lra. reflexivity.
  - apply (proj2 (proj2 (safeDivide_contract NaN NInf (Fin 7)))).
    reflexivity.
Defined.

(** ** The cost model *)

Lemma max_min_is_clamp (r : num) :
  JS.max (Fin 0) (JS.min (Fin 100) r) = clamp r (Fin 0) (Fin 100).
Proof.
  unfold clamp. destruct r as [r | | |]; simpl; try reflexivity.
  - unfold JS.max, JS.min, JS.lt.
    destruct (Rltb r 100) eqn:E1; destruct (Rltb r 0) eqn:E2;
      try apply Rltb_iff in E1; try apply Rltb_iff in E2.
    + rewrite (Rltb_false 0 r) by lra. rewrite (Rltb_false 100 0) by lra.
      reflexivity.
    + destruct (Rltb 0 r) eqn:E3; [| Rcases; f_equal; lra].
      rewrite (Rltb_false 100 r) by lra. reflexivity.
    + Rcases.
    + rewrite (Rltb_true 0 100) by lra.
      destruct (Rltb 100 r) eqn:E3; [reflexivity |]. Rcases; f_equal; lra.
  - Reval. reflexivity.
  - Reval. reflexivity.
Qed.

(** C6, as amended -- the insurance multiplier is
    [1 + (clamp(r, 0, 100) / 100) * (speedingInsuranceMultiplier - 1)];
    the speeding risk cost is [baseInsuranceCostPerVehicle * (multiplier - 1)]
    when [r > 0] and [0] when [r <= 0]. *)
Theorem insurance_multiplier_and_risk_cost (riskScore : num)
  (financials : FinancialConstants.t) :
  calculateInsuranceMultiplier riskScore financials =
    (Fin 1 + (clamp riskScore (Fin 0) (Fin 100) / Fin 100)
             * (FinancialConstants.speedingInsuranceMultiplier financials
                - Fin 1))%js /\
  ((riskScore >? Fin 0)%js = true ->
   calculateSpeedingRiskCost riskScore financials =
     (FinancialConstants.baseInsuranceCostPerVehicle financials
      * (calculateInsuranceMultiplier riskScore financials - Fin 1))%js) /\
  ((riskScore <=? Fin 0)%js = true ->
   calculateSpeedingRiskCost riskScore financials = Fin 0).
Proof.
  split; [| split].
  - unfold calculateInsuranceMultiplier. rewrite max_min_is_clamp. reflexivity.
  - intros Hpos. unfold calculateSpeedingRiskCost.
    assert (Hle : (riskScore <=? Fin 0)%js = false).
    { destruct riskScore as [r | | |]; simpl in *; try discriminate;
        try reflexivity.
      unfold JS.gt, JS.le, JS.lt, JS.strictEq in *.
      apply Rltb_iff in Hpos.
      rewrite Rltb_false, Reqb_false by lra. reflexivity. }
    rewrite Hle. reflexivity.
  - intros Hle. unfold calculateSpeedingRiskCost. rewrite Hle. reflexivity.
Qed.

Lemma insurance_multiplier_and_risk_cost_witness :
  calculateSpeedingRiskCost (Fin 80) FINANCIAL_DEFAULTS =
    (Fin 2400 * (calculateInsuranceMultiplier (Fin 80) FINANCIAL_DEFAULTS
                 - Fin 1))%js /\
  calculateSpeedingRiskCost (Fin (-5)) FINANCIAL_DEFAULTS = Fin 0.
Proof.
  split.
  - apply (proj1 (proj2
      (insurance_multiplier_and_risk_cost (Fin 80) FINANCIAL_DEFAULTS))).
    simpl. apply Rltb_true. lra.
  - apply (proj2 (proj2
      (insurance_multiplier_and_risk_cost (Fin (-5)) FINANCIAL_DEFAULTS))).
    unfold JS.le; simpl. rewrite Rltb_true by lra. reflexivity.
Defined.

(** ** Score bounds *)

Lemma mul_Fin (a b : R) : (Fin a * Fin b)%js = Fin (a * b).
Proof. reflexivity. Qed.

Lemma add_Fin (a b : R) : (Fin a + Fin b)%js = Fin (a + b).
Proof. reflexivity. Qed.

Lemma sub_Fin (a b : R) : (Fin a - Fin b)%js = Fin (a + - b).
Proof. reflexivity. Qed.

Lemma inRange_is_Fin (x : num) : inRange0to100 x -> exists r, x = Fin r.
Proof. intros [r [H _]]; exists r; exact H. Qed.

Lemma calculateIdleScore_range (m : BaseVehicleMetrics.t) :
  inRange0to100 (calculateIdleScore m).
Proof.
  unfold calculateIdleScore, safeDivide0; cbv zeta.
  destruct (safeDivide_Fin (BaseVehicleMetrics.totalIdleTimeMinutes m)
              (BaseVehicleMetrics.totalIdleTimeMinutes m
               + BaseVehicleMetrics.totalMovingTimeMinutes m)%js (Fin 0)
              eq_refl) as [q ->].
  apply clamp_Fin_range.
Qed.

Lemma calculateUtilizationScore_range (m : BaseVehicleMetrics.t) :
  inRange0to100 (calculateUtilizationScore m).
Proof.
  unfold calculateUtilizationScore, safeDivide0; cbv zeta.
  destruct (safeDivide_Fin (BaseVehicleMetrics.totalMovingTimeMinutes m)
              (BaseVehicleMetrics.totalTimeMinutes m) (Fin 0) eq_refl)
    as [q ->].
  apply clamp_Fin_range.
Qed.

Lemma calculateDistanceScore_range (m : BaseVehicleMetrics.t) (e : num) :
  inRange0to100 (calculateDistanceScore m e).
Proof.
  unfold calculateDistanceScore, safeDivide0; cbv zeta.
  match goal with
  | |- context [safeDivide (safeDivide ?a ?b ?c) e (Fin 0)] =>
      destruct (safeDivide_Fin (safeDivide a b c) e (Fin 0) eq_refl) as [q ->]
  end.
  apply clamp_Fin_range.
Qed.

Lemma calculateStopScore_range (m : BaseVehicleMetrics.t) (penalty : num) :
  isFinite penalty = true -> inRange0to100 (calculateStopScore m penalty).
Proof.
  intros Hp. unfold calculateStopScore, safeDivide0; cbv zeta.
  match goal with
  | |- context [safeDivide ?a ?b (Fin 0)] =>
      destruct (safeDivide_Fin a b (Fin 0) eq_refl) as [q ->]
  end.
  destruct penalty as [p | | |]; try discriminate Hp.
  apply clamp_Fin_range.
Qed.

(** A weighted sum of four finite components with finite weights, once
    clamped, is a score. *)
Lemma weighted_sum_range (c1 c2 c3 c4 w1 w2 w3 w4 : num) :
  inRange0to100 c1 -> inRange0to100 c2 -> inRange0to100 c3 ->
  inRange0to100 c4 ->
  isFinite w1 = true -> isFinite w2 = true -> isFinite w3 = true ->
  isFinite w4 = true ->
  inRange0to100
    (clamp (c1 * w1 + c2 * w2 + c3 * w3 + c4 * w4)%js (Fin 0) (Fin 100)).
Proof.
  intros [r1 [-> _]] [r2 [-> _]] [r3 [-> _]] [r4 [-> _]] H1 H2 H3 H4.
  destruct w1; try discriminate H1. destruct w2; try discriminate H2.
  destruct w3; try discriminate H3. destruct w4; try discriminate H4.
  apply clamp_Fin_range.
Qed.

Lemma inRange_zero : inRange0to100 (Fin 0).
Proof. apply inRange_Fin; lra. Qed.

Lemma calculateSpeedingScore_range (m : DerivedVehicleMetrics.t) :
  isNaN (DerivedVehicleMetrics.aggressiveDrivingRatio m) = false ->
  inRange0to100 (calculateSpeedingScore m).
Proof.
  intros H. unfold calculateSpeedingScore; cbv zeta.
  apply clamp_range.
  destruct (DerivedVehicleMetrics.aggressiveDrivingRatio m); simpl in *;
    try discriminate; try reflexivity; Reval; reflexivity.
Qed.

Lemma calculateLongIdleFrequencyScore_range (m : DerivedVehicleMetrics.t)
  (factor : num) :
  isFinite factor = true ->
  inRange0to100 (calculateLongIdleFrequencyScore m factor).
Proof.
  intros Hf. unfold calculateLongIdleFrequencyScore, safeDivide0; cbv zeta.
  match goal with
  | |- context [safeDivide ?a ?b (Fin 0)] =>
      destruct (safeDivide_Fin a b (Fin 0) eq_refl) as [q ->]
  end.
  destruct factor; try discriminate Hf.
  apply clamp_Fin_range.
Qed.

Lemma calculateMaxSpeedSeverityScore_range (m : DerivedVehicleMetrics.t)
  (threshold : num) :
  inRange0to100 (calculateMaxSpeedSeverityScore m threshold).
Proof.
  unfold calculateMaxSpeedSeverityScore, safeDivide0; cbv zeta.
  match goal with
  | |- context [safeDivide ?a ?b (Fin 0)] =>
      destruct (safeDivide_Fin a b (Fin 0) eq_refl) as [q ->]
  end.
  apply clamp_Fin_range.
Qed.

Lemma calculateErraticPatternScore_range (m : DerivedVehicleMetrics.t) :
  inRange0to100 (calculateErraticPatternScore m).
Proof.
  unfold calculateErraticPatternScore; cbv zeta.
  destruct (_ === Fin 0)%js.
  - destruct (_ >? Fin 0)%js; apply inRange_Fin; lra.
  - match goal with
    | |- context [safeDivide ?a ?b (Fin 1)] =>
        destruct (safeDivide_Fin a b (Fin 1) eq_refl) as [q ->]
    end.
    apply clamp_Fin_range.
Qed.

Lemma calculateEfficiencyScore_range (m : BaseVehicleMetrics.t)
  (w : EfficiencyWeights.t) (config : AnalyticsConfig.t) :
  finiteEfficiencyWeights w ->
  isFinite (AnalyticsConfig.stopPenaltyFactor config) = true ->
  inRange0to100 (calculateEfficiencyScore m w config).
Proof.
  intros (H1 & H2 & H3 & H4) Hp. unfold calculateEfficiencyScore.
  destruct (_ === Fin 0)%js; [apply inRange_zero |].
  cbv zeta. unfold computeEfficiencyComponents; simpl.
  apply weighted_sum_range; auto using calculateIdleScore_range,
    calculateUtilizationScore_range, calculateDistanceScore_range,
    calculateStopScore_range.
Qed.

Lemma calculateRiskScore_range (m : DerivedVehicleMetrics.t)
  (w : RiskWeights.t) (config : AnalyticsConfig.t) :
  finiteRiskWeights w ->
  isFinite (AnalyticsConfig.idleRiskFactor config) = true ->
  isNaN (DerivedVehicleMetrics.aggressiveDrivingRatio m) = false ->
  inRange0to100 (calculateRiskScore m w config).
Proof.
  intros (H1 & H2 & H3 & H4) Hf Hr. unfold calculateRiskScore.
  destruct (_ === Fin 0)%js; [apply inRange_zero |].
  cbv zeta. unfold computeRiskComponents; simpl.
  apply weighted_sum_range; auto using calculateSpeedingScore_range,
    calculateLongIdleFrequencyScore_range,
    calculateMaxSpeedSeverityScore_range, calculateErraticPatternScore_range.
Qed.

Lemma withinMagnitude_finite (bound : R) (x : num) :
  withinMagnitude bound x -> isFinite x = true.
Proof. intros (r & -> & _). reflexivity. Qed.

Lemma one_le_pow10 (n : nat) : 1 <= 10 ^ n.
Proof. apply pow_R1_Rle. lra. Qed.

Lemma withinMagnitude_of_unit (r : R) :
  -1 <= r <= 1 -> withinMagnitude (10 ^ 300) (Fin r).
Proof.
  intros Hr. exists r. split; [reflexivity |].
  assert (H : 1 <= 10 ^ 300) by (apply pow_R1_Rle; lra).
  apply Rabs_le. lra.
Qed.

(** C2, as amended -- for every metrics record (finite or not, except a
    NaN [aggressiveDrivingRatio]) and for all weights that are finite
    numbers of magnitude at most [10^300], of either sign and summing to
    1 or not, and finite [stopPenaltyFactor] and [idleRiskFactor], the
    efficiency score and the risk score lie in [[0, 100]]. *)
Theorem scores_within_0_100 (metrics : BaseVehicleMetrics.t)
  (derived : DerivedVehicleMetrics.t)
  (efficiencyWeights : EfficiencyWeights.t) (riskWeights : RiskWeights.t)
  (config : AnalyticsConfig.t) :
  moderateEfficiencyWeights efficiencyWeights ->
  moderateRiskWeights riskWeights ->
  isFinite (AnalyticsConfig.stopPenaltyFactor config) = true ->
  isFinite (AnalyticsConfig.idleRiskFactor config) = true ->
  isNaN (DerivedVehicleMetrics.aggressiveDrivingRatio derived) = false ->
  inRange0to100 (calculateEfficiencyScore metrics efficiencyWeights config) /\
  inRange0to100 (calculateRiskScore derived riskWeights config).
Proof.
  intros (He1 & He2 & He3 & He4) (Hr1 & Hr2 & Hr3 & Hr4) Hp Hf Ha. split.
  - apply calculateEfficiencyScore_range; [| exact Hp].
    repeat split; eapply withinMagnitude_finite; eassumption.
  - apply calculateRiskScore_range; [| exact Hf | exact Ha].
    repeat split; eapply withinMagnitude_finite; eassumption.
Qed.

Lemma scores_within_0_100_witness :
  inRange0to100
    (calculateEfficiencyScore sampleBaseMetrics EFFICIENCY_WEIGHTS
       ANALYTICS_CONFIG) /\
  inRange0to100
    (calculateRiskScore sampleDerivedMetrics RISK_WEIGHTS ANALYTICS_CONFIG).
Proof.
  apply (scores_within_0_100 sampleBaseMetrics sampleDerivedMetrics
           EFFICIENCY_WEIGHTS RISK_WEIGHTS ANALYTICS_CONFIG).
  - repeat split; apply withinMagnitude_of_unit; lra.
  - repeat split; apply withinMagnitude_of_unit; lra.
  - reflexivity.
  - reflexivity.
  - reflexivity.
Defined.

(** With a NaN weight the efficiency score is NaN: the final clamp,
    [Math.min(Math.max(NaN, 0), 100)], lets it through. *)
Lemma efficiency_score_with_NaN_weight :
  calculateEfficiencyScore sampleBaseMetrics nanEfficiencyWeights
    ANALYTICS_CONFIG = NaN /\
  ~ inRange0to100
      (calculateEfficiencyScore sampleBaseMetrics nanEfficiencyWeights
         ANALYTICS_CONFIG).
Proof.
  assert (E : calculateEfficiencyScore sampleBaseMetrics nanEfficiencyWeights
                ANALYTICS_CONFIG = NaN).
  { unfold calculateEfficiencyScore.
    replace (BaseVehicleMetrics.totalTimeMinutes sampleBaseMetrics === Fin 0)%js
      with false by (simpl; rewrite Reqb_false by lra; reflexivity).
    cbv zeta. unfold computeEfficiencyComponents; simpl.
    destruct (inRange_is_Fin _ (calculateIdleScore_range sampleBaseMetrics))
      as [r ->].
    reflexivity. }
  split; [exact E |]. rewrite E. exact inRange_not_NaN.
Qed.

(* ================================================================== *)
(** ** The base metrics engine *)
(* ================================================================== *)

Section BaseMetricsProperties.

Variable Date_getTime : string -> option Z.

Local Abbreviation parse := (parseTimestamp Date_getTime).
Local Abbreviation duration := (getDurationMinutes Date_getTime).
Local Abbreviation pointDuration := (getPointDurationMinutes Date_getTime).
Local Abbreviation minutes := (segmentMinutes Date_getTime).
Local Abbreviation baseMetrics := (computeBaseMetrics Date_getTime).

(** *** Durations *)

Lemma div_by_60000 (r : R) :
  (Fin r / (Fin 1000 * Fin 60))%js = Fin (r / (1000 * 60)).
Proof. simpl. rewrite Reqb_false by lra. reflexivity. Qed.

(** Two parseable instants in order: the duration is their difference. *)
Lemma duration_parsed (startTime endTime : string) (a b : Z) :
  parse startTime = Some a -> parse endTime = Some b -> (a <= b)%Z ->
  duration startTime endTime = Fin (IZR (b - a) / (1000 * 60)).
Proof.
  intros Ha Hb Hab. unfold getDurationMinutes. rewrite Ha, Hb.
  unfold ofZ. rewrite sub_Fin.
  apply IZR_le in Hab.
  replace ((Fin (IZR b + - IZR a) <? Fin 0)%js) with false
    by (simpl; rewrite Rltb_false by lra; reflexivity).
  rewrite div_by_60000. rewrite minus_IZR. reflexivity.
Qed.

(** Reversed instants clamp to zero, as do unparseable ones. *)
Lemma duration_reversed (startTime endTime : string) (a b : Z) :
  parse startTime = Some a -> parse endTime = Some b -> (b < a)%Z ->
  duration startTime endTime = Fin 0.
Proof.
  intros Ha Hb Hab. unfold getDurationMinutes. rewrite Ha, Hb.
  unfold ofZ. rewrite sub_Fin. apply IZR_lt in Hab.
  simpl. rewrite Rltb_true by lra. reflexivity.
Qed.

Lemma duration_invalid (startTime endTime : string) :
  parse startTime = None \/ parse endTime = None ->
  duration startTime endTime = Fin 0.
Proof.
  intros [H | H]; unfold getDurationMinutes; rewrite H;
    [| destruct (parse startTime)]; reflexivity.
Qed.

(** A duration is always a finite, non-negative number of minutes. *)
Lemma duration_nonneg (startTime endTime : string) :
  exists r : R, duration startTime endTime = Fin r /\ 0 <= r.
Proof.
  destruct (parse startTime) as [a |] eqn:Ha;
    [| exists 0; split; [apply duration_invalid; auto | lra]].
  destruct (parse endTime) as [b |] eqn:Hb;
    [| exists 0; split; [apply duration_invalid; auto | lra]].
  destruct (Z_le_gt_dec a b) as [Hab | Hab].
  - exists (IZR (b - a) / (1000 * 60)). split.
    + apply duration_parsed; assumption.
    + assert (0 <= IZR (b - a)) by (apply IZR_le; lia).
      apply Rmult_le_pos; [assumption |].
      apply Rlt_le, Rinv_0_lt_compat; lra.
  - exists 0. split; [| lra].
    apply duration_reversed with (a := a) (b := b); auto; lia.
Qed.

(** *** The empty track *)

(** C8 -- on a track without points every accumulated field is zero
    (distance, moving and idle time, average and maximum speed, stops),
    there is no idle event, [totalPointsAnalyzed] is 0, and
    [totalTimeMinutes] is the duration of the declared bounds: their
    difference in minutes, or 0 when a bound is invalid or they are
    reversed. *)
Theorem empty_track_metrics (track : GPSTrackResponse.t)
  (config : AnalyticsConfig.t) :
  GPSTrackResponse.points track = [] ->
  let m := baseMetrics track config in
  BaseVehicleMetrics.totalDistanceKm m = Fin 0 /\
  BaseVehicleMetrics.totalMovingTimeMinutes m = Fin 0 /\
  BaseVehicleMetrics.totalIdleTimeMinutes m = Fin 0 /\
  BaseVehicleMetrics.averageSpeedKmh m = Fin 0 /\
  BaseVehicleMetrics.maxSpeedKmh m = Fin 0 /\
  BaseVehicleMetrics.numberOfStops m = Fin 0 /\
  BaseVehicleMetrics.longIdleEvents m = [] /\
  BaseVehicleMetrics.totalPointsAnalyzed m = Fin 0 /\
  BaseVehicleMetrics.totalTimeMinutes m =
    duration (GPSTrackResponse.startTime track)
             (GPSTrackResponse.endTime track) /\
  BaseVehicleMetrics.totalTimeMinutes m =
    match parse (GPSTrackResponse.startTime track),
          parse (GPSTrackResponse.endTime track) with
    | Some a, Some b => Fin (IZR (Z.max 0 (b - a)) / (1000 * 60))
    | _, _ => Fin 0
    end.
Proof.
  intros Hpoints m. subst m. unfold computeBaseMetrics. rewrite Hpoints.
  repeat split.
  simpl.
  destruct (parse (GPSTrackResponse.startTime track)) as [a |] eqn:Ha;
    [| apply duration_invalid; auto].
  destruct (parse (GPSTrackResponse.endTime track)) as [b |] eqn:Hb;
    [| apply duration_invalid; auto].
  destruct (Z_le_gt_dec a b) as [Hab | Hab].
  - rewrite Z.max_r by lia. apply duration_parsed; assumption.
  - rewrite Z.max_l by lia.
    replace (IZR 0 / (1000 * 60)) with 0 by (unfold Rdiv; lra).
    apply duration_reversed with (a := a) (b := b); auto; lia.
Qed.

(** *** The loop is the walk *)

Lemma lastPoint_snoc (pre : list GPSTrackPoint.t) (p : GPSTrackPoint.t) :
  lastPoint (pre ++ [p]) = Some p.
Proof. unfold lastPoint. rewrite rev_app_distr. reflexivity. Qed.

Lemma nth_error_last (pre rest : list GPSTrackPoint.t) :
  (if (0 <? List.length pre)%nat
   then nth_error (pre ++ rest) (List.length pre - 1) else None)
  = lastPoint pre.
Proof.
  destruct pre as [| p0 pre0] using rev_ind; [reflexivity |].
  rewrite lastPoint_snoc, length_app; simpl.
  replace (0 <? List.length pre0 + 1)%nat with true
    by (symmetry; apply Nat.ltb_lt; lia).
  replace (List.length pre0 + 1 - 1)%nat with (List.length pre0) by lia.
  rewrite <- app_assoc. rewrite nth_error_app2 by lia.
  rewrite Nat.sub_diag. reflexivity.
Qed.

Lemma loop_from (config : AnalyticsConfig.t) (rest : list GPSTrackPoint.t) :
  forall (pre : list GPSTrackPoint.t) (s : LoopState.t),
    fold_left (loopIteration Date_getTime (pre ++ rest) config)
      (seq (List.length pre) (List.length rest)) s
    = walkPoints Date_getTime config (lastPoint pre) rest s.
Proof.
  induction rest as [| c rest IH]; intros pre s; [reflexivity |].
  simpl. unfold loopIteration at 2.
  rewrite nth_error_app2 by lia. rewrite Nat.sub_diag. simpl.
  rewrite nth_error_last.
  specialize (IH (pre ++ [c])).
  rewrite <- app_assoc, length_app, lastPoint_snoc in IH. simpl in IH.
  replace (List.length pre + 1)%nat with (S (List.length pre)) in IH by lia.
  apply IH.
Qed.

Lemma loop_is_walk (config : AnalyticsConfig.t) (points : list GPSTrackPoint.t)
  (s : LoopState.t) :
  fold_left (loopIteration Date_getTime points config)
    (seq 0 (List.length points)) s
  = walkPoints Date_getTime config None points s.
Proof. exact (loop_from config points [] s). Qed.

(** *** What one turn of the loop does to each total *)

Lemma processPoint_tracksState (config : AnalyticsConfig.t)
  (prev : option GPSTrackPoint.t) (c : GPSTrackPoint.t) (s : LoopState.t) :
  tracksState config (Some c) (processPoint Date_getTime config prev c s).
Proof.
  unfold tracksState, processPoint; cbv zeta.
  repeat match goal with
  | |- context [let '(_, _) := ?x in _] => destruct x
  end.
  reflexivity.
Qed.

Ltac crunch_step :=
  repeat match goal with
  | |- context [if ?c then _ else _] => destruct c eqn:?; simpl
  | |- context [match ?x with Some _ => _ | None => _ end] =>
      destruct x eqn:?; simpl
  end;
  try reflexivity; try congruence.

Lemma processPoint_moving (config : AnalyticsConfig.t)
  (prev : option GPSTrackPoint.t) (c : GPSTrackPoint.t) (s : LoopState.t) :
  tracksState config prev s ->
  MetricsAccumulator.totalMovingTimeMinutes
    (LoopState.accumulator (processPoint Date_getTime config prev c s))
  = fold_left JS.add
      (map minutes
         (segmentsInState config moving (segmentsFrom prev [c])))
      (MetricsAccumulator.totalMovingTimeMinutes (LoopState.accumulator s)).
Proof.
  unfold tracksState. intros Hs.
  unfold processPoint, processSegment, processIdleTransition,
    segmentsInState, segmentMinutes, isStopTransition, pushEvent; cbv zeta.
  rewrite Hs.
  destruct prev as [p |]; simpl;
    [destruct (classifyPointState p config) eqn:Ep |];
    destruct (classifyPointState c config) eqn:Ec; simpl;
    crunch_step.
Qed.

Lemma processPoint_idle (config : AnalyticsConfig.t)
  (prev : option GPSTrackPoint.t) (c : GPSTrackPoint.t) (s : LoopState.t) :
  tracksState config prev s ->
  MetricsAccumulator.totalIdleTimeMinutes
    (LoopState.accumulator (processPoint Date_getTime config prev c s))
  = fold_left JS.add
      (map minutes
         (segmentsInState config idle (segmentsFrom prev [c])))
      (MetricsAccumulator.totalIdleTimeMinutes (LoopState.accumulator s)).
Proof.
  unfold tracksState. intros Hs.
  unfold processPoint, processSegment, processIdleTransition,
    segmentsInState, segmentMinutes, isStopTransition, pushEvent; cbv zeta.
  rewrite Hs.
  destruct prev as [p |]; simpl;
    [destruct (classifyPointState p config) eqn:Ep |];
    destruct (classifyPointState c config) eqn:Ec; simpl;
    crunch_step.
Qed.

Lemma processPoint_stops (config : AnalyticsConfig.t)
  (prev : option GPSTrackPoint.t) (c : GPSTrackPoint.t) (s : LoopState.t) :
  tracksState config prev s ->
  MetricsAccumulator.numberOfStops
    (LoopState.accumulator (processPoint Date_getTime config prev c s))
  = fold_left (fun n _ => (n + Fin 1)%js)
      (filter (isStopPair config) (segmentsFrom prev [c]))
      (MetricsAccumulator.numberOfStops (LoopState.accumulator s)).
Proof.
  unfold tracksState. intros Hs.
  unfold processPoint, processSegment, processIdleTransition,
    isStopPair, isStopTransition, pushEvent; cbv zeta.
  rewrite Hs.
  destruct prev as [p |]; simpl;
    [destruct (classifyPointState p config) eqn:Ep |];
    destruct (classifyPointState c config) eqn:Ec; simpl;
    crunch_step.
Qed.

Lemma processPoint_distance (config : AnalyticsConfig.t)
  (prev : option GPSTrackPoint.t) (c : GPSTrackPoint.t) (s : LoopState.t) :
  tracksState config prev s ->
  MetricsAccumulator.totalDistanceKm
    (LoopState.accumulator (processPoint Date_getTime config prev c s))
  = fold_left JS.add
      (map segmentKm (segmentsInState config moving (segmentsFrom prev [c])))
      (MetricsAccumulator.totalDistanceKm (LoopState.accumulator s)).
Proof.
  unfold tracksState. intros Hs.
  unfold processPoint, processSegment, processIdleTransition,
    segmentsInState, segmentKm, calculateSegmentDistance, isStopTransition,
    pushEvent; cbv zeta.
  rewrite Hs.
  destruct prev as [p |]; simpl;
    [destruct (classifyPointState p config) eqn:Ep |];
    destruct (classifyPointState c config) eqn:Ec; simpl;
    crunch_step.
Qed.

(** *** The totals in closed form *)

Lemma segmentsFrom_cons (prev : option GPSTrackPoint.t) (c : GPSTrackPoint.t)
  (rest : list GPSTrackPoint.t) :
  segmentsFrom prev (c :: rest)
  = segmentsFrom prev [c] ++ segmentsFrom (Some c) rest.
Proof. destruct prev; reflexivity. Qed.

Lemma walk_totals (config : AnalyticsConfig.t) (rest : list GPSTrackPoint.t) :
  forall (prev : option GPSTrackPoint.t) (s : LoopState.t),
    tracksState config prev s ->
    let a := LoopState.accumulator s in
    let a' :=
      LoopState.accumulator (walkPoints Date_getTime config prev rest s) in
    MetricsAccumulator.totalMovingTimeMinutes a'
    = fold_left JS.add
        (map minutes (segmentsInState config moving (segmentsFrom prev rest)))
        (MetricsAccumulator.totalMovingTimeMinutes a) /\
    MetricsAccumulator.totalIdleTimeMinutes a'
    = fold_left JS.add
        (map minutes (segmentsInState config idle (segmentsFrom prev rest)))
        (MetricsAccumulator.totalIdleTimeMinutes a) /\
    MetricsAccumulator.numberOfStops a'
    = fold_left (fun n _ => (n + Fin 1)%js)
        (filter (isStopPair config) (segmentsFrom prev rest))
        (MetricsAccumulator.numberOfStops a).
Proof.
  induction rest as [| c rest IH]; intros prev s Hs; cbv zeta.
  - repeat split.
  - simpl walkPoints. rewrite segmentsFrom_cons.
    unfold segmentsInState in *.
    rewrite !filter_app, !map_app, !fold_left_app.
    destruct (IH (Some c) _ (processPoint_tracksState config prev c s))
      as (Hm & Hi & Hn).
    cbv zeta in Hm, Hi, Hn. rewrite Hm, Hi, Hn.
    rewrite (processPoint_moving config prev c s Hs).
    rewrite (processPoint_idle config prev c s Hs).
    rewrite (processPoint_stops config prev c s Hs).
    repeat split.
Qed.

Lemma pushEvent_totals (a : MetricsAccumulator.t) (e : option IdleEvent.t) :
  MetricsAccumulator.totalDistanceKm (pushEvent a e)
    = MetricsAccumulator.totalDistanceKm a /\
  MetricsAccumulator.totalMovingTimeMinutes (pushEvent a e)
    = MetricsAccumulator.totalMovingTimeMinutes a /\
  MetricsAccumulator.totalIdleTimeMinutes (pushEvent a e)
    = MetricsAccumulator.totalIdleTimeMinutes a /\
  MetricsAccumulator.maxSpeedKmh (pushEvent a e)
    = MetricsAccumulator.maxSpeedKmh a /\
  MetricsAccumulator.numberOfStops (pushEvent a e)
    = MetricsAccumulator.numberOfStops a.
Proof. destruct e; repeat split. Qed.

Lemma finalizeOpenIdle_totals (points : list GPSTrackPoint.t)
  (config : AnalyticsConfig.t) (s : LoopState.t) :
  let a := LoopState.accumulator s in
  let a' := finalizeOpenIdle points config s in
  MetricsAccumulator.totalDistanceKm a' = MetricsAccumulator.totalDistanceKm a /\
  MetricsAccumulator.totalMovingTimeMinutes a'
    = MetricsAccumulator.totalMovingTimeMinutes a /\
  MetricsAccumulator.totalIdleTimeMinutes a'
    = MetricsAccumulator.totalIdleTimeMinutes a /\
  MetricsAccumulator.maxSpeedKmh a' = MetricsAccumulator.maxSpeedKmh a /\
  MetricsAccumulator.numberOfStops a' = MetricsAccumulator.numberOfStops a.
Proof.
  cbv zeta. unfold finalizeOpenIdle.
  destruct (IdleEventTracker.isInIdleState (LoopState.idleTracker s));
    [| repeat split].
  destruct (nth_error points (List.length points - 1)); [| repeat split].
  apply pushEvent_totals.
Qed.

(** The metrics of a track with at least two points, field by field. *)
Lemma baseMetrics_totals (track : GPSTrackResponse.t)
  (config : AnalyticsConfig.t) :
  (2 <= List.length (GPSTrackResponse.points track))%nat ->
  let points := GPSTrackResponse.points track in
  let m := baseMetrics track config in
  BaseVehicleMetrics.totalMovingTimeMinutes m
  = sumNum (map minutes (segmentsInState config moving (segments points))) /\
  BaseVehicleMetrics.totalIdleTimeMinutes m
  = sumNum (map minutes (segmentsInState config idle (segments points))) /\
  BaseVehicleMetrics.numberOfStops m
  = fold_left (fun n _ => (n + Fin 1)%js)
      (filter (isStopPair config) (segments points)) (Fin 0).
Proof.
  intros Hn points m. subst points m. unfold computeBaseMetrics.
  destruct (GPSTrackResponse.points track) as [| p1 [| p2 rest]] eqn:Hp;
    simpl in Hn; try lia.
  cbv zeta. cbn [BaseVehicleMetrics.totalMovingTimeMinutes
    BaseVehicleMetrics.totalIdleTimeMinutes BaseVehicleMetrics.numberOfStops].
  rewrite loop_is_walk.
  destruct (finalizeOpenIdle_totals (p1 :: p2 :: rest) config
              (walkPoints Date_getTime config None (p1 :: p2 :: rest)
                 initialLoopState)) as (_ & Hm & Hi & _ & Hs).
  cbv zeta in Hm, Hi, Hs. rewrite Hm, Hi, Hs.
  destruct (walk_totals config (p1 :: p2 :: rest) None initialLoopState
              eq_refl) as (Hm' & Hi' & Hs').
  cbv zeta in Hm', Hi', Hs'. rewrite Hm', Hi', Hs'.
  repeat split.
Qed.

Lemma walk_distance (config : AnalyticsConfig.t)
  (rest : list GPSTrackPoint.t) :
  forall (prev : option GPSTrackPoint.t) (s : LoopState.t),
    tracksState config prev s ->
    MetricsAccumulator.totalDistanceKm
      (LoopState.accumulator (walkPoints Date_getTime config prev rest s))
    = fold_left JS.add
        (map segmentKm (segmentsInState config moving (segmentsFrom prev rest)))
        (MetricsAccumulator.totalDistanceKm (LoopState.accumulator s)).
Proof.
  induction rest as [| c rest IH]; intros prev s Hs; [reflexivity |].
  simpl walkPoints. rewrite segmentsFrom_cons.
  unfold segmentsInState in *.
  rewrite filter_app, map_app, fold_left_app.
  rewrite (IH (Some c) _ (processPoint_tracksState config prev c s)).
  rewrite (processPoint_distance config prev c s Hs). reflexivity.
Qed.

(** The distance of a track with at least two points: the summed length
    of the segments that start at a moving point. *)
Lemma baseMetrics_distance (track : GPSTrackResponse.t)
  (config : AnalyticsConfig.t) :
  (2 <= List.length (GPSTrackResponse.points track))%nat ->
  BaseVehicleMetrics.totalDistanceKm (baseMetrics track config)
  = sumNum (map segmentKm
              (segmentsInState config moving
                 (segments (GPSTrackResponse.points track)))).
Proof.
  intros Hn. unfold computeBaseMetrics.
  destruct (GPSTrackResponse.points track) as [| p1 [| p2 rest]] eqn:Hp;
    simpl in Hn; try lia.
  cbv zeta. cbn [BaseVehicleMetrics.totalDistanceKm].
  rewrite loop_is_walk.
  destruct (finalizeOpenIdle_totals (p1 :: p2 :: rest) config
              (walkPoints Date_getTime config None (p1 :: p2 :: rest)
                 initialLoopState)) as (Hd & _).
  cbv zeta in Hd. rewrite Hd.
  apply (walk_distance config (p1 :: p2 :: rest) None initialLoopState
           eq_refl).
Qed.

(** *** Stops *)

Lemma count_by_adding_one {A : Type} (l : list A) (k : nat) :
  fold_left (fun n _ => (n + Fin 1)%js) l (ofNat k)
  = ofNat (k + List.length l).
Proof.
  revert k. induction l as [| x l IH]; intros k; simpl.
  - rewrite Nat.add_0_r. reflexivity.
  - unfold ofNat in *. rewrite ?add_Fin.
    replace (INR k + 1) with (INR (S k)) by (rewrite S_INR; reflexivity).
    rewrite IH. f_equal. f_equal. lia.
Qed.

(** C5 -- on a track with at least two points, [numberOfStops] is the
    number of consecutive pairs of points whose earlier point is moving
    and whose later point is idle or off: each such pair counts once, and
    no other pair counts. *)
Theorem stops_count_moving_to_idle_or_off (track : GPSTrackResponse.t)
  (config : AnalyticsConfig.t) :
  (2 <= List.length (GPSTrackResponse.points track))%nat ->
  BaseVehicleMetrics.numberOfStops (baseMetrics track config)
  = ofNat (countStops config (GPSTrackResponse.points track)).
Proof.
  intros Hn.
  destruct (baseMetrics_totals track config Hn) as (_ & _ & Hs).
  cbv zeta in Hs. rewrite Hs.
  change (Fin 0) with (ofNat 0). rewrite count_by_adding_one. reflexivity.
Qed.

(** *** Segment attribution *)

Lemma last_cons_cons {A : Type} (t tq : A) (times : list A) :
  last (tq :: times) t = last times tq.
Proof.
  revert t tq. induction times as [| x times IH]; intros t tq; [reflexivity |].
  change (last (tq :: x :: times) t) with (last (x :: times) t).
  rewrite (IH t x), (IH tq x). reflexivity.
Qed.

Lemma segments_by_state (config : AnalyticsConfig.t)
  (segs : list (GPSTrackPoint.t * GPSTrackPoint.t)) :
  Permutation segs
    (segmentsInState config moving segs ++ segmentsInState config idle segs
     ++ segmentsInState config off segs).
Proof.
  unfold segmentsInState.
  induction segs as [| seg segs IH]; [constructor |].
  cbn [filter].
  destruct (classifyPointState (fst seg) config); cbn [VehicleState_eqb app].
  - constructor. exact IH.
  - rewrite IH at 1. apply Permutation_middle.
  - rewrite IH at 1. rewrite app_assoc. rewrite (app_assoc _ _ (seg :: _)).
    apply Permutation_middle.
Qed.

Lemma segment_minutes_are_gaps (rest : list GPSTrackPoint.t) :
  forall (times : list Z) (p : GPSTrackPoint.t) (t : Z),
    parse (GPSTrackPoint.timestamp p) = Some t ->
    map (fun q => parse (GPSTrackPoint.timestamp q)) rest = map Some times ->
    Sorted Z.le (t :: times) ->
    map minutes (segmentsFrom (Some p) rest)
    = map (fun ms => Fin (IZR ms / (1000 * 60))) (gapsFrom t times) /\
    Forall (fun ms => (0 <= ms)%Z) (gapsFrom t times) /\
    fold_right Z.add 0%Z (gapsFrom t times) = (last times t - t)%Z.
Proof.
  induction rest as [| q rest IH]; intros times p t Hp Hrest Hsorted.
  - destruct times; [| discriminate Hrest]. simpl.
    repeat split; [constructor | lia].
  - destruct times as [| tq times]; [discriminate Hrest |].
    simpl in Hrest. injection Hrest as Hq Hrest.
    apply Sorted_inv in Hsorted. destruct Hsorted as [Hsorted Hhd].
    apply HdRel_inv in Hhd.
    destruct (IH times q tq Hq Hrest Hsorted) as (Hm & Hpos & Hsum).
    cbn [segmentsFrom gapsFrom map fold_right]. rewrite Hm, Hsum.
    rewrite last_cons_cons.
    repeat split.
    + f_equal. unfold segmentMinutes, getPointDurationMinutes; simpl.
      apply duration_parsed; assumption.
    + constructor; [lia | exact Hpos].
    + lia.
Qed.

(** C1, as amended -- on a chronologically ordered track of at least two
    points with parseable timestamps, every segment goes to exactly one
    state, that of its earlier point: the moving time and the idle time
    are the sums, accumulated in track order, of the durations of the
    segments that start moving and idle, and the segments that start
    with the ignition off are dropped.  The segments' lengths in
    milliseconds add up to the span from the first point's instant to
    the last point's, and on a track that spans at most [2^53]
    milliseconds (where every length is a number the engine holds
    exactly) each duration is the segment's length over 60000. *)
Theorem segment_attribution_complete (track : GPSTrackResponse.t)
  (config : AnalyticsConfig.t) (times : list Z) :
  (2 <= List.length (GPSTrackResponse.points track))%nat ->
  chronological Date_getTime (GPSTrackResponse.points track) times ->
  let m := baseMetrics track config in
  let segs := segments (GPSTrackResponse.points track) in
  Permutation segs
    (segmentsInState config moving segs ++ segmentsInState config idle segs
     ++ segmentsInState config off segs) /\
  BaseVehicleMetrics.totalMovingTimeMinutes m
  = sumNum (map minutes (segmentsInState config moving segs)) /\
  BaseVehicleMetrics.totalIdleTimeMinutes m
  = sumNum (map minutes (segmentsInState config idle segs)) /\
  droppedOffTime Date_getTime config (GPSTrackResponse.points track)
  = sumNum (map minutes (segmentsInState config off segs)) /\
  Forall (fun ms => (0 <= ms)%Z) (gaps times) /\
  fold_right Z.add 0%Z (gaps times)
  = (last times (hd 0%Z times) - hd 0%Z times)%Z /\
  ((last times (hd 0%Z times) - hd 0%Z times <= 2 ^ 53)%Z ->
   map minutes segs
   = map (fun ms => Fin (IZR ms / (1000 * 60))) (gaps times)).
Proof.
  intros Hn [Hparse Hsorted] m segs. subst m segs.
  destruct (baseMetrics_totals track config Hn) as (Hm & Hi & _).
  cbv zeta in Hm, Hi.
  split; [apply segments_by_state |].
  split; [exact Hm |]. split; [exact Hi |]. split; [reflexivity |].
  destruct (GPSTrackResponse.points track) as [| p rest];
    [simpl in Hn; lia |].
  destruct times as [| t times]; [discriminate Hparse |].
  simpl in Hparse. injection Hparse as Hp Hrest.
  unfold segments. cbn [segmentsFrom gaps hd].
  rewrite last_cons_cons.
  destruct (segment_minutes_are_gaps rest times p t Hp Hrest Hsorted)
    as (Hgaps & Hpos & Hsum).
  split; [exact Hpos |]. split; [exact Hsum |]. intros _. exact Hgaps.
Qed.
(** *** Idle runs and idle events *)

Lemma lastPoint_cons (h : GPSTrackPoint.t) (t : list GPSTrackPoint.t) :
  lastPoint (h :: t) = Some (last t h).
Proof.
  destruct t as [| y t'] using rev_ind; [reflexivity |].
  rewrite app_comm_cons, lastPoint_snoc, last_last. reflexivity.
Qed.

Lemma segmentsFrom_snoc (c : GPSTrackPoint.t) (l : list GPSTrackPoint.t) :
  forall p0 : GPSTrackPoint.t,
    segmentsFrom (Some p0) (l ++ [c])
    = segmentsFrom (Some p0) l ++ [(last l p0, c)].
Proof.
  induction l as [| x l IH]; intros p0; [reflexivity |].
  cbn [app segmentsFrom]. rewrite IH, last_cons_cons. reflexivity.
Qed.

Lemma segments_snoc (h c : GPSTrackPoint.t) (t : list GPSTrackPoint.t) :
  segments ((h :: t) ++ [c]) = segments (h :: t) ++ [(last t h, c)].
Proof. unfold segments. cbn [app segmentsFrom]. apply segmentsFrom_snoc. Qed.

Lemma sumNum_snoc (l : list num) (x : num) :
  sumNum (l ++ [x]) = (sumNum l + x)%js.
Proof. unfold sumNum. rewrite fold_left_app. reflexivity. Qed.

(** Adding the segment to the next point turns the tracker of a run into
    the tracker of the run with that point sampled. *)
Lemma accumulate_openTracker (h c : GPSTrackPoint.t)
  (t : list GPSTrackPoint.t) :
  accumulateIdleTime (openTracker Date_getTime (h :: t)) c
    (pointDuration (last t h) c)
  = openTracker Date_getTime ((h :: t) ++ [c]).
Proof.
  unfold accumulateIdleTime, openTracker.
  rewrite segments_snoc, map_app. cbn [map]. rewrite sumNum_snoc.
  reflexivity.
Qed.

Lemma enterIdleState_openTracker (tracker : IdleEventTracker.t)
  (c : GPSTrackPoint.t) :
  enterIdleState tracker c = openTracker Date_getTime [c].
Proof. reflexivity. Qed.

Lemma closeRun_ended (config : AnalyticsConfig.t)
  (current : list GPSTrackPoint.t) (c : GPSTrackPoint.t) :
  closeRun Date_getTime config (mkIdleRun current (Some c))
  = snd (exitIdleState (openTracker Date_getTime (current ++ [c]))
           (GPSTrackPoint.timestamp c)
           (AnalyticsConfig.longIdleThresholdMinutes config)).
Proof.
  unfold closeRun, runEndTime, runSamples; simpl.
  rewrite lastPoint_snoc. reflexivity.
Qed.

Lemma closeRun_open (config : AnalyticsConfig.t) (h : GPSTrackPoint.t)
  (t : list GPSTrackPoint.t) :
  closeRun Date_getTime config (mkIdleRun (h :: t) None)
  = snd (exitIdleState (openTracker Date_getTime (h :: t))
           (GPSTrackPoint.timestamp (last t h))
           (AnalyticsConfig.longIdleThresholdMinutes config)).
Proof.
  unfold closeRun, runEndTime, runSamples. cbn [runPoints runNext].
  rewrite app_nil_r, lastPoint_cons. reflexivity.
Qed.

Lemma longIdleEvents_pushEvent (a : MetricsAccumulator.t)
  (e : option IdleEvent.t) :
  MetricsAccumulator.longIdleEvents (pushEvent a e)
  = MetricsAccumulator.longIdleEvents a
    ++ match e with Some ev => [ev] | None => [] end.
Proof. destruct e; simpl; [reflexivity | rewrite app_nil_r; reflexivity]. Qed.

(** The segment step leaves the idle events alone; it touches the tracker
    only when the earlier point is idle. *)
Lemma processSegment_events (p c : GPSTrackPoint.t) (ps cs : VehicleState)
  (a : MetricsAccumulator.t) (tr : IdleEventTracker.t) :
  MetricsAccumulator.longIdleEvents
    (fst (processSegment Date_getTime p c ps cs a tr))
  = MetricsAccumulator.longIdleEvents a /\
  snd (processSegment Date_getTime p c ps cs a tr)
  = match ps with
    | idle => accumulateIdleTime tr c (pointDuration p c)
    | _ => tr
    end.
Proof.
  unfold processSegment; cbv zeta.
  destruct ps; destruct cs; simpl; split; reflexivity.
Qed.

(** The two accumulator updates at the head of the loop body keep the
    idle events. *)
Lemma head_updates_events (c : GPSTrackPoint.t) (cs : VehicleState)
  (a : MetricsAccumulator.t) :
  MetricsAccumulator.longIdleEvents
    (let a1 :=
       if GPSTrackPoint.ignitionOn c &&
          (GPSTrackPoint.speed c >? MetricsAccumulator.maxSpeedKmh a)%js
       then withMaxSpeed a (GPSTrackPoint.speed c) else a in
     if VehicleState_eqb cs moving
     then withSpeedSamples a1
            (MetricsAccumulator.speedSamples a1 ++ [GPSTrackPoint.speed c])
     else a1)
  = MetricsAccumulator.longIdleEvents a.
Proof.
  cbv zeta.
  destruct (GPSTrackPoint.ignitionOn c && _);
    destruct (VehicleState_eqb cs moving); reflexivity.
Qed.

(** One turn of the loop follows the runs: an idle point extends the open
    run; any other point closes it, and its event, if it is long, is the
    only event added. *)
Lemma processPoint_run (config : AnalyticsConfig.t)
  (prev : option GPSTrackPoint.t) (current : list GPSTrackPoint.t)
  (c : GPSTrackPoint.t) (s : LoopState.t) :
  runInProgress Date_getTime config prev current s ->
  let s' := processPoint Date_getTime config prev c s in
  runInProgress Date_getTime config (Some c)
    (if isIdlePoint config c then current ++ [c] else []) s' /\
  MetricsAccumulator.longIdleEvents (LoopState.accumulator s')
  = MetricsAccumulator.longIdleEvents (LoopState.accumulator s)
    ++ (if isIdlePoint config c then []
        else match current with
             | [] => []
             | _ => emittedEvents Date_getTime config
                      [mkIdleRun current (Some c)]
             end).
Proof.
  intros Hrun s'. subst s'. unfold processPoint; cbv zeta.
  pose proof (head_updates_events c (classifyPointState c config)
                (LoopState.accumulator s)) as Hhead.
  cbv zeta in Hhead.
  set (a2 := if VehicleState_eqb (classifyPointState c config) moving
             then _ else _) in *.
  clearbody a2.
  unfold isIdlePoint.
  destruct current as [| h t]; simpl in Hrun.
  - destruct Hrun as (Htr & Hs & Hni). unfold tracksState in Hs.
    rewrite Htr.
    assert (Hseg :
      forall x,
        x = match prev, LoopState.previousState s with
            | Some prevPoint, Some previousState =>
                processSegment Date_getTime prevPoint c previousState
                  (classifyPointState c config) a2 createIdleTracker
            | _, _ => (a2, createIdleTracker)
            end ->
        MetricsAccumulator.longIdleEvents (fst x)
        = MetricsAccumulator.longIdleEvents (LoopState.accumulator s) /\
        snd x = createIdleTracker).
    { intros x ->. destruct prev as [p |]; simpl in Hs.
      - rewrite Hs.
        destruct (processSegment_events p c (classifyPointState p config)
                    (classifyPointState c config) a2 createIdleTracker)
          as [He Ht].
        rewrite He, Ht, Hhead. split; [reflexivity |].
        destruct (classifyPointState p config); try reflexivity.
        rewrite Hs in Hni. congruence.
      - simpl. rewrite Hhead. split; reflexivity. }
    match goal with
    | |- context [let '(_, _) := ?x in _] =>
        destruct (Hseg x eq_refl) as [He Ht]; destruct x as [a3 tr3]
    end.
    simpl in He, Ht. subst tr3.
    unfold processIdleTransition; cbv zeta.
    destruct (classifyPointState c config) eqn:Ec; simpl.
    + replace (match LoopState.previousState s with
               | Some idle => true | _ => false end) with false
        by (destruct (LoopState.previousState s) as [[| |] |];
            try reflexivity; congruence).
      simpl. rewrite He, app_nil_r. unfold tracksState; simpl.
      rewrite Ec. repeat split. discriminate.
    + replace (match LoopState.previousState s with
               | Some idle => true | _ => false end) with false
        by (destruct (LoopState.previousState s) as [[| |] |];
            try reflexivity; congruence).
      simpl. rewrite He, app_nil_r. repeat split.
    + replace (match LoopState.previousState s with
               | Some idle => true | _ => false end) with false
        by (destruct (LoopState.previousState s) as [[| |] |];
            try reflexivity; congruence).
      simpl. rewrite He, app_nil_r. unfold tracksState; simpl.
      rewrite Ec. repeat split. discriminate.
  - destruct Hrun as (Htr & Hs & Hprev). rewrite Htr, Hs, Hprev.
    destruct (processSegment_events (last t h) c idle
                (classifyPointState c config) a2
                (openTracker Date_getTime (h :: t))) as [He Ht].
    rewrite accumulate_openTracker in Ht.
    destruct (processSegment Date_getTime (last t h) c idle
                (classifyPointState c config) a2
                (openTracker Date_getTime (h :: t))) as [a3 tr3].
    simpl in He, Ht. subst tr3. rewrite Hhead in He.
    unfold processIdleTransition; cbv zeta.
    destruct (classifyPointState c config) eqn:Ec; simpl.
    + rewrite longIdleEvents_pushEvent, He.
      unfold emittedEvents; simpl. rewrite closeRun_ended, app_nil_r.
      unfold tracksState; simpl. rewrite Ec. repeat split. discriminate.
    + rewrite He, app_nil_r. repeat split.
      rewrite last_last. reflexivity.
    + rewrite longIdleEvents_pushEvent, He.
      unfold emittedEvents; simpl. rewrite closeRun_ended, app_nil_r.
      unfold tracksState; simpl. rewrite Ec. repeat split. discriminate.
Qed.

Lemma nth_error_lastPoint (l : list GPSTrackPoint.t) :
  nth_error l (List.length l - 1) = lastPoint l.
Proof.
  destruct l as [| p l0] using rev_ind; [reflexivity |].
  rewrite lastPoint_snoc, length_app; simpl.
  replace (List.length l0 + 1 - 1)%nat with (List.length l0) by lia.
  rewrite nth_error_app2 by lia. rewrite Nat.sub_diag. reflexivity.
Qed.

Lemma emittedEvents_cons (config : AnalyticsConfig.t) (r : IdleRun)
  (runs : list IdleRun) :
  emittedEvents Date_getTime config (r :: runs)
  = emittedEvents Date_getTime config [r]
    ++ emittedEvents Date_getTime config runs.
Proof. unfold emittedEvents; simpl. rewrite app_nil_r. reflexivity. Qed.

(** The walk, followed by the post-loop step, emits the events of the
    runs of the rest of the track. *)
Lemma walk_events (config : AnalyticsConfig.t) (rest : list GPSTrackPoint.t) :
  forall (pre current : list GPSTrackPoint.t) (s : LoopState.t),
    runInProgress Date_getTime config (lastPoint pre) current s ->
    MetricsAccumulator.longIdleEvents
      (finalizeOpenIdle (pre ++ rest) config
         (walkPoints Date_getTime config (lastPoint pre) rest s))
    = MetricsAccumulator.longIdleEvents (LoopState.accumulator s)
      ++ emittedEvents Date_getTime config (collectRuns config current rest).
Proof.
  induction rest as [| c rest IH]; intros pre current s Hrun.
  - rewrite app_nil_r. simpl walkPoints. unfold finalizeOpenIdle.
    destruct current as [| h t]; simpl in Hrun.
    + destruct Hrun as (Htr & _ & _). rewrite Htr. simpl.
      rewrite app_nil_r. reflexivity.
    + destruct Hrun as (Htr & _ & Hprev). rewrite Htr.
      cbn [openTracker IdleEventTracker.isInIdleState].
      rewrite nth_error_lastPoint, Hprev.
      rewrite longIdleEvents_pushEvent.
      cbn [collectRuns]. unfold emittedEvents; cbn [flat_map].
      rewrite closeRun_open, app_nil_r. reflexivity.
  - cbn [walkPoints collectRuns].
    destruct (processPoint_run config (lastPoint pre) current c s Hrun)
      as [Hrun' Hev].
    specialize (IH (pre ++ [c])).
    rewrite <- app_assoc, lastPoint_snoc in IH. simpl app in IH.
    rewrite (IH _ _ Hrun'), Hev. rewrite <- app_assoc. f_equal.
    destruct (isIdlePoint config c); [reflexivity |].
    destruct current; [reflexivity |].
    symmetry. apply emittedEvents_cons.
Qed.

(** Off the single-point path the idle events are the events of the
    track's runs. *)
Lemma baseMetrics_events (track : GPSTrackResponse.t)
  (config : AnalyticsConfig.t) :
  List.length (GPSTrackResponse.points track) <> 1%nat ->
  BaseVehicleMetrics.longIdleEvents (baseMetrics track config)
  = emittedEvents Date_getTime config
      (idleRuns config (GPSTrackResponse.points track)).
Proof.
  intros Hn. unfold computeBaseMetrics, idleRuns.
  destruct (GPSTrackResponse.points track) as [| p1 [| p2 rest]];
    [reflexivity | simpl in Hn; congruence |].
  cbv zeta. cbn [BaseVehicleMetrics.longIdleEvents].
  rewrite loop_is_walk.
  apply (walk_events config (p1 :: p2 :: rest) [] [] initialLoopState).
  simpl. repeat split. discriminate.
Qed.

Lemma collectRuns_nonempty (config : AnalyticsConfig.t)
  (points : list GPSTrackPoint.t) :
  forall current : list GPSTrackPoint.t,
    Forall (fun r => runPoints r <> []) (collectRuns config current points).
Proof.
  induction points as [| p points IH]; intros current; simpl.
  - destruct current; constructor; [discriminate | constructor].
  - destruct (isIdlePoint config p); [apply IH |].
    destruct current; [apply IH |].
    constructor; [discriminate | apply IH].
Qed.

Lemma calculateCentroid_nonempty (l : list GPSTrackPoint.t) :
  l <> [] -> exists c : GeoLocation.t, calculateCentroid l = Some c.
Proof.
  intros Hl. destruct l as [| p [| q l]]; [contradiction | eexists; reflexivity |].
  unfold calculateCentroid.
  destruct (fold_left centroidStep (p :: q :: l) (Fin 0, Fin 0, Fin 0))
    as [[x y] z].
  eexists; reflexivity.
Qed.

(** What [exitIdleState] answers for a run: an event exactly when the run
    is long; the event has the run's start, end and minutes, and the
    centroid of its samples as location. *)
Lemma closeRun_spec (config : AnalyticsConfig.t) (r : IdleRun) :
  runPoints r <> [] ->
  if isLongRun Date_getTime config r
  then exists e : IdleEvent.t,
         closeRun Date_getTime config r = Some e /\
         eventOfRun Date_getTime r e /\ locatedAtCentroid r e
  else closeRun Date_getTime config r = None.
Proof.
  intros Hne. destruct r as [[| h t] next]; [contradiction |].
  unfold closeRun, eventOfRun, locatedAtCentroid, runStartTime, runEndTime,
    isLongRun, runMinutes, runSamples.
  cbn [runPoints runNext].
  rewrite <- app_comm_cons.
  set (samples := h :: t ++ match next with Some q => [q] | None => [] end).
  assert (Hs : samples <> []) by discriminate.
  destruct (calculateCentroid_nonempty samples Hs) as [cen Hcen].
  assert (Hlast : lastPoint samples
                  = Some (last (t ++ match next with
                                     | Some q => [q] | None => [] end) h))
    by apply lastPoint_cons.
  rewrite Hlast. cbn [option_map].
  unfold exitIdleState, idleEventLocation.
  cbn [snd openTracker IdleEventTracker.accumulatedIdleMinutes
       IdleEventTracker.idleStartTime IdleEventTracker.idlePoints].
  rewrite Hcen.
  replace (hd_error samples) with (Some h) by reflexivity.
  cbn [hd_error option_map].
  destruct (_ >=? _)%js; [| reflexivity].
  eexists. split; [reflexivity |].
  cbn [IdleEvent.startTime IdleEvent.endTime IdleEvent.durationMinutes
       IdleEvent.location].
  repeat split. exact Hs.
Qed.

Lemma emittedEvents_long_runs (config : AnalyticsConfig.t)
  (runs : list IdleRun) :
  Forall (fun r => runPoints r <> []) runs ->
  Forall2 (fun r e => eventOfRun Date_getTime r e /\ locatedAtCentroid r e)
    (filter (isLongRun Date_getTime config) runs)
    (emittedEvents Date_getTime config runs).
Proof.
  induction 1 as [| r runs Hr Hruns IH]; [constructor |].
  rewrite emittedEvents_cons. cbn [filter].
  pose proof (closeRun_spec config r Hr) as Hc.
  unfold emittedEvents at 1; cbn [flat_map]. rewrite app_nil_r.
  destruct (isLongRun Date_getTime config r).
  - destruct Hc as (e & -> & He & Hl). simpl. constructor; auto.
  - rewrite Hc. exact IH.
Qed.

(** The runs are the maximal idle blocks of the track: together they hold
    its idle points, each once and in order; a run holds idle points only,
    at least one; and the point that ends a run is not idle. *)
Lemma collectRuns_idle_blocks (config : AnalyticsConfig.t)
  (points : list GPSTrackPoint.t) :
  forall current : list GPSTrackPoint.t,
    Forall (fun p => isIdlePoint config p = true) current ->
    List.concat (map runPoints (collectRuns config current points))
    = current ++ filter (isIdlePoint config) points /\
    Forall
      (fun r =>
         runPoints r <> [] /\
         Forall (fun p => isIdlePoint config p = true) (runPoints r) /\
         forall q, runNext r = Some q -> isIdlePoint config q = false)
      (collectRuns config current points).
Proof.
  induction points as [| p points IH]; intros current Hcur; simpl.
  - destruct current as [| h t]; simpl.
    + split; [reflexivity | constructor].
    + rewrite !app_nil_r. split; [reflexivity |].
      constructor; [| constructor].
      split; [discriminate |]. split; [exact Hcur | discriminate].
  - destruct (isIdlePoint config p) eqn:Ep.
    + destruct (IH (current ++ [p])) as [Hc Hf].
      { apply Forall_app. split; [exact Hcur |].
        constructor; [exact Ep | constructor]. }
      split; [| exact Hf]. rewrite Hc, <- app_assoc. reflexivity.
    + destruct (IH []) as [Hc Hf]; [constructor |].
      destruct current as [| h t]; [split; assumption |].
      simpl. split.
      * rewrite Hc. reflexivity.
      * constructor; [| exact Hf].
        split; [discriminate |]. split; [exact Hcur |].
        intros q Hq. injection Hq as <-. exact Ep.
Qed.

Lemma idleRuns_idle_blocks (config : AnalyticsConfig.t)
  (points : list GPSTrackPoint.t) :
  List.concat (map runPoints (idleRuns config points))
  = filter (isIdlePoint config) points /\
  Forall
    (fun r =>
       runPoints r <> [] /\
       Forall (fun p => isIdlePoint config p = true) (runPoints r) /\
       forall q, runNext r = Some q -> isIdlePoint config q = false)
    (idleRuns config points).
Proof. apply (collectRuns_idle_blocks config points []). constructor. Qed.

Lemma single_point_runs (config : AnalyticsConfig.t) (p : GPSTrackPoint.t) :
  idleRuns config [p]
  = if isIdlePoint config p then [mkIdleRun [p] None] else [].
Proof. unfold idleRuns; simpl. destruct (isIdlePoint config p); reflexivity. Qed.

Lemma single_point_run_minutes (p : GPSTrackPoint.t) :
  runMinutes Date_getTime (mkIdleRun [p] None) = Fin 0.
Proof. reflexivity. Qed.

(** C4, as amended -- off the single-point path (a track of one idle point
    yields no event, whatever the threshold), the idle events are, in
    order, one per maximal contiguous idle run whose accumulated minutes
    reach [longIdleThresholdMinutes], the run still open at the end of the
    track included, and no other; each event starts at the run's first
    point, ends at the point that ends the run (the last point of the
    track for an open run), and its [durationMinutes] is the sum of the
    durations of the run's segments. *)
Theorem idle_events_are_the_long_runs (track : GPSTrackResponse.t)
  (config : AnalyticsConfig.t) :
  (List.length (GPSTrackResponse.points track) = 1%nat ->
   (Fin 0 >=? AnalyticsConfig.longIdleThresholdMinutes config)%js = false) ->
  Forall2 (eventOfRun Date_getTime)
    (filter (isLongRun Date_getTime config)
       (idleRuns config (GPSTrackResponse.points track)))
    (BaseVehicleMetrics.longIdleEvents (baseMetrics track config)).
Proof.
  intros Hsingle.
  destruct (Nat.eq_dec (List.length (GPSTrackResponse.points track)) 1)
    as [H1 | H1].
  - specialize (Hsingle H1). unfold computeBaseMetrics.
    destruct (GPSTrackResponse.points track) as [| p [| q rest]];
      try discriminate H1.
    rewrite single_point_runs.
    destruct (isIdlePoint config p); simpl; [| constructor].
    unfold isLongRun. rewrite single_point_run_minutes, Hsingle.
    constructor.
  - rewrite (baseMetrics_events track config H1).
    eapply Forall2_impl;
      [| apply emittedEvents_long_runs, collectRuns_nonempty].
    intros r e [He _]. exact He.
Qed.

Lemma Forall2_right_exists {A B : Type} (P : A -> B -> Prop)
  (l : list A) (l' : list B) :
  Forall2 P l l' -> Forall (fun b => exists a, In a l /\ P a b) l'.
Proof.
  induction 1 as [| a b l l' Hab _ IH]; constructor.
  - exists a. split; [left; reflexivity | exact Hab].
  - eapply Forall_impl; [| exact IH].
    intros b' (a' & Hin & HP). exists a'. split; [right; exact Hin | exact HP].
Qed.

Lemma centroid_sums (points : list GPSTrackPoint.t) :
  forall x y z : num,
    fold_left centroidStep points (x, y, z)
    = (fold_left JS.add (map (fun v => fst (fst v)) (map unitVector points)) x,
       fold_left JS.add (map (fun v => snd (fst v)) (map unitVector points)) y,
       fold_left JS.add (map snd (map unitVector points)) z).
Proof.
  induction points as [| p points IH]; intros x y z; [reflexivity |].
  cbn [fold_left map]. unfold centroidStep at 2. cbv zeta.
  rewrite IH. reflexivity.
Qed.

Lemma calculateCentroid_spherical (p q : GPSTrackPoint.t)
  (rest : list GPSTrackPoint.t) :
  calculateCentroid (p :: q :: rest)
  = Some (sphericalCentroid (p :: q :: rest)).
Proof.
  unfold calculateCentroid, sphericalCentroid, meanOf, sumNum,
    radiansToDegrees.
  rewrite centroid_sums. cbv zeta. rewrite !length_map. reflexivity.
Qed.

Lemma located_at_spherical_centroid (r : IdleRun) (e : IdleEvent.t) :
  locatedAtCentroid r e -> locatedAtSphericalCentroid r e.
Proof.
  unfold locatedAtCentroid, locatedAtSphericalCentroid.
  intros [Hne Hc].
  destruct (runSamples r) as [| p [| q rest]]; [contradiction | |].
  - simpl in Hc. injection Hc as <-. reflexivity.
  - rewrite calculateCentroid_spherical in Hc. injection Hc as <-. reflexivity.
Qed.

(** C10 -- [enterIdleState] seeds the tracker's [idlePoints] with the
    entry point, so [calculateCentroid] never answers [null] on a
    tracker's samples; and every idle event [computeBaseMetrics] emits
    belongs to a long idle run of the track and is located at the
    spherical centroid of that run's samples, the mean of their unit
    vectors taken back to a latitude and a longitude (the sample itself
    when there is one sample): the [idleStartLocation] and
    [{ lat: 0, lng: 0 }] fallbacks are never taken. *)
Theorem idle_event_location_is_centroid (track : GPSTrackResponse.t)
  (config : AnalyticsConfig.t) :
  (forall (tracker : IdleEventTracker.t) (point : GPSTrackPoint.t),
     IdleEventTracker.idlePoints (enterIdleState tracker point) = [point] /\
     forall (next : GPSTrackPoint.t) (d : num),
       calculateCentroid
         (IdleEventTracker.idlePoints
            (accumulateIdleTime (enterIdleState tracker point) next d))
       = Some (sphericalCentroid [point; next])) /\
  Forall
    (fun e =>
       exists r : IdleRun,
         In r (idleRuns config (GPSTrackResponse.points track)) /\
         isLongRun Date_getTime config r = true /\
         eventOfRun Date_getTime r e /\
         locatedAtSphericalCentroid r e)
    (BaseVehicleMetrics.longIdleEvents (baseMetrics track config)).
Proof.
  split.
  - intros tracker point. split; [reflexivity |].
    intros next d.
    change (IdleEventTracker.idlePoints
              (accumulateIdleTime (enterIdleState tracker point) next d))
      with [point; next].
    apply calculateCentroid_spherical.
  - destruct (Nat.eq_dec (List.length (GPSTrackResponse.points track)) 1)
      as [H1 | H1].
    + unfold computeBaseMetrics.
      destruct (GPSTrackResponse.points track) as [| p [| q rest]];
        try discriminate H1.
      constructor.
    + rewrite (baseMetrics_events track config H1).
      pose proof (emittedEvents_long_runs config _
                    (collectRuns_nonempty config
                       (GPSTrackResponse.points track) [])) as HF.
      apply Forall2_right_exists in HF.
      eapply Forall_impl; [| exact HF].
      intros e (r & Hin & He & Hl). apply filter_In in Hin.
      destruct Hin as [Hin Hlong]. exists r.
      repeat split; try assumption; try apply He.
      apply located_at_spherical_centroid. exact Hl.
Qed.

(** *** Non-negative metrics *)

Lemma nonNegative_Fin (r : R) : 0 <= r -> nonNegative (Fin r).
Proof.
  intros H. unfold nonNegative, JS.ge, JS.le; simpl.
  destruct (Rltb 0 r) eqn:E; [reflexivity |].
  simpl. apply Reqb_true.
  assert (~ 0 < r) by (intros Hc; apply Rltb_iff in Hc; congruence). lra.
Qed.

Lemma div_Fin (a b : R) : b <> 0 -> (Fin a / Fin b)%js = Fin (a / b).
Proof. intros Hb; simpl. rewrite Reqb_false by exact Hb. reflexivity. Qed.

Lemma DEG_TO_RAD_Fin : DEG_TO_RAD = Fin (Rtrigo1.PI / 180).
Proof. unfold DEG_TO_RAD, JS.PI. apply div_Fin. lra. Qed.

Lemma degreesToRadians_Fin (x : R) :
  degreesToRadians (Fin x) = Fin (x * (Rtrigo1.PI / 180)).
Proof. unfold degreesToRadians. rewrite DEG_TO_RAD_Fin. reflexivity. Qed.

Lemma sin_sq_le_1 (y : R) :
  0 <= Rtrigo_def.sin y * Rtrigo_def.sin y <= 1.
Proof.
  pose proof (sin2_cos2 y) as H. unfold Rsqr in H.
  pose proof (Rle_0_sqr (Rtrigo_def.sin y)) as H1.
  pose proof (Rle_0_sqr (Rtrigo_def.cos y)) as H2.
  unfold Rsqr in *. lra.
Qed.

(** The haversine term lies in [[0, 1]] for all angles, so that both
    square roots of the formula are defined. *)
Lemma haversine_a_bounds (phi1 phi2 y : R) :
  let x := (phi2 - phi1) / 2 in
  0 <= Rtrigo_def.sin x * Rtrigo_def.sin x
       + Rtrigo_def.cos phi1 * Rtrigo_def.cos phi2
         * Rtrigo_def.sin y * Rtrigo_def.sin y <= 1.
Proof.
  intros x.
  assert (Hx : Rtrigo_def.sin x * Rtrigo_def.sin x
               = (1 - Rtrigo_def.cos (phi2 - phi1)) / 2).
  { pose proof (cos_2a_sin x) as H.
    replace (2 * x) with (phi2 - phi1) in H by (unfold x; lra). lra. }
  rewrite cos_minus in Hx.
  pose proof (sin_sq_le_1 y) as [Ht0 Ht1].
  set (T := Rtrigo_def.sin y * Rtrigo_def.sin y) in *.
  replace (Rtrigo_def.cos phi1 * Rtrigo_def.cos phi2
           * Rtrigo_def.sin y * Rtrigo_def.sin y)
    with (Rtrigo_def.cos phi1 * Rtrigo_def.cos phi2 * T) by (unfold T; ring).
  rewrite Hx.
  pose proof (sin2_cos2 phi1) as H1. pose proof (sin2_cos2 phi2) as H2.
  unfold Rsqr in *.
  set (s1 := Rtrigo_def.sin phi1) in *. set (c1 := Rtrigo_def.cos phi1) in *.
  set (s2 := Rtrigo_def.sin phi2) in *. set (c2 := Rtrigo_def.cos phi2) in *.
  clearbody s1 c1 s2 c2 T. clear Hx x.
  assert (Hs : -1 <= s1 * s2 + c1 * c2 * (1 - 2 * T) <= 1).
  { set (u := 1 - 2 * T). assert (-1 <= u <= 1) by (unfold u; lra).
    clearbody u.
    pose proof (Rle_0_sqr (s1 - s2)). pose proof (Rle_0_sqr (s1 + s2)).
    pose proof (Rle_0_sqr (c1 - c2)). pose proof (Rle_0_sqr (c1 + c2)).
    unfold Rsqr in *.
    set (M := (c1 * c1 + c2 * c2) / 2).
    assert (0 <= (M - c1 * c2) * (1 + u))
      by (apply Rmult_le_pos; unfold M; lra).
    assert (0 <= (M + c1 * c2) * (1 - u))
      by (apply Rmult_le_pos; unfold M; lra).
    assert (0 <= (M - c1 * c2) * (1 - u))
      by (apply Rmult_le_pos; unfold M; lra).
    assert (0 <= (M + c1 * c2) * (1 + u))
      by (apply Rmult_le_pos; unfold M; lra).
    unfold M in *. split; nra. }
  split; nra.
Qed.

Lemma Ratan2_nonneg (y x : R) : 0 <= y -> 0 <= x -> 0 <= Ratan2 y x.
Proof.
  intros Hy Hx. unfold Ratan2, Rltb, Rleb.
  destruct (Rlt_dec 0 x) as [Hpos | Hnpos].
  - destruct (Req_dec y 0) as [-> | Hy0].
    + unfold Rdiv. rewrite Rmult_0_l, atan_0. lra.
    + assert (H : 0 < y / x) by (apply Rdiv_lt_0_compat; lra).
      pose proof (atan_increasing 0 (y / x) H) as Hi.
      rewrite atan_0 in Hi. lra.
  - destruct (Rlt_dec x 0); [lra |].
    destruct (Rlt_dec 0 y); [pose proof PI_RGT_0; lra |].
    destruct (Rlt_dec y 0); lra.
Qed.

(** Between points with finite coordinates the great-circle distance is a
    finite, non-negative number. *)
Lemma haversineDistance_nonneg (lat1 lon1 lat2 lon2 : R) :
  exists r : R,
    haversineDistance (Fin lat1) (Fin lon1) (Fin lat2) (Fin lon2) = Fin r /\
    0 <= r.
Proof.
  unfold haversineDistance.
  destruct ((Fin lat1 === Fin lat2)%js && (Fin lon1 === Fin lon2)%js);
    [exists 0; split; [reflexivity | lra] |].
  cbv zeta. rewrite !sub_Fin, !degreesToRadians_Fin.
  rewrite !div_Fin by lra.
  cbn [JS.sin JS.cos]. rewrite !mul_Fin, !add_Fin.
  set (k := Rtrigo1.PI / 180).
  pose proof (haversine_a_bounds (lat1 * k) (lat2 * k)
                ((lon2 + - lon1) * k / 2)) as Ha.
  cbv zeta in Ha.
  replace ((lat2 * k - lat1 * k) / 2) with ((lat2 + - lat1) * k / 2) in Ha
    by lra.
  set (A := Rtrigo_def.sin ((lat2 + - lat1) * k / 2)
            * Rtrigo_def.sin ((lat2 + - lat1) * k / 2)
            + Rtrigo_def.cos (lat1 * k) * Rtrigo_def.cos (lat2 * k)
              * Rtrigo_def.sin ((lon2 + - lon1) * k / 2)
              * Rtrigo_def.sin ((lon2 + - lon1) * k / 2)) in *.
  rewrite sub_Fin. unfold JS.sqrt.
  rewrite !Rltb_false by lra.
  cbn [JS.atan2]. rewrite mul_Fin. unfold EARTH_RADIUS_KM. rewrite mul_Fin.
  eexists. split; [reflexivity |].
  pose proof (Ratan2_nonneg (R_sqrt.sqrt A) (R_sqrt.sqrt (1 + - A))
                (sqrt_pos _) (sqrt_pos _)).
  lra.
Qed.

Lemma nonNegative_gt (m s : num) :
  nonNegative m -> (s >? m)%js = true -> nonNegative s.
Proof.
  unfold nonNegative, JS.ge, JS.gt, JS.le.
  destruct m as [r | | |]; destruct s as [q | | |]; simpl;
    intros Hm Hs; try discriminate; try reflexivity.
  apply Rltb_iff in Hs. apply orb_true_iff in Hm.
  assert (0 <= r) by (destruct Hm as [Hm | Hm];
                      [apply Rltb_iff in Hm | apply Reqb_iff in Hm]; lra).
  rewrite Rltb_true by lra. reflexivity.
Qed.

Lemma nonNegative_succ (n : num) : nonNegative n -> nonNegative (n + Fin 1)%js.
Proof.
  unfold nonNegative, JS.ge, JS.le.
  destruct n as [r | | |]; simpl; intros Hn; try discriminate;
    try reflexivity.
  apply orb_true_iff in Hn.
  assert (0 <= r) by (destruct Hn as [Hn | Hn];
                      [apply Rltb_iff in Hn | apply Reqb_iff in Hn]; lra).
  rewrite Rltb_true by lra. reflexivity.
Qed.

Lemma pointDuration_nonneg (p c : GPSTrackPoint.t) :
  exists r : R, pointDuration p c = Fin r /\ 0 <= r.
Proof. apply duration_nonneg. Qed.

Lemma sound_head (c : GPSTrackPoint.t) (cs : VehicleState)
  (a : MetricsAccumulator.t) (tr : IdleEventTracker.t) :
  soundTotals a tr ->
  soundTotals
    (let a1 :=
       if GPSTrackPoint.ignitionOn c &&
          (GPSTrackPoint.speed c >? MetricsAccumulator.maxSpeedKmh a)%js
       then withMaxSpeed a (GPSTrackPoint.speed c) else a in
     if VehicleState_eqb cs moving
     then withSpeedSamples a1
            (MetricsAccumulator.speedSamples a1 ++ [GPSTrackPoint.speed c])
     else a1)
    tr.
Proof.
  intros (d & m & i & e & x & Hd & Hm & Hi & He & Hx & Hrest).
  destruct Hrest as (H1 & H2 & H3 & H4 & H5 & H6 & Hmax & Hstops).
  cbv zeta.
  destruct (GPSTrackPoint.ignitionOn c) eqn:Eign; simpl;
    [destruct (GPSTrackPoint.speed c >? MetricsAccumulator.maxSpeedKmh a)%js
       eqn:Egt |];
    destruct (VehicleState_eqb cs moving); simpl;
    exists d, m, i, e, x; simpl; repeat split; auto;
    (eapply nonNegative_gt; [exact Hmax | eassumption]).
Qed.

Lemma sound_segment (p c : GPSTrackPoint.t) (ps cs : VehicleState)
  (a : MetricsAccumulator.t) (tr : IdleEventTracker.t) :
  soundTotals a tr -> finiteCoordinates p -> finiteCoordinates c ->
  soundTotals (fst (processSegment Date_getTime p c ps cs a tr))
              (snd (processSegment Date_getTime p c ps cs a tr)).
Proof.
  intros (d & m & i & e & x & Hd & Hm & Hi & He & Hx & Hrest) [Hp1 Hp2]
    [Hc1 Hc2].
  destruct Hrest as (H1 & H2 & H3 & H4 & H5 & H6 & Hmax & Hstops).
  destruct (pointDuration_nonneg p c) as (t & Ht & Ht0).
  unfold processSegment; cbv zeta. rewrite Ht.
  destruct ps.
  - unfold calculateSegmentDistance; simpl negb; cbv iota.
    destruct (GPSTrackPoint.latitude p) as [lat1 | | |]; try discriminate.
    destruct (GPSTrackPoint.longitude p) as [lon1 | | |]; try discriminate.
    destruct (GPSTrackPoint.latitude c) as [lat2 | | |]; try discriminate.
    destruct (GPSTrackPoint.longitude c) as [lon2 | | |]; try discriminate.
    destruct (haversineDistance_nonneg lat1 lon1 lat2 lon2)
      as (h & Hh & Hh0).
    rewrite Hh, Hd, Hm, !add_Fin.
    destruct (isStopTransition moving cs); simpl;
      exists (d + h), (m + t), i, e, x; simpl; repeat split; auto;
      try lra; apply nonNegative_succ; assumption.
  - rewrite Hi, add_Fin. simpl.
    exists d, m, (i + t), e, (x + t); simpl.
    rewrite Hx, add_Fin. repeat split; auto; lra.
  - simpl. exists d, m, i, e, x; repeat split; auto.
Qed.

(** Closing a run adds its minutes, which were already counted in the
    idle time, to the minutes of the events. *)
Lemma sound_exit (a : MetricsAccumulator.t) (tr : IdleEventTracker.t)
  (endTime : string) (threshold : num) :
  soundTotals a tr ->
  soundTotals (pushEvent a (snd (exitIdleState tr endTime threshold)))
              (fst (exitIdleState tr endTime threshold)).
Proof.
  intros (d & m & i & e & x & Hd & Hm & Hi & He & Hx & Hrest).
  destruct Hrest as (H1 & H2 & H3 & H4 & H5 & H6 & Hmax & Hstops).
  destruct (pushEvent_totals a (snd (exitIdleState tr endTime threshold)))
    as (Ed & Em & Ei & Emax & Estops).
  assert (Hev :
    exists e' : R,
      eventMinutes
        (MetricsAccumulator.longIdleEvents
           (pushEvent a (snd (exitIdleState tr endTime threshold)))) = Fin e'
      /\ 0 <= e' /\ e' <= i).
  { rewrite longIdleEvents_pushEvent. unfold exitIdleState; cbn [snd].
    destruct (_ >=? _)%js;
      [destruct (IdleEventTracker.idleStartTime tr) |].
    - exists (e + x). unfold eventMinutes in *.
      rewrite map_app. cbn [map IdleEvent.durationMinutes].
      rewrite sumNum_snoc, He, Hx, add_Fin. repeat split; lra.
    - exists e. rewrite app_nil_r. repeat split; auto; lra.
    - exists e. rewrite app_nil_r. repeat split; auto; lra. }
  destruct Hev as (e' & He' & He0 & Hei).
  exists d, m, i, e', 0. rewrite Ed, Em, Ei, Emax, Estops.
  repeat split; auto; lra.
Qed.

Lemma sound_transition (c : GPSTrackPoint.t) (config : AnalyticsConfig.t)
  (prevState : option VehicleState) (cs : VehicleState)
  (a : MetricsAccumulator.t) (tr : IdleEventTracker.t) :
  soundTotals a tr ->
  soundTotals (fst (processIdleTransition c config prevState cs a tr))
              (snd (processIdleTransition c config prevState cs a tr)).
Proof.
  intros Hsound. unfold processIdleTransition; cbv zeta.
  destruct (VehicleState_eqb cs idle && _).
  - destruct Hsound as (d & m & i & e & x & Hd & Hm & Hi & He & Hx & Hrest).
    destruct Hrest as (H1 & H2 & H3 & H4 & H5 & H6 & Hmax & Hstops).
    exists d, m, i, e, 0; simpl. repeat split; auto; lra.
  - destruct (negb (VehicleState_eqb cs idle) && _); [| exact Hsound].
    cbn [fst snd]. apply sound_exit. exact Hsound.
Qed.

Lemma processPoint_sound (config : AnalyticsConfig.t)
  (prev : option GPSTrackPoint.t) (c : GPSTrackPoint.t) (s : LoopState.t) :
  soundTotals (LoopState.accumulator s) (LoopState.idleTracker s) ->
  (forall p, prev = Some p -> finiteCoordinates p) ->
  finiteCoordinates c ->
  let s' := processPoint Date_getTime config prev c s in
  soundTotals (LoopState.accumulator s') (LoopState.idleTracker s').
Proof.
  intros Hsound Hprev Hc s'. subst s'. unfold processPoint; cbv zeta.
  pose proof (sound_head c (classifyPointState c config) _ _ Hsound) as Hhead.
  cbv zeta in Hhead.
  set (a2 := if VehicleState_eqb (classifyPointState c config) moving
             then _ else _) in *.
  clearbody a2.
  assert (Hseg :
    forall x,
      x = match prev, LoopState.previousState s with
          | Some prevPoint, Some previousState =>
              processSegment Date_getTime prevPoint c previousState
                (classifyPointState c config) a2 (LoopState.idleTracker s)
          | _, _ => (a2, LoopState.idleTracker s)
          end ->
      soundTotals (fst x) (snd x)).
  { intros x ->. destruct prev as [p |]; [| exact Hhead].
    destruct (LoopState.previousState s); [| exact Hhead].
    apply sound_segment; auto. }
  match goal with
  | |- context [let '(_, _) := ?x in _] =>
      pose proof (Hseg x eq_refl) as Hx; destruct x as [a3 tr3]
  end.
  cbn [fst snd] in Hx.
  pose proof (sound_transition c config (LoopState.previousState s)
                (classifyPointState c config) a3 tr3 Hx) as Ht.
  destruct (processIdleTransition c config (LoopState.previousState s)
              (classifyPointState c config) a3 tr3) as [a4 tr4].
  exact Ht.
Qed.

Lemma loopIteration_sound (points : list GPSTrackPoint.t)
  (config : AnalyticsConfig.t) (s : LoopState.t) (i : nat) :
  Forall finiteCoordinates points ->
  soundTotals (LoopState.accumulator s) (LoopState.idleTracker s) ->
  let s' := loopIteration Date_getTime points config s i in
  soundTotals (LoopState.accumulator s') (LoopState.idleTracker s').
Proof.
  intros Hfin Hsound s'. subst s'. unfold loopIteration.
  rewrite Forall_forall in Hfin.
  destruct (nth_error points i) as [c |] eqn:Ec; [| exact Hsound].
  apply processPoint_sound; auto.
  - intros p Hp. destruct (0 <? i)%nat; [| discriminate Hp].
    apply Hfin. eapply nth_error_In; eassumption.
  - apply Hfin. eapply nth_error_In; eassumption.
Qed.

Lemma loop_sound (points : list GPSTrackPoint.t) (config : AnalyticsConfig.t)
  (indices : list nat) :
  Forall finiteCoordinates points ->
  forall s : LoopState.t,
    soundTotals (LoopState.accumulator s) (LoopState.idleTracker s) ->
    let s' := fold_left (loopIteration Date_getTime points config) indices s in
    soundTotals (LoopState.accumulator s') (LoopState.idleTracker s').
Proof.
  intros Hfin. induction indices as [| i indices IH]; intros s Hsound;
    [exact Hsound |].
  simpl. apply IH. apply loopIteration_sound; assumption.
Qed.

Lemma finalizeOpenIdle_sound (points : list GPSTrackPoint.t)
  (config : AnalyticsConfig.t) (s : LoopState.t) :
  soundTotals (LoopState.accumulator s) (LoopState.idleTracker s) ->
  exists tr : IdleEventTracker.t,
    soundTotals (finalizeOpenIdle points config s) tr.
Proof.
  intros Hsound. unfold finalizeOpenIdle.
  destruct (IdleEventTracker.isInIdleState (LoopState.idleTracker s));
    [| eexists; exact Hsound].
  destruct (nth_error points (List.length points - 1));
    [| eexists; exact Hsound].
  cbv zeta. eexists. apply sound_exit. exact Hsound.
Qed.

Lemma initialLoopState_sound :
  soundTotals (LoopState.accumulator initialLoopState)
              (LoopState.idleTracker initialLoopState).
Proof.
  exists 0, 0, 0, 0, 0; simpl.
  repeat split; try lra; apply nonNegative_Fin; lra.
Qed.

Lemma le_Fin (a b : R) : a <= b -> (Fin a <=? Fin b)%js = true.
Proof.
  intros H. unfold JS.le; simpl.
  destruct (Rltb a b) eqn:E; [reflexivity |]. simpl. apply Reqb_true.
  assert (~ a < b) by (intros Hc; apply Rltb_iff in Hc; congruence). lra.
Qed.

(** The average speed, a safe quotient of two non-negative finite numbers,
    is non-negative. *)
Lemma averageSpeed_nonneg (d m : R) :
  0 <= d -> 0 <= m -> nonNegative (safeDivide0 (Fin d) (Fin m / Fin 60)%js).
Proof.
  intros Hd Hm. rewrite div_Fin by lra. unfold safeDivide0, safeDivide.
  cbn [JS.strictEq isFinite negb orb].
  destruct (Reqb (m / 60) 0) eqn:E; simpl.
  - apply nonNegative_Fin; lra.
  - rewrite E. simpl. apply nonNegative_Fin.
    assert (m / 60 <> 0) by (intros Hc; apply Reqb_iff in Hc; congruence).
    apply Rmult_le_pos; [assumption |].
    apply Rlt_le, Rinv_0_lt_compat. lra.
Qed.

(** On a track whose points have finite coordinates, the reading on exact
    reals gives totals that are not negative, with event minutes that sum
    to at most the idle time. *)
Lemma totals_sound (track : GPSTrackResponse.t)
  (config : AnalyticsConfig.t) :
  Forall finiteCoordinates (GPSTrackResponse.points track) ->
  (forall p, GPSTrackResponse.points track = [p] ->
             GPSTrackPoint.ignitionOn p = true ->
             nonNegative (GPSTrackPoint.speed p)) ->
  let m := baseMetrics track config in
  nonNegative (BaseVehicleMetrics.totalDistanceKm m) /\
  nonNegative (BaseVehicleMetrics.totalMovingTimeMinutes m) /\
  nonNegative (BaseVehicleMetrics.totalIdleTimeMinutes m) /\
  nonNegative (BaseVehicleMetrics.totalTimeMinutes m) /\
  nonNegative (BaseVehicleMetrics.averageSpeedKmh m) /\
  nonNegative (BaseVehicleMetrics.maxSpeedKmh m) /\
  nonNegative (BaseVehicleMetrics.numberOfStops m) /\
  nonNegative (BaseVehicleMetrics.totalPointsAnalyzed m) /\
  (eventMinutes (BaseVehicleMetrics.longIdleEvents m)
   <=? BaseVehicleMetrics.totalIdleTimeMinutes m)%js = true.
Proof.
  intros Hfin Hsingle m. subst m.
  destruct (duration_nonneg (GPSTrackResponse.startTime track)
              (GPSTrackResponse.endTime track)) as (tt & Htt & Htt0).
  assert (Hzero : nonNegative (Fin 0)) by (apply nonNegative_Fin; lra).
  unfold computeBaseMetrics.
  destruct (GPSTrackResponse.points track) as [| p1 [| p2 rest]] eqn:Hp.
  - simpl. rewrite Htt.
    repeat split; try exact Hzero; try (apply nonNegative_Fin; lra);
      try (apply le_Fin; lra).
  - cbv zeta. simpl. rewrite Htt.
    repeat split; try exact Hzero; try (apply nonNegative_Fin; lra);
      try (apply le_Fin; lra).
    destruct (GPSTrackPoint.ignitionOn p1) eqn:Eign; [| exact Hzero].
    apply (Hsingle p1 eq_refl Eign).
  - cbv zeta.
    pose proof (loop_sound (p1 :: p2 :: rest) config
                  (seq 0 (List.length (p1 :: p2 :: rest))) Hfin
                  initialLoopState initialLoopState_sound) as Hloop.
    cbv zeta in Hloop.
    destruct (finalizeOpenIdle_sound (p1 :: p2 :: rest) config _ Hloop)
      as (tr & d & mv & i & e & x & Hd & Hm & Hi & He & Hx & Hrest).
    destruct Hrest as (H1 & H2 & H3 & H4 & H5 & H6 & Hmax & Hstops).
    cbn [BaseVehicleMetrics.totalDistanceKm
         BaseVehicleMetrics.totalMovingTimeMinutes
         BaseVehicleMetrics.totalIdleTimeMinutes
         BaseVehicleMetrics.totalTimeMinutes
         BaseVehicleMetrics.averageSpeedKmh BaseVehicleMetrics.maxSpeedKmh
         BaseVehicleMetrics.numberOfStops BaseVehicleMetrics.longIdleEvents
         BaseVehicleMetrics.totalPointsAnalyzed].
    rewrite Hd, Hm, Hi, He, Htt.
    repeat split; try (apply nonNegative_Fin; lra); try assumption.
    + apply averageSpeed_nonneg; assumption.
    + apply nonNegative_Fin. apply pos_INR.
    + apply le_Fin; lra.
Qed.

End BaseMetricsProperties.

(** *** The base metrics engine on sample tracks *)

Lemma empty_track_metrics_witness :
  let m := computeBaseMetrics sampleDate_getTime (sampleTrack [])
             ANALYTICS_CONFIG in
  BaseVehicleMetrics.totalPointsAnalyzed m = Fin 0 /\
  BaseVehicleMetrics.longIdleEvents m = [] /\
  BaseVehicleMetrics.totalTimeMinutes m = Fin 60.
Proof.
  pose proof (empty_track_metrics sampleDate_getTime (sampleTrack [])
                ANALYTICS_CONFIG eq_refl) as H.
  cbv zeta in *.
  destruct H as (_ & _ & _ & _ & _ & _ & Hev & Hn & _ & Ht).
  repeat split; try assumption.
  rewrite Ht. simpl. rewrite Z.max_r by lia. f_equal. lra.
Defined.

Lemma sampleDrive_chronological :
  chronological sampleDate_getTime sampleDrive sampleDriveTimes.
Proof.
  split; [reflexivity |].
  unfold sampleDriveTimes. repeat constructor; lia.
Qed.

Lemma segment_attribution_complete_witness :
  let m := computeBaseMetrics sampleDate_getTime (sampleTrack sampleDrive)
             ANALYTICS_CONFIG in
  BaseVehicleMetrics.totalMovingTimeMinutes m
  = sumNum
      (map (segmentMinutes sampleDate_getTime)
         (segmentsInState ANALYTICS_CONFIG moving (segments sampleDrive))) /\
  fold_right Z.add 0%Z (gaps sampleDriveTimes) = 3600000%Z.
Proof.
  destruct (segment_attribution_complete sampleDate_getTime
              (sampleTrack sampleDrive) ANALYTICS_CONFIG sampleDriveTimes)
    as (_ & Hm & _ & _ & _ & Hsum & _).
  - simpl. lia.
  - exact sampleDrive_chronological.
  - split; [exact Hm |]. rewrite Hsum. reflexivity.
Defined.

Lemma stops_count_moving_to_idle_or_off_witness :
  BaseVehicleMetrics.numberOfStops
    (computeBaseMetrics sampleDate_getTime (sampleTrack sampleDrive)
       ANALYTICS_CONFIG)
  = ofNat (countStops ANALYTICS_CONFIG sampleDrive).
Proof.
  apply (stops_count_moving_to_idle_or_off sampleDate_getTime
           (sampleTrack sampleDrive) ANALYTICS_CONFIG).
  simpl. lia.
Defined.

Lemma idle_events_are_the_long_runs_witness :
  Forall2 (eventOfRun sampleDate_getTime)
    (filter (isLongRun sampleDate_getTime ANALYTICS_CONFIG)
       (idleRuns ANALYTICS_CONFIG sampleDrive))
    (BaseVehicleMetrics.longIdleEvents
       (computeBaseMetrics sampleDate_getTime (sampleTrack sampleDrive)
          ANALYTICS_CONFIG)).
Proof.
  apply (idle_events_are_the_long_runs sampleDate_getTime
           (sampleTrack sampleDrive) ANALYTICS_CONFIG).
  simpl. intros H. discriminate H.
Defined.

(** The sample drive has one long idle run: the idle sample of 09:10,
    ended by the sample of 09:30, twenty minutes later. *)
Example sampleDrive_long_runs :
  filter (isLongRun sampleDate_getTime ANALYTICS_CONFIG)
    (idleRuns ANALYTICS_CONFIG sampleDrive)
  = [ mkIdleRun [samplePoint (Fin 0) "2024-01-15T09:10:00Z" true]
        (Some (samplePoint (Fin 0) "2024-01-15T09:30:00Z" false)) ].
Proof.
  unfold idleRuns, sampleDrive, collectRuns, isIdlePoint, classifyPointState,
    samplePoint, ANALYTICS_CONFIG; simpl.
  Reval.
  unfold isLongRun, runMinutes, runSamples, segments, segmentMinutes,
    getPointDurationMinutes, getDurationMinutes, sumNum; simpl.
  Reval. reflexivity.
Qed.

(** A track of one idle point under a zero threshold: the run is long
    (its zero minutes reach the threshold), and no event is emitted. *)
Lemma single_idle_point_run_not_reported :
  filter (isLongRun sampleDate_getTime zeroThresholdConfig)
    (idleRuns zeroThresholdConfig [singleIdlePoint])
  = [mkIdleRun [singleIdlePoint] None] /\
  BaseVehicleMetrics.longIdleEvents
    (computeBaseMetrics sampleDate_getTime (sampleTrack [singleIdlePoint])
       zeroThresholdConfig) = [] /\
  ~ Forall2 (eventOfRun sampleDate_getTime)
      (filter (isLongRun sampleDate_getTime zeroThresholdConfig)
         (idleRuns zeroThresholdConfig [singleIdlePoint]))
      (BaseVehicleMetrics.longIdleEvents
         (computeBaseMetrics sampleDate_getTime (sampleTrack [singleIdlePoint])
            zeroThresholdConfig)).
Proof.
  assert (Hruns :
    filter (isLongRun sampleDate_getTime zeroThresholdConfig)
      (idleRuns zeroThresholdConfig [singleIdlePoint])
    = [mkIdleRun [singleIdlePoint] None]).
  { unfold idleRuns, collectRuns, isIdlePoint, classifyPointState,
      singleIdlePoint, samplePoint, zeroThresholdConfig; simpl.
    Reval.
    unfold isLongRun, runMinutes, runSamples, segments, sumNum; simpl.
    Reval. reflexivity. }
  split; [exact Hruns |]. split; [reflexivity |].
  rewrite Hruns. simpl. intros H. inversion H.
Qed.

(** A track of one point with the ignition on and a negative speed
    reading: [maxSpeedKmh] is that reading. *)
Lemma negative_speed_single_point :
  BaseVehicleMetrics.maxSpeedKmh
    (computeBaseMetrics sampleDate_getTime (sampleTrack [negativeSpeedPoint])
       ANALYTICS_CONFIG) = Fin (-5) /\
  ~ nonNegative
      (BaseVehicleMetrics.maxSpeedKmh
         (computeBaseMetrics sampleDate_getTime
            (sampleTrack [negativeSpeedPoint]) ANALYTICS_CONFIG)).
Proof.
  split; [reflexivity |].
  simpl. unfold nonNegative, JS.ge, JS.le; simpl.
  rewrite Rltb_false, Reqb_false by lra. discriminate.
Qed.

(* ================================================================== *)
(** ** Rankings *)
(* ================================================================== *)

(** *** The stable sort under a consistent comparator *)

Section StableSort.

Context {A : Type} (comparefn : A -> A -> num) (ok : A -> Prop).

Hypothesis notAfter_total :
  forall a b, ok a -> ok b ->
    notAfter comparefn a b \/ notAfter comparefn b a.
Hypothesis notAfter_trans :
  forall a b c, ok a -> ok b -> ok c ->
    notAfter comparefn a b -> notAfter comparefn b c -> notAfter comparefn a c.
Hypothesis notAfter_antisym :
  forall a b, ok a -> ok b ->
    notAfter comparefn a b -> notAfter comparefn b a -> a = b.

Lemma insertSorted_perm (x : A) (l : list A) :
  Permutation (insertSorted comparefn x l) (x :: l).
Proof.
  induction l as [| y l IH]; cbn [insertSorted]; [reflexivity |].
  destruct (sortCompare comparefn y x >? Fin 0)%js; [reflexivity |].
  rewrite IH. apply perm_swap.
Qed.

Lemma sort_fold_perm (l : list A) :
  forall acc : list A,
    Permutation
      (fold_left (fun sorted x => insertSorted comparefn x sorted) l acc)
      (acc ++ l).
Proof.
  induction l as [| x l IH]; intros acc; simpl.
  - rewrite app_nil_r. reflexivity.
  - rewrite IH, insertSorted_perm. apply Permutation_middle.
Qed.

Lemma Array_sort_perm (l : list A) : Permutation (Array_sort comparefn l) l.
Proof. unfold Array_sort. apply (sort_fold_perm l []). Qed.

Lemma insertSorted_sorted (x : A) (l : list A) :
  ok x -> Forall ok l ->
  StronglySorted (notAfter comparefn) l ->
  StronglySorted (notAfter comparefn) (insertSorted comparefn x l).
Proof.
  intros Hx. induction l as [| y l IH]; intros Hok Hsorted;
    cbn [insertSorted].
  - constructor; constructor.
  - inversion Hok as [| ? ? Hy Hl]; subst.
    inversion Hsorted as [| ? ? Hs Hall]; subst.
    destruct (sortCompare comparefn y x >? Fin 0)%js eqn:E.
    + assert (Hxy : notAfter comparefn x y).
      { destruct (notAfter_total x y Hx Hy) as [H | H]; [exact H |].
        unfold notAfter in H. congruence. }
      constructor; [exact Hsorted |].
      constructor; [exact Hxy |].
      rewrite Forall_forall in *. intros z Hz.
      apply (notAfter_trans x y z); auto.
    + constructor; [apply IH; assumption |].
      eapply Permutation_Forall;
        [symmetry; apply insertSorted_perm |].
      constructor; assumption.
Qed.

Lemma sort_fold_sorted (l : list A) :
  forall acc : list A,
    Forall ok l -> Forall ok acc ->
    StronglySorted (notAfter comparefn) acc ->
    StronglySorted (notAfter comparefn)
      (fold_left (fun sorted x => insertSorted comparefn x sorted) l acc).
Proof.
  induction l as [| x l IH]; intros acc Hl Hacc Hsorted; simpl;
    [exact Hsorted |].
  inversion Hl; subst.
  apply IH; auto.
  - eapply Permutation_Forall; [symmetry; apply insertSorted_perm |].
    constructor; assumption.
  - apply insertSorted_sorted; assumption.
Qed.

Lemma Array_sort_sorted (l : list A) :
  Forall ok l -> StronglySorted (notAfter comparefn) (Array_sort comparefn l).
Proof.
  intros Hl. unfold Array_sort.
  apply sort_fold_sorted; [exact Hl | constructor | constructor].
Qed.

(** Two sorted arrangements of the same elements are the same list. *)
Lemma sorted_arrangement_unique (l1 : list A) :
  forall l2 : list A,
    Forall ok l1 ->
    StronglySorted (notAfter comparefn) l1 ->
    StronglySorted (notAfter comparefn) l2 ->
    Permutation l1 l2 -> l1 = l2.
Proof.
  induction l1 as [| a l1 IH]; intros l2 Hok H1 H2 Hperm.
  - apply Permutation_nil in Hperm. symmetry; exact Hperm.
  - destruct l2 as [| b l2];
      [apply Permutation_sym, Permutation_nil in Hperm; discriminate |].
    inversion Hok as [| ? ? Ha Hok1]; subst.
    inversion H1 as [| ? ? Hs1 Hall1]; subst.
    inversion H2 as [| ? ? Hs2 Hall2]; subst.
    assert (Hok2 : Forall ok (b :: l2))
      by (eapply Permutation_Forall; [exact Hperm | exact Hok]).
    inversion Hok2 as [| ? ? Hb Hok2']; subst.
    assert (Hab : a = b).
    { assert (Hin_b : In b (a :: l1))
        by (eapply Permutation_in; [symmetry; exact Hperm | left; reflexivity]).
      assert (Hin_a : In a (b :: l2))
        by (eapply Permutation_in; [exact Hperm | left; reflexivity]).
      destruct Hin_b as [Heq | Hin_b]; [exact Heq |].
      destruct Hin_a as [Heq | Hin_a]; [symmetry; exact Heq |].
      rewrite Forall_forall in Hall1, Hall2.
      apply notAfter_antisym; auto. }
    subst b. f_equal.
    apply IH; auto. eapply Permutation_cons_inv; exact Hperm.
Qed.

Lemma Array_sort_order_independent (l1 l2 : list A) :
  Forall ok l1 -> Permutation l1 l2 ->
  Array_sort comparefn l1 = Array_sort comparefn l2.
Proof.
  intros Hok Hperm.
  assert (Hok2 : Forall ok l2)
    by (eapply Permutation_Forall; [exact Hperm | exact Hok]).
  apply sorted_arrangement_unique.
  - eapply Permutation_Forall; [symmetry; apply Array_sort_perm | exact Hok].
  - apply Array_sort_sorted; exact Hok.
  - apply Array_sort_sorted; exact Hok2.
  - rewrite !Array_sort_perm. exact Hperm.
Qed.

End StableSort.

(** *** The order of numbers that are not NaN *)

Lemma strictEq_eq (x y : num) : (x === y)%js = true -> x = y.
Proof.
  destruct x, y; simpl; intros H; try discriminate; try reflexivity.
  apply Reqb_iff in H. subst. reflexivity.
Qed.

Lemma strictEq_refl (x : num) : isNaN x = false -> (x === x)%js = true.
Proof.
  destruct x; simpl; intros H; try discriminate; try reflexivity.
  apply Reqb_true. reflexivity.
Qed.

Lemma num_lt_irrefl (x : num) : (x <? x)%js = false.
Proof. destruct x; simpl; try reflexivity. apply Rltb_false. lra. Qed.

Lemma num_lt_asym (x y : num) : (x <? y)%js = true -> (y <? x)%js = false.
Proof.
  destruct x, y; simpl; intros H; try discriminate; try reflexivity.
  apply Rltb_iff in H. apply Rltb_false. lra.
Qed.

Lemma num_lt_trans (x y z : num) :
  (x <? y)%js = true -> (y <? z)%js = true -> (x <? z)%js = true.
Proof.
  destruct x, y, z; simpl; intros H1 H2; try discriminate; try reflexivity.
  apply Rltb_iff in H1, H2. apply Rltb_true. lra.
Qed.

Lemma num_lt_trichotomy (x y : num) :
  isNaN x = false -> isNaN y = false ->
  (x <? y)%js = true \/ x = y \/ (y <? x)%js = true.
Proof.
  destruct x as [a | | |], y as [b | | |]; simpl; intros Hx Hy;
    try discriminate; auto.
  destruct (Rtotal_order a b) as [H | [H | H]].
  - left. apply Rltb_true. exact H.
  - right; left. subst. reflexivity.
  - right; right. apply Rltb_true. exact H.
Qed.

Lemma Rltb_IZR (z : Z) : Rltb 0 (IZR z) = (0 <? z)%Z.
Proof.
  destruct (0 <? z)%Z eqn:E.
  - apply Z.ltb_lt in E. apply Rltb_true. apply (IZR_lt 0 z). exact E.
  - apply Z.ltb_ge in E. apply Rltb_false. apply (IZR_le z 0). exact E.
Qed.

Section RankingProperties.

Variable localeCompare : string -> string -> Z.

Local Abbreviation compareEntries := (compareByScoreDesc localeCompare).

(** When both scores are numbers, the comparator puts [a] after [b]
    exactly when [a] has the lower score, or the same score and the later
    vehicleId. *)
Lemma compare_after (a b : ScoreEntry.t) :
  hasScore a -> hasScore b ->
  (sortCompare compareEntries a b >? Fin 0)%js
  = (ScoreEntry.score a <? ScoreEntry.score b)%js
    || ((ScoreEntry.score a === ScoreEntry.score b)%js
        && (0 <? localeCompare (ScoreEntry.vehicleId a)
                               (ScoreEntry.vehicleId b))%Z).
Proof.
  unfold hasScore, sortCompare, compareByScoreDesc, JS.gt, JS.strictNe, ofZ.
  destruct (ScoreEntry.score a) as [x | | |];
    destruct (ScoreEntry.score b) as [y | | |];
    simpl; intros Ha Hb; try discriminate; try reflexivity;
    try apply Rltb_IZR.
  destruct (Req_dec_T y x) as [-> | Hne].
  - rewrite !Reqb_true by reflexivity. simpl.
    rewrite Rltb_IZR. rewrite (Rltb_false x x) by lra. reflexivity.
  - rewrite (Reqb_false y x) by exact Hne. simpl.
    rewrite (Reqb_false x y) by (intros E; apply Hne; symmetry; exact E).
    rewrite andb_false_l, orb_false_r.
    destruct (Rlt_dec x y).
    + rewrite !Rltb_true by lra. reflexivity.
    + rewrite !Rltb_false by lra. reflexivity.
Qed.

Hypothesis collation : collationIsTotalOrder localeCompare.

Lemma collation_eq (a b : string) : localeCompare a b = 0%Z <-> a = b.
Proof. destruct collation as (H & _ & _). apply H. Qed.

Lemma collation_flip (a b : string) :
  (localeCompare a b < 0)%Z <-> (0 < localeCompare b a)%Z.
Proof. destruct collation as (_ & H & _). apply H. Qed.

Lemma collation_trans (a b c : string) :
  (localeCompare a b < 0)%Z -> (localeCompare b c < 0)%Z ->
  (localeCompare a c < 0)%Z.
Proof. destruct collation as (_ & _ & H). apply H. Qed.

Lemma collation_le_trans (a b c : string) :
  (localeCompare a b <= 0)%Z -> (localeCompare b c <= 0)%Z ->
  (localeCompare a c <= 0)%Z.
Proof.
  intros H1 H2.
  destruct (Z.eq_dec (localeCompare a b) 0) as [E1 | E1].
  - apply collation_eq in E1. subst. exact H2.
  - destruct (Z.eq_dec (localeCompare b c) 0) as [E2 | E2].
    + apply collation_eq in E2. subst. exact H1.
    + assert (localeCompare a c < 0)%Z by (apply (collation_trans a b c); lia).
      lia.
Qed.

(** [a] does not have to follow [b]: a higher score, or the same score
    and a vehicleId that is not later. *)
Lemma notAfter_iff (a b : ScoreEntry.t) :
  hasScore a -> hasScore b ->
  (notAfter compareEntries a b <->
   (ScoreEntry.score b <? ScoreEntry.score a)%js = true \/
   (ScoreEntry.score a = ScoreEntry.score b /\
    (localeCompare (ScoreEntry.vehicleId a) (ScoreEntry.vehicleId b) <= 0)%Z)).
Proof.
  intros Ha Hb. unfold notAfter. rewrite (compare_after a b Ha Hb).
  rewrite orb_false_iff, andb_false_iff, Z.ltb_ge.
  destruct (num_lt_trichotomy (ScoreEntry.score a) (ScoreEntry.score b) Ha Hb)
    as [Hlt | [Heq | Hgt]].
  - split.
    + intros [H _]. congruence.
    + intros [H | [H _]].
      * apply num_lt_asym in H. congruence.
      * rewrite H, num_lt_irrefl in Hlt. discriminate.
  - split.
    + intros [_ [H | H]].
      * rewrite Heq, strictEq_refl in H by exact Hb. discriminate.
      * right. auto.
    + intros [H | [_ H]].
      * rewrite Heq, num_lt_irrefl in H. discriminate.
      * split; [rewrite Heq; apply num_lt_irrefl | right; exact H].
  - split; [auto |]. intros _. split; [apply num_lt_asym; exact Hgt |].
    left. destruct (_ === _)%js eqn:E; [| reflexivity].
    apply strictEq_eq in E. rewrite E, num_lt_irrefl in Hgt. discriminate.
Qed.

Lemma entries_total (a b : ScoreEntry.t) :
  hasScore a -> hasScore b ->
  notAfter compareEntries a b \/ notAfter compareEntries b a.
Proof.
  intros Ha Hb. rewrite (notAfter_iff a b Ha Hb), (notAfter_iff b a Hb Ha).
  destruct (num_lt_trichotomy (ScoreEntry.score a) (ScoreEntry.score b) Ha Hb)
    as [Hlt | [Heq | Hgt]]; auto.
  destruct (Z_le_gt_dec
              (localeCompare (ScoreEntry.vehicleId a) (ScoreEntry.vehicleId b))
              0) as [H | H].
  - left; right; auto.
  - right; right. split; [symmetry; exact Heq |].
    assert (localeCompare (ScoreEntry.vehicleId b) (ScoreEntry.vehicleId a)
            < 0)%Z by (apply collation_flip; lia).
    lia.
Qed.

Lemma entries_trans (a b c : ScoreEntry.t) :
  hasScore a -> hasScore b -> hasScore c ->
  notAfter compareEntries a b -> notAfter compareEntries b c ->
  notAfter compareEntries a c.
Proof.
  intros Ha Hb Hc.
  rewrite (notAfter_iff a b Ha Hb), (notAfter_iff b c Hb Hc),
    (notAfter_iff a c Ha Hc).
  intros [H1 | [E1 L1]] [H2 | [E2 L2]].
  - left. eapply num_lt_trans; eassumption.
  - left. rewrite <- E2. exact H1.
  - left. rewrite E1. exact H2.
  - right. split; [congruence |].
    eapply collation_le_trans; eassumption.
Qed.

Lemma entries_antisym (a b : ScoreEntry.t) :
  hasScore a -> hasScore b ->
  notAfter compareEntries a b -> notAfter compareEntries b a -> a = b.
Proof.
  intros Ha Hb.
  rewrite (notAfter_iff a b Ha Hb), (notAfter_iff b a Hb Ha).
  intros [H1 | [E1 L1]] [H2 | [E2 L2]].
  - apply num_lt_asym in H1. congruence.
  - rewrite E2, num_lt_irrefl in H1. discriminate.
  - rewrite E1, num_lt_irrefl in H2. discriminate.
  - assert (Hid : ScoreEntry.vehicleId a = ScoreEntry.vehicleId b).
    { apply collation_eq.
      destruct (Z.eq_dec (localeCompare (ScoreEntry.vehicleId a)
                            (ScoreEntry.vehicleId b)) 0) as [E | E];
        [exact E |].
      assert (localeCompare (ScoreEntry.vehicleId a) (ScoreEntry.vehicleId b)
              < 0)%Z by lia.
      apply collation_flip in H. lia. }
    destruct a, b; simpl in *. subst. reflexivity.
Qed.

(** *** The ranking functions *)

Local Abbreviation toRanking :=
  (fun (entry : ScoreEntry.t) (index : nat) =>
     createRanking (ScoreEntry.vehicleId entry) (ScoreEntry.vehicleId entry)
       (ScoreEntry.score entry) (index + 1)).

Lemma ranking_vehicles (l : list ScoreEntry.t) :
  forall start : nat,
    map rankedVehicle (mapWithIndex toRanking start l) = map entryVehicle l.
Proof.
  induction l as [| e l IH]; intros start; simpl; [reflexivity |].
  rewrite IH. reflexivity.
Qed.

Lemma ranking_ranks (l : list ScoreEntry.t) :
  forall start : nat,
    map VehicleRanking.rank (mapWithIndex toRanking start l)
    = seq (start + 1) (List.length l).
Proof.
  induction l as [| e l IH]; intros start; simpl; [reflexivity |].
  rewrite IH. reflexivity.
Qed.

Lemma Forall_mapWithIndex (P : ScoreEntry.t -> Prop)
  (Q : VehicleRanking.t -> Prop) (l : list ScoreEntry.t) :
  (forall e i, P e -> Q (toRanking e i)) ->
  forall start : nat,
    Forall P l -> Forall Q (mapWithIndex toRanking start l).
Proof.
  intros HPQ. induction l as [| e l IH]; intros start Hl; simpl;
    [constructor |].
  inversion Hl; subst. constructor; auto.
Qed.

Lemma ranking_sorted (l : list ScoreEntry.t) :
  forall start : nat,
    Forall hasScore l ->
    StronglySorted (notAfter compareEntries) l ->
    StronglySorted (rankedBefore localeCompare)
      (mapWithIndex toRanking start l).
Proof.
  induction l as [| e l IH]; intros start Hok Hsorted; simpl;
    [constructor |].
  inversion Hok as [| ? ? He Hl]; subst.
  inversion Hsorted as [| ? ? Hs Hall]; subst.
  constructor; [apply IH; assumption |].
  apply Forall_mapWithIndex
    with (P := fun e' => hasScore e' /\ notAfter compareEntries e e').
  - intros e' i [He' Hn]. apply (notAfter_iff e e' He He') in Hn.
    unfold rankedBefore; simpl.
    destruct Hn as [Hn | [Heq Hle]]; [left; exact Hn |].
    right. split; [| exact Hle].
    rewrite Heq. apply strictEq_refl. exact He'.
  - rewrite Forall_forall in *. intros e' Hin. split; auto.
Qed.

Lemma rankEntries_is_ranking (entries : list ScoreEntry.t) :
  Forall hasScore entries ->
  isRankingOf localeCompare (map entryVehicle entries)
    (rankEntries localeCompare entries).
Proof.
  intros Hok. unfold isRankingOf, rankEntries; cbv zeta.
  pose proof (Array_sort_perm compareEntries entries) as Hperm.
  assert (Hok' : Forall hasScore (Array_sort compareEntries entries))
    by (eapply Permutation_Forall; [symmetry; exact Hperm | exact Hok]).
  split; [| split].
  - rewrite ranking_vehicles. apply Permutation_map. exact Hperm.
  - apply ranking_sorted; [exact Hok' |].
    exact (Array_sort_sorted compareEntries hasScore entries_total
             entries_trans entries Hok).
  - rewrite ranking_ranks, length_map.
    rewrite (Permutation_length Hperm). reflexivity.
Qed.


Lemma rankByEfficiency_entries (metrics : list DerivedVehicleMetrics.t) :
  rankByEfficiency localeCompare metrics
  = rankEntries localeCompare (map efficiencyEntry metrics).
Proof. destruct metrics; reflexivity. Qed.

Lemma rankByRisk_entries (metrics : list DerivedVehicleMetrics.t) :
  rankByRisk localeCompare metrics
  = rankEntries localeCompare (map riskEntry metrics).
Proof. destruct metrics; reflexivity. Qed.

End RankingProperties.

(** *** The ranking functions under a collation that may tie *)

Section RankingUnderCollation.

Variable localeCompare : string -> string -> Z.

Local Abbreviation compareEntries := (compareByScoreDesc localeCompare).

Hypothesis collation : collationIsPreorder localeCompare.

Lemma preorder_flip (a b : string) :
  (localeCompare a b < 0)%Z <-> (0 < localeCompare b a)%Z.
Proof. destruct collation as (H & _). apply H. Qed.

Lemma preorder_le_trans (a b c : string) :
  (localeCompare a b <= 0)%Z -> (localeCompare b c <= 0)%Z ->
  (localeCompare a c <= 0)%Z.
Proof. destruct collation as (_ & H). apply H. Qed.

Lemma preorder_entries_total (a b : ScoreEntry.t) :
  hasScore a -> hasScore b ->
  notAfter compareEntries a b \/ notAfter compareEntries b a.
Proof.
  intros Ha Hb.
  rewrite (notAfter_iff localeCompare a b Ha Hb),
    (notAfter_iff localeCompare b a Hb Ha).
  destruct (num_lt_trichotomy (ScoreEntry.score a) (ScoreEntry.score b) Ha Hb)
    as [Hlt | [Heq | Hgt]]; auto.
  destruct (Z_le_gt_dec
              (localeCompare (ScoreEntry.vehicleId a) (ScoreEntry.vehicleId b))
              0) as [H | H].
  - left; right; auto.
  - right; right. split; [symmetry; exact Heq |].
    assert (localeCompare (ScoreEntry.vehicleId b) (ScoreEntry.vehicleId a)
            < 0)%Z by (apply preorder_flip; lia).
    lia.
Qed.

Lemma preorder_entries_trans (a b c : ScoreEntry.t) :
  hasScore a -> hasScore b -> hasScore c ->
  notAfter compareEntries a b -> notAfter compareEntries b c ->
  notAfter compareEntries a c.
Proof.
  intros Ha Hb Hc.
  rewrite (notAfter_iff localeCompare a b Ha Hb),
    (notAfter_iff localeCompare b c Hb Hc),
    (notAfter_iff localeCompare a c Ha Hc).
  intros [H1 | [E1 L1]] [H2 | [E2 L2]].
  - left. eapply num_lt_trans; eassumption.
  - left. rewrite <- E2. exact H1.
  - left. rewrite E1. exact H2.
  - right. split; [congruence |].
    eapply preorder_le_trans; eassumption.
Qed.

(** Entries with a score whose identifier is one of [ids]. *)
Local Abbreviation entryAmong ids :=
  (fun e : ScoreEntry.t => hasScore e /\ In (ScoreEntry.vehicleId e) ids).

Lemma separated_entries_antisym (ids : list string) (a b : ScoreEntry.t) :
  collationSeparates localeCompare ids ->
  entryAmong ids a -> entryAmong ids b ->
  notAfter compareEntries a b -> notAfter compareEntries b a -> a = b.
Proof.
  intros Hsep [Ha Hia] [Hb Hib].
  rewrite (notAfter_iff localeCompare a b Ha Hb),
    (notAfter_iff localeCompare b a Hb Ha).
  intros [H1 | [E1 L1]] [H2 | [E2 L2]].
  - apply num_lt_asym in H1. congruence.
  - rewrite E2, num_lt_irrefl in H1. discriminate.
  - rewrite E1, num_lt_irrefl in H2. discriminate.
  - assert (Hid : ScoreEntry.vehicleId a = ScoreEntry.vehicleId b).
    { apply (Hsep _ _ Hia Hib).
      destruct (Z.eq_dec (localeCompare (ScoreEntry.vehicleId a)
                            (ScoreEntry.vehicleId b)) 0) as [E | E];
        [exact E |].
      assert (localeCompare (ScoreEntry.vehicleId a) (ScoreEntry.vehicleId b)
              < 0)%Z by lia.
      apply preorder_flip in H. lia. }
    destruct a, b; simpl in *. subst. reflexivity.
Qed.

Lemma preorder_rankEntries_is_ranking (entries : list ScoreEntry.t) :
  Forall hasScore entries ->
  isRankingOf localeCompare (map entryVehicle entries)
    (rankEntries localeCompare entries).
Proof.
  intros Hok. unfold isRankingOf, rankEntries; cbv zeta.
  pose proof (Array_sort_perm compareEntries entries) as Hperm.
  assert (Hok' : Forall hasScore (Array_sort compareEntries entries))
    by (eapply Permutation_Forall; [symmetry; exact Hperm | exact Hok]).
  split; [| split].
  - rewrite ranking_vehicles. apply Permutation_map. exact Hperm.
  - apply ranking_sorted; [exact Hok' |].
    exact (Array_sort_sorted compareEntries hasScore preorder_entries_total
             preorder_entries_trans entries Hok).
  - rewrite ranking_ranks, length_map.
    rewrite (Permutation_length Hperm). reflexivity.
Qed.

Lemma separated_rankEntries_order_independent (ids : list string)
  (entries entries' : list ScoreEntry.t) :
  collationSeparates localeCompare ids ->
  Forall (entryAmong ids) entries -> Permutation entries entries' ->
  rankEntries localeCompare entries' = rankEntries localeCompare entries.
Proof.
  intros Hsep Hok Hperm. unfold rankEntries; cbv zeta.
  rewrite (Array_sort_order_independent compareEntries (entryAmong ids)
             (fun a b Ha Hb => preorder_entries_total a b (proj1 Ha) (proj1 Hb))
             (fun a b c Ha Hb Hc =>
                preorder_entries_trans a b c (proj1 Ha) (proj1 Hb) (proj1 Hc))
             (fun a b => separated_entries_antisym ids a b Hsep)
             entries entries' Hok Hperm).
  reflexivity.
Qed.

(** Two entries that the comparator rates equal stay in input order. *)
Lemma tied_entries_keep_input_order (a b : ScoreEntry.t) :
  hasScore a -> hasScore b ->
  ScoreEntry.score a = ScoreEntry.score b ->
  localeCompare (ScoreEntry.vehicleId a) (ScoreEntry.vehicleId b) = 0%Z ->
  map VehicleRanking.vehicleId (rankEntries localeCompare [a; b])
  = [ScoreEntry.vehicleId a; ScoreEntry.vehicleId b].
Proof.
  intros Ha Hb Hs Hc. unfold rankEntries, Array_sort; cbv zeta.
  cbn [fold_left insertSorted].
  rewrite (compare_after localeCompare a b Ha Hb), Hs, Hc.
  rewrite num_lt_irrefl. rewrite andb_false_r. reflexivity.
Qed.


End RankingUnderCollation.


(** *** A collation, and the rankings of a sample fleet *)

Lemma String_compare_refl (s : string) : String.compare s s = Eq.
Proof.
  pose proof (String.compare_antisym s s) as H.
  destruct (String.compare s s); simpl in H; try discriminate; reflexivity.
Qed.

Lemma Ascii_compare_refl (c : Ascii.ascii) : Ascii.compare c c = Eq.
Proof.
  pose proof (Ascii.compare_antisym c c) as H.
  destruct (Ascii.compare c c); simpl in H; try discriminate; reflexivity.
Qed.

Lemma Ascii_compare_lt_trans (x y z : Ascii.ascii) :
  Ascii.compare x y = Lt -> Ascii.compare y z = Lt -> Ascii.compare x z = Lt.
Proof.
  unfold Ascii.compare. rewrite !N.compare_lt_iff. apply N.lt_trans.
Qed.

Lemma String_compare_lt_trans (a : string) :
  forall b c : string,
    String.compare a b = Lt -> String.compare b c = Lt ->
    String.compare a c = Lt.
Proof.
  induction a as [| x a IH]; intros [| y b] [| z c]; simpl;
    try discriminate; try reflexivity.
  destruct (Ascii.compare x y) eqn:Exy; try discriminate;
    destruct (Ascii.compare y z) eqn:Eyz; try discriminate; intros H1 H2.
  - apply Ascii.compare_eq_iff in Exy, Eyz. subst.
    rewrite Ascii_compare_refl. eapply IH; eassumption.
  - apply Ascii.compare_eq_iff in Exy. subst. rewrite Eyz. reflexivity.
  - apply Ascii.compare_eq_iff in Eyz. subst. rewrite Exy. reflexivity.
  - rewrite (Ascii_compare_lt_trans x y z Exy Eyz). reflexivity.
Qed.

Lemma lexCompare_total_order : collationIsTotalOrder lexCompare.
Proof.
  unfold collationIsTotalOrder, lexCompare. split; [| split].
  - intros a b. split.
    + destruct (String.compare a b) eqn:E; try discriminate.
      intros _. apply String.compare_eq_iff. exact E.
    + intros ->. rewrite String_compare_refl. reflexivity.
  - intros a b. rewrite (String.compare_antisym b a).
    destruct (String.compare a b); simpl; split; lia.
  - intros a b c.
    destruct (String.compare a b) eqn:E1; try lia.
    destruct (String.compare b c) eqn:E2; try lia.
    rewrite (String_compare_lt_trans a b c E1 E2). lia.
Qed.

Lemma ignoringControls_preorder : collationIsPreorder ignoringControls.
Proof.
  destruct lexCompare_total_order as (_ & Hflip & _).
  split.
  - intros a b. apply Hflip.
  - intros a b c.
    apply (collation_le_trans lexCompare lexCompare_total_order).
Qed.


(** The collation rates the two identifiers equal, the scores are equal,
    and the two input orders give two rankings. *)
Lemma ranking_follows_input_order_on_collation_tie :
  ignoringControls markedId "a" = 0%Z /\
  Permutation tiedFleet tiedFleetReversed /\
  map VehicleRanking.vehicleId (rankByEfficiency ignoringControls tiedFleet)
    = [markedId; "a"] /\
  map VehicleRanking.vehicleId
      (rankByEfficiency ignoringControls tiedFleetReversed)
    = ["a"; markedId].
Proof.
  split; [reflexivity |]. split; [apply perm_swap |].
  split; rewrite rankByEfficiency_entries.
  - apply (tied_entries_keep_input_order ignoringControls
             (efficiencyEntry (scoredVehicle markedId (Fin 70) (Fin 10)))
             (efficiencyEntry (scoredVehicle "a" (Fin 70) (Fin 10))));
      reflexivity.
  - apply (tied_entries_keep_input_order ignoringControls
             (efficiencyEntry (scoredVehicle "a" (Fin 70) (Fin 10)))
             (efficiencyEntry (scoredVehicle markedId (Fin 70) (Fin 10))));
      reflexivity.
Qed.

(** The sample fleet by efficiency: the best score first, the two equal
    scores in the order of their identifiers. *)
Example sampleFleet_by_efficiency :
  map (fun r => (VehicleRanking.vehicleId r, VehicleRanking.rank r))
      (rankByEfficiency lexCompare sampleFleet)
  = [ ("v3", 1%nat); ("v1", 2%nat); ("v2", 3%nat) ].
Proof.
  unfold rankByEfficiency, rankEntries, Array_sort, sampleFleet,
    scoredVehicle, DerivedVehicleMetrics.vehicleId; simpl.
  repeat progress (unfold sortCompare, compareByScoreDesc, lexCompare; Reval).
  reflexivity.
Qed.


(** A NaN coordinate on a moving segment makes the distance NaN. *)
Lemma nan_latitude_distance :
  BaseVehicleMetrics.totalDistanceKm
    (computeBaseMetrics sampleDate_getTime (sampleTrack nanLatitudeDrive)
       ANALYTICS_CONFIG) = NaN.
Proof.
  rewrite baseMetrics_distance by (simpl; lia).
  unfold nanLatitudeDrive, sampleTrack, samplePoint, segments,
    segmentsInState, classifyPointState, ANALYTICS_CONFIG; simpl.
  Reval. reflexivity.
Qed.

(** The sample drive, computed: ten minutes moving, twenty idle (the
    thirty with the ignition off are dropped) and one stop. *)
Example sampleDrive_metrics :
  let m := computeBaseMetrics sampleDate_getTime (sampleTrack sampleDrive)
             ANALYTICS_CONFIG in
  BaseVehicleMetrics.totalMovingTimeMinutes m = Fin 10 /\
  BaseVehicleMetrics.totalIdleTimeMinutes m = Fin 20 /\
  BaseVehicleMetrics.numberOfStops m = Fin 1.
Proof.
  destruct (baseMetrics_totals sampleDate_getTime (sampleTrack sampleDrive)
              ANALYTICS_CONFIG) as (Hm & Hi & Hs); [simpl; lia |].
  cbv zeta in *. rewrite Hm, Hi, Hs.
  unfold sampleDrive, sampleTrack, samplePoint, segments, segmentsInState,
    isStopPair, classifyPointState, sumNum, segmentMinutes,
    getPointDurationMinutes, getDurationMinutes, ANALYTICS_CONFIG; simpl.
  Reval.
  repeat split; f_equal; lra.
Qed.

(** The sample drive has one idle event: from 09:10 to 09:30, twenty
    minutes. *)
Example sampleDrive_idle_events :
  map (fun e => (IdleEvent.startTime e, IdleEvent.endTime e,
                 IdleEvent.durationMinutes e))
      (BaseVehicleMetrics.longIdleEvents
         (computeBaseMetrics sampleDate_getTime (sampleTrack sampleDrive)
            ANALYTICS_CONFIG))
  = [("2024-01-15T09:10:00Z", "2024-01-15T09:30:00Z", Fin 20)].
Proof.
  rewrite baseMetrics_events by (simpl; discriminate).
  unfold idleRuns, sampleDrive, sampleTrack, samplePoint, collectRuns,
    isIdlePoint, classifyPointState, ANALYTICS_CONFIG; simpl.
  Reval.
  unfold emittedEvents, closeRun, runEndTime, runSamples, lastPoint,
    exitIdleState, openTracker, segments, sumNum, segmentMinutes,
    getPointDurationMinutes, getDurationMinutes;
    cbn [flat_map map app rev snd fst option_map runPoints runNext hd_error
         segmentsFrom fold_left GPSTrackPoint.timestamp
         IdleEventTracker.accumulatedIdleMinutes
         IdleEventTracker.idleStartTime AnalyticsConfig.longIdleThresholdMinutes].
  replace (parseTimestamp sampleDate_getTime "2024-01-15T09:10:00Z")
    with (Some 1705309800000%Z) by reflexivity.
  replace (parseTimestamp sampleDate_getTime "2024-01-15T09:30:00Z")
    with (Some 1705311000000%Z) by reflexivity.
  unfold ofZ. rewrite sub_Fin.
  replace ((Fin (IZR 1705311000000 + - IZR 1705309800000) <? Fin 0)%js)
    with false by (simpl; rewrite Rltb_false by lra; reflexivity).
  rewrite div_by_60000, add_Fin.
  replace ((Fin (0 + (IZR 1705311000000 + - IZR 1705309800000) / (1000 * 60))
            >=? Fin 10)%js) with true
    by (symmetry; apply le_Fin; lra).
  cbn [map app IdleEvent.startTime IdleEvent.endTime
       IdleEvent.durationMinutes].
  repeat f_equal. lra.
Qed.

Lemma idle_event_location_is_centroid_witness :
  exists e : IdleEvent.t,
    BaseVehicleMetrics.longIdleEvents
      (computeBaseMetrics sampleDate_getTime (sampleTrack sampleDrive)
         ANALYTICS_CONFIG) = [e] /\
    IdleEvent.location e
    = sphericalCentroid
        [ samplePoint (Fin 0) "2024-01-15T09:10:00Z" true;
          samplePoint (Fin 0) "2024-01-15T09:30:00Z" false ].
Proof.
  pose proof sampleDrive_idle_events as Hev.
  destruct (idle_event_location_is_centroid sampleDate_getTime
              (sampleTrack sampleDrive) ANALYTICS_CONFIG) as [_ HF].
  destruct (BaseVehicleMetrics.longIdleEvents
              (computeBaseMetrics sampleDate_getTime (sampleTrack sampleDrive)
                 ANALYTICS_CONFIG)) as [| e [| e' rest]];
    try discriminate Hev.
  exists e. split; [reflexivity |].
  inversion HF as [| ? ? (r & Hin & Hlong & _ & Hloc) _]; subst.
  assert (Hr : In r (filter (isLongRun sampleDate_getTime ANALYTICS_CONFIG)
                       (idleRuns ANALYTICS_CONFIG sampleDrive)))
    by (apply filter_In; split; assumption).
  rewrite sampleDrive_long_runs in Hr.
  destruct Hr as [<- | []]. exact Hloc.
Defined.

(* ================================================================== *)
(** ** The engine's arithmetic at work *)
(* ================================================================== *)

Section DoubleArithmetic.

Import PrimFloat.
#[local] Set Warnings "-inexact-float".
Local Open Scope float_scope.

(** Six seconds of driving, sampled after one second: the moving time is
    [1000/60000 + 5000/60000 = 0.09999999999999999] minutes, the span
    from the first point to the last [6000/60000 = 0.1] minutes.  The
    attributed times do not add up to the span. *)
Lemma attributed_times_miss_the_span :
  Double.attributedTimes (Double.sampleTrack Double.sixSecondDrive)
    Double.ANALYTICS_CONFIG 0.09999999999999999 0 0 0.1 /\
  (0.09999999999999999 + 0 + 0 =? 0.1) = false.
Proof.
  split; [| vm_compute; reflexivity].
  intros libm. vm_compute. repeat split.
Qed.


(** At a risk score of 50 with the default constants the multiplier is
    [1.075] and the speeding risk cost [179.9999999999999], not [180]:
    [1.15 - 1] is [0.1499999999999999]. *)
Lemma speeding_risk_cost_at_50 :
  Double.calculateInsuranceMultiplier 50 Double.FINANCIAL_DEFAULTS = 1.075 /\
  Double.calculateSpeedingRiskCost 50 Double.FINANCIAL_DEFAULTS
  = 179.9999999999999 /\
  (Double.calculateSpeedingRiskCost 50 Double.FINANCIAL_DEFAULTS =? 180)
  = false.
Proof. vm_compute. repeat split. Qed.

(** Finite weights of opposite signs near the largest finite number: the
    two products overflow to [+Infinity] and [-Infinity], their sum is
    NaN, and the final clamp lets it through. *)
Lemma efficiency_score_with_huge_weights :
  Double.isNaN
    (Double.calculateEfficiencyScore Double.fullHourMetrics
       Double.hugeWeights Double.ANALYTICS_CONFIG) = true.
Proof. vm_compute. reflexivity. Qed.

(** A quotient of finite numbers that overflows: [safeDivide] answers the
    fallback. *)
Lemma safeDivide_on_overflow :
  Double.isFinite (0x1p1000 / 0x1p-100) = false /\
  Double.safeDivide 0x1p1000 0x1p-100 7 = 7.
Proof. vm_compute. repeat split. Qed.

End DoubleArithmetic.

(* ================================================================== *)
(** * The rest of the pipeline: properties *)
(* ================================================================== *)

(** ** Integer parts *)

Lemma Rfloor_spec (r : R) : IZR (Rfloor r) <= r < IZR (Rfloor r) + 1.
Proof.
  unfold Rfloor. destruct (archimed r) as [H1 H2].
  rewrite minus_IZR. lra.
Qed.

Lemma Rceil_spec (r : R) : IZR (Rceil r) - 1 < r <= IZR (Rceil r).
Proof.
  unfold Rceil. pose proof (Rfloor_spec (- r)) as H.
  rewrite opp_IZR. lra.
Qed.

Lemma Rfloor_unique (r : R) (k : Z) : IZR k <= r < IZR k + 1 -> Rfloor r = k.
Proof.
  intros [H1 H2]. pose proof (Rfloor_spec r) as [H3 H4].
  assert (Ha : (k < Rfloor r + 1)%Z).
  { apply lt_IZR. rewrite plus_IZR. lra. }
  assert (Hb : (Rfloor r < k + 1)%Z).
  { apply lt_IZR. rewrite plus_IZR. lra. }
  lia.
Qed.

Lemma Rfloor_IZR (k : Z) : Rfloor (IZR k) = k.
Proof. apply Rfloor_unique. lra. Qed.

Lemma Rceil_IZR (k : Z) : Rceil (IZR k) = k.
Proof.
  unfold Rceil. rewrite <- opp_IZR, Rfloor_IZR. lia.
Qed.

Lemma Rtrunc_IZR (k : Z) : Rtrunc (IZR k) = k.
Proof.
  unfold Rtrunc. destruct (Rleb 0 (IZR k)); [apply Rfloor_IZR | apply Rceil_IZR].
Qed.

(** ** Durations, day counts and ranges *)

Section TimeProperties.

Variable Date_getTime : string -> option Z.

Local Abbreviation parse := (parseTimestamp Date_getTime).
Local Abbreviation duration := (getDurationMinutes Date_getTime).

(** The sign of a duration. *)
Lemma duration_sign (startTime endTime : string) :
  exists r : R,
    duration startTime endTime = Fin r /\ 0 <= r /\
    (0 < r <->
     exists a b : Z,
       parse startTime = Some a /\ parse endTime = Some b /\ (a < b)%Z).
Proof.
  destruct (parse startTime) as [a |] eqn:Ha.
  - destruct (parse endTime) as [b |] eqn:Hb.
    + destruct (Z_lt_le_dec a b) as [Hlt | Hge].
      * exists (IZR (b - a) / (1000 * 60)). split; [| split].
        -- apply duration_parsed; [exact Ha | exact Hb | lia].
        -- apply IZR_lt in Hlt. rewrite minus_IZR. lra.
        -- split; intros _.
           ++ exists a, b. auto.
           ++ apply IZR_lt in Hlt. rewrite minus_IZR. lra.
      * exists 0. split; [| split].
        -- destruct (Z.eq_dec a b) as [-> | Hne].
           ++ rewrite (duration_parsed Date_getTime startTime endTime b b Ha Hb)
                by lia.
              f_equal. rewrite Z.sub_diag. lra.
           ++ apply (duration_reversed Date_getTime startTime endTime a b Ha Hb).
              lia.
        -- lra.
        -- split; [lra |].
           intros (a' & b' & Ea & Eb & Hlt). inversion Ea; inversion Eb; lia.
    + exists 0. split; [| split].
      * apply duration_invalid. right; exact Hb.
      * lra.
      * split; [lra |]. intros (a' & b' & _ & Eb & _). discriminate Eb.
  - exists 0. split; [| split].
    + apply duration_invalid. left; exact Ha.
    + lra.
    + split; [lra |]. intros (a' & b' & Ea & _). discriminate Ea.
Qed.

(** A part of a span does not last longer than the span. *)
Lemma duration_of_part (t1 t2 t3 t4 : string) (a b c d : Z) :
  parse t1 = Some a -> parse t2 = Some b -> parse t3 = Some c ->
  parse t4 = Some d ->
  (a <= b)%Z -> (b <= c)%Z -> (c <= d)%Z ->
  (duration t2 t3 <=? duration t1 t4)%js = true.
Proof.
  intros Ha Hb Hc Hd Hab Hbc Hcd.
  rewrite (duration_parsed Date_getTime t2 t3 b c Hb Hc Hbc).
  rewrite (duration_parsed Date_getTime t1 t4 a d Ha Hd) by lia.
  apply IZR_le in Hab, Hbc, Hcd.
  apply le_Fin; rewrite !minus_IZR; lra.
Qed.

(** X1 -- [getDurationMinutes]: the result is always a finite number that
    is not negative, whatever the two strings; it is positive exactly
    when both timestamps parse and the end is strictly after the start.
    Over three parseable instants in order, neither partial duration
    exceeds the duration from the first to the third. *)
Theorem getDurationMinutes_contract (t1 t2 t3 : string) :
  (exists r : R,
     getDurationMinutes Date_getTime t1 t2 = Fin r /\ 0 <= r /\
     (0 < r <->
      exists a b : Z,
        parseTimestamp Date_getTime t1 = Some a /\
        parseTimestamp Date_getTime t2 = Some b /\ (a < b)%Z)) /\
  (forall a b c : Z,
     parseTimestamp Date_getTime t1 = Some a ->
     parseTimestamp Date_getTime t2 = Some b ->
     parseTimestamp Date_getTime t3 = Some c ->
     (a <= b)%Z -> (b <= c)%Z ->
     (getDurationMinutes Date_getTime t1 t2
      <=? getDurationMinutes Date_getTime t1 t3)%js = true /\
     (getDurationMinutes Date_getTime t2 t3
      <=? getDurationMinutes Date_getTime t1 t3)%js = true).
Proof.
  split; [apply duration_sign |].
  intros a b c Ha Hb Hc Hab Hbc. split.
  - apply (duration_of_part t1 t1 t2 t3 a a b c); auto; lia.
  - apply (duration_of_part t1 t2 t3 t3 a b c c); auto; lia.
Qed.

Lemma ms_per_day :
  (Fin 1000 * Fin 60 * Fin 60 * Fin 24)%js = Fin 86400000.
Proof. rewrite !mul_Fin. f_equal. lra. Qed.

(** X2 -- [getDayCount]: 0 when a timestamp is invalid or the range is
    reversed; otherwise, for a range of at most [2^53] milliseconds (some
    285,000 years: the quotient by the milliseconds of a day then rounds
    to no other whole number than the exact quotient does), a whole number
    of days, at least 1 (a range of zero length counts as one day), that
    covers the range and is the least such number. *)
Theorem getDayCount_covers_range (startTime endTime : string) :
  (parse startTime = None \/ parse endTime = None ->
   getDayCount Date_getTime startTime endTime = Fin 0) /\
  (forall a b : Z,
     parse startTime = Some a -> parse endTime = Some b -> (b < a)%Z ->
     getDayCount Date_getTime startTime endTime = Fin 0) /\
  (forall a b : Z,
     parse startTime = Some a -> parse endTime = Some b -> (a <= b)%Z ->
     (b - a <= 2 ^ 53)%Z ->
     exists k : Z,
       getDayCount Date_getTime startTime endTime = Fin (IZR k) /\
       (1 <= k)%Z /\
       (b - a <= k * 86400000)%Z /\
       (1 < k -> (k - 1) * 86400000 < b - a)%Z).
Proof.
  unfold getDayCount. split; [| split].
  - intros [H | H]; rewrite H; [reflexivity |].
    destruct (parse startTime); reflexivity.
  - intros a b Ha Hb Hlt. rewrite Ha, Hb. cbv zeta.
    unfold ofZ. rewrite sub_Fin. simpl.
    apply IZR_lt in Hlt. rewrite Rltb_true by lra. reflexivity.
  - intros a b Ha Hb Hle _. rewrite Ha, Hb. cbv zeta.
    unfold ofZ. rewrite sub_Fin. simpl JS.lt.
    apply IZR_le in Hle. rewrite Rltb_false by lra.
    rewrite ms_per_day, div_Fin by lra.
    set (days := (IZR b + - IZR a) / 86400000).
    pose proof (Rceil_spec days) as [Hc1 Hc2].
    assert (Hdays : days * 86400000 = IZR (b - a)).
    { unfold days. rewrite minus_IZR. field. }
    unfold Math_ceil, JS.max, JS.lt.
    destruct (Rlt_dec 1 (IZR (Rceil days))) as [Hgt | Hngt].
    + rewrite Rltb_true by exact Hgt.
      exists (Rceil days). split; [reflexivity |].
      assert (H1 : (1 < Rceil days)%Z) by (apply lt_IZR; exact Hgt).
      split; [lia |]. split.
      * apply le_IZR. rewrite mult_IZR, <- Hdays. nra.
      * intros _. apply lt_IZR. rewrite mult_IZR, minus_IZR, <- Hdays. nra.
    + rewrite Rltb_false by lra.
      exists 1%Z. split; [reflexivity |]. split; [lia |]. split; [| lia].
      apply le_IZR. rewrite mult_IZR, <- Hdays. nra.
Qed.

(** X3 -- [isWithinRange] holds exactly when the three timestamps parse
    and the instant lies between the bounds, both included; and then
    neither the duration from the start to the instant nor the one from
    the instant to the end exceeds the duration of the range. *)
Theorem isWithinRange_inclusive (timestamp rangeStart rangeEnd : string) :
  (isWithinRange Date_getTime timestamp rangeStart rangeEnd = true <->
   exists t a b : Z,
     parse timestamp = Some t /\ parse rangeStart = Some a /\
     parse rangeEnd = Some b /\ (a <= t <= b)%Z) /\
  (isWithinRange Date_getTime timestamp rangeStart rangeEnd = true ->
   (duration rangeStart timestamp <=? duration rangeStart rangeEnd)%js = true /\
   (duration timestamp rangeEnd <=? duration rangeStart rangeEnd)%js = true).
Proof.
  assert (Hiff :
    isWithinRange Date_getTime timestamp rangeStart rangeEnd = true <->
    exists t a b : Z,
      parse timestamp = Some t /\ parse rangeStart = Some a /\
      parse rangeEnd = Some b /\ (a <= t <= b)%Z).
  { unfold isWithinRange.
    destruct (parse timestamp) as [t |];
      [| split; [discriminate | intros (t & a & b & E & _); discriminate E]].
    destruct (parse rangeStart) as [a |];
      [| split; [discriminate | intros (t' & a & b & _ & E & _); discriminate E]].
    destruct (parse rangeEnd) as [b |];
      [| split; [discriminate
                | intros (t' & a' & b & _ & _ & E & _); discriminate E]].
    cbv zeta. unfold ofZ, JS.ge, JS.le, JS.lt, JS.strictEq.
    rewrite andb_true_iff, !orb_true_iff, !Rltb_iff, !Reqb_iff.
    split.
    - intros [H1 H2]. exists t, a, b. repeat split; try reflexivity.
      + apply le_IZR. lra.
      + apply le_IZR. lra.
    - intros (t' & a' & b' & Et & Ea & Eb & H1 & H2).
      inversion Et; inversion Ea; inversion Eb; subst.
      apply IZR_le in H1, H2. split; lra. }
  split; [exact Hiff |].
  intros H. apply Hiff in H. destruct H as (t & a & b & Et & Ea & Eb & H1 & H2).
  split.
  - apply (duration_of_part rangeStart rangeStart timestamp rangeEnd a a t b);
      auto; lia.
  - apply (duration_of_part rangeStart timestamp rangeEnd rangeEnd a t b b);
      auto; lia.
Qed.

End TimeProperties.

Lemma getDurationMinutes_contract_witness :
  (getDurationMinutes sampleDate_getTime
     "2024-01-15T09:30:00Z" "2024-01-15T10:00:00Z"
   <=? getDurationMinutes sampleDate_getTime
         "2024-01-15T09:00:00Z" "2024-01-15T10:00:00Z")%js = true /\
  exists r : R,
    getDurationMinutes sampleDate_getTime
      "2024-01-15T09:00:00Z" "2024-01-15T09:30:00Z" = Fin r /\ 0 < r.
Proof.
  destruct (getDurationMinutes_contract sampleDate_getTime
              "2024-01-15T09:00:00Z" "2024-01-15T09:30:00Z"
              "2024-01-15T10:00:00Z") as [(r & E & _ & Hpos) Hparts].
  split.
  - apply (Hparts 1705309200000%Z 1705311000000%Z 1705312800000%Z);
      [reflexivity | reflexivity | reflexivity | lia | lia].
  - exists r. split; [exact E |]. apply Hpos.
    exists 1705309200000%Z, 1705311000000%Z. repeat split; lia.
Defined.

Lemma getDayCount_covers_range_witness :
  getDayCount sampleDate_getTime "2024-01-15T09:00:00Z" "2024-01-15T10:00:00Z"
  = Fin 1 /\
  getDayCount sampleDate_getTime "2024-01-15T10:00:00Z" "2024-01-15T09:00:00Z"
  = Fin 0 /\
  getDayCount sampleDate_getTime "yesterday" "2024-01-15T09:00:00Z" = Fin 0.
Proof.
  split; [| split].
  - destruct (getDayCount_covers_range sampleDate_getTime
                "2024-01-15T09:00:00Z" "2024-01-15T10:00:00Z")
      as (_ & _ & H).
    destruct (H 1705309200000%Z 1705312800000%Z) as (k & E & H1 & H2 & H3);
      [reflexivity | reflexivity | lia | lia |].
    assert (k = 1%Z) by lia. subst k. exact E.
  - destruct (getDayCount_covers_range sampleDate_getTime
                "2024-01-15T10:00:00Z" "2024-01-15T09:00:00Z")
      as (_ & H & _).
    apply (H 1705312800000%Z 1705309200000%Z); [reflexivity | reflexivity | lia].
  - destruct (getDayCount_covers_range sampleDate_getTime
                "yesterday" "2024-01-15T09:00:00Z")
      as (H & _ & _).
    apply H. left. reflexivity.
Defined.

Lemma isWithinRange_inclusive_witness :
  isWithinRange sampleDate_getTime "2024-01-15T10:00:00Z"
    "2024-01-15T09:00:00Z" "2024-01-15T10:00:00Z" = true /\
  (getDurationMinutes sampleDate_getTime
     "2024-01-15T09:00:00Z" "2024-01-15T10:00:00Z"
   <=? getDurationMinutes sampleDate_getTime
         "2024-01-15T09:00:00Z" "2024-01-15T10:00:00Z")%js = true.
Proof.
  destruct (isWithinRange_inclusive sampleDate_getTime
              "2024-01-15T10:00:00Z" "2024-01-15T09:00:00Z"
              "2024-01-15T10:00:00Z") as [Hiff Hparts].
  assert (H : isWithinRange sampleDate_getTime "2024-01-15T10:00:00Z"
                "2024-01-15T09:00:00Z" "2024-01-15T10:00:00Z" = true).
  { apply Hiff.
    exists 1705312800000%Z, 1705309200000%Z, 1705312800000%Z.
    repeat split; lia. }
  split; [exact H |]. apply (Hparts H).
Defined.

(** ** clamp *)

(** X4 -- [clamp] with finite bounds: NaN passes through unchanged; any
    other value, the infinities included, lands between the bounds when
    they are in order, a value already between them being returned as it
    is; with the bounds out of order the upper bound wins. *)
Theorem clamp_contract (value : num) (lo hi : R) :
  (isNaN value = true -> clamp value (Fin lo) (Fin hi) = NaN) /\
  (isNaN value = false -> lo <= hi ->
   exists r : R,
     clamp value (Fin lo) (Fin hi) = Fin r /\ lo <= r <= hi /\
     (forall x : R, value = Fin x -> lo <= x <= hi -> r = x) /\
     clamp (Fin r) (Fin lo) (Fin hi) = Fin r) /\
  (isNaN value = false -> hi < lo -> clamp value (Fin lo) (Fin hi) = Fin hi).
Proof.
  split; [| split].
  - destruct value; try discriminate. reflexivity.
  - intros Hn Hle. destruct value as [x | | |]; try discriminate.
    + unfold clamp, JS.max, JS.min, JS.lt.
      destruct (Rlt_dec x lo) as [H1 | H1].
      * rewrite (Rltb_true x lo H1). rewrite Rltb_false by lra.
        exists lo. repeat split; try lra.
        -- intros y Hy. inversion Hy; subst. lra.
        -- rewrite Rltb_false by lra. rewrite Rltb_false by lra. reflexivity.
      * rewrite (Rltb_false x lo) by lra.
        destruct (Rlt_dec hi x) as [H2 | H2].
        -- rewrite (Rltb_true hi x H2).
           exists hi. repeat split; try lra.
           ++ intros y Hy. inversion Hy; subst. lra.
           ++ destruct (Rlt_dec hi lo); [lra |].
              rewrite (Rltb_false hi lo) by lra.
              rewrite Rltb_false by lra. reflexivity.
        -- rewrite (Rltb_false hi x) by lra.
           exists x. repeat split; try lra.
           ++ intros y Hy. inversion Hy; subst. reflexivity.
           ++ rewrite Rltb_false by lra. rewrite Rltb_false by lra. reflexivity.
    + exists hi. unfold clamp; simpl. repeat split; try lra.
      * intros y Hy. discriminate Hy.
      * rewrite Rltb_false by lra. simpl. rewrite Rltb_false by lra. reflexivity.
    + exists lo. unfold clamp; simpl. rewrite Rltb_false by lra.
      repeat split; try lra.
      * intros y Hy. discriminate Hy.
      * rewrite Rltb_false by lra. simpl. rewrite Rltb_false by lra. reflexivity.
  - intros Hn Hlt. destruct value as [x | | |]; try discriminate.
    + unfold clamp, JS.max, JS.min, JS.lt.
      destruct (Rlt_dec x lo) as [H1 | H1].
      * rewrite (Rltb_true x lo H1). rewrite Rltb_true by lra. reflexivity.
      * rewrite (Rltb_false x lo) by lra. rewrite Rltb_true by lra. reflexivity.
    + reflexivity.
    + unfold clamp; simpl. rewrite Rltb_true by lra. reflexivity.
Qed.

Lemma clamp_contract_witness :
  clamp NaN (Fin 0) (Fin 100) = NaN /\
  clamp PInf (Fin 100) (Fin 0) = Fin 0 /\
  exists r : R, clamp NInf (Fin 0) (Fin 100) = Fin r /\ 0 <= r <= 100.
Proof.
  destruct (clamp_contract NaN 0 100) as (H1 & _ & _).
  destruct (clamp_contract PInf 100 0) as (_ & _ & H2).
  destruct (clamp_contract NInf 0 100) as (_ & H3 & _).
  split; [apply H1; reflexivity |].
  split; [apply H2; [reflexivity | lra] |].
  destruct H3 as (r & E & Hr & _); [reflexivity | lra |].
  exists r. split; [exact E | exact Hr].
Defined.

(** ** Great-circle distances *)

Lemma haversineA_bounds (lat1 lon1 lat2 lon2 : R) :
  0 <= haversineA lat1 lon1 lat2 lon2 <= 1.
Proof.
  unfold haversineA. cbv zeta.
  set (k := Rtrigo1.PI / 180).
  pose proof (haversine_a_bounds (lat1 * k) (lat2 * k)
                ((lon2 + - lon1) * k / 2)) as Ha.
  cbv zeta in Ha.
  replace ((lat2 * k - lat1 * k) / 2) with ((lat2 + - lat1) * k / 2) in Ha
    by lra.
  exact Ha.
Qed.

Lemma haversineA_sym (lat1 lon1 lat2 lon2 : R) :
  haversineA lat1 lon1 lat2 lon2 = haversineA lat2 lon2 lat1 lon1.
Proof.
  unfold haversineA. cbv zeta.
  set (k := Rtrigo1.PI / 180).
  replace ((lat1 + - lat2) * k / 2) with (- ((lat2 + - lat1) * k / 2)) by lra.
  replace ((lon1 + - lon2) * k / 2) with (- ((lon2 + - lon1) * k / 2)) by lra.
  rewrite !sin_neg. ring.
Qed.

Lemma Rabs_within (a b : R) : Rabs a <= b -> - b <= a <= b.
Proof. unfold Rabs. destruct (Rcase_abs a); lra. Qed.

Lemma sin_sq_quarter (x : R) :
  - (Rtrigo1.PI / 4) <= x <= Rtrigo1.PI / 4 ->
  Rtrigo_def.sin x * Rtrigo_def.sin x <= 1 / 2.
Proof.
  intros Hx.
  pose proof (cos_2a_sin x) as H2.
  assert (Hc : 0 <= Rtrigo_def.cos (2 * x)) by (apply cos_ge_0; lra).
  lra.
Qed.

(** Within a quarter turn in both coordinates, and with latitudes in
    range, the haversine term is at most 3/4. *)
Lemma haversineA_quarter_turn (lat1 lon1 lat2 lon2 : R) :
  -90 <= lat1 <= 90 -> -90 <= lat2 <= 90 ->
  Rabs (lat2 - lat1) <= 90 -> Rabs (lon2 - lon1) <= 90 ->
  haversineA lat1 lon1 lat2 lon2 <= 3 / 4.
Proof.
  intros H1 H2 Hlat Hlon. unfold haversineA. cbv zeta.
  pose proof PI_RGT_0 as Hpi.
  set (k := Rtrigo1.PI / 180).
  apply Rabs_within in Hlat. apply Rabs_within in Hlon.
  set (x := (lat2 + - lat1) * k / 2).
  set (y := (lon2 + - lon1) * k / 2).
  assert (Hx : - (Rtrigo1.PI / 4) <= x <= Rtrigo1.PI / 4)
    by (unfold x, k; split; nra).
  assert (Hy : - (Rtrigo1.PI / 4) <= y <= Rtrigo1.PI / 4)
    by (unfold y, k; split; nra).
  pose proof (sin_sq_quarter x Hx) as Hs.
  pose proof (sin_sq_quarter y Hy) as Hu.
  set (s := Rtrigo_def.sin x * Rtrigo_def.sin x) in *.
  set (u := Rtrigo_def.sin y * Rtrigo_def.sin y) in *.
  assert (Hs0 : 0 <= s) by (unfold s; nra).
  assert (Hu0 : 0 <= u) by (unfold u; nra).
  set (c := Rtrigo_def.cos (lat1 * k) * Rtrigo_def.cos (lat2 * k)).
  assert (Hc0 : 0 <= c).
  { unfold c. apply Rmult_le_pos; apply cos_ge_0; unfold k; nra. }
  assert (Hc1 : c <= 1 - s).
  { assert (Hsum : 2 * c
                   = Rtrigo_def.cos (lat2 * k + lat1 * k)
                     + Rtrigo_def.cos (lat2 * k - lat1 * k))
      by (unfold c; rewrite cos_plus, cos_minus; ring).
    pose proof (COS_bound (lat2 * k + lat1 * k)) as [_ Hb].
    pose proof (cos_2a_sin x) as H2x.
    replace (2 * x) with (lat2 * k - lat1 * k) in H2x by (unfold x; lra).
    assert (H2s : Rtrigo_def.cos (lat2 * k - lat1 * k) = 1 - 2 * s)
      by (rewrite H2x; unfold s; ring).
    lra. }
  change (s + c * Rtrigo_def.sin y * Rtrigo_def.sin y <= 3 / 4).
  replace (c * Rtrigo_def.sin y * Rtrigo_def.sin y) with (c * u)
    by (unfold u; ring).
  nra.
Qed.

(** The distance between two points with finite coordinates, in closed
    form. *)
Lemma haversineDistance_value (lat1 lon1 lat2 lon2 : R) :
  haversineDistance (Fin lat1) (Fin lon1) (Fin lat2) (Fin lon2)
  = if Reqb lat1 lat2 && Reqb lon1 lon2 then Fin 0
    else
      let a := haversineA lat1 lon1 lat2 lon2 in
      Fin (6371 * (2 * Ratan2 (R_sqrt.sqrt a) (R_sqrt.sqrt (1 + - a)))).
Proof.
  unfold haversineDistance. cbn [JS.strictEq].
  destruct (Reqb lat1 lat2 && Reqb lon1 lon2); [reflexivity |].
  cbv zeta. rewrite !sub_Fin, !degreesToRadians_Fin.
  rewrite !div_Fin by lra.
  cbn [JS.sin JS.cos]. rewrite !mul_Fin, !add_Fin.
  pose proof (haversineA_bounds lat1 lon1 lat2 lon2) as Ha.
  unfold haversineA in *. cbv zeta in Ha.
  set (A := Rtrigo_def.sin ((lat2 + - lat1) * (Rtrigo1.PI / 180) / 2)
            * Rtrigo_def.sin ((lat2 + - lat1) * (Rtrigo1.PI / 180) / 2)
            + Rtrigo_def.cos (lat1 * (Rtrigo1.PI / 180))
              * Rtrigo_def.cos (lat2 * (Rtrigo1.PI / 180))
              * Rtrigo_def.sin ((lon2 + - lon1) * (Rtrigo1.PI / 180) / 2)
              * Rtrigo_def.sin ((lon2 + - lon1) * (Rtrigo1.PI / 180) / 2)) in *.
  rewrite sub_Fin. unfold JS.sqrt.
  rewrite !Rltb_false by lra.
  cbn [JS.atan2]. rewrite mul_Fin. unfold EARTH_RADIUS_KM. rewrite mul_Fin.
  reflexivity.
Qed.

Lemma Ratan2_quadrant (y x : R) :
  0 <= y -> 0 <= x -> 0 <= Ratan2 y x <= Rtrigo1.PI / 2.
Proof.
  intros Hy Hx. split; [apply Ratan2_nonneg; assumption |].
  unfold Ratan2, Rltb, Rleb.
  destruct (Rlt_dec 0 x) as [Hpos | Hnpos].
  - pose proof (atan_bound (y / x)). lra.
  - destruct (Rlt_dec x 0); [lra |].
    pose proof PI_RGT_0.
    destruct (Rlt_dec 0 y); [lra |].
    destruct (Rlt_dec y 0); lra.
Qed.

Lemma Reqb_sym (a b : R) : Reqb a b = Reqb b a.
Proof.
  destruct (Req_dec_T a b) as [E | E].
  - rewrite (Reqb_true a b E). symmetry. apply Reqb_true. auto.
  - rewrite (Reqb_false a b E). symmetry. apply Reqb_false. auto.
Qed.

(** X5 -- [haversineDistance] between two points with coordinates in
    range that are at most a quarter turn apart in latitude and in
    longitude: a finite number between 0 and half the circumference of
    the sphere (6371 * PI km), the same in both directions; the
    distance from a point to itself is 0; and the haversine term [a] is
    at most 3/4, so that neither square root of the formula is taken
    near 0 from the wrong side. *)
Theorem haversineDistance_symmetric_and_bounded (lat1 lon1 lat2 lon2 : R) :
  -90 <= lat1 <= 90 -> -180 <= lon1 <= 180 ->
  -90 <= lat2 <= 90 -> -180 <= lon2 <= 180 ->
  Rabs (lat2 - lat1) <= 90 -> Rabs (lon2 - lon1) <= 90 ->
  haversineDistance (Fin lat1) (Fin lon1) (Fin lat2) (Fin lon2)
  = haversineDistance (Fin lat2) (Fin lon2) (Fin lat1) (Fin lon1) /\
  (exists d : R,
     haversineDistance (Fin lat1) (Fin lon1) (Fin lat2) (Fin lon2) = Fin d /\
     0 <= d <= 6371 * Rtrigo1.PI) /\
  haversineDistance (Fin lat1) (Fin lon1) (Fin lat1) (Fin lon1) = Fin 0 /\
  haversineA lat1 lon1 lat2 lon2 <= 3 / 4.
Proof.
  intros Hlat1 _ Hlat2 _ Hlat Hlon.
  split; [| split; [| split]];
    [| | | apply haversineA_quarter_turn; assumption].
  - rewrite !haversineDistance_value.
    rewrite (Reqb_sym lat2 lat1), (Reqb_sym lon2 lon1).
    rewrite (haversineA_sym lat2 lon2 lat1 lon1). reflexivity.
  - rewrite haversineDistance_value.
    pose proof PI_RGT_0 as Hpi.
    destruct (Reqb lat1 lat2 && Reqb lon1 lon2).
    + exists 0. split; [reflexivity | lra].
    + cbv zeta. eexists. split; [reflexivity |].
      pose proof (Ratan2_quadrant
                    (R_sqrt.sqrt (haversineA lat1 lon1 lat2 lon2))
                    (R_sqrt.sqrt (1 + - haversineA lat1 lon1 lat2 lon2))
                    (sqrt_pos _) (sqrt_pos _)).
      lra.
  - rewrite haversineDistance_value.
    rewrite !Reqb_true by reflexivity. reflexivity.
Qed.

(** From New York to London. *)
Lemma haversineDistance_symmetric_and_bounded_witness :
  haversineDistance (Fin (407128 / 10000)) (Fin (- (74006 / 1000)))
    (Fin (515074 / 10000)) (Fin (- (1278 / 10000)))
  = haversineDistance (Fin (515074 / 10000)) (Fin (- (1278 / 10000)))
      (Fin (407128 / 10000)) (Fin (- (74006 / 1000))).
Proof.
  apply (haversineDistance_symmetric_and_bounded
           (407128 / 10000) (- (74006 / 1000))
           (515074 / 10000) (- (1278 / 10000)));
    try lra; apply Rabs_le; lra.
Defined.

(** ** The length of a track *)

Lemma trackDistance_loop (rest : list GPSTrackPoint.t) :
  forall (pre : list GPSTrackPoint.t) (p : GPSTrackPoint.t) (acc : num),
    fold_left (trackDistanceIteration (pre ++ p :: rest))
      (seq (List.length pre + 1) (List.length rest)) acc
    = fold_left JS.add (map segmentKm (segmentsFrom (Some p) rest)) acc.
Proof.
  induction rest as [| q rest IH]; intros pre p acc; [reflexivity |].
  cbn [List.length seq fold_left segmentsFrom map].
  unfold trackDistanceIteration at 2.
  replace (List.length pre + 1 - 1)%nat with (List.length pre) by lia.
  rewrite nth_error_app2 by lia. rewrite Nat.sub_diag. cbn [nth_error].
  rewrite nth_error_app2 by lia.
  replace (List.length pre + 1 - List.length pre)%nat with 1%nat by lia.
  cbn [nth_error].
  specialize (IH (pre ++ [p]) q).
  rewrite <- app_assoc in IH. cbn [app] in IH.
  rewrite length_app in IH. cbn [List.length] in IH.
  replace (S (List.length pre + 1)) with (List.length pre + 1 + 1)%nat by lia.
  rewrite IH. reflexivity.
Qed.

(** [calculateTrackDistance] is the sum of the lengths of all the
    segments of the track. *)
Lemma calculateTrackDistance_sum (points : list GPSTrackPoint.t) :
  calculateTrackDistance points = sumNum (map segmentKm (segments points)).
Proof.
  unfold calculateTrackDistance.
  destruct points as [| p [| q rest]]; [reflexivity | reflexivity |].
  replace (List.length (p :: q :: rest) <? 2)%nat with false
    by (symmetry; apply Nat.ltb_ge; simpl; lia).
  replace (List.length (p :: q :: rest) - 1)%nat with (List.length (q :: rest))
    by (simpl; lia).
  exact (trackDistance_loop (q :: rest) [] p (Fin 0)).
Qed.

Lemma filter_all {A : Type} (l : list A) : filter (fun _ => true) l = l.
Proof. induction l as [| x l IH]; [reflexivity | simpl; rewrite IH; reflexivity]. Qed.

(** Sums of finite non-negative terms over two selections of a list, one
    inside the other: both are finite, and the smaller selection gives
    the smaller sum. *)
Lemma sum_selected_le {A : Type} (f : A -> num) (p q : A -> bool) (l : list A) :
  Forall (fun x => exists r : R, f x = Fin r /\ 0 <= r) l ->
  (forall x, In x l -> p x = true -> q x = true) ->
  forall a b : R,
    exists a' b' : R,
      fold_left JS.add (map f (filter p l)) (Fin a) = Fin a' /\
      fold_left JS.add (map f (filter q l)) (Fin b) = Fin b' /\
      a <= a' /\ a' - a <= b' - b.
Proof.
  induction l as [| x l IH]; intros Hf Hpq a b.
  - exists a, b. simpl. repeat split; lra.
  - inversion Hf as [| x' l' [r [Er Hr]] Hf']; subst.
    assert (Hpq' : forall y, In y l -> p y = true -> q y = true)
      by (intros y Hy; apply Hpq; right; exact Hy).
    cbn [filter].
    destruct (p x) eqn:Hp.
    + rewrite (Hpq x (or_introl eq_refl) Hp).
      cbn [map fold_left]. rewrite Er, !add_Fin.
      destruct (IH Hf' Hpq' (a + r) (b + r)) as (a' & b' & E1 & E2 & H1 & H2).
      exists a', b'. repeat split; [exact E1 | exact E2 | lra | lra].
    + destruct (q x) eqn:Hq.
      * cbn [map fold_left]. rewrite Er, !add_Fin.
        destruct (IH Hf' Hpq' a (b + r)) as (a' & b' & E1 & E2 & H1 & H2).
        exists a', b'. repeat split; [exact E1 | exact E2 | lra | lra].
      * destruct (IH Hf' Hpq' a b) as (a' & b' & E1 & E2 & H1 & H2).
        exists a', b'. repeat split; [exact E1 | exact E2 | lra | lra].
Qed.

Lemma segmentsFrom_Forall (P : GPSTrackPoint.t -> Prop)
  (rest : list GPSTrackPoint.t) :
  forall prev : option GPSTrackPoint.t,
    (forall p, prev = Some p -> P p) -> Forall P rest ->
    Forall (fun seg => P (fst seg) /\ P (snd seg)) (segmentsFrom prev rest).
Proof.
  induction rest as [| c rest IH]; intros prev Hprev Hrest; [constructor |].
  inversion Hrest; subst. cbn [segmentsFrom].
  assert (Hc : forall p, Some c = Some p -> P p)
    by (intros p E; inversion E; subst; assumption).
  destruct prev as [p |].
  - constructor; [split; [apply Hprev; reflexivity | assumption] |].
    apply IH; assumption.
  - apply IH; assumption.
Qed.

Lemma segmentKm_nonneg (seg : GPSTrackPoint.t * GPSTrackPoint.t) :
  finiteCoordinates (fst seg) /\ finiteCoordinates (snd seg) ->
  exists r : R, segmentKm seg = Fin r /\ 0 <= r.
Proof.
  intros [[H1 H2] [H3 H4]]. unfold segmentKm.
  destruct (GPSTrackPoint.latitude (fst seg)); try discriminate.
  destruct (GPSTrackPoint.longitude (fst seg)); try discriminate.
  destruct (GPSTrackPoint.latitude (snd seg)); try discriminate.
  destruct (GPSTrackPoint.longitude (snd seg)); try discriminate.
  apply haversineDistance_nonneg.
Qed.

Lemma samplePoint_valid (speed : num) (timestamp : string) (ignitionOn : bool) :
  validCoordinates (samplePoint speed timestamp ignitionOn).
Proof.
  exists (407128 / 10000), (- (74006 / 1000)).
  repeat split; simpl; lra.
Qed.

Lemma samplePoint_same_place (s1 s2 : num) (t1 t2 : string) (i1 i2 : bool) :
  withinAQuarterTurn (samplePoint s1 t1 i1, samplePoint s2 t2 i2).
Proof.
  exists (407128 / 10000), (- (74006 / 1000)),
    (407128 / 10000), (- (74006 / 1000)).
  repeat split; rewrite Rminus_diag, Rabs_R0; lra.
Qed.

Lemma sampleDrive_plausible : plausibleTrack sampleDrive.
Proof.
  split; unfold sampleDrive, segments; simpl; repeat constructor;
    first [apply samplePoint_valid | apply samplePoint_same_place].
Qed.

Section TrackDistanceProperties.

Variable Date_getTime : string -> option Z.

(** X6 -- [calculateTrackDistance] adds up the great-circle length of
    every segment of the track (0 for fewer than two points), while
    [computeBaseMetrics] credits only the segments that start in the
    moving state: on a track with coordinates in range whose consecutive
    points are at most a quarter turn apart in latitude and in longitude,
    both are finite and 0 <= totalDistanceKm <= calculateTrackDistance. *)
Theorem moving_distance_within_track_distance (track : GPSTrackResponse.t)
  (config : AnalyticsConfig.t) :
  plausibleTrack (GPSTrackResponse.points track) ->
  calculateTrackDistance (GPSTrackResponse.points track)
  = sumNum (map segmentKm (segments (GPSTrackResponse.points track))) /\
  exists movingKm trackKm : R,
    BaseVehicleMetrics.totalDistanceKm
      (computeBaseMetrics Date_getTime track config) = Fin movingKm /\
    calculateTrackDistance (GPSTrackResponse.points track) = Fin trackKm /\
    0 <= movingKm <= trackKm.
Proof.
  intros [Hvalid _].
  assert (Hfin : Forall finiteCoordinates (GPSTrackResponse.points track)).
  { eapply Forall_impl; [| exact Hvalid].
    intros p (lat & lng & E1 & E2 & _). unfold finiteCoordinates.
    rewrite E1, E2. split; reflexivity. }
  split; [apply calculateTrackDistance_sum |].
  rewrite calculateTrackDistance_sum.
  assert (Hsegs :
    Forall (fun seg => exists r : R, segmentKm seg = Fin r /\ 0 <= r)
           (segments (GPSTrackResponse.points track))).
  { assert (H : Forall (fun seg => finiteCoordinates (fst seg) /\
                                   finiteCoordinates (snd seg))
                       (segments (GPSTrackResponse.points track))).
    { apply segmentsFrom_Forall; [discriminate | exact Hfin]. }
    eapply Forall_impl; [| exact H]. intros seg. apply segmentKm_nonneg. }
  destruct (sum_selected_le segmentKm
              (fun seg =>
                 VehicleState_eqb (classifyPointState (fst seg) config) moving)
              (fun _ => true) _ Hsegs (fun _ _ _ => eq_refl) 0 0)
    as (m & t & Em & Et & H0 & Hle).
  rewrite filter_all in Et.
  destruct (GPSTrackResponse.points track) as [| p [| q rest]] eqn:Hpts.
  - exists 0, 0. unfold computeBaseMetrics. rewrite Hpts.
    repeat split; try reflexivity; lra.
  - exists 0, 0. unfold computeBaseMetrics. rewrite Hpts.
    repeat split; try reflexivity; lra.
  - exists m, t. rewrite <- Hpts in *.
    rewrite baseMetrics_distance by (rewrite Hpts; simpl; lia).
    unfold sumNum, segmentsInState.
    split; [exact Em |]. split; [exact Et | lra].
Qed.

End TrackDistanceProperties.

Lemma sampleDrive_finiteCoordinates : Forall finiteCoordinates sampleDrive.
Proof. repeat (constructor; [split; reflexivity |]). constructor. Qed.

Lemma moving_distance_within_track_distance_witness :
  exists movingKm trackKm : R,
    BaseVehicleMetrics.totalDistanceKm
      (computeBaseMetrics sampleDate_getTime (sampleTrack sampleDrive)
         ANALYTICS_CONFIG) = Fin movingKm /\
    calculateTrackDistance sampleDrive = Fin trackKm /\
    0 <= movingKm <= trackKm.
Proof.
  apply (moving_distance_within_track_distance sampleDate_getTime
           (sampleTrack sampleDrive) ANALYTICS_CONFIG).
  exact sampleDrive_plausible.
Defined.

(** ** Valid coordinates *)

Lemma ge_Fin (a b : R) : b <= a -> (Fin a >=? Fin b)%js = true.
Proof. intros H. unfold JS.ge. apply le_Fin. exact H. Qed.

Lemma le_Fin_iff (a b : R) : (Fin a <=? Fin b)%js = true <-> a <= b.
Proof.
  unfold JS.le, JS.lt, JS.strictEq.
  rewrite orb_true_iff, Rltb_iff, Reqb_iff. lra.
Qed.

Lemma isValidCoordinate_iff (latitude longitude : num) :
  isValidCoordinate latitude longitude = true <-> onTheGlobe latitude longitude.
Proof.
  unfold isValidCoordinate, onTheGlobe. rewrite !andb_true_iff. split.
  - intros (((((H1 & H2) & H3) & H4) & H5) & H6).
    destruct latitude as [lat | | |]; try discriminate;
      destruct longitude as [lng | | |]; try discriminate.
    exists lat, lng. unfold JS.ge in *.
    apply le_Fin_iff in H3, H4, H5, H6. repeat split; try reflexivity; lra.
  - intros (lat & lng & -> & -> & Hlat & Hlng).
    repeat split; try reflexivity;
      try (apply ge_Fin; lra); try (apply le_Fin; lra).
Qed.

Lemma validCoordinates_finite (p : GPSTrackPoint.t) :
  validCoordinates p -> finiteCoordinates p.
Proof.
  intros (lat & lng & E1 & E2 & _). unfold finiteCoordinates.
  rewrite E1, E2. split; reflexivity.
Qed.

Lemma filter_twice {A : Type} (f : A -> bool) (l : list A) :
  filter f (filter f l) = filter f l.
Proof.
  induction l as [| x l IH]; [reflexivity |].
  cbn [filter]. destruct (f x) eqn:E; [| exact IH].
  cbn [filter]. rewrite E, IH. reflexivity.
Qed.

(** X7 -- [isValidCoordinate] accepts exactly the finite latitudes in
    [-90, 90] with finite longitudes in [-180, 180] (NaN and the
    infinities are rejected).  [filterValidPoints] keeps exactly the
    points with such coordinates, in their order, and filtering twice
    changes nothing. *)
Theorem filterValidPoints_keeps_the_valid (points : list GPSTrackPoint.t) :
  (forall latitude longitude : num,
     isValidCoordinate latitude longitude = true
     <-> onTheGlobe latitude longitude) /\
  (forall p : GPSTrackPoint.t,
     In p (filterValidPoints points) <-> In p points /\ validCoordinates p) /\
  filterValidPoints points
  = filter (fun p => isValidCoordinate (GPSTrackPoint.latitude p)
                       (GPSTrackPoint.longitude p)) points /\
  filterValidPoints (filterValidPoints points) = filterValidPoints points.
Proof.
  split; [exact isValidCoordinate_iff |].
  assert (Hin : forall p : GPSTrackPoint.t,
            In p (filterValidPoints points)
            <-> In p points /\ validCoordinates p).
  { intros p. unfold filterValidPoints. rewrite filter_In.
    unfold validCoordinates. rewrite isValidCoordinate_iff. reflexivity. }
  split; [exact Hin |]. split; [reflexivity |].
  apply filter_twice.
Qed.

(** ** Speed between two points *)

Section SpeedBetweenPoints.

Variable Date_getTime : string -> option Z.

Lemma ms_per_hour : (Fin 1000 * Fin 60 * Fin 60)%js = Fin 3600000.
Proof. rewrite !mul_Fin. f_equal. lra. Qed.

(** X8 -- [calculateSpeedBetweenPoints]: NaN as soon as one of the two
    timestamps is an invalid date (the dates are not checked, unlike in
    [getDurationMinutes]); 0 when the second instant is not after the
    first; otherwise, between points with coordinates in range that are
    at most a quarter turn apart in latitude and in longitude, the
    great-circle distance divided by the elapsed hours (the elapsed
    milliseconds divided by 1000 * 60 * 60), a finite non-negative
    speed. *)
Theorem calculateSpeedBetweenPoints_cases (point1 point2 : GPSTrackPoint.t) :
  (Date_getTime (GPSTrackPoint.timestamp point1) = None \/
   Date_getTime (GPSTrackPoint.timestamp point2) = None ->
   calculateSpeedBetweenPoints Date_getTime point1 point2 = NaN) /\
  (forall a b : Z,
     Date_getTime (GPSTrackPoint.timestamp point1) = Some a ->
     Date_getTime (GPSTrackPoint.timestamp point2) = Some b ->
     (b <= a)%Z ->
     calculateSpeedBetweenPoints Date_getTime point1 point2 = Fin 0) /\
  (forall a b : Z,
     Date_getTime (GPSTrackPoint.timestamp point1) = Some a ->
     Date_getTime (GPSTrackPoint.timestamp point2) = Some b ->
     (a < b)%Z ->
     validCoordinates point1 -> validCoordinates point2 ->
     withinAQuarterTurn (point1, point2) ->
     exists km speed : R,
       segmentKm (point1, point2) = Fin km /\ 0 <= km /\
       calculateSpeedBetweenPoints Date_getTime point1 point2
       = (Fin km / ((ofZ b - ofZ a) / (Fin 1000 * Fin 60 * Fin 60)))%js /\
       calculateSpeedBetweenPoints Date_getTime point1 point2 = Fin speed /\
       0 <= speed).
Proof.
  unfold calculateSpeedBetweenPoints, Date_time. split; [| split].
  - intros [H | H]; rewrite H; cbv zeta.
    + destruct (Date_getTime (GPSTrackPoint.timestamp point2));
        rewrite ms_per_hour; simpl;
        destruct (haversineDistance _ _ _ _); reflexivity.
    + destruct (Date_getTime (GPSTrackPoint.timestamp point1));
        rewrite ms_per_hour; simpl;
        destruct (haversineDistance _ _ _ _); reflexivity.
  - intros a b Ha Hb Hle. rewrite Ha, Hb. cbv zeta.
    unfold ofZ. rewrite sub_Fin, ms_per_hour, div_Fin by lra.
    apply IZR_le in Hle.
    rewrite le_Fin; [reflexivity |].
    apply Rmult_le_reg_r with 3600000; [lra |].
    unfold Rdiv. rewrite Rmult_assoc, Rinv_l by lra. lra.
  - intros a b Ha Hb Hlt Hv1 Hv2 _. rewrite Ha, Hb. cbv zeta.
    pose proof (validCoordinates_finite _ Hv1) as Hf1.
    pose proof (validCoordinates_finite _ Hv2) as Hf2.
    unfold ofZ. rewrite sub_Fin, ms_per_hour, div_Fin by lra.
    apply IZR_lt in Hlt.
    assert (Hpos : 0 < (IZR b + - IZR a) / 3600000).
    { apply Rdiv_lt_0_compat; lra. }
    destruct (segmentKm_nonneg (point1, point2) (conj Hf1 Hf2))
      as (km & Ekm & Hkm).
    exists km, (km / ((IZR b + - IZR a) / 3600000)).
    split; [exact Ekm |]. split; [exact Hkm |].
    unfold segmentKm in Ekm. cbn [fst snd] in Ekm. rewrite Ekm.
    assert (Hle : (Fin ((IZR b + - IZR a) / 3600000) <=? Fin 0)%js = false).
    { destruct (Fin ((IZR b + - IZR a) / 3600000) <=? Fin 0)%js eqn:E;
        [| reflexivity].
      apply le_Fin_iff in E. lra. }
    rewrite Hle. split; [reflexivity |].
    rewrite div_Fin by lra. split; [reflexivity |].
    apply Rinv_0_lt_compat in Hpos.
    apply Rmult_le_pos; [exact Hkm | apply Rlt_le; exact Hpos].
Qed.

End SpeedBetweenPoints.

Lemma calculateSpeedBetweenPoints_cases_witness :
  calculateSpeedBetweenPoints sampleDate_getTime
    (samplePoint (Fin 60) "yesterday" true)
    (samplePoint (Fin 60) "2024-01-15T09:00:00Z" true) = NaN /\
  calculateSpeedBetweenPoints sampleDate_getTime
    (samplePoint (Fin 60) "2024-01-15T10:00:00Z" true)
    (samplePoint (Fin 60) "2024-01-15T09:00:00Z" true) = Fin 0 /\
  exists speed : R,
    calculateSpeedBetweenPoints sampleDate_getTime
      (samplePoint (Fin 60) "2024-01-15T09:00:00Z" true)
      (samplePoint (Fin 60) "2024-01-15T10:00:00Z" true)
    = Fin speed /\ 0 <= speed.
Proof.
  split; [| split].
  - destruct (calculateSpeedBetweenPoints_cases sampleDate_getTime
                (samplePoint (Fin 60) "yesterday" true)
                (samplePoint (Fin 60) "2024-01-15T09:00:00Z" true))
      as (H & _ & _).
    apply H. left. reflexivity.
  - destruct (calculateSpeedBetweenPoints_cases sampleDate_getTime
                (samplePoint (Fin 60) "2024-01-15T10:00:00Z" true)
                (samplePoint (Fin 60) "2024-01-15T09:00:00Z" true))
      as (_ & H & _).
    apply (H 1705312800000%Z 1705309200000%Z); [reflexivity | reflexivity | lia].
  - destruct (calculateSpeedBetweenPoints_cases sampleDate_getTime
                (samplePoint (Fin 60) "2024-01-15T09:00:00Z" true)
                (samplePoint (Fin 60) "2024-01-15T10:00:00Z" true))
      as (_ & _ & H).
    destruct (H 1705309200000%Z 1705312800000%Z)
      as (km & speed & _ & _ & _ & E & Hspeed);
      [reflexivity | reflexivity | lia
      | apply samplePoint_valid | apply samplePoint_valid
      | apply samplePoint_same_place |].
    exists speed. split; [exact E | exact Hspeed].
Defined.

(** ** The centroid *)

Lemma Ratan2_range (y x : R) :
  - Rtrigo1.PI < Ratan2 y x <= Rtrigo1.PI.
Proof.
  pose proof PI_RGT_0 as Hpi. pose proof (atan_bound (y / x)) as Hb.
  unfold Ratan2, Rltb, Rleb.
  destruct (Rlt_dec 0 x) as [Hpos | Hnpos]; [lra |].
  destruct (Rlt_dec x 0) as [Hneg | Hnneg].
  - destruct (Rle_dec 0 y) as [Hy | Hy].
    + assert (Hq : y / x <= 0).
      { unfold Rdiv. assert (/ x < 0) by (apply Rinv_lt_0_compat; exact Hneg).
        nra. }
      assert (Ha : atan (y / x) <= 0).
      { destruct (Req_dec (y / x) 0) as [E | E].
        - rewrite E, atan_0. lra.
        - assert (Hlt : y / x < 0) by lra.
          pose proof (atan_increasing _ _ Hlt) as Hi.
          rewrite atan_0 in Hi. lra. }
      lra.
    + assert (Hq : 0 < y / x).
      { unfold Rdiv. assert (/ x < 0) by (apply Rinv_lt_0_compat; exact Hneg).
        nra. }
      pose proof (atan_increasing _ _ Hq) as Hi. rewrite atan_0 in Hi. lra.
  - destruct (Rlt_dec 0 y); [lra |].
    destruct (Rlt_dec y 0); lra.
Qed.

Lemma Ratan2_right_half (y x : R) :
  0 <= x -> - (Rtrigo1.PI / 2) <= Ratan2 y x <= Rtrigo1.PI / 2.
Proof.
  intros Hx. pose proof PI_RGT_0 as Hpi.
  pose proof (atan_bound (y / x)) as Hb.
  unfold Ratan2, Rltb, Rleb.
  destruct (Rlt_dec 0 x) as [Hpos | Hnpos]; [lra |].
  destruct (Rlt_dec x 0) as [Hneg | Hnneg]; [lra |].
  destruct (Rlt_dec 0 y); [lra |].
  destruct (Rlt_dec y 0); lra.
Qed.

Lemma degrees_of_radians (a c : R) :
  - c * Rtrigo1.PI <= a <= c * Rtrigo1.PI ->
  - c * 180 <= a * (180 / Rtrigo1.PI) <= c * 180.
Proof.
  intros [H1 H2]. pose proof PI_RGT_0 as Hpi.
  assert (Hk : 0 < 180 / Rtrigo1.PI) by (apply Rdiv_lt_0_compat; lra).
  assert (Hid : c * Rtrigo1.PI * (180 / Rtrigo1.PI) = c * 180)
    by (field; lra).
  split.
  - replace (- c * 180) with (- (c * Rtrigo1.PI) * (180 / Rtrigo1.PI))
      by (field; lra).
    apply Rmult_le_compat_r; lra.
  - rewrite <- Hid. apply Rmult_le_compat_r; lra.
Qed.

Lemma radians_to_degrees_Fin (a : R) :
  (Fin a * (Fin 180 / JS.PI))%js = Fin (a * (180 / Rtrigo1.PI)).
Proof.
  unfold JS.PI. pose proof PI_RGT_0.
  rewrite div_Fin by lra. apply mul_Fin.
Qed.

Lemma centroid_sums_finite (points : list GPSTrackPoint.t) :
  Forall finiteCoordinates points ->
  forall x y z : R,
    exists x' y' z' : R,
      fold_left centroidStep points (Fin x, Fin y, Fin z)
      = (Fin x', Fin y', Fin z').
Proof.
  induction points as [| p l IH]; intros Hfin x y z.
  - exists x, y, z. reflexivity.
  - inversion Hfin as [| p' l' [Hlat Hlng] Hl]; subst.
    cbn [fold_left]. unfold centroidStep at 2.
    destruct (GPSTrackPoint.latitude p) as [lat | | |]; try discriminate.
    destruct (GPSTrackPoint.longitude p) as [lng | | |]; try discriminate.
    rewrite !degreesToRadians_Fin. cbn [JS.sin JS.cos].
    rewrite !mul_Fin, !add_Fin.
    apply IH. exact Hl.
Qed.

(** X9 -- [calculateCentroid]: no centroid for no points, the point
    itself for a single point, and for two or more points with finite
    coordinates a location that is always on the globe: a finite latitude
    in [-90, 90] and a finite longitude in [-180, 180], which
    [isValidCoordinate] accepts. *)
Theorem calculateCentroid_on_the_globe (points : list GPSTrackPoint.t) :
  (points = [] -> calculateCentroid points = None) /\
  (forall p : GPSTrackPoint.t,
     points = [p] ->
     calculateCentroid points
     = Some {| GeoLocation.lat := GPSTrackPoint.latitude p;
               GeoLocation.lng := GPSTrackPoint.longitude p |}) /\
  ((2 <= List.length points)%nat -> Forall finiteCoordinates points ->
   exists c : GeoLocation.t,
     calculateCentroid points = Some c /\
     onTheGlobe (GeoLocation.lat c) (GeoLocation.lng c) /\
     isValidCoordinate (GeoLocation.lat c) (GeoLocation.lng c) = true).
Proof.
  split; [intros ->; reflexivity |].
  split; [intros p ->; reflexivity |].
  intros Hlen Hfin.
  destruct points as [| p [| q rest]]; [simpl in Hlen; lia | simpl in Hlen; lia |].
  set (points := p :: q :: rest) in *.
  destruct (centroid_sums_finite points Hfin 0 0 0) as (x & y & z & Esum).
  assert (Hcount : INR (List.length points) <> 0).
  { apply not_0_INR. unfold points. simpl. discriminate. }
  set (n := INR (List.length points)) in *.
  set (lat := Ratan2 (z / n)
                (R_sqrt.sqrt (x / n * (x / n) + y / n * (y / n)))
              * (180 / Rtrigo1.PI)).
  set (lng := Ratan2 (y / n) (x / n) * (180 / Rtrigo1.PI)).
  assert (Ec : calculateCentroid points
               = Some {| GeoLocation.lat := Fin lat;
                         GeoLocation.lng := Fin lng |}).
  { unfold calculateCentroid. unfold points at 1. fold points.
    rewrite Esum. cbv zeta. unfold ofNat. fold n.
    rewrite !div_Fin by exact Hcount.
    rewrite !mul_Fin, add_Fin. unfold JS.sqrt.
    rewrite Rltb_false by nra.
    cbn [JS.atan2]. rewrite !radians_to_degrees_Fin. reflexivity. }
  assert (Hglobe : onTheGlobe (Fin lat) (Fin lng)).
  { exists lat, lng. split; [reflexivity |]. split; [reflexivity |].
    pose proof (Ratan2_right_half (z / n)
                  (R_sqrt.sqrt (x / n * (x / n) + y / n * (y / n)))
                  (sqrt_pos _)) as Hlat.
    pose proof (Ratan2_range (y / n) (x / n)) as Hlng.
    pose proof (degrees_of_radians
                  (Ratan2 (z / n)
                     (R_sqrt.sqrt (x / n * (x / n) + y / n * (y / n))))
                  (1 / 2)) as H1.
    pose proof (degrees_of_radians (Ratan2 (y / n) (x / n)) 1) as H2.
    unfold lat, lng. split; lra. }
  exists {| GeoLocation.lat := Fin lat; GeoLocation.lng := Fin lng |}.
  split; [exact Ec |]. split; [exact Hglobe |].
  apply isValidCoordinate_iff. exact Hglobe.
Qed.

Lemma calculateCentroid_on_the_globe_witness :
  exists c : GeoLocation.t,
    calculateCentroid sampleDrive = Some c /\
    isValidCoordinate (GeoLocation.lat c) (GeoLocation.lng c) = true.
Proof.
  destruct (calculateCentroid_on_the_globe sampleDrive) as (_ & _ & H).
  destruct H as (c & Ec & _ & Hv);
    [simpl; lia | exact sampleDrive_finiteCoordinates |].
  exists c. split; [exact Ec | exact Hv].
Defined.

(** ** The bearing *)

Lemma Rtrunc_below_one (q : R) : 0 <= q < 1 -> Rtrunc q = 0%Z.
Proof.
  intros [H0 H1]. unfold Rtrunc. rewrite Rleb_true by exact H0.
  apply Rfloor_unique. simpl. lra.
Qed.

Lemma Rtrunc_below_two (q : R) : 1 <= q < 2 -> Rtrunc q = 1%Z.
Proof.
  intros [H0 H1]. unfold Rtrunc. rewrite Rleb_true by lra.
  apply Rfloor_unique. simpl. lra.
Qed.

(** X10 -- [calculateBearing] between points with coordinates in range
    (latitudes in [-90, 90], longitudes in [-180, 180]) is a finite
    number of degrees in [0, 360): the normalisation
    [(bearing + 360) % 360] never leaves a negative value or 360
    itself. *)
Theorem calculateBearing_range (lat1 lon1 lat2 lon2 : R) :
  -90 <= lat1 <= 90 -> -180 <= lon1 <= 180 ->
  -90 <= lat2 <= 90 -> -180 <= lon2 <= 180 ->
  exists bearing : R,
    calculateBearing (Fin lat1) (Fin lon1) (Fin lat2) (Fin lon2) = Fin bearing /\
    0 <= bearing < 360.
Proof.
  intros _ _ _ _.
  unfold calculateBearing. cbv zeta.
  rewrite sub_Fin, !degreesToRadians_Fin. cbn [JS.sin JS.cos].
  rewrite !mul_Fin, sub_Fin. cbn [JS.atan2].
  rewrite radians_to_degrees_Fin, add_Fin.
  match goal with
  | |- context [Fin (Ratan2 ?y ?x * (180 / Rtrigo1.PI) + 360)] =>
      set (b := Ratan2 y x * (180 / Rtrigo1.PI));
      pose proof (Ratan2_range y x) as Hr;
      pose proof (degrees_of_radians (Ratan2 y x) 1) as Hd
  end.
  fold b in Hd.
  assert (Hb : -180 <= b <= 180) by lra.
  unfold JS_rem. rewrite Reqb_false by lra.
  destruct (Rlt_dec b 0) as [Hneg | Hpos].
  - rewrite (Rtrunc_below_one ((b + 360) / 360)) by (split; lra).
    exists (b + 360). split; [f_equal; simpl; lra | lra].
  - rewrite (Rtrunc_below_two ((b + 360) / 360)) by (split; lra).
    exists b. split; [f_equal; simpl; lra | lra].
Qed.

(** The bearing from New York to London. *)
Lemma calculateBearing_range_witness :
  exists bearing : R,
    calculateBearing (Fin (407128 / 10000)) (Fin (- (74006 / 1000)))
      (Fin (515074 / 10000)) (Fin (- (1278 / 10000))) = Fin bearing /\
    0 <= bearing < 360.
Proof.
  apply (calculateBearing_range
           (407128 / 10000) (- (74006 / 1000))
           (515074 / 10000) (- (1278 / 10000))); lra.
Defined.

(** ** More on the base metrics *)

Section MoreBaseMetricsProperties.

Variable Date_getTime : string -> option Z.

Local Abbreviation parse := (parseTimestamp Date_getTime).
Local Abbreviation duration := (getDurationMinutes Date_getTime).
Local Abbreviation minutes := (segmentMinutes Date_getTime).
Local Abbreviation baseMetrics := (computeBaseMetrics Date_getTime).

(** Split on every test the loop body still makes. *)
Ltac split_tests :=
  repeat match goal with
  | |- context [if ?c then _ else _] => destruct c eqn:?; simpl
  | |- context [match ?x with Some _ => _ | None => _ end] =>
      destruct x eqn:?; simpl
  end;
  try reflexivity; try congruence.

Lemma processPoint_max (config : AnalyticsConfig.t)
  (prev : option GPSTrackPoint.t) (c : GPSTrackPoint.t) (s : LoopState.t) :
  MetricsAccumulator.maxSpeedKmh
    (LoopState.accumulator (processPoint Date_getTime config prev c s))
  = if GPSTrackPoint.ignitionOn c &&
       (GPSTrackPoint.speed c
        >? MetricsAccumulator.maxSpeedKmh (LoopState.accumulator s))%js
    then GPSTrackPoint.speed c
    else MetricsAccumulator.maxSpeedKmh (LoopState.accumulator s).
Proof.
  unfold processPoint, processSegment, processIdleTransition,
    isStopTransition, pushEvent; cbv zeta.
  destruct (GPSTrackPoint.ignitionOn c &&
            (GPSTrackPoint.speed c
             >? MetricsAccumulator.maxSpeedKmh (LoopState.accumulator s))%js);
    destruct prev as [p |]; destruct (LoopState.previousState s) as [[| |] |];
    destruct (classifyPointState c config); simpl;
    split_tests.
Qed.

Lemma walk_max (config : AnalyticsConfig.t) (rest : list GPSTrackPoint.t) :
  forall (prev : option GPSTrackPoint.t) (s : LoopState.t),
    MetricsAccumulator.maxSpeedKmh
      (LoopState.accumulator (walkPoints Date_getTime config prev rest s))
    = ignitionOnMaxSpeed
        (MetricsAccumulator.maxSpeedKmh (LoopState.accumulator s)) rest.
Proof.
  induction rest as [| c rest IH]; intros prev s; [reflexivity |].
  cbn [walkPoints]. rewrite IH, processPoint_max. reflexivity.
Qed.

Lemma baseMetrics_max (track : GPSTrackResponse.t)
  (config : AnalyticsConfig.t) :
  (2 <= List.length (GPSTrackResponse.points track))%nat ->
  BaseVehicleMetrics.maxSpeedKmh (baseMetrics track config)
  = ignitionOnMaxSpeed (Fin 0) (GPSTrackResponse.points track).
Proof.
  intros Hn. unfold computeBaseMetrics.
  destruct (GPSTrackResponse.points track) as [| p1 [| p2 rest]] eqn:Hp;
    simpl in Hn; try lia.
  cbv zeta. cbn [BaseVehicleMetrics.maxSpeedKmh].
  rewrite loop_is_walk.
  destruct (finalizeOpenIdle_totals (p1 :: p2 :: rest) config
              (walkPoints Date_getTime config None (p1 :: p2 :: rest)
                 initialLoopState)) as (_ & _ & _ & Hm & _).
  cbv zeta in Hm. rewrite Hm.
  apply (walk_max config (p1 :: p2 :: rest) None initialLoopState).
Qed.

Lemma lt_true_not_NaN (x y : num) :
  (x <? y)%js = true -> isNaN x = false /\ isNaN y = false.
Proof. destruct x, y; simpl; intros H; try discriminate; split; reflexivity. Qed.

(** The running maximum over the ignition-on samples: it is a number, it
    is not below where it started, no ignition-on sample exceeds it, and
    it is the start value or the speed of one of the samples. *)
Lemma ignitionOnMaxSpeed_spec (points : list GPSTrackPoint.t) :
  forall start : num,
    isNaN start = false ->
    let best := ignitionOnMaxSpeed start points in
    isNaN best = false /\
    (start >? best)%js = false /\
    (forall p, In p points -> GPSTrackPoint.ignitionOn p = true ->
               (GPSTrackPoint.speed p >? best)%js = false) /\
    (best = start \/
     exists p, In p points /\ GPSTrackPoint.ignitionOn p = true /\
               GPSTrackPoint.speed p = best).
Proof.
  induction points as [| c l IH]; intros start Hstart; cbv zeta.
  - unfold ignitionOnMaxSpeed; simpl. unfold JS.gt.
    repeat split; [exact Hstart | apply num_lt_irrefl | contradiction | left; reflexivity].
  - unfold ignitionOnMaxSpeed. cbn [fold_left].
    fold (ignitionOnMaxSpeed
            (if GPSTrackPoint.ignitionOn c && (GPSTrackPoint.speed c >? start)%js
             then GPSTrackPoint.speed c else start) l).
    set (next := if GPSTrackPoint.ignitionOn c && (GPSTrackPoint.speed c >? start)%js
                 then GPSTrackPoint.speed c else start).
    assert (Hnext : isNaN next = false).
    { unfold next.
      destruct (GPSTrackPoint.ignitionOn c); [| exact Hstart].
      cbn [andb]. destruct (GPSTrackPoint.speed c >? start)%js eqn:E;
        [| exact Hstart].
      unfold JS.gt in E. apply lt_true_not_NaN in E. apply E. }
    destruct (IH next Hnext) as (Hbest & Hge & Hall & Hattained).
    set (best := ignitionOnMaxSpeed next l) in *.
    unfold JS.gt in *.
    assert (Hstep : (start <? next)%js = true \/ next = start).
    { unfold next.
      destruct (GPSTrackPoint.ignitionOn c); [| right; reflexivity].
      cbn [andb]. destruct (start <? GPSTrackPoint.speed c)%js eqn:E;
        [left; exact E | right; reflexivity]. }
    assert (Hstart_best : (best <? start)%js = false).
    { destruct (best <? start)%js eqn:E; [| reflexivity].
      destruct Hstep as [Hlt | Heq].
      - rewrite (num_lt_trans _ _ _ E Hlt) in Hge. discriminate.
      - rewrite Heq in Hge. congruence. }
    split; [exact Hbest |]. split; [exact Hstart_best |]. split.
    + intros p [-> | Hp] Hon; [| apply Hall; assumption].
      destruct (best <? GPSTrackPoint.speed p)%js eqn:E; [| reflexivity].
      exfalso. unfold next in Hge. rewrite Hon in Hge. cbn [andb] in Hge.
      destruct (start <? GPSTrackPoint.speed p)%js eqn:E2.
      * congruence.
      * destruct (num_lt_trichotomy start best Hstart Hbest)
          as [Hlt | [Heq | Hgt]].
        -- rewrite (num_lt_trans _ _ _ Hlt E) in E2. discriminate.
        -- rewrite Heq in E2. congruence.
        -- congruence.
    + destruct Hattained as [Heq | (p & Hp & Hon & Hsp)].
      * unfold next in Heq.
        destruct (GPSTrackPoint.ignitionOn c) eqn:Hon; [| left; exact Heq].
        cbn [andb] in Heq.
        destruct (start <? GPSTrackPoint.speed c)%js; [| left; exact Heq].
        right. exists c. split; [left; reflexivity |]. split; [exact Hon |].
        symmetry. exact Heq.
      * right. exists p. split; [right; exact Hp |]. split; assumption.
Qed.

(** X11 -- [maxSpeedKmh] of [computeBaseMetrics], on every track: no
    sample taken with the ignition on has a speed above it, and it is
    either 0 or the speed of one of those samples; samples taken with the
    ignition off never count.  On a track of two or more points it is the
    running maximum of the ignition-on speeds started from 0. *)
Theorem max_speed_is_highest_ignition_on_speed (track : GPSTrackResponse.t)
  (config : AnalyticsConfig.t) :
  let points := GPSTrackResponse.points track in
  let m := baseMetrics track config in
  ((2 <= List.length points)%nat ->
   BaseVehicleMetrics.maxSpeedKmh m = ignitionOnMaxSpeed (Fin 0) points) /\
  (forall p, In p points -> GPSTrackPoint.ignitionOn p = true ->
             (GPSTrackPoint.speed p >? BaseVehicleMetrics.maxSpeedKmh m)%js
             = false) /\
  (BaseVehicleMetrics.maxSpeedKmh m = Fin 0 \/
   exists p, In p points /\ GPSTrackPoint.ignitionOn p = true /\
             GPSTrackPoint.speed p = BaseVehicleMetrics.maxSpeedKmh m).
Proof.
  cbv zeta. split; [apply baseMetrics_max |].
  destruct (GPSTrackResponse.points track) as [| p1 [| p2 rest]] eqn:Hp.
  - unfold computeBaseMetrics. rewrite Hp. simpl.
    split; [contradiction | left; reflexivity].
  - unfold computeBaseMetrics. rewrite Hp.
    cbn [BaseVehicleMetrics.maxSpeedKmh]. split.
    + intros p [<- | []] Hon. rewrite Hon. unfold JS.gt. apply num_lt_irrefl.
    + destruct (GPSTrackPoint.ignitionOn p1) eqn:Hon; [| left; reflexivity].
      right. exists p1. split; [left; reflexivity |]. split; [exact Hon | reflexivity].
  - rewrite <- Hp. rewrite baseMetrics_max by (rewrite Hp; simpl; lia).
    destruct (ignitionOnMaxSpeed_spec (GPSTrackResponse.points track) (Fin 0)
                eq_refl) as (_ & _ & Hall & Hatt).
    split; [exact Hall | exact Hatt].
Qed.

(** The minutes of every segment are a finite non-negative number. *)
Lemma segment_minutes_nonneg (segs : list (GPSTrackPoint.t * GPSTrackPoint.t)) :
  Forall (fun seg => exists r : R, minutes seg = Fin r /\ 0 <= r) segs.
Proof.
  apply Forall_forall. intros seg _. unfold segmentMinutes.
  apply pointDuration_nonneg.
Qed.

(** On every track the moving and idle totals are finite and not
    negative. *)
Lemma moving_idle_finite (track : GPSTrackResponse.t)
  (config : AnalyticsConfig.t) :
  exists m i : R,
    BaseVehicleMetrics.totalMovingTimeMinutes (baseMetrics track config) = Fin m /\
    BaseVehicleMetrics.totalIdleTimeMinutes (baseMetrics track config) = Fin i /\
    0 <= m /\ 0 <= i.
Proof.
  destruct (GPSTrackResponse.points track) as [| p1 [| p2 rest]] eqn:Hp.
  - exists 0, 0. unfold computeBaseMetrics. rewrite Hp. simpl.
    repeat split; lra.
  - exists 0, 0. unfold computeBaseMetrics. rewrite Hp. simpl.
    repeat split; lra.
  - destruct (baseMetrics_totals Date_getTime track config) as (Hm & Hi & _);
      [rewrite Hp; simpl; lia |].
    cbv zeta in Hm, Hi. rewrite Hm, Hi. unfold sumNum, segmentsInState.
    set (segs := segments (GPSTrackResponse.points track)).
    destruct (sum_selected_le minutes
                (fun seg => VehicleState_eqb (classifyPointState (fst seg) config) moving)
                (fun _ => true) segs (segment_minutes_nonneg segs)
                (fun _ _ _ => eq_refl) 0 0) as (m & _ & Em & _ & H0 & _).
    destruct (sum_selected_le minutes
                (fun seg => VehicleState_eqb (classifyPointState (fst seg) config) idle)
                (fun _ => true) segs (segment_minutes_nonneg segs)
                (fun _ _ _ => eq_refl) 0 0) as (i & _ & Ei & _ & H1 & _).
    exists m, i. repeat split; assumption.
Qed.

Lemma safeDivide0_ratio (a t : R) :
  0 <= a -> 0 <= t ->
  exists q : R,
    safeDivide0 (Fin a) (Fin t) = Fin q /\ 0 <= q /\ (a <= t -> q <= 1).
Proof.
  intros Ha Ht. unfold safeDivide0, safeDivide. cbn [JS.strictEq isFinite negb].
  destruct (Req_dec t 0) as [-> | Hne].
  - rewrite Reqb_true by reflexivity. exists 0. simpl.
    repeat split; lra.
  - rewrite Reqb_false by exact Hne. cbn [orb]. cbv zeta.
    rewrite div_Fin by exact Hne. cbn [isFinite negb].
    exists (a / t). split; [reflexivity |].
    assert (Hpos : 0 < t) by lra.
    split.
    + apply Rmult_le_reg_r with t; [exact Hpos |].
      unfold Rdiv. rewrite Rmult_assoc, Rinv_l by exact Hne. lra.
    + intros Hle. apply Rmult_le_reg_r with t; [exact Hpos |].
      unfold Rdiv. rewrite Rmult_assoc, Rinv_l by exact Hne. lra.
Qed.


(** X12 -- [getOperationalRatio] of the metrics [computeBaseMetrics]
    returns is the moving plus the idle time divided by
    [getDurationMinutes(startTime, endTime)] through [safeDivide]: always
    a finite, non-negative number, and 0 when that duration is 0 (a
    bound that does not parse, or an end that is not after the start). *)
Theorem operational_ratio_non_negative (track : GPSTrackResponse.t)
  (config : AnalyticsConfig.t) :
  getOperationalRatio (baseMetrics track config)
  = safeDivide0
      (BaseVehicleMetrics.totalMovingTimeMinutes (baseMetrics track config)
       + BaseVehicleMetrics.totalIdleTimeMinutes (baseMetrics track config))%js
      (getDurationMinutes Date_getTime (GPSTrackResponse.startTime track)
         (GPSTrackResponse.endTime track)) /\
  (exists q : R,
     getOperationalRatio (baseMetrics track config) = Fin q /\ 0 <= q) /\
  (getDurationMinutes Date_getTime (GPSTrackResponse.startTime track)
     (GPSTrackResponse.endTime track) = Fin 0 ->
   getOperationalRatio (baseMetrics track config) = Fin 0).
Proof.
  destruct (moving_idle_finite track config) as (m & i & Em & Ei & Hm & Hi).
  assert (Etotal :
    BaseVehicleMetrics.totalTimeMinutes (baseMetrics track config)
    = duration (GPSTrackResponse.startTime track)
               (GPSTrackResponse.endTime track)).
  { unfold computeBaseMetrics.
    destruct (GPSTrackResponse.points track) as [| p1 [| p2 rest]];
      reflexivity. }
  unfold getOperationalRatio. rewrite Etotal.
  split; [reflexivity |]. rewrite Em, Ei, add_Fin. split.
  - destruct (duration_nonneg Date_getTime (GPSTrackResponse.startTime track)
                (GPSTrackResponse.endTime track)) as (t & Et & Ht).
    rewrite Et.
    destruct (safeDivide0_ratio (m + i) t) as (q & Eq & Hq & _); [lra | lra |].
    exists q. split; assumption.
  - intros E. rewrite E. unfold safeDivide0, safeDivide. simpl.
    rewrite Reqb_true by reflexivity. reflexivity.
Qed.

End MoreBaseMetricsProperties.

(** ** The derived metrics *)

Lemma le_then_not_lt (a b c : num) :
  (a <=? b)%js = true -> (b <=? c)%js = true -> (c <? a)%js = false.
Proof.
  unfold JS.le. destruct a, b, c; simpl; intros H1 H2;
    try discriminate; try reflexivity.
  apply orb_true_iff in H1, H2.
  rewrite !Rltb_iff, !Reqb_iff in *.
  apply Rltb_false. lra.
Qed.

Section DerivedMetricsProperties.

Variable Date_getTime : string -> option Z.

Local Abbreviation minutes := (segmentMinutes Date_getTime).
Local Abbreviation baseMetrics := (computeBaseMetrics Date_getTime).
Local Abbreviation derivedMetrics := (computeDerivedMetrics Date_getTime).

Lemma speeding_loop_from (config : AnalyticsConfig.t)
  (rest : list GPSTrackPoint.t) :
  forall (pre : list GPSTrackPoint.t) (p : GPSTrackPoint.t) (s : SpeedingLoop.t),
    fold_left (speedingIteration Date_getTime (pre ++ p :: rest) config)
      (seq (List.length pre) (List.length rest)) s
    = walkSpeedingPairs Date_getTime config (segmentsFrom (Some p) rest) s.
Proof.
  induction rest as [| q rest IH]; intros pre p s; [reflexivity |].
  cbn [List.length seq fold_left segmentsFrom walkSpeedingPairs].
  unfold speedingIteration at 2.
  rewrite nth_error_app2 by lia. rewrite Nat.sub_diag. cbn [nth_error].
  rewrite nth_error_app2 by lia.
  replace (List.length pre + 1 - List.length pre)%nat with 1%nat by lia.
  cbn [nth_error].
  specialize (IH (pre ++ [p]) q).
  rewrite <- app_assoc in IH. cbn [app] in IH.
  rewrite length_app in IH. cbn [List.length] in IH.
  replace (S (List.length pre)) with (List.length pre + 1)%nat by lia.
  apply IH.
Qed.

Lemma walk_speeding (config : AnalyticsConfig.t)
  (segs : list (GPSTrackPoint.t * GPSTrackPoint.t)) :
  forall s : SpeedingLoop.t,
    let s' := walkSpeedingPairs Date_getTime config segs s in
    SpeedingLoop.timeOverThresholdMinutes s'
    = fold_left JS.add (map minutes (speedingSegments config segs))
        (SpeedingLoop.timeOverThresholdMinutes s) /\
    forall k : nat,
      SpeedingLoop.speedingSegmentCount s = ofNat k ->
      SpeedingLoop.speedingSegmentCount s'
      = ofNat (k + countSpeedingStarts (SpeedingLoop.previousWasSpeeding s)
                     (speedingFlags config segs)).
Proof.
  induction segs as [| [p q] segs IH]; intros s; cbv zeta.
  - split; [reflexivity |]. intros k Hk. simpl. rewrite Nat.add_0_r. exact Hk.
  - cbn [walkSpeedingPairs].
    destruct (IH (processSpeedingPair Date_getTime config p q s)) as [Ht Hc].
    cbv zeta in Ht, Hc. split.
    + rewrite Ht. unfold speedingSegments. cbn [filter fst].
      unfold processSpeedingPair.
      destruct (isSpeedingPoint p (AnalyticsConfig.speedingThresholdKmh config));
        reflexivity.
    + intros k Hk. unfold speedingFlags. cbn [map fst countSpeedingStarts].
      fold (speedingFlags config segs).
      unfold processSpeedingPair in *.
      destruct (isSpeedingPoint p (AnalyticsConfig.speedingThresholdKmh config)).
      * cbn [SpeedingLoop.previousWasSpeeding SpeedingLoop.speedingSegmentCount
             andb] in *.
        destruct (SpeedingLoop.previousWasSpeeding s); cbn [negb] in *.
        -- rewrite (Hc k Hk). f_equal; lia.
        -- rewrite (Hc (k + 1)%nat).
           ++ f_equal; lia.
           ++ rewrite Hk. unfold ofNat. rewrite add_Fin, plus_INR. reflexivity.
      * cbn [SpeedingLoop.previousWasSpeeding SpeedingLoop.speedingSegmentCount
             andb] in *.
        rewrite (Hc k Hk). f_equal; lia.
Qed.

Lemma analyzeSpeedingTime_walk (track : GPSTrackResponse.t)
  (config : AnalyticsConfig.t) :
  let points := GPSTrackResponse.points track in
  let s :=
    walkSpeedingPairs Date_getTime config (segments points)
      (initialSpeedingLoop) in
  analyzeSpeedingTime Date_getTime track config
  = {| SpeedingAnalysis.timeOverThresholdMinutes :=
         SpeedingLoop.timeOverThresholdMinutes s;
       SpeedingAnalysis.speedingSegmentCount :=
         SpeedingLoop.speedingSegmentCount s;
       SpeedingAnalysis.maxSpeedingSpeed := SpeedingLoop.maxSpeedingSpeed s |}.
Proof.
  cbv zeta. unfold analyzeSpeedingTime.
  destruct (GPSTrackResponse.points track) as [| p [| q rest]];
    [reflexivity | reflexivity |].
  replace (List.length (p :: q :: rest) <? 2)%nat with false
    by (symmetry; apply Nat.ltb_ge; simpl; lia).
  replace (List.length (p :: q :: rest) - 1)%nat with (List.length (q :: rest))
    by (simpl; lia).
  pose proof (speeding_loop_from config (q :: rest) [] p initialSpeedingLoop)
    as H.
  cbn [app] in H. change (List.length (@nil GPSTrackPoint.t)) with 0%nat in H.
  rewrite H. reflexivity.
Qed.

Lemma speeding_time_sum (track : GPSTrackResponse.t)
  (config : AnalyticsConfig.t) :
  SpeedingAnalysis.timeOverThresholdMinutes
    (analyzeSpeedingTime Date_getTime track config)
  = sumNum (map minutes
              (speedingSegments config
                 (segments (GPSTrackResponse.points track)))) /\
  exists r : R,
    SpeedingAnalysis.timeOverThresholdMinutes
      (analyzeSpeedingTime Date_getTime track config) = Fin r /\ 0 <= r.
Proof.
  rewrite analyzeSpeedingTime_walk. cbv zeta.
  cbn [SpeedingAnalysis.timeOverThresholdMinutes].
  destruct (walk_speeding config (segments (GPSTrackResponse.points track))
              initialSpeedingLoop) as [Ht _].
  cbv zeta in Ht. split; [exact Ht |].
  rewrite Ht. cbn [initialSpeedingLoop SpeedingLoop.timeOverThresholdMinutes].
  unfold speedingSegments.
  destruct (sum_selected_le minutes
              (fun seg =>
                 isSpeedingPoint (fst seg)
                   (AnalyticsConfig.speedingThresholdKmh config))
              (fun _ => true) (segments (GPSTrackResponse.points track))
              (segment_minutes_nonneg Date_getTime _)
              (fun _ _ _ => eq_refl) 0 0) as (r & _ & Er & _ & H0 & _).
  exists r. split; assumption.
Qed.

(** X13 -- [analyzeSpeedingTime], on every track:
    [timeOverThresholdMinutes] is the sum of the durations of the
    segments whose earlier point is speeding (ignition on and speed at or
    above the threshold), a finite non-negative number, and
    [speedingSegmentCount] is the number of places where speeding
    starts; the last point of the track starts no segment and is never
    counted. *)
Theorem speeding_time_is_the_speeding_segments (track : GPSTrackResponse.t)
  (config : AnalyticsConfig.t) :
  let points := GPSTrackResponse.points track in
  let analysis := analyzeSpeedingTime Date_getTime track config in
  SpeedingAnalysis.timeOverThresholdMinutes analysis
  = sumNum (map minutes (speedingSegments config (segments points))) /\
  (exists r : R,
     SpeedingAnalysis.timeOverThresholdMinutes analysis = Fin r /\ 0 <= r) /\
  SpeedingAnalysis.speedingSegmentCount analysis
  = ofNat (countSpeedingStarts false (speedingFlags config (segments points))).
Proof.
  cbv zeta. rewrite analyzeSpeedingTime_walk. cbv zeta.
  cbn [SpeedingAnalysis.timeOverThresholdMinutes
       SpeedingAnalysis.speedingSegmentCount].
  destruct (walk_speeding config (segments (GPSTrackResponse.points track))
              initialSpeedingLoop) as [Ht Hc].
  cbv zeta in Ht, Hc. split; [exact Ht |]. split.
  - rewrite Ht. cbn [initialSpeedingLoop SpeedingLoop.timeOverThresholdMinutes].
    unfold speedingSegments.
    destruct (sum_selected_le minutes
                (fun seg =>
                   isSpeedingPoint (fst seg)
                     (AnalyticsConfig.speedingThresholdKmh config))
                (fun _ => true) (segments (GPSTrackResponse.points track))
                (segment_minutes_nonneg Date_getTime _)
                (fun _ _ _ => eq_refl) 0 0) as (r & _ & Er & _ & H0 & _).
    exists r. split; assumption.
  - apply (Hc 0%nat). reflexivity.
Qed.

Lemma speeding_is_moving (config : AnalyticsConfig.t) (p : GPSTrackPoint.t) :
  (AnalyticsConfig.idleSpeedThresholdKmh config
   <=? AnalyticsConfig.speedingThresholdKmh config)%js = true ->
  isSpeedingPoint p (AnalyticsConfig.speedingThresholdKmh config) = true ->
  VehicleState_eqb (classifyPointState p config) moving = true.
Proof.
  intros Hthr Hsp. unfold isSpeedingPoint in Hsp.
  apply andb_true_iff in Hsp. destruct Hsp as [Hon Hge].
  unfold classifyPointState. rewrite Hon. cbn [negb].
  unfold JS.ge in Hge.
  rewrite (le_then_not_lt _ _ _ Hthr Hge). reflexivity.
Qed.

(** The two ratios of the derived metrics computed for a track. *)
Lemma derived_ratios_hold (track : GPSTrackResponse.t)
  (config : AnalyticsConfig.t) :
  let base := baseMetrics track config in
  let derived := derivedMetrics base track config in
  inUnitInterval (DerivedVehicleMetrics.idleRatio derived) /\
  (exists q : R,
     DerivedVehicleMetrics.aggressiveDrivingRatio derived = Fin q /\ 0 <= q) /\
  ((AnalyticsConfig.idleSpeedThresholdKmh config
    <=? AnalyticsConfig.speedingThresholdKmh config)%js = true ->
   (DerivedVehicleMetrics.timeOverSpeedThresholdMinutes derived
    <=? BaseVehicleMetrics.totalMovingTimeMinutes base)%js = true /\
   inUnitInterval (DerivedVehicleMetrics.aggressiveDrivingRatio derived)).
Proof.
  cbv zeta. unfold computeDerivedMetrics. cbv zeta.
  cbn [DerivedVehicleMetrics.base DerivedVehicleMetrics.efficiencyScore
       DerivedVehicleMetrics.riskScore DerivedVehicleMetrics.idleRatio
       DerivedVehicleMetrics.aggressiveDrivingRatio
       DerivedVehicleMetrics.timeOverSpeedThresholdMinutes].
  destruct (moving_idle_finite Date_getTime track config)
    as (m & i & Em & Ei & Hm & Hi).
  destruct (speeding_time_sum track config)
    as (Et & (r & Er & Hr)).
  unfold calculateIdleRatio, calculateAggressiveDrivingRatio.
  rewrite Em, Ei, Er, add_Fin.
  split; [| split].
  - destruct (safeDivide0_ratio i (i + m)) as (q & Eq & Hq & Hq1);
      [lra | lra |].
    exists q. split; [exact Eq |]. split; [exact Hq | apply Hq1; lra].
  - destruct (safeDivide0_ratio r m Hr Hm) as (q & Eq & Hq & _).
    exists q. split; assumption.
  - intros Hthr.
    assert (Hle : r <= m).
    { destruct (GPSTrackResponse.points track) as [| p1 [| p2 rest]] eqn:Hp.
      - rewrite Er in Et. simpl in Et. inversion Et; subst. exact Hm.
      - rewrite Er in Et. simpl in Et. inversion Et; subst. exact Hm.
      - destruct (baseMetrics_totals Date_getTime track config)
          as (Hm' & _); [rewrite Hp; simpl; lia |].
        cbv zeta in Hm'. rewrite Em, Hp in Hm'.
        rewrite Er in Et.
        unfold sumNum, speedingSegments, segmentsInState in *.
        destruct (sum_selected_le minutes
                    (fun seg =>
                       isSpeedingPoint (fst seg)
                         (AnalyticsConfig.speedingThresholdKmh config))
                    (fun seg =>
                       VehicleState_eqb (classifyPointState (fst seg) config)
                         moving)
                    (segments (p1 :: p2 :: rest))
                    (segment_minutes_nonneg Date_getTime _)
                    (fun seg _ H => speeding_is_moving config (fst seg) Hthr H)
                    0 0) as (r' & m' & Er' & Em' & H0 & Hle').
        rewrite <- Et in Er'. rewrite <- Hm' in Em'.
        inversion Er'; inversion Em'; subst. lra. }
    split; [apply le_Fin; exact Hle |].
    destruct (safeDivide0_ratio r m Hr Hm) as (q & Eq & Hq & Hq1).
    exists q. split; [exact Eq |]. split; [exact Hq | apply Hq1; exact Hle].
Qed.


(** X14 -- [computeDerivedMetrics] applied to the metrics
    [computeBaseMetrics] gives for the same track: the base metrics are
    carried over and both scores are the placeholder 0; [idleRatio] is a
    ratio in [0, 1] and [aggressiveDrivingRatio] a finite non-negative
    number on every track; and when the idle threshold does not exceed
    the speeding threshold, every speeding segment is a moving segment,
    the time over the threshold is at most the moving time and
    [aggressiveDrivingRatio] is a ratio in [0, 1] too. *)
Theorem derived_ratios_are_ratios (track : GPSTrackResponse.t)
  (config : AnalyticsConfig.t) :
  let base := baseMetrics track config in
  let derived := derivedMetrics base track config in
  DerivedVehicleMetrics.base derived = base /\
  DerivedVehicleMetrics.efficiencyScore derived = Fin 0 /\
  DerivedVehicleMetrics.riskScore derived = Fin 0 /\
  inUnitInterval (DerivedVehicleMetrics.idleRatio derived) /\
  (exists q : R,
     DerivedVehicleMetrics.aggressiveDrivingRatio derived = Fin q /\ 0 <= q) /\
  ((AnalyticsConfig.idleSpeedThresholdKmh config
    <=? AnalyticsConfig.speedingThresholdKmh config)%js = true ->
   (DerivedVehicleMetrics.timeOverSpeedThresholdMinutes derived
    <=? BaseVehicleMetrics.totalMovingTimeMinutes base)%js = true /\
   inUnitInterval (DerivedVehicleMetrics.aggressiveDrivingRatio derived)).
Proof.
  cbv zeta.
  split; [reflexivity |]. split; [reflexivity |]. split; [reflexivity |].
  exact (derived_ratios_hold track config).
Qed.

End DerivedMetricsProperties.

(** ** The scorers: components, breakdowns, levels *)

(** X15 -- every component score is normalised to [0, 100]: the four
    efficiency components for every metrics record and every
    configuration with a finite [stopPenaltyFactor], the four risk
    components for every metrics record whose [aggressiveDrivingRatio]
    is not NaN and every configuration with a finite [idleRiskFactor]. *)
Theorem score_components_within_0_100 (metrics : BaseVehicleMetrics.t)
  (derived : DerivedVehicleMetrics.t) (config : AnalyticsConfig.t) :
  (isFinite (AnalyticsConfig.stopPenaltyFactor config) = true ->
   let c := computeEfficiencyComponents metrics config in
   inRange0to100 (EfficiencyComponents.idleScore c) /\
   inRange0to100 (EfficiencyComponents.utilizationScore c) /\
   inRange0to100 (EfficiencyComponents.distanceScore c) /\
   inRange0to100 (EfficiencyComponents.stopScore c)) /\
  (isFinite (AnalyticsConfig.idleRiskFactor config) = true ->
   isNaN (DerivedVehicleMetrics.aggressiveDrivingRatio derived) = false ->
   let c := computeRiskComponents derived config in
   inRange0to100 (RiskComponents.speedingScore c) /\
   inRange0to100 (RiskComponents.longIdleFrequencyScore c) /\
   inRange0to100 (RiskComponents.maxSpeedSeverityScore c) /\
   inRange0to100 (RiskComponents.erraticPatternScore c)).
Proof.
  split.
  - intros Hp. cbv zeta. unfold computeEfficiencyComponents. simpl.
    repeat split;
      auto using calculateIdleScore_range, calculateUtilizationScore_range,
        calculateDistanceScore_range, calculateStopScore_range.
  - intros Hf Hr. cbv zeta. unfold computeRiskComponents. simpl.
    repeat split;
      auto using calculateSpeedingScore_range,
        calculateLongIdleFrequencyScore_range,
        calculateMaxSpeedSeverityScore_range,
        calculateErraticPatternScore_range.
Qed.

Lemma score_components_within_0_100_witness :
  inRange0to100
    (EfficiencyComponents.stopScore
       (computeEfficiencyComponents sampleBaseMetrics ANALYTICS_CONFIG)) /\
  inRange0to100
    (RiskComponents.speedingScore
       (computeRiskComponents sampleDerivedMetrics ANALYTICS_CONFIG)).
Proof.
  destruct (score_components_within_0_100 sampleBaseMetrics
              sampleDerivedMetrics ANALYTICS_CONFIG) as [He Hr].
  split.
  - apply He. reflexivity.
  - apply Hr; reflexivity.
Defined.

Lemma clamp_inside (x : R) :
  0 <= x <= 100 -> clamp (Fin x) (Fin 0) (Fin 100) = Fin x.
Proof.
  intros H. unfold clamp, JS.max, JS.min, JS.lt.
  rewrite Rltb_false by lra. rewrite Rltb_false by lra. reflexivity.
Qed.

(** A weighted sum of four scores in [0, 100] with non-negative weights
    that sum to 1 is itself in [0, 100]: clamping it changes nothing. *)
Lemma convex_sum_unclamped (c1 c2 c3 c4 : num) (w1 w2 w3 w4 : R) :
  inRange0to100 c1 -> inRange0to100 c2 -> inRange0to100 c3 ->
  inRange0to100 c4 ->
  0 <= w1 -> 0 <= w2 -> 0 <= w3 -> 0 <= w4 -> w1 + w2 + w3 + w4 = 1 ->
  clamp (c1 * Fin w1 + c2 * Fin w2 + c3 * Fin w3 + c4 * Fin w4)%js
        (Fin 0) (Fin 100)
  = (c1 * Fin w1 + c2 * Fin w2 + c3 * Fin w3 + c4 * Fin w4)%js /\
  inRange0to100 (c1 * Fin w1 + c2 * Fin w2 + c3 * Fin w3 + c4 * Fin w4)%js.
Proof.
  intros [r1 [-> H1]] [r2 [-> H2]] [r3 [-> H3]] [r4 [-> H4]] Hw1 Hw2 Hw3 Hw4 Hs.
  rewrite !mul_Fin, !add_Fin.
  assert (Hsum : 0 <= r1 * w1 + r2 * w2 + r3 * w3 + r4 * w4 <= 100).
  { split.
    - assert (0 <= r1 * w1) by (apply Rmult_le_pos; lra).
      assert (0 <= r2 * w2) by (apply Rmult_le_pos; lra).
      assert (0 <= r3 * w3) by (apply Rmult_le_pos; lra).
      assert (0 <= r4 * w4) by (apply Rmult_le_pos; lra).
      lra.
    - assert (r1 * w1 <= 100 * w1) by (apply Rmult_le_compat_r; lra).
      assert (r2 * w2 <= 100 * w2) by (apply Rmult_le_compat_r; lra).
      assert (r3 * w3 <= 100 * w3) by (apply Rmult_le_compat_r; lra).
      assert (r4 * w4 <= 100 * w4) by (apply Rmult_le_compat_r; lra).
      lra. }
  split; [apply clamp_inside; exact Hsum | apply inRange_Fin; exact Hsum].
Qed.

(** The efficiency breakdown and its final score. *)
Lemma efficiency_breakdown_holds (metrics : BaseVehicleMetrics.t)
  (weights : EfficiencyWeights.t) (config : AnalyticsConfig.t) :
  let breakdown := getEfficiencyBreakdown metrics weights config in
  let contributions := EfficiencyBreakdown.contributions breakdown in
  EfficiencyBreakdown.finalScore breakdown
  = calculateEfficiencyScore metrics weights config /\
  ((BaseVehicleMetrics.totalTimeMinutes metrics === Fin 0)%js = true ->
   EfficiencyBreakdown.finalScore breakdown = Fin 0) /\
  ((BaseVehicleMetrics.totalTimeMinutes metrics === Fin 0)%js = false ->
   EfficiencyBreakdown.finalScore breakdown
   = clamp
       (EfficiencyContributions.idle contributions
        + EfficiencyContributions.utilization contributions
        + EfficiencyContributions.distance contributions
        + EfficiencyContributions.stop contributions)%js
       (Fin 0) (Fin 100) /\
   (properEfficiencyWeights weights ->
    isFinite (AnalyticsConfig.stopPenaltyFactor config) = true ->
    inRange0to100 (EfficiencyBreakdown.finalScore breakdown))).
Proof.
  cbv zeta. unfold getEfficiencyBreakdown. cbv zeta.
  cbn [EfficiencyBreakdown.finalScore EfficiencyBreakdown.contributions
       EfficiencyContributions.idle EfficiencyContributions.utilization
       EfficiencyContributions.distance EfficiencyContributions.stop].
  split; [reflexivity |]. unfold calculateEfficiencyScore. split.
  - intros ->. reflexivity.
  - intros ->. cbv zeta. split; [reflexivity |].
    intros (a & b & c & d & Ea & Eb & Ec & Ed & Ha & Hb & Hc & Hd & Hs) Hp.
    rewrite Ea, Eb, Ec, Ed.
    unfold computeEfficiencyComponents.
    cbn [EfficiencyComponents.idleScore EfficiencyComponents.utilizationScore
         EfficiencyComponents.distanceScore EfficiencyComponents.stopScore].
    destruct (convex_sum_unclamped
                (calculateIdleScore metrics)
                (calculateUtilizationScore metrics)
                (calculateDistanceScore metrics
                   (AnalyticsConfig.expectedKmPerHour config))
                (calculateStopScore metrics
                   (AnalyticsConfig.stopPenaltyFactor config))
                a b c d
                (calculateIdleScore_range metrics)
                (calculateUtilizationScore_range metrics)
                (calculateDistanceScore_range metrics _)
                (calculateStopScore_range metrics _ Hp)
                Ha Hb Hc Hd Hs) as [Eclamp Hrange].
    rewrite Eclamp. exact Hrange.
Qed.

(** The risk breakdown and its final score. *)
Lemma risk_breakdown_holds (metrics : DerivedVehicleMetrics.t)
  (weights : RiskWeights.t) (config : AnalyticsConfig.t) :
  let breakdown := getRiskBreakdown metrics weights config in
  let contributions := RiskBreakdown.contributions breakdown in
  let totalTimeMinutes :=
    BaseVehicleMetrics.totalTimeMinutes (DerivedVehicleMetrics.base metrics) in
  RiskBreakdown.finalScore breakdown
  = calculateRiskScore metrics weights config /\
  ((totalTimeMinutes === Fin 0)%js = true ->
   RiskBreakdown.finalScore breakdown = Fin 0) /\
  ((totalTimeMinutes === Fin 0)%js = false ->
   RiskBreakdown.finalScore breakdown
   = clamp
       (RiskContributions.speeding contributions
        + RiskContributions.longIdleFrequency contributions
        + RiskContributions.maxSpeedSeverity contributions
        + RiskContributions.erraticPattern contributions)%js
       (Fin 0) (Fin 100) /\
   (properRiskWeights weights ->
    isFinite (AnalyticsConfig.idleRiskFactor config) = true ->
    isNaN (DerivedVehicleMetrics.aggressiveDrivingRatio metrics) = false ->
    inRange0to100 (RiskBreakdown.finalScore breakdown))).
Proof.
  cbv zeta. unfold getRiskBreakdown. cbv zeta.
  cbn [RiskBreakdown.finalScore RiskBreakdown.contributions
       RiskContributions.speeding RiskContributions.longIdleFrequency
       RiskContributions.maxSpeedSeverity RiskContributions.erraticPattern].
  split; [reflexivity |]. unfold calculateRiskScore. split.
  - intros ->. reflexivity.
  - intros ->. cbv zeta. split; [reflexivity |].
    intros (a & b & c & d & Ea & Eb & Ec & Ed & Ha & Hb & Hc & Hd & Hs) Hf Hr.
    rewrite Ea, Eb, Ec, Ed.
    unfold computeRiskComponents.
    cbn [RiskComponents.speedingScore RiskComponents.longIdleFrequencyScore
         RiskComponents.maxSpeedSeverityScore
         RiskComponents.erraticPatternScore].
    destruct (convex_sum_unclamped
                (calculateSpeedingScore metrics)
                (calculateLongIdleFrequencyScore metrics
                   (AnalyticsConfig.idleRiskFactor config))
                (calculateMaxSpeedSeverityScore metrics
                   (AnalyticsConfig.speedingThresholdKmh config))
                (calculateErraticPatternScore metrics)
                a b c d
                (calculateSpeedingScore_range metrics Hr)
                (calculateLongIdleFrequencyScore_range metrics _ Hf)
                (calculateMaxSpeedSeverityScore_range metrics _)
                (calculateErraticPatternScore_range metrics)
                Ha Hb Hc Hd Hs) as [Eclamp Hrange].
    rewrite Eclamp. exact Hrange.
Qed.

(** X16 -- [getEfficiencyBreakdown] and [getRiskBreakdown] with weights
    that are non-negative and sum to 1 (a finite [stopPenaltyFactor] for
    the first; a finite [idleRiskFactor] and an [aggressiveDrivingRatio]
    that is not NaN for the second).  The final score is the score the
    scorer returns.  Unless [totalTimeMinutes] is 0 it is the sum of the
    four contributions, added in the order idle, utilization, distance,
    stop (speeding, long idle frequency, max speed severity, erratic
    pattern for the risk), clamped to [0, 100]; with such weights it lies
    in [0, 100].  With [totalTimeMinutes] equal to 0 the final score is 0
    whatever the contributions are. *)
Theorem score_breakdowns_are_clamped_sums (metrics : BaseVehicleMetrics.t)
  (derived : DerivedVehicleMetrics.t)
  (efficiencyWeights : EfficiencyWeights.t) (riskWeights : RiskWeights.t)
  (config : AnalyticsConfig.t) :
  (let breakdown := getEfficiencyBreakdown metrics efficiencyWeights config in
   let contributions := EfficiencyBreakdown.contributions breakdown in
   EfficiencyBreakdown.finalScore breakdown
   = calculateEfficiencyScore metrics efficiencyWeights config /\
   ((BaseVehicleMetrics.totalTimeMinutes metrics === Fin 0)%js = true ->
    EfficiencyBreakdown.finalScore breakdown = Fin 0) /\
   ((BaseVehicleMetrics.totalTimeMinutes metrics === Fin 0)%js = false ->
    EfficiencyBreakdown.finalScore breakdown
    = clamp
        (EfficiencyContributions.idle contributions
         + EfficiencyContributions.utilization contributions
         + EfficiencyContributions.distance contributions
         + EfficiencyContributions.stop contributions)%js
        (Fin 0) (Fin 100) /\
    (properEfficiencyWeights efficiencyWeights ->
     isFinite (AnalyticsConfig.stopPenaltyFactor config) = true ->
     inRange0to100 (EfficiencyBreakdown.finalScore breakdown)))) /\
  (let breakdown := getRiskBreakdown derived riskWeights config in
   let contributions := RiskBreakdown.contributions breakdown in
   let totalTimeMinutes :=
     BaseVehicleMetrics.totalTimeMinutes (DerivedVehicleMetrics.base derived) in
   RiskBreakdown.finalScore breakdown
   = calculateRiskScore derived riskWeights config /\
   ((totalTimeMinutes === Fin 0)%js = true ->
    RiskBreakdown.finalScore breakdown = Fin 0) /\
   ((totalTimeMinutes === Fin 0)%js = false ->
    RiskBreakdown.finalScore breakdown
    = clamp
        (RiskContributions.speeding contributions
         + RiskContributions.longIdleFrequency contributions
         + RiskContributions.maxSpeedSeverity contributions
         + RiskContributions.erraticPattern contributions)%js
        (Fin 0) (Fin 100) /\
    (properRiskWeights riskWeights ->
     isFinite (AnalyticsConfig.idleRiskFactor config) = true ->
     isNaN (DerivedVehicleMetrics.aggressiveDrivingRatio derived) = false ->
     inRange0to100 (RiskBreakdown.finalScore breakdown)))).
Proof.
  split.
  - exact (efficiency_breakdown_holds metrics efficiencyWeights config).
  - exact (risk_breakdown_holds derived riskWeights config).
Qed.

Lemma EFFICIENCY_WEIGHTS_proper : properEfficiencyWeights EFFICIENCY_WEIGHTS.
Proof.
  exists (4 / 10), (3 / 10), (2 / 10), (1 / 10).
  repeat split; try reflexivity; lra.
Qed.

Lemma RISK_WEIGHTS_proper : properRiskWeights RISK_WEIGHTS.
Proof.
  exists (45 / 100), (25 / 100), (20 / 100), (10 / 100).
  repeat split; try reflexivity; lra.
Qed.

Lemma sampleBaseMetrics_total_time :
  (BaseVehicleMetrics.totalTimeMinutes sampleBaseMetrics === Fin 0)%js = false.
Proof. simpl. apply Reqb_false. lra. Qed.

Lemma score_breakdowns_are_clamped_sums_witness :
  inRange0to100
    (EfficiencyBreakdown.finalScore
       (getEfficiencyBreakdown sampleBaseMetrics EFFICIENCY_WEIGHTS
          ANALYTICS_CONFIG)) /\
  inRange0to100
    (RiskBreakdown.finalScore
       (getRiskBreakdown sampleDerivedMetrics RISK_WEIGHTS ANALYTICS_CONFIG)).
Proof.
  destruct (score_breakdowns_are_clamped_sums sampleBaseMetrics sampleDerivedMetrics
              EFFICIENCY_WEIGHTS RISK_WEIGHTS ANALYTICS_CONFIG)
    as [(_ & _ & He) (_ & _ & Hr)].
  split.
  - apply (proj2 (He sampleBaseMetrics_total_time));
      [exact EFFICIENCY_WEIGHTS_proper | reflexivity].
  - apply (proj2 (Hr sampleBaseMetrics_total_time));
      [exact RISK_WEIGHTS_proper | reflexivity | reflexivity].
Defined.

(** Compare a finite score with a numeral. *)
Ltac level_cases :=
  unfold JS.ge, JS.le, JS.lt, JS.strictEq, Rltb, Reqb;
  repeat match goal with
  | |- context [Rlt_dec ?a ?b] => destruct (Rlt_dec a b); try (exfalso; lra)
  | |- context [Req_dec_T ?a ?b] => destruct (Req_dec_T a b); try (exfalso; lra)
  end;
  simpl; try lia; try reflexivity; try (exfalso; lra).

(** X17 -- the three status scales.  [getRiskLevel] and
    [getFleetRiskStatus] are the same function; a higher score never
    gives a lower risk level, nor a worse fleet health status; a NaN
    score is classed [critical] on all three scales, and so is
    [-Infinity] on the health scale and [+Infinity] on the risk scale. *)
Theorem status_scales_are_monotone (a b : num) :
  getFleetRiskStatus a = getRiskLevel a /\
  ((a <=? b)%js = true ->
   (RiskLevel.severity (getRiskLevel a)
    <= RiskLevel.severity (getRiskLevel b))%nat /\
   (HealthStatus.grade (getFleetHealthStatus a)
    <= HealthStatus.grade (getFleetHealthStatus b))%nat) /\
  (isNaN a = true ->
   getRiskLevel a = RiskLevel.critical /\
   getFleetHealthStatus a = HealthStatus.critical) /\
  getRiskLevel PInf = RiskLevel.critical /\
  getFleetHealthStatus NInf = HealthStatus.critical.
Proof.
  split; [reflexivity |]. split; [| split; [| split; reflexivity]].
  - intros Hle. unfold getRiskLevel, getFleetHealthStatus.
    destruct a as [x | | |], b as [y | | |];
      try discriminate Hle; try (split; simpl; lia).
    + apply le_Fin_iff in Hle. split; level_cases.
    + split; level_cases.
  - intros Hn. destruct a; try discriminate Hn. split; reflexivity.
Qed.

Lemma status_scales_are_monotone_witness :
  (RiskLevel.severity (getRiskLevel (Fin 20))
   <= RiskLevel.severity (getRiskLevel (Fin 61)))%nat /\
  getFleetHealthStatus NaN = HealthStatus.critical.
Proof.
  destruct (status_scales_are_monotone (Fin 20) (Fin 61)) as (_ & H & _).
  destruct (status_scales_are_monotone NaN NaN) as (_ & _ & Hn & _).
  split.
  - apply H. apply le_Fin. lra.
  - apply Hn. reflexivity.
Defined.

(** ** The primary risk factor *)

(** The element a stable insertion sort puts first: each element in turn
    replaces the current first one when the comparator puts it strictly
    before. *)
Lemma sort_fold_head {A : Type} (comparefn : A -> A -> num) (l : list A) :
  forall (y : A) (rest : list A),
    hd_error
      (fold_left (fun sorted x => insertSorted comparefn x sorted) l (y :: rest))
    = Some
        (fold_left
           (fun best x =>
              if (sortCompare comparefn best x >? Fin 0)%js then x else best)
           l y).
Proof.
  induction l as [| x l IH]; intros y rest; [reflexivity |].
  cbn [fold_left insertSorted].
  destruct (sortCompare comparefn y x >? Fin 0)%js; apply IH.
Qed.

(** The first element of a sorted array: the first element of the input,
    replaced in turn by each later element that the comparator puts
    strictly before it. *)
Lemma Array_sort_head {A : Type} (comparefn : A -> A -> num) (y : A)
  (rest : list A) :
  hd_error (Array_sort comparefn (y :: rest))
  = Some
      (fold_left
         (fun best x =>
            if (sortCompare comparefn best x >? Fin 0)%js then x else best)
         rest y).
Proof. unfold Array_sort. cbn [fold_left insertSorted]. apply sort_fold_head. Qed.

Lemma byValueDesc_finite (best x : RiskFactor.t) (a b : R) :
  RiskFactor.value best = Fin a -> RiskFactor.value x = Fin b ->
  (sortCompare byValueDesc best x >? Fin 0)%js = Rltb a b.
Proof.
  intros Ea Eb. unfold sortCompare, byValueDesc. rewrite Ea, Eb, sub_Fin.
  cbn [isNaN]. unfold JS.gt, JS.lt.
  destruct (Rlt_dec a b).
  - rewrite (Rltb_true a b) by assumption. apply Rltb_true. lra.
  - rewrite (Rltb_false a b) by lra. apply Rltb_false. lra.
Qed.

Lemma primary_of_four (v1 v2 v3 v4 : R) :
  let contributions :=
    {| RiskContributions.speeding := Fin v1;
       RiskContributions.longIdleFrequency := Fin v2;
       RiskContributions.maxSpeedSeverity := Fin v3;
       RiskContributions.erraticPattern := Fin v4 |} in
  exists first : RiskFactor.t,
    hd_error (Array_sort byValueDesc (riskFactors contributions)) = Some first /\
    forall factor : RiskFactor.factor,
      (contributionOf contributions factor
       <=? contributionOf contributions (RiskFactor.name first))%js = true /\
      ((factorIndex factor < factorIndex (RiskFactor.name first))%nat ->
       (contributionOf contributions factor
        <? contributionOf contributions (RiskFactor.name first))%js = true).
Proof.
  cbv zeta. unfold riskFactors.
  cbn [RiskContributions.speeding RiskContributions.longIdleFrequency
       RiskContributions.maxSpeedSeverity RiskContributions.erraticPattern].
  rewrite Array_sort_head. eexists. split; [reflexivity |].
  cbn [fold_left].
  set (f1 := RiskFactor.mk RiskFactor.speeding (Fin v1)).
  set (f2 := RiskFactor.mk RiskFactor.longIdleFrequency (Fin v2)).
  set (f3 := RiskFactor.mk RiskFactor.maxSpeedSeverity (Fin v3)).
  set (f4 := RiskFactor.mk RiskFactor.erraticPattern (Fin v4)).
  rewrite (byValueDesc_finite f1 f2 v1 v2 eq_refl eq_refl).
  destruct (Rlt_dec v1 v2) as [L2 | L2];
    [rewrite (Rltb_true v1 v2) by lra | rewrite (Rltb_false v1 v2) by lra].
  - rewrite (byValueDesc_finite f2 f3 v2 v3 eq_refl eq_refl).
    destruct (Rlt_dec v2 v3) as [L3 | L3];
      [rewrite (Rltb_true v2 v3) by lra | rewrite (Rltb_false v2 v3) by lra].
    + rewrite (byValueDesc_finite f3 f4 v3 v4 eq_refl eq_refl).
      destruct (Rlt_dec v3 v4) as [L4 | L4];
        [rewrite (Rltb_true v3 v4) by lra | rewrite (Rltb_false v3 v4) by lra];
        intros factor; destruct factor; simpl;
        (split; [apply le_Fin; lra | intros Hi; first [lia | apply Rltb_true; lra]]).
    + rewrite (byValueDesc_finite f2 f4 v2 v4 eq_refl eq_refl).
      destruct (Rlt_dec v2 v4) as [L4 | L4];
        [rewrite (Rltb_true v2 v4) by lra | rewrite (Rltb_false v2 v4) by lra];
        intros factor; destruct factor; simpl;
        (split; [apply le_Fin; lra | intros Hi; first [lia | apply Rltb_true; lra]]).
  - rewrite (byValueDesc_finite f1 f3 v1 v3 eq_refl eq_refl).
    destruct (Rlt_dec v1 v3) as [L3 | L3];
      [rewrite (Rltb_true v1 v3) by lra | rewrite (Rltb_false v1 v3) by lra].
    + rewrite (byValueDesc_finite f3 f4 v3 v4 eq_refl eq_refl).
      destruct (Rlt_dec v3 v4) as [L4 | L4];
        [rewrite (Rltb_true v3 v4) by lra | rewrite (Rltb_false v3 v4) by lra];
        intros factor; destruct factor; simpl;
        (split; [apply le_Fin; lra | intros Hi; first [lia | apply Rltb_true; lra]]).
    + rewrite (byValueDesc_finite f1 f4 v1 v4 eq_refl eq_refl).
      destruct (Rlt_dec v1 v4) as [L4 | L4];
        [rewrite (Rltb_true v1 v4) by lra | rewrite (Rltb_false v1 v4) by lra];
        intros factor; destruct factor; simpl;
        (split; [apply le_Fin; lra | intros Hi; first [lia | apply Rltb_true; lra]]).
Qed.

(** X18 -- [getPrimaryRiskFactor] with finite weights, a finite
    [idleRiskFactor] and an [aggressiveDrivingRatio] that is not NaN: the
    factor returned has the largest contribution of the four, and on a
    tie it is the first of the tied factors in the order speeding,
    longIdleFrequency, maxSpeedSeverity, erraticPattern (every factor
    listed before it contributes strictly less). *)
Theorem primary_risk_factor_is_the_largest (metrics : DerivedVehicleMetrics.t)
  (weights : RiskWeights.t) (config : AnalyticsConfig.t) :
  finiteRiskWeights weights ->
  isFinite (AnalyticsConfig.idleRiskFactor config) = true ->
  isNaN (DerivedVehicleMetrics.aggressiveDrivingRatio metrics) = false ->
  let contributions :=
    RiskBreakdown.contributions (getRiskBreakdown metrics weights config) in
  let primary := getPrimaryRiskFactor metrics weights config in
  forall factor : RiskFactor.factor,
    (contributionOf contributions factor
     <=? contributionOf contributions primary)%js = true /\
    ((factorIndex factor < factorIndex primary)%nat ->
     (contributionOf contributions factor
      <? contributionOf contributions primary)%js = true).
Proof.
  intros (H1 & H2 & H3 & H4) Hf Hr. cbv zeta.
  unfold getPrimaryRiskFactor. cbv zeta.
  unfold getRiskBreakdown. cbv zeta. cbn [RiskBreakdown.contributions].
  unfold computeRiskComponents.
  cbn [RiskComponents.speedingScore RiskComponents.longIdleFrequencyScore
       RiskComponents.maxSpeedSeverityScore RiskComponents.erraticPatternScore].
  destruct (calculateSpeedingScore_range metrics Hr) as (c1 & -> & _).
  destruct (calculateLongIdleFrequencyScore_range metrics _ Hf) as (c2 & -> & _).
  destruct (calculateMaxSpeedSeverityScore_range metrics
              (AnalyticsConfig.speedingThresholdKmh config)) as (c3 & -> & _).
  destruct (calculateErraticPatternScore_range metrics) as (c4 & -> & _).
  destruct (RiskWeights.speedingRatio weights) as [w1 | | |];
    try discriminate H1.
  destruct (RiskWeights.longIdleFrequency weights) as [w2 | | |];
    try discriminate H2.
  destruct (RiskWeights.maxSpeedSeverity weights) as [w3 | | |];
    try discriminate H3.
  destruct (RiskWeights.erraticPattern weights) as [w4 | | |];
    try discriminate H4.
  rewrite !mul_Fin.
  destruct (primary_of_four (c1 * w1) (c2 * w2) (c3 * w3) (c4 * w4))
    as (first & Hhead & Hall).
  cbv zeta in Hhead, Hall.
  destruct (Array_sort byValueDesc _) as [| f others];
    [discriminate Hhead |].
  cbn [hd_error] in Hhead. inversion Hhead; subst f.
  exact Hall.
Qed.

Lemma primary_risk_factor_is_the_largest_witness :
  (contributionOf
     (RiskBreakdown.contributions
        (getRiskBreakdown sampleDerivedMetrics RISK_WEIGHTS ANALYTICS_CONFIG))
     RiskFactor.erraticPattern
   <=? contributionOf
         (RiskBreakdown.contributions
            (getRiskBreakdown sampleDerivedMetrics RISK_WEIGHTS
               ANALYTICS_CONFIG))
         (getPrimaryRiskFactor sampleDerivedMetrics RISK_WEIGHTS
            ANALYTICS_CONFIG))%js = true.
Proof.
  apply (primary_risk_factor_is_the_largest sampleDerivedMetrics RISK_WEIGHTS
           ANALYTICS_CONFIG); [repeat split | reflexivity | reflexivity].
Defined.

(** ** The cost model *)


Lemma clampedScore_finite (x : R) :
  exists c : R,
    JS.max (Fin 0) (JS.min (Fin 100) (Fin x)) = Fin c /\ 0 <= c <= 100.
Proof.
  rewrite max_min_is_clamp.
  destruct (clamp_Fin_range x) as (c & Ec & Hc). exists c. split; assumption.
Qed.

(** The score an insurer is charged for: [Math.max(0, Math.min(100,
    riskScore))] is a number in [0, 100], 0 for a score that is not
    positive, and it does not decrease with the score. *)
Lemma clampedScore_spec (riskScore : num) :
  isNaN riskScore = false ->
  exists clamped : R,
    JS.max (Fin 0) (JS.min (Fin 100) riskScore) = Fin clamped /\
    0 <= clamped <= 100 /\
    ((riskScore <=? Fin 0)%js = true -> clamped = 0) /\
    ((riskScore <=? Fin 0)%js = false -> 0 < clamped) /\
    forall higher : num,
      (riskScore <=? higher)%js = true ->
      exists clamped' : R,
        JS.max (Fin 0) (JS.min (Fin 100) higher) = Fin clamped' /\
        clamped <= clamped' <= 100.
Proof.
  intros Hn. destruct riskScore as [x | | |]; try discriminate Hn.
  - assert (Hx : exists c : R,
              JS.max (Fin 0) (JS.min (Fin 100) (Fin x)) = Fin c /\
              0 <= c <= 100 /\ (x <= 0 -> c = 0) /\ (0 < x -> 0 < c) /\
              (0 <= x <= 100 -> c = x) /\
              (100 <= x -> c = 100)).
    { unfold JS.min, JS.max, JS.lt.
      destruct (Rlt_dec x 100) as [H1 | H1].
      - rewrite (Rltb_true x 100 H1).
        destruct (Rlt_dec 0 x) as [H2 | H2].
        + rewrite (Rltb_true 0 x H2). exists x. repeat split; lra.
        + rewrite (Rltb_false 0 x) by lra. exists 0. repeat split; lra.
      - rewrite (Rltb_false x 100) by lra. rewrite Rltb_true by lra.
        exists 100. repeat split; try lra. }
    destruct Hx as (c & Ec & Hc & Hneg & Hpos & Hmid & Hhigh).
    exists c. split; [exact Ec |]. split; [exact Hc |]. split; [| split].
    + intros Hle. apply le_Fin_iff in Hle. apply Hneg. exact Hle.
    + intros Hle. apply Hpos.
      destruct (Rlt_dec 0 x); [assumption |].
      rewrite le_Fin in Hle by lra. discriminate.
    + intros higher Hle.
      destruct higher as [y | | |]; try discriminate Hle.
      * apply le_Fin_iff in Hle.
        unfold JS.min, JS.max, JS.lt.
        destruct (Rlt_dec y 100) as [H1 | H1].
        -- rewrite (Rltb_true y 100 H1).
           destruct (Rlt_dec 0 y) as [H2 | H2].
           ++ rewrite (Rltb_true 0 y H2). exists y. split; [reflexivity |].
              destruct (Rle_dec x 0); [rewrite Hneg by lra; lra |].
              rewrite Hmid by lra. lra.
           ++ rewrite (Rltb_false 0 y) by lra. exists 0.
              split; [reflexivity |]. rewrite Hneg by lra. lra.
        -- rewrite (Rltb_false y 100) by lra. rewrite Rltb_true by lra.
           exists 100. split; [reflexivity | lra].
      * exists 100. split; [| lra]. simpl. rewrite Rltb_true by lra. reflexivity.
  - exists 100. split; [simpl; rewrite Rltb_true by lra; reflexivity |].
    split; [lra |]. split; [intros H; discriminate H |]. split; [lra |].
    intros higher Hle. destruct higher; try discriminate Hle.
    exists 100. split; [| lra]. simpl. rewrite Rltb_true by lra. reflexivity.
  - exists 0. split; [reflexivity |].
    split; [lra |]. split; [reflexivity |]. split; [intros H; discriminate H |].
    intros higher Hle. destruct higher as [y | | |]; try discriminate Hle.
    + destruct (clampedScore_finite y) as (c & Ec & Hc). exists c.
      split; [exact Ec | lra].
    + exists 100. split; [| lra]. simpl. rewrite Rltb_true by lra. reflexivity.
    + exists 0. split; [reflexivity | lra].
Qed.

(** The multiplier and the additional premium in closed form, from the
    clamped score. *)
Lemma premium_value (riskScore : num) (financials : FinancialConstants.t)
  (multiplier base clamped : R) :
  FinancialConstants.speedingInsuranceMultiplier financials = Fin multiplier ->
  FinancialConstants.baseInsuranceCostPerVehicle financials = Fin base ->
  JS.max (Fin 0) (JS.min (Fin 100) riskScore) = Fin clamped ->
  ((riskScore <=? Fin 0)%js = true -> clamped = 0) ->
  calculateInsuranceMultiplier riskScore financials
  = Fin (1 + clamped / 100 * (multiplier - 1)) /\
  calculateSpeedingRiskCost riskScore financials
  = Fin (base * (clamped / 100 * (multiplier - 1))).
Proof.
  intros Em Eb Ec Hzero.
  assert (Hmult : calculateInsuranceMultiplier riskScore financials
                  = Fin (1 + clamped / 100 * (multiplier - 1))).
  { unfold calculateInsuranceMultiplier. cbv zeta.
    rewrite Ec, Em, sub_Fin, div_Fin by lra. rewrite mul_Fin, add_Fin.
    f_equal; lra. }
  split; [exact Hmult |].
  unfold calculateSpeedingRiskCost.
  destruct (riskScore <=? Fin 0)%js eqn:E.
  - rewrite (Hzero eq_refl). f_equal; lra.
  - cbv zeta. rewrite Hmult, Eb, sub_Fin, mul_Fin. f_equal; lra.
Qed.

(** X19 -- the insurance premium.  With a multiplier between 1 and
    [10^9] and a base cost between 0 and [10^100], for every risk score
    that is not NaN (the infinities included):
    [calculateInsuranceMultiplier] lies between 1 and the configured
    multiplier, [calculateSpeedingRiskCost] is a finite number between 0
    and the premium's ceiling [base * (multiplier - 1)] as the engine
    computes it, 0 for a score that is not positive, and a higher score
    never costs less.  A NaN score gives a NaN cost. *)
Theorem insurance_premium_is_bounded_and_monotone (riskScore : num)
  (financials : FinancialConstants.t) (multiplier base : R) :
  FinancialConstants.speedingInsuranceMultiplier financials = Fin multiplier ->
  FinancialConstants.baseInsuranceCostPerVehicle financials = Fin base ->
  1 <= multiplier <= 10 ^ 9 -> 0 <= base <= 10 ^ 100 ->
  (isNaN riskScore = true ->
   calculateSpeedingRiskCost riskScore financials = NaN) /\
  (isNaN riskScore = false ->
   exists k cost : R,
     calculateInsuranceMultiplier riskScore financials = Fin k /\
     1 <= k <= multiplier /\
     calculateSpeedingRiskCost riskScore financials = Fin cost /\
     0 <= cost /\
     (calculateSpeedingRiskCost riskScore financials
      <=? FinancialConstants.baseInsuranceCostPerVehicle financials
          * (FinancialConstants.speedingInsuranceMultiplier financials
             - Fin 1))%js = true /\
     ((riskScore <=? Fin 0)%js = true -> cost = 0)) /\
  (forall higher : num,
     (riskScore <=? higher)%js = true ->
     (calculateSpeedingRiskCost riskScore financials
      <=? calculateSpeedingRiskCost higher financials)%js = true).
Proof.
  intros Em Eb [Hm _] [Hb _]. split; [| split].
  - intros Hn. destruct riskScore; try discriminate Hn.
    unfold calculateSpeedingRiskCost, calculateInsuranceMultiplier.
    rewrite Em, Eb. reflexivity.
  - intros Hn.
    destruct (clampedScore_spec riskScore Hn) as (c & Ec & Hc & Hzero & _).
    destruct (premium_value riskScore financials multiplier base c Em Eb Ec
                Hzero) as [Ek Ecost].
    exists (1 + c / 100 * (multiplier - 1)), (base * (c / 100 * (multiplier - 1))).
    assert (H0 : 0 <= c / 100 * (multiplier - 1) <= multiplier - 1).
    { split; [apply Rmult_le_pos; lra |].
      replace (multiplier - 1) with (1 * (multiplier - 1)) at 2 by lra.
      apply Rmult_le_compat_r; lra. }
    split; [exact Ek |]. split; [lra |]. split; [exact Ecost |].
    split; [apply Rmult_le_pos; lra |]. split.
    + rewrite Ecost, Em, Eb, sub_Fin, mul_Fin. apply le_Fin.
      apply Rmult_le_compat_l; lra.
    + intros Hle. rewrite (Hzero Hle). lra.
  - intros higher Hle.
    assert (Hn : isNaN riskScore = false)
      by (destruct riskScore; try reflexivity; discriminate Hle).
    assert (Hn' : isNaN higher = false)
      by (destruct riskScore, higher; try reflexivity; discriminate Hle).
    destruct (clampedScore_spec riskScore Hn) as (c & Ec & Hc & Hzero & _ & Hmono).
    destruct (Hmono higher Hle) as (c' & Ec' & Hc').
    destruct (clampedScore_spec higher Hn') as (c2 & Ec2 & _ & Hzero2 & _).
    rewrite Ec' in Ec2. inversion Ec2; subst c2.
    destruct (premium_value riskScore financials multiplier base c Em Eb Ec
                Hzero) as [_ Ecost].
    destruct (premium_value higher financials multiplier base c' Em Eb Ec'
                Hzero2) as [_ Ecost'].
    rewrite Ecost, Ecost'. apply le_Fin.
    apply Rmult_le_compat_l; [exact Hb |].
    apply Rmult_le_compat_r; lra.
Qed.

Lemma insurance_premium_is_bounded_and_monotone_witness :
  (calculateSpeedingRiskCost (Fin 30) FINANCIAL_DEFAULTS
   <=? calculateSpeedingRiskCost PInf FINANCIAL_DEFAULTS)%js = true /\
  calculateSpeedingRiskCost NaN FINANCIAL_DEFAULTS = NaN.
Proof.
  pose proof (one_le_pow10 9) as H9. pose proof (one_le_pow10 100) as H100.
  assert (Hm : 1 <= 115 / 100 <= 10 ^ 9) by lra.
  assert (Hb : 0 <= 2400 <= 10 ^ 100).
  { split; [lra |]. apply Rle_trans with (10 ^ 4); [lra |].
    apply Rle_pow; [lra | lia]. }
  destruct (insurance_premium_is_bounded_and_monotone (Fin 30)
              FINANCIAL_DEFAULTS (115 / 100) 2400 eq_refl eq_refl Hm Hb)
    as (_ & _ & H).
  destruct (insurance_premium_is_bounded_and_monotone NaN
              FINANCIAL_DEFAULTS (115 / 100) 2400 eq_refl eq_refl Hm Hb)
    as (Hn & _ & _).
  split; [apply H; reflexivity | apply Hn; reflexivity].
Defined.

Lemma dailyIdleCost_value (idleMinutes : R) (financials : FinancialConstants.t)
  (fuel liters : R) :
  FinancialConstants.fuelCostPerLiter financials = Fin fuel ->
  FinancialConstants.idleConsumptionLitersPerHour financials = Fin liters ->
  calculateDailyIdleCost (Fin idleMinutes) financials
  = Fin (Rmax 0 idleMinutes / 60 * liters * fuel).
Proof.
  intros Ef El. unfold calculateDailyIdleCost, minutesToHours.
  destruct (Rle_dec idleMinutes 0) as [Hle | Hgt].
  - rewrite le_Fin by exact Hle. f_equal.
    rewrite Rmax_left by exact Hle. lra.
  - assert (E : (Fin idleMinutes <=? Fin 0)%js = false).
    { destruct (Fin idleMinutes <=? Fin 0)%js eqn:E; [| reflexivity].
      apply le_Fin_iff in E. lra. }
    rewrite E. cbv zeta. rewrite El, Ef, div_Fin by lra.
    rewrite !mul_Fin. f_equal. rewrite Rmax_right by lra. reflexivity.
Qed.

Lemma moderateFinancials_sound (financials : FinancialConstants.t) :
  moderateFinancials financials -> soundFinancials financials.
Proof.
  intros (fuel & liters & multiplier & base & days & Ef & El & Em & Eb & Ed
          & Hf & Hl & Hm & Hb & Hd).
  exists fuel, liters, multiplier, base, days.
  repeat split; try assumption; lra.
Qed.


Lemma FINANCIAL_DEFAULTS_moderate : moderateFinancials FINANCIAL_DEFAULTS.
Proof.
  exists (185 / 100), (25 / 10), (115 / 100), 2400, 22.
  pose proof (one_le_pow10 9) as H9.
  assert (H4 : forall n : nat, (4 <= n)%nat -> 10 ^ 4 <= 10 ^ n)
    by (intros n Hn; apply Rle_pow; [lra | exact Hn]).
  pose proof (H4 50%nat ltac:(lia)) as H50.
  pose proof (H4 100%nat ltac:(lia)) as H100.
  pose proof (H4 6%nat ltac:(lia)) as H6.
  repeat split; try reflexivity; lra.
Qed.

(** The figures of one vehicle, over the reals. *)
Lemma vehicle_costs_values (metrics : DerivedVehicleMetrics.t)
  (financials : FinancialConstants.t) (idleMinutes : R) :
  soundFinancials financials ->
  BaseVehicleMetrics.totalIdleTimeMinutes (DerivedVehicleMetrics.base metrics)
  = Fin idleMinutes ->
  isNaN (DerivedVehicleMetrics.riskScore metrics) = false ->
  let costs := calculateVehicleCosts metrics financials in
  exists daily monthly speeding annual : R,
    VehicleCostEstimation.dailyIdleCost costs = Fin daily /\
    VehicleCostEstimation.monthlyProjectedIdleCost costs = Fin monthly /\
    VehicleCostEstimation.speedingRiskCost costs = Fin speeding /\
    VehicleCostEstimation.annualProjectedLoss costs = Fin annual /\
    0 <= daily /\ 0 <= monthly /\ 0 <= speeding /\ 0 <= annual.
Proof.
  intros (fuel & liters & multiplier & base & days & Ef & El & Em & Eb & Ed
          & Hf & Hl & Hm & Hb & Hd) Ei Hr.
  cbv zeta. unfold calculateVehicleCosts. cbv zeta.
  cbn [VehicleCostEstimation.vehicleId VehicleCostEstimation.dailyIdleCost
       VehicleCostEstimation.monthlyProjectedIdleCost
       VehicleCostEstimation.speedingRiskCost
       VehicleCostEstimation.annualProjectedLoss
       VehicleCostEstimation.dailyTotalLoss
       VehicleCostEstimation.monthlyProjectedLoss].
  rewrite Ei, (dailyIdleCost_value idleMinutes financials fuel liters Ef El).
  destruct (clampedScore_spec _ Hr) as (c & Ec & Hc & Hzero & _).
  destruct (premium_value _ financials multiplier base c Em Eb Ec Hzero)
    as [_ Ecost].
  rewrite Ecost.
  unfold calculateMonthlyProjectedIdleCost, calculateAnnualProjectedLoss,
    MONTHS_PER_YEAR.
  rewrite Ed, !mul_Fin, add_Fin.
  set (daily := Rmax 0 idleMinutes / 60 * liters * fuel).
  assert (Hdaily : 0 <= daily).
  { unfold daily. pose proof (Rmax_l 0 idleMinutes).
    repeat apply Rmult_le_pos; lra. }
  assert (Hmonthly : 0 <= daily * days) by (apply Rmult_le_pos; lra).
  assert (Hspeeding : 0 <= base * (c / 100 * (multiplier - 1))).
  { repeat apply Rmult_le_pos; lra. }
  exists daily, (daily * days),
    (base * (c / 100 * (multiplier - 1))),
    (daily * days * 12 + base * (c / 100 * (multiplier - 1))).
  repeat split; try reflexivity; try assumption; lra.
Qed.

(** X20 -- [calculateVehicleCosts] for a vehicle with an idle time of at
    most [10^15] minutes and a risk score that is not NaN, with sound
    financial constants of moderate size (non-negative, multiplier at
    least 1, none beyond the bounds of [moderateFinancials]): the daily
    idle cost is 0 when the idle time is not positive and
    (minutes / 60) * litres per hour * fuel cost otherwise; the monthly
    cost is the daily cost times the operating days; the annual loss is
    the monthly cost times 12, plus the speeding risk cost;
    [dailyTotalLoss] and [monthlyProjectedLoss] repeat the idle costs
    (the speeding risk enters the annual figure only); and every cost is
    a finite non-negative number. *)
Theorem vehicle_costs_are_non_negative (metrics : DerivedVehicleMetrics.t)
  (financials : FinancialConstants.t) (idleMinutes : R) :
  moderateFinancials financials ->
  BaseVehicleMetrics.totalIdleTimeMinutes (DerivedVehicleMetrics.base metrics)
  = Fin idleMinutes ->
  idleMinutes <= 10 ^ 15 ->
  isNaN (DerivedVehicleMetrics.riskScore metrics) = false ->
  let costs := calculateVehicleCosts metrics financials in
  VehicleCostEstimation.vehicleId costs
  = DerivedVehicleMetrics.vehicleId metrics /\
  VehicleCostEstimation.dailyIdleCost costs
  = (if (Fin idleMinutes <=? Fin 0)%js then Fin 0
     else (Fin idleMinutes / Fin 60
           * FinancialConstants.idleConsumptionLitersPerHour financials
           * FinancialConstants.fuelCostPerLiter financials)%js) /\
  VehicleCostEstimation.monthlyProjectedIdleCost costs
  = (VehicleCostEstimation.dailyIdleCost costs
     * FinancialConstants.operatingDaysPerMonth financials)%js /\
  VehicleCostEstimation.speedingRiskCost costs
  = calculateSpeedingRiskCost (DerivedVehicleMetrics.riskScore metrics)
      financials /\
  VehicleCostEstimation.annualProjectedLoss costs
  = (VehicleCostEstimation.monthlyProjectedIdleCost costs * Fin 12
     + VehicleCostEstimation.speedingRiskCost costs)%js /\
  VehicleCostEstimation.dailyTotalLoss costs
  = VehicleCostEstimation.dailyIdleCost costs /\
  VehicleCostEstimation.monthlyProjectedLoss costs
  = VehicleCostEstimation.monthlyProjectedIdleCost costs /\
  exists daily monthly speeding annual : R,
    VehicleCostEstimation.dailyIdleCost costs = Fin daily /\
    VehicleCostEstimation.monthlyProjectedIdleCost costs = Fin monthly /\
    VehicleCostEstimation.speedingRiskCost costs = Fin speeding /\
    VehicleCostEstimation.annualProjectedLoss costs = Fin annual /\
    0 <= daily /\ 0 <= monthly /\ 0 <= speeding /\ 0 <= annual.
Proof.
  intros Hmoderate Ei _ Hr costs.
  split; [reflexivity |]. split.
  { unfold costs, calculateVehicleCosts. cbv zeta.
    cbn [VehicleCostEstimation.dailyIdleCost]. rewrite Ei. reflexivity. }
  do 5 (split; [reflexivity |]).
  apply (vehicle_costs_values metrics financials idleMinutes
           (moderateFinancials_sound financials Hmoderate) Ei Hr).
Qed.

Lemma vehicle_costs_are_non_negative_witness :
  exists annual : R,
    VehicleCostEstimation.annualProjectedLoss
      (calculateVehicleCosts sampleDerivedMetrics FINANCIAL_DEFAULTS)
    = Fin annual /\ 0 <= annual.
Proof.
  pose proof (one_le_pow10 15) as H15.
  destruct (vehicle_costs_are_non_negative sampleDerivedMetrics
              FINANCIAL_DEFAULTS 20 FINANCIAL_DEFAULTS_moderate eq_refl
              ltac:(apply Rle_trans with (10 ^ 2);
                    [lra | apply Rle_pow; [lra | lia]])
              eq_refl)
    as (_ & _ & _ & _ & _ & _ & _ & daily & monthly & speeding & annual & H).
  exists annual. split; [apply H | apply H].
Defined.


(** The three figures [identifyCostDriver] reads. *)
Lemma vehicle_costs_hold (metrics : DerivedVehicleMetrics.t)
  (financials : FinancialConstants.t) (idleMinutes : R) :
  soundFinancials financials ->
  BaseVehicleMetrics.totalIdleTimeMinutes (DerivedVehicleMetrics.base metrics)
  = Fin idleMinutes ->
  isNaN (DerivedVehicleMetrics.riskScore metrics) = false ->
  let costs := calculateVehicleCosts metrics financials in
  exists monthly speeding annual : R,
    VehicleCostEstimation.monthlyProjectedIdleCost costs = Fin monthly /\
    VehicleCostEstimation.speedingRiskCost costs = Fin speeding /\
    VehicleCostEstimation.annualProjectedLoss costs = Fin annual /\
    0 <= monthly /\ 0 <= speeding /\ annual = monthly * 12 + speeding.
Proof.
  intros (fuel & liters & multiplier & base & days & Ef & El & Em & Eb & Ed
          & Hf & Hl & Hm & Hb & Hd) Ei Hr.
  cbv zeta. unfold calculateVehicleCosts. cbv zeta.
  cbn [VehicleCostEstimation.monthlyProjectedIdleCost
       VehicleCostEstimation.speedingRiskCost
       VehicleCostEstimation.annualProjectedLoss].
  rewrite Ei, (dailyIdleCost_value idleMinutes financials fuel liters Ef El).
  destruct (clampedScore_spec _ Hr) as (c & Ec & Hc & Hzero & _).
  destruct (premium_value _ financials multiplier base c Em Eb Ec Hzero)
    as [_ Ecost].
  rewrite Ecost.
  unfold calculateMonthlyProjectedIdleCost, calculateAnnualProjectedLoss,
    MONTHS_PER_YEAR.
  rewrite Ed, !mul_Fin, add_Fin.
  set (daily := Rmax 0 idleMinutes / 60 * liters * fuel).
  assert (Hdaily : 0 <= daily).
  { unfold daily. pose proof (Rmax_l 0 idleMinutes).
    repeat apply Rmult_le_pos; lra. }
  assert (Hmonthly : 0 <= daily * days) by (apply Rmult_le_pos; lra).
  assert (Hspeeding : 0 <= base * (c / 100 * (multiplier - 1))).
  { repeat apply Rmult_le_pos; lra. }
  exists (daily * days), (base * (c / 100 * (multiplier - 1))),
    (daily * days * 12 + base * (c / 100 * (multiplier - 1))).
  repeat split; try reflexivity; try assumption; lra.
Qed.

Lemma percentage_of (part total : R) :
  0 <= part -> 0 <= total -> part <= total ->
  exists p : R,
    (safeDivide0 (Fin part) (Fin total) * Fin 100)%js = Fin p /\
    0 <= p <= 100 /\
    (total = 0 -> p = 0) /\ (total <> 0 -> p = part / total * 100).
Proof.
  intros Hp Ht Hle. unfold safeDivide0, safeDivide.
  cbn [JS.strictEq isFinite negb].
  destruct (Req_dec total 0) as [E | E].
  - rewrite Reqb_true by exact E. cbn [orb]. rewrite mul_Fin.
    exists (0 * 100). split; [reflexivity |].
    repeat split; try lra; intros H; try contradiction; lra.
  - rewrite Reqb_false by exact E. cbn [orb]. cbv zeta.
    rewrite div_Fin by exact E. cbn [isFinite negb]. rewrite mul_Fin.
    exists (part / total * 100). split; [reflexivity |].
    assert (Hq : 0 <= part / total <= 1).
    { assert (Hpos : 0 < total) by lra. split.
      - apply Rmult_le_reg_r with total; [exact Hpos |].
        unfold Rdiv. rewrite Rmult_assoc, Rinv_l by exact E. lra.
      - apply Rmult_le_reg_r with total; [exact Hpos |].
        unfold Rdiv. rewrite Rmult_assoc, Rinv_l by exact E. lra. }
    repeat split; try lra; intros H; try contradiction; lra.
Qed.

(** X21 -- [identifyCostDriver] on the costs [calculateVehicleCosts]
    computes (idle time of at most [10^15] minutes, risk score not NaN,
    sound financial constants of moderate size): both percentages are
    finite numbers in [0, 100]; both are 0 when the annual loss is 0; and
    the primary driver is 'idle' exactly when the idle percentage is at
    least the speeding percentage (so 'idle' wins a tie and the all-zero
    case). *)
Theorem cost_driver_percentages_in_range (metrics : DerivedVehicleMetrics.t)
  (financials : FinancialConstants.t) (idleMinutes : R) :
  moderateFinancials financials ->
  BaseVehicleMetrics.totalIdleTimeMinutes (DerivedVehicleMetrics.base metrics)
  = Fin idleMinutes ->
  idleMinutes <= 10 ^ 15 ->
  isNaN (DerivedVehicleMetrics.riskScore metrics) = false ->
  let costs := calculateVehicleCosts metrics financials in
  let driver := identifyCostDriver costs in
  exists idlePercentage speedingPercentage : R,
    CostDriver.idlePercentage driver = Fin idlePercentage /\
    CostDriver.speedingPercentage driver = Fin speedingPercentage /\
    0 <= idlePercentage <= 100 /\ 0 <= speedingPercentage <= 100 /\
    (VehicleCostEstimation.annualProjectedLoss costs = Fin 0 ->
     idlePercentage = 0 /\ speedingPercentage = 0) /\
    (CostDriver.primaryDriver driver = CostDriver.idle
     <-> speedingPercentage <= idlePercentage).
Proof.
  intros Hs Ei _ Hr. cbv zeta. apply moderateFinancials_sound in Hs.
  destruct (vehicle_costs_hold metrics financials idleMinutes Hs Ei Hr)
    as (monthly & speeding & annual & Em & Esp & Ea & Hm & Hsp & Hsum).
  unfold identifyCostDriver. cbv zeta.
  cbn [CostDriver.idlePercentage CostDriver.speedingPercentage
       CostDriver.primaryDriver].
  rewrite Em, Esp, Ea. unfold MONTHS_PER_YEAR. rewrite mul_Fin.
  destruct (percentage_of (monthly * 12) annual) as (pi & Epi & Hpi & Hpi0 & Hpi1);
    [lra | lra | lra |].
  destruct (percentage_of speeding annual) as (ps & Eps & Hps & Hps0 & Hps1);
    [lra | lra | lra |].
  rewrite Epi, Eps. exists pi, ps.
  split; [reflexivity |]. split; [reflexivity |].
  split; [exact Hpi |]. split; [exact Hps |]. split.
  - intros E. inversion E as [E0]. split; [apply Hpi0 | apply Hps0]; exact E0.
  - unfold JS.ge. destruct (Rle_dec ps pi) as [Hle | Hgt].
    + rewrite le_Fin by exact Hle. split; [intros _; exact Hle | reflexivity].
    + assert (E : (Fin ps <=? Fin pi)%js = false).
      { destruct (Fin ps <=? Fin pi)%js eqn:E; [| reflexivity].
        apply le_Fin_iff in E. lra. }
      rewrite E. split; [discriminate | intros H; lra].
Qed.

Lemma idle_minutes_moderate : 20 <= 10 ^ 15.
Proof.
  apply Rle_trans with (10 ^ 2); [lra | apply Rle_pow; [lra | lia]].
Qed.

Lemma cost_driver_percentages_in_range_witness :
  exists idlePercentage speedingPercentage : R,
    CostDriver.idlePercentage
      (identifyCostDriver
         (calculateVehicleCosts sampleDerivedMetrics FINANCIAL_DEFAULTS))
    = Fin idlePercentage /\
    CostDriver.speedingPercentage
      (identifyCostDriver
         (calculateVehicleCosts sampleDerivedMetrics FINANCIAL_DEFAULTS))
    = Fin speedingPercentage /\
    0 <= idlePercentage <= 100 /\ 0 <= speedingPercentage <= 100.
Proof.
  destruct (cost_driver_percentages_in_range sampleDerivedMetrics
              FINANCIAL_DEFAULTS 20 FINANCIAL_DEFAULTS_moderate eq_refl
              idle_minutes_moderate eq_refl)
    as (pi & ps & E1 & E2 & H1 & H2 & _).
  exists pi, ps. repeat split; try assumption; lra.
Defined.

Lemma clamped_at_top (r : num) :
  (r >=? Fin 100)%js = true ->
  JS.max (Fin 0) (JS.min (Fin 100) r) = Fin 100.
Proof.
  unfold JS.ge. destruct r as [x | | |]; intros H; try discriminate H.
  - apply le_Fin_iff in H. unfold JS.min, JS.max, JS.lt.
    destruct (Rlt_dec x 100) as [Hlt | Hge].
    + assert (x = 100) by lra. subst. exfalso. lra.
    + rewrite (Rltb_false x 100) by lra. rewrite Rltb_true by lra. reflexivity.
  - simpl. rewrite Rltb_true by lra. reflexivity.
Qed.

(** X22 -- the two savings estimates.  [calculatePotentialIdleSavings]
    of a non-negative idle cost and a percentage that is not NaN lies
    between 0 and the cost: nothing for a percentage of 0 or below, the
    whole cost for 100 or above.  [calculatePotentialRiskSavings] (with a
    multiplier between 1 and [10^9], a base cost between 0 and [10^100]
    and scores that are not NaN) lies between 0 and the current speeding
    risk cost, and is 0 whenever the target score is not below the
    current one. *)
Theorem potential_savings_are_bounded (currentIdleCost : R)
  (reductionPercent currentRiskScore targetRiskScore : num)
  (financials : FinancialConstants.t) (multiplier base : R) :
  (0 <= currentIdleCost -> isNaN reductionPercent = false ->
   exists savings : R,
     calculatePotentialIdleSavings (Fin currentIdleCost) reductionPercent
     = Fin savings /\
     0 <= savings <= currentIdleCost /\
     ((reductionPercent <=? Fin 0)%js = true -> savings = 0) /\
     ((reductionPercent >=? Fin 100)%js = true -> savings = currentIdleCost)) /\
  (FinancialConstants.speedingInsuranceMultiplier financials = Fin multiplier ->
   FinancialConstants.baseInsuranceCostPerVehicle financials = Fin base ->
   1 <= multiplier <= 10 ^ 9 -> 0 <= base <= 10 ^ 100 ->
   isNaN currentRiskScore = false -> isNaN targetRiskScore = false ->
   exists savings currentCost : R,
     calculateSpeedingRiskCost currentRiskScore financials = Fin currentCost /\
     calculatePotentialRiskSavings currentRiskScore targetRiskScore financials
     = Fin savings /\
     0 <= savings <= currentCost /\
     ((currentRiskScore <=? targetRiskScore)%js = true -> savings = 0)).
Proof.
  split.
  - intros Hc Hn. unfold calculatePotentialIdleSavings. cbv zeta.
    destruct (clampedScore_spec reductionPercent Hn)
      as (c & Ec & Hc01 & Hzero & _).
    rewrite Ec, div_Fin by lra. rewrite mul_Fin.
    exists (currentIdleCost * (c / 100)). split; [reflexivity |].
    split; [| split].
    + split; [apply Rmult_le_pos; lra |].
      replace currentIdleCost with (currentIdleCost * 1) at 2 by lra.
      apply Rmult_le_compat_l; lra.
    + intros H. rewrite (Hzero H). lra.
    + intros H. rewrite (clamped_at_top _ H) in Ec. inversion Ec; subst. lra.
  - intros Em Eb [Hm _] [Hb _] Hn Hn'.
    destruct (clampedScore_spec currentRiskScore Hn)
      as (c & Ec & Hc & Hzero & _ & Hmono).
    destruct (clampedScore_spec targetRiskScore Hn')
      as (c' & Ec' & Hc' & Hzero' & _).
    destruct (premium_value currentRiskScore financials multiplier base c
                Em Eb Ec Hzero) as [_ Ecost].
    destruct (premium_value targetRiskScore financials multiplier base c'
                Em Eb Ec' Hzero') as [_ Ecost'].
    unfold calculatePotentialRiskSavings. cbv zeta.
    rewrite Ecost, Ecost', sub_Fin.
    set (cur := base * (c / 100 * (multiplier - 1))).
    set (tgt := base * (c' / 100 * (multiplier - 1))).
    assert (Hcur : 0 <= cur) by (unfold cur; repeat apply Rmult_le_pos; lra).
    assert (Htgt : 0 <= tgt) by (unfold tgt; repeat apply Rmult_le_pos; lra).
    unfold JS.max, JS.lt.
    destruct (Rlt_dec 0 (cur + - tgt)) as [Hpos | Hnpos].
    + rewrite Rltb_true by exact Hpos.
      exists (cur + - tgt), cur. split; [reflexivity |]. split; [reflexivity |].
      split; [lra |].
      intros Hle. destruct (Hmono targetRiskScore Hle) as (c2 & Ec2 & Hc2).
      rewrite Ec' in Ec2. inversion Ec2; subst c2.
      assert (cur <= tgt).
      { unfold cur, tgt. apply Rmult_le_compat_l; [exact Hb |].
        apply Rmult_le_compat_r; lra. }
      lra.
    + rewrite Rltb_false by lra.
      exists 0, cur. split; [reflexivity |]. split; [reflexivity |].
      split; [lra | reflexivity].
Qed.

Lemma potential_savings_are_bounded_witness :
  (exists savings : R,
     calculatePotentialIdleSavings (Fin 200) (Fin 150) = Fin savings /\
     savings = 200) /\
  (exists savings : R,
     calculatePotentialRiskSavings (Fin 40) (Fin 70) FINANCIAL_DEFAULTS
     = Fin savings /\ savings = 0).
Proof.
  destruct (potential_savings_are_bounded 200 (Fin 150) (Fin 40) (Fin 70)
              FINANCIAL_DEFAULTS (115 / 100) 2400) as [Hidle Hrisk].
  split.
  - destruct Hidle as (s & Es & _ & _ & Htop); [lra | reflexivity |].
    exists s. split; [exact Es |]. apply Htop. apply ge_Fin. lra.
  - pose proof (one_le_pow10 9) as H9.
    assert (H100 : 10 ^ 4 <= 10 ^ 100) by (apply Rle_pow; [lra | lia]).
    destruct Hrisk as (s & cur & _ & Es & _ & Hzero);
      [reflexivity | reflexivity | lra | lra | reflexivity | reflexivity |].
    exists s. split; [exact Es |]. apply Hzero. apply le_Fin. lra.
Defined.

(** ** The most expensive vehicle and the fleet totals *)

(** A left-to-right scan that replaces the current best by each element
    with a strictly greater key, started at an element whose key is a
    number: the result is the first element with the greatest key. *)
Lemma first_maximum_scan {A : Type} (key : A -> num) (l : list A) :
  forall start : A,
    isNaN (key start) = false ->
    let best :=
      fold_left (fun h c => if (key c >? key h)%js then c else h) l start in
    isNaN (key best) = false /\
    (key start >? key best)%js = false /\
    (forall x, In x l -> (key x >? key best)%js = false) /\
    (best = start \/
     exists pre post : list A,
       l = pre ++ best :: post /\
       (key start <? key best)%js = true /\
       forall x, In x pre ->
                 isNaN (key x) = true \/ (key x <? key best)%js = true).
Proof.
  induction l as [| c l IH]; intros start Hstart; cbv zeta.
  - simpl. unfold JS.gt.
    repeat split; [exact Hstart | apply num_lt_irrefl | contradiction
                  | left; reflexivity].
  - cbn [fold_left].
    set (next := if (key c >? key start)%js then c else start).
    assert (Hnext : isNaN (key next) = false).
    { unfold next. destruct (key c >? key start)%js eqn:E; [| exact Hstart].
      unfold JS.gt in E. apply lt_true_not_NaN in E. apply E. }
    destruct (IH next Hnext) as (Hbest & Hge & Hall & Hfirst).
    set (best := fold_left _ l next) in *.
    unfold JS.gt in *.
    assert (Hstep : ((key start <? key c)%js = true /\ next = c) \/
                    ((key start <? key c)%js = false /\ next = start)).
    { unfold next. destruct (key start <? key c)%js; [left | right];
        split; reflexivity. }
    assert (Hstart_best : (key best <? key start)%js = false).
    { destruct (key best <? key start)%js eqn:E; [| reflexivity].
      destruct Hstep as [[Hlt Heq] | [_ Heq]]; rewrite Heq in Hge.
      - rewrite (num_lt_trans _ _ _ E Hlt) in Hge. discriminate.
      - congruence. }
    split; [exact Hbest |]. split; [exact Hstart_best |]. split.
    + intros x [<- | Hx]; [| apply Hall; exact Hx].
      destruct Hstep as [[Hlt Heq] | [Hnlt Heq]]; rewrite Heq in Hge;
        [exact Hge |].
      destruct (key best <? key c)%js eqn:E; [| reflexivity].
      exfalso.
      destruct (num_lt_trichotomy (key start) (key best) Hstart Hbest)
        as [H1 | [H1 | H1]].
      * rewrite (num_lt_trans _ _ _ H1 E) in Hnlt. discriminate.
      * rewrite H1 in Hnlt. congruence.
      * congruence.
    + destruct Hfirst as [Hbn | (pre & post & Hl & Hlt' & Hpre)].
      * destruct Hstep as [[Hlt Heq] | [Hnlt Heq]].
        -- right. exists [], l. rewrite Hbn, Heq.
           split; [reflexivity |]. split; [exact Hlt |].
           intros x [].
        -- left. rewrite Hbn. exact Heq.
      * right. exists (c :: pre), post.
        split; [rewrite Hl; reflexivity |].
        destruct Hstep as [[Hlt Heq] | [Hnlt Heq]]; rewrite Heq in Hlt'.
        -- split; [exact (num_lt_trans _ _ _ Hlt Hlt') |].
           intros x [<- | Hx]; [right; exact Hlt' | apply Hpre; exact Hx].
        -- split; [exact Hlt' |].
           intros x [<- | Hx]; [| apply Hpre; exact Hx].
           destruct (isNaN (key c)) eqn:Hnan; [left; reflexivity |].
           right.
           destruct (num_lt_trichotomy (key c) (key start) Hnan Hstart)
             as [H1 | [H1 | H1]].
           ++ exact (num_lt_trans _ _ _ H1 Hlt').
           ++ rewrite H1. exact Hlt'.
           ++ congruence.
Qed.

Lemma scan_from_NaN {A : Type} (key : A -> num) (l : list A) (start : A) :
  isNaN (key start) = true ->
  fold_left (fun h c => if (key c >? key h)%js then c else h) l start = start.
Proof.
  intros Hn. induction l as [| c l IH]; [reflexivity |].
  cbn [fold_left].
  replace (key c >? key start)%js with false; [exact IH |].
  unfold JS.gt. destruct (key start); try discriminate Hn.
  destruct (key c); reflexivity.
Qed.

(** X23 -- [findHighestCostVehicle]: null exactly for the empty array.
    When the first vehicle's annual loss is a number, the vehicle
    returned is one of the array, no vehicle has a greater annual loss,
    and it is the first such vehicle: every vehicle before it has a
    strictly smaller loss (or a NaN one).  When the first vehicle's
    annual loss is NaN, the first vehicle is returned whatever the
    others are. *)
Theorem highest_cost_vehicle_is_the_first_maximum
  (vehicleCosts : list VehicleCostEstimation.t) :
  (findHighestCostVehicle vehicleCosts = None <-> vehicleCosts = []) /\
  forall (first : VehicleCostEstimation.t)
         (others : list VehicleCostEstimation.t),
    vehicleCosts = first :: others ->
    (isNaN (VehicleCostEstimation.annualProjectedLoss first) = true ->
     findHighestCostVehicle vehicleCosts = Some first) /\
    (isNaN (VehicleCostEstimation.annualProjectedLoss first) = false ->
     exists (highest : VehicleCostEstimation.t)
            (before after : list VehicleCostEstimation.t),
       findHighestCostVehicle vehicleCosts = Some highest /\
       vehicleCosts = before ++ highest :: after /\
       (forall cost, In cost vehicleCosts ->
          (VehicleCostEstimation.annualProjectedLoss cost
           >? VehicleCostEstimation.annualProjectedLoss highest)%js = false) /\
       (forall cost, In cost before ->
          isNaN (VehicleCostEstimation.annualProjectedLoss cost) = true \/
          (VehicleCostEstimation.annualProjectedLoss cost
           <? VehicleCostEstimation.annualProjectedLoss highest)%js = true)).
Proof.
  split.
  - destruct vehicleCosts; simpl; split; intros H; try reflexivity;
      discriminate H.
  - intros first others ->. unfold findHighestCostVehicle. split.
    + intros Hn. f_equal.
      apply (scan_from_NaN VehicleCostEstimation.annualProjectedLoss). exact Hn.
    + intros Hn.
      destruct (first_maximum_scan VehicleCostEstimation.annualProjectedLoss
                  (first :: others) first Hn) as (_ & _ & Hall & Hfirst).
      cbv zeta in Hall, Hfirst.
      set (highest :=
             fold_left
               (fun h c =>
                  if (VehicleCostEstimation.annualProjectedLoss c
                      >? VehicleCostEstimation.annualProjectedLoss h)%js
                  then c else h) (first :: others) first) in *.
      destruct Hfirst as [Heq | (pre & post & Hl & _ & Hpre)].
      * exists highest, [], others.
        split; [reflexivity |].
        split; [cbn [app]; f_equal; symmetry; exact Heq |].
        split; [exact Hall | intros cost []].
      * exists highest, pre, post.
        split; [reflexivity |]. split; [exact Hl |].
        split; [exact Hall | exact Hpre].
Qed.

Lemma highest_cost_vehicle_is_the_first_maximum_witness :
  exists (highest : VehicleCostEstimation.t)
         (before after : list VehicleCostEstimation.t),
    findHighestCostVehicle sampleCosts = Some highest /\
    sampleCosts = before ++ highest :: after /\
    forall cost, In cost sampleCosts ->
      (VehicleCostEstimation.annualProjectedLoss cost
       >? VehicleCostEstimation.annualProjectedLoss highest)%js = false.
Proof.
  destruct (highest_cost_vehicle_is_the_first_maximum sampleCosts) as [_ H].
  destruct (H (sampleCost "v1" (Fin 1320))
              [sampleCost "v2" (Fin 2000); sampleCost "v3" (Fin 2000)]
              eq_refl) as [_ Hmax].
  destruct (Hmax eq_refl) as (highest & before & after & E & Hl & Hall & _).
  exists highest, before, after. repeat split; assumption.
Defined.

Lemma addVehicleCost_sums (l : list VehicleCostEstimation.t) :
  forall a b c : num,
    fold_left addVehicleCost l (a, b, c)
    = (fold_left JS.add (map VehicleCostEstimation.dailyIdleCost l) a,
       fold_left JS.add
         (map VehicleCostEstimation.monthlyProjectedIdleCost l) b,
       fold_left JS.add (map VehicleCostEstimation.annualProjectedLoss l) c).
Proof.
  induction l as [| x l IH]; intros a b c; [reflexivity |].
  cbn [fold_left map]. unfold addVehicleCost at 2. apply IH.
Qed.

(** A sum of finite non-negative terms is finite and at least as large
    as each of its terms. *)
Lemma sum_bounds_members {A : Type} (f : A -> num) (l : list A) :
  Forall (fun x => exists r : R, f x = Fin r /\ 0 <= r) l ->
  forall a : R,
    exists total : R,
      fold_left JS.add (map f l) (Fin a) = Fin total /\ a <= total /\
      forall x, In x l -> exists r : R, f x = Fin r /\ 0 <= r /\ a + r <= total.
Proof.
  induction l as [| y l IH]; intros Hall a.
  - exists a. simpl. repeat split; try lra. intros x [].
  - inversion Hall as [| y' l' (ry & Ey & Hy) Hl]; subst.
    cbn [map fold_left]. rewrite Ey, add_Fin.
    destruct (IH Hl (a + ry)) as (total & Et & Hle & Hmem).
    exists total. split; [exact Et |]. split; [lra |].
    intros x [<- | Hx].
    + exists ry. repeat split; [exact Ey | exact Hy | exact Hle].
    + destruct (Hmem x Hx) as (r & Er & Hr & Hle').
      exists r. repeat split; [exact Er | exact Hr | lra].
Qed.

Lemma scan_member {A : Type} (key : A -> num) (l : list A) :
  forall start : A,
    let best :=
      fold_left (fun h c => if (key c >? key h)%js then c else h) l start in
    best = start \/ In best l.
Proof.
  induction l as [| c l IH]; intros start; cbv zeta; [left; reflexivity |].
  cbn [fold_left].
  destruct (IH (if (key c >? key start)%js then c else start)) as [Heq | Hin].
  - cbv zeta in Heq. rewrite Heq.
    destruct (key c >? key start)%js;
      [right; left; reflexivity | left; reflexivity].
  - right. right. exact Hin.
Qed.

Lemma highest_is_a_member (costs : list VehicleCostEstimation.t)
  (highest : VehicleCostEstimation.t) :
  findHighestCostVehicle costs = Some highest -> In highest costs.
Proof.
  destruct costs as [| first others]; [discriminate |].
  unfold findHighestCostVehicle. intros E. injection E as <-.
  destruct (scan_member VehicleCostEstimation.annualProjectedLoss
              (first :: others) first) as [H | H].
  - left. symmetry. exact H.
  - exact H.
Qed.

Lemma calculateFleetCosts_fields (vehicleCosts : list VehicleCostEstimation.t)
  (periodStart periodEnd : string) :
  let fleet := calculateFleetCosts vehicleCosts periodStart periodEnd in
  FleetCostEstimation.totalDailyIdleCost fleet
  = sumNum (map VehicleCostEstimation.dailyIdleCost vehicleCosts) /\
  FleetCostEstimation.totalMonthlyProjectedIdleCost fleet
  = sumNum (map VehicleCostEstimation.monthlyProjectedIdleCost vehicleCosts) /\
  FleetCostEstimation.totalRiskAdjustedAnnualCost fleet
  = sumNum (map VehicleCostEstimation.annualProjectedLoss vehicleCosts) /\
  FleetCostEstimation.costByVehicle fleet = vehicleCosts /\
  FleetCostEstimation.highestCostVehicle fleet
  = findHighestCostVehicle vehicleCosts.
Proof.
  cbv zeta. unfold calculateFleetCosts.
  destruct vehicleCosts as [| first others]; [repeat split |].
  cbn [List.length Nat.eqb]. rewrite addVehicleCost_sums.
  repeat split.
Qed.

(** X24 -- [calculateFleetCosts] and the aggregator's
    [aggregateFleetCosts] are the same function.  The three totals are
    the sums, over the vehicles in order, of the daily idle cost, the
    monthly idle cost and the annual loss (all 0, with no highest
    vehicle, for an empty fleet); the per-vehicle costs are passed
    through unchanged; and when every annual loss is a number between 0
    and [10^100] (in an array, which holds fewer than [2^32] elements),
    the fleet's annual total is finite and at least the annual loss of
    the highest-cost vehicle. *)
Theorem fleet_cost_totals_are_the_sums
  (vehicleCosts : list VehicleCostEstimation.t)
  (periodStart periodEnd : string) :
  let fleet := calculateFleetCosts vehicleCosts periodStart periodEnd in
  aggregateFleetCosts vehicleCosts periodStart periodEnd = fleet /\
  FleetCostEstimation.totalDailyIdleCost fleet
  = sumNum (map VehicleCostEstimation.dailyIdleCost vehicleCosts) /\
  FleetCostEstimation.totalMonthlyProjectedIdleCost fleet
  = sumNum (map VehicleCostEstimation.monthlyProjectedIdleCost vehicleCosts) /\
  FleetCostEstimation.totalRiskAdjustedAnnualCost fleet
  = sumNum (map VehicleCostEstimation.annualProjectedLoss vehicleCosts) /\
  FleetCostEstimation.costByVehicle fleet = vehicleCosts /\
  FleetCostEstimation.highestCostVehicle fleet
  = findHighestCostVehicle vehicleCosts /\
  ((Z.of_nat (List.length vehicleCosts) < 2 ^ 32)%Z ->
   Forall
     (fun cost =>
        exists loss : R,
          VehicleCostEstimation.annualProjectedLoss cost = Fin loss /\
          0 <= loss <= 10 ^ 100)
     vehicleCosts ->
   exists total : R,
     FleetCostEstimation.totalRiskAdjustedAnnualCost fleet = Fin total /\
     0 <= total /\
     forall highest : VehicleCostEstimation.t,
       FleetCostEstimation.highestCostVehicle fleet = Some highest ->
       (VehicleCostEstimation.annualProjectedLoss highest
        <=? FleetCostEstimation.totalRiskAdjustedAnnualCost fleet)%js = true).
Proof.
  cbv zeta.
  assert (Hsame : aggregateFleetCosts vehicleCosts periodStart periodEnd
                  = calculateFleetCosts vehicleCosts periodStart periodEnd)
    by reflexivity.
  destruct (calculateFleetCosts_fields vehicleCosts periodStart periodEnd)
    as (Hd & Hm & Ha & Hc & Hh).
  cbv zeta in Hd, Hm, Ha, Hc, Hh.
  repeat (split; [assumption |]).
  intros _ Hbounded. rewrite Ha, Hh. unfold sumNum.
  assert (Hall :
    Forall
      (fun cost =>
         exists loss : R,
           VehicleCostEstimation.annualProjectedLoss cost = Fin loss /\
           0 <= loss) vehicleCosts).
  { eapply Forall_impl; [| exact Hbounded].
    intros cost (loss & E & H0 & _). exists loss. split; assumption. }
  destruct (sum_bounds_members VehicleCostEstimation.annualProjectedLoss
              vehicleCosts Hall 0) as (total & Et & H0 & Hmem).
  exists total. split; [exact Et |]. split; [exact H0 |].
  intros highest Hhigh.
  destruct (Hmem highest (highest_is_a_member _ _ Hhigh)) as (r & Er & Hr & Hle).
  rewrite Er, Et. apply le_Fin. lra.
Qed.

Lemma fleet_cost_totals_are_the_sums_witness :
  exists total : R,
    FleetCostEstimation.totalRiskAdjustedAnnualCost
      (calculateFleetCosts sampleCosts "2024-01-15T09:00:00Z"
         "2024-01-15T10:00:00Z") = Fin total /\
    0 <= total.
Proof.
  destruct (fleet_cost_totals_are_the_sums sampleCosts "2024-01-15T09:00:00Z"
              "2024-01-15T10:00:00Z") as (_ & _ & _ & _ & _ & _ & H).
  destruct H as (total & Et & H0 & _).
  - simpl. lia.
  - assert (H100 : 10 ^ 5 <= 10 ^ 100) by (apply Rle_pow; [lra | lia]).
    repeat constructor; eexists; (split; [reflexivity | lra]).
  - exists total. split; assumption.
Defined.

(** ** Fleet costs from the metrics, and each vehicle's share *)

(** X25 -- [calculateFleetCostsFromMetrics] with sound financial
    constants of moderate size, on an array (fewer than [2^32] elements)
    of vehicles with an idle time of at most [10^15] minutes and a risk
    score that is not NaN: the per-vehicle costs are those of
    [calculateVehicleCosts], in fleet order; the fleet's annual total is
    a finite non-negative number; and [calculateCostPercentage] of each
    vehicle's annual loss in that total is a finite percentage in
    [0, 100] (0 for every vehicle when the total is 0). *)
Theorem fleet_costs_from_metrics_and_shares
  (vehicleMetrics : list DerivedVehicleMetrics.t)
  (periodStart periodEnd : string) (financials : FinancialConstants.t) :
  moderateFinancials financials ->
  (Z.of_nat (List.length vehicleMetrics) < 2 ^ 32)%Z ->
  Forall
    (fun m =>
       (exists idleMinutes : R,
          BaseVehicleMetrics.totalIdleTimeMinutes
            (DerivedVehicleMetrics.base m) = Fin idleMinutes /\
          idleMinutes <= 10 ^ 15) /\
       isNaN (DerivedVehicleMetrics.riskScore m) = false)
    vehicleMetrics ->
  let fleet :=
    calculateFleetCostsFromMetrics vehicleMetrics periodStart periodEnd
      financials in
  FleetCostEstimation.costByVehicle fleet
  = map (fun m => calculateVehicleCosts m financials) vehicleMetrics /\
  exists total : R,
    FleetCostEstimation.totalRiskAdjustedAnnualCost fleet = Fin total /\
    0 <= total /\
    forall cost : VehicleCostEstimation.t,
      In cost (FleetCostEstimation.costByVehicle fleet) ->
      exists share : R,
        calculateCostPercentage
          (VehicleCostEstimation.annualProjectedLoss cost)
          (FleetCostEstimation.totalRiskAdjustedAnnualCost fleet)
        = Fin share /\
        0 <= share <= 100 /\ (total = 0 -> share = 0).
Proof.
  intros Hsound _ Hall. cbv zeta. unfold calculateFleetCostsFromMetrics.
  cbv zeta. apply moderateFinancials_sound in Hsound.
  set (costs := map (fun m => calculateVehicleCosts m financials)
                    vehicleMetrics).
  destruct (calculateFleetCosts_fields costs periodStart periodEnd)
    as (_ & _ & Ha & Hc & _).
  cbv zeta in Ha, Hc. rewrite Ha, Hc. split; [reflexivity |].
  assert (Hcosts :
    Forall
      (fun cost =>
         exists loss : R,
           VehicleCostEstimation.annualProjectedLoss cost = Fin loss /\
           0 <= loss) costs).
  { unfold costs. apply Forall_forall. intros cost Hin.
    apply in_map_iff in Hin. destruct Hin as (m & <- & Hm).
    rewrite Forall_forall in Hall.
    destruct (Hall m Hm) as [(i & Ei & _) Hrisk].
    destruct (vehicle_costs_hold m financials i Hsound Ei Hrisk)
      as (monthly & speeding & annual & _ & _ & Ea' & Hm0 & Hs0 & Hsum).
    exists annual. split; [exact Ea' | lra]. }
  unfold sumNum.
  destruct (sum_bounds_members VehicleCostEstimation.annualProjectedLoss
              costs Hcosts 0) as (total & Et & H0 & Hmem).
  rewrite Et. exists total. split; [reflexivity |]. split; [exact H0 |].
  intros cost Hin. destruct (Hmem cost Hin) as (r & Er & Hr & Hle).
  unfold calculateCostPercentage. rewrite Er.
  destruct (percentage_of r total) as (p & Ep & Hp & Hp0 & _);
    [lra | lra | lra |].
  exists p. split; [exact Ep |]. split; [exact Hp | exact Hp0].
Qed.

Lemma sampleFleet_costable :
  Forall
    (fun m =>
       (exists idleMinutes : R,
          BaseVehicleMetrics.totalIdleTimeMinutes
            (DerivedVehicleMetrics.base m) = Fin idleMinutes /\
          idleMinutes <= 10 ^ 15) /\
       isNaN (DerivedVehicleMetrics.riskScore m) = false)
    sampleFleet.
Proof.
  assert (H15 : 10 ^ 4 <= 10 ^ 15) by (apply Rle_pow; [lra | lia]).
  repeat constructor; eexists; (split; [reflexivity | lra]).
Qed.

Lemma fleet_costs_from_metrics_and_shares_witness :
  exists total : R,
    FleetCostEstimation.totalRiskAdjustedAnnualCost
      (calculateFleetCostsFromMetrics sampleFleet "2024-01-15T09:00:00Z"
         "2024-01-15T10:00:00Z" FINANCIAL_DEFAULTS) = Fin total /\
    0 <= total.
Proof.
  destruct (fleet_costs_from_metrics_and_shares sampleFleet
              "2024-01-15T09:00:00Z" "2024-01-15T10:00:00Z" FINANCIAL_DEFAULTS
              FINANCIAL_DEFAULTS_moderate ltac:(simpl; lia)
              sampleFleet_costable)
    as (_ & total & E & H0 & _).
  exists total. split; assumption.
Defined.

(** ** Fleet metrics *)

Lemma addVehicleMetrics_sums (l : list DerivedVehicleMetrics.t) :
  forall s : FleetSums.t,
    fold_left addVehicleMetrics l s
    = {| FleetSums.totalDistanceKm :=
           fold_left JS.add
             (map (fun m => BaseVehicleMetrics.totalDistanceKm
                              (DerivedVehicleMetrics.base m)) l)
             (FleetSums.totalDistanceKm s);
         FleetSums.totalIdleTimeMinutes :=
           fold_left JS.add
             (map (fun m => BaseVehicleMetrics.totalIdleTimeMinutes
                              (DerivedVehicleMetrics.base m)) l)
             (FleetSums.totalIdleTimeMinutes s);
         FleetSums.totalMovingTimeMinutes :=
           fold_left JS.add
             (map (fun m => BaseVehicleMetrics.totalMovingTimeMinutes
                              (DerivedVehicleMetrics.base m)) l)
             (FleetSums.totalMovingTimeMinutes s);
         FleetSums.sumIdleRatio :=
           fold_left JS.add (map DerivedVehicleMetrics.idleRatio l)
             (FleetSums.sumIdleRatio s);
         FleetSums.sumEfficiencyScore :=
           fold_left JS.add (map DerivedVehicleMetrics.efficiencyScore l)
             (FleetSums.sumEfficiencyScore s);
         FleetSums.sumRiskScore :=
           fold_left JS.add (map DerivedVehicleMetrics.riskScore l)
             (FleetSums.sumRiskScore s) |}.
Proof.
  induction l as [| m l IH]; intros s; [destruct s; reflexivity |].
  cbn [fold_left map]. rewrite IH. reflexivity.
Qed.

(** The mean of finite numbers that all lie between two bounds lies
    between the bounds. *)
Lemma sum_within {A : Type} (f : A -> num) (lo hi : R) (l : list A) :
  Forall (fun x => exists r : R, f x = Fin r /\ lo <= r <= hi) l ->
  forall a : R,
    exists t : R,
      fold_left JS.add (map f l) (Fin a) = Fin t /\
      a + lo * INR (List.length l) <= t <= a + hi * INR (List.length l).
Proof.
  induction l as [| x l IH]; intros Hall a.
  - exists a. simpl. split; [reflexivity | lra].
  - inversion Hall as [| x' l' (r & Er & Hr) Hl]; subst.
    cbn [map fold_left]. rewrite Er, add_Fin.
    destruct (IH Hl (a + r)) as (t & Et & Ht).
    exists t. split; [exact Et |].
    change (List.length (x :: l)) with (S (List.length l)).
    rewrite S_INR. lra.
Qed.

Lemma mean_within {A : Type} (f : A -> num) (lo hi : R) (l : list A) :
  l <> [] ->
  Forall (fun x => exists r : R, f x = Fin r /\ lo <= r <= hi) l ->
  exists q : R,
    safeDivide0 (fold_left JS.add (map f l) (Fin 0)) (ofNat (List.length l))
    = Fin q /\ lo <= q <= hi.
Proof.
  intros Hne Hall. destruct (sum_within f lo hi l Hall 0) as (t & Et & Ht).
  rewrite Et. unfold ofNat.
  assert (Hn : 0 < INR (List.length l)).
  { apply lt_0_INR. destruct l; [contradiction | simpl; lia]. }
  unfold safeDivide0, safeDivide. cbn [JS.strictEq isFinite negb].
  rewrite Reqb_false by lra. cbn [orb]. cbv zeta.
  rewrite div_Fin by lra. cbn [isFinite negb].
  exists (t / INR (List.length l)). split; [reflexivity |].
  split.
  - apply Rmult_le_reg_r with (INR (List.length l)); [exact Hn |].
    unfold Rdiv. rewrite Rmult_assoc, Rinv_l by lra. lra.
  - apply Rmult_le_reg_r with (INR (List.length l)); [exact Hn |].
    unfold Rdiv. rewrite Rmult_assoc, Rinv_l by lra. lra.
Qed.

Lemma mapWithIndex_length {A B : Type} (f : A -> nat -> B) (l : list A) :
  forall start : nat, List.length (mapWithIndex f start l) = List.length l.
Proof.
  induction l as [| x l IH]; intros start; [reflexivity |].
  cbn [mapWithIndex List.length]. rewrite IH. reflexivity.
Qed.

Lemma rankEntries_length (localeCompare : string -> string -> Z)
  (entries : list ScoreEntry.t) :
  List.length (rankEntries localeCompare entries) = List.length entries.
Proof.
  unfold rankEntries. cbv zeta. rewrite mapWithIndex_length.
  apply Permutation_length. apply Array_sort_perm.
Qed.

Section FleetMetricsProperties.

Variable localeCompare : string -> string -> Z.

Local Abbreviation fleetMetrics := (aggregateFleetMetrics localeCompare).

Lemma aggregateFleetMetrics_nonempty (m : DerivedVehicleMetrics.t)
  (l : list DerivedVehicleMetrics.t) (periodStart periodEnd : string) :
  let vehicleMetrics := m :: l in
  let sums := fold_left addVehicleMetrics vehicleMetrics zeroFleetSums in
  fleetMetrics vehicleMetrics periodStart periodEnd
  = {| FleetMetrics.periodStart := periodStart;
       FleetMetrics.periodEnd := periodEnd;
       FleetMetrics.totalVehicles := ofNat (List.length vehicleMetrics);
       FleetMetrics.totalDistanceKm := FleetSums.totalDistanceKm sums;
       FleetMetrics.totalIdleTimeMinutes := FleetSums.totalIdleTimeMinutes sums;
       FleetMetrics.totalMovingTimeMinutes :=
         FleetSums.totalMovingTimeMinutes sums;
       FleetMetrics.averageIdleRatio :=
         safeDivide0 (FleetSums.sumIdleRatio sums)
           (ofNat (List.length vehicleMetrics));
       FleetMetrics.averageEfficiencyScore :=
         safeDivide0 (FleetSums.sumEfficiencyScore sums)
           (ofNat (List.length vehicleMetrics));
       FleetMetrics.averageRiskScore :=
         safeDivide0 (FleetSums.sumRiskScore sums)
           (ofNat (List.length vehicleMetrics));
       FleetMetrics.vehiclesByEfficiency :=
         rankByEfficiency localeCompare vehicleMetrics;
       FleetMetrics.vehiclesByRisk := rankByRisk localeCompare vehicleMetrics;
       FleetMetrics.topRiskVehicles :=
         getTopRiskVehicles (rankByRisk localeCompare vehicleMetrics) (Fin 3) |}.
Proof. reflexivity. Qed.

(** X26 -- [aggregateFleetMetrics]: an empty fleet gives the zeroed
    record.  Otherwise [totalVehicles] is the number of vehicles, both
    rankings have one entry per vehicle, the three totals are the sums
    over the vehicles, and the averages are arithmetic means: when every
    vehicle's scores lie in [0, 100] and its idle ratio in [0, 1], so do
    the fleet's average scores and average idle ratio. *)
Theorem fleet_averages_stay_in_range
  (vehicleMetrics : list DerivedVehicleMetrics.t)
  (periodStart periodEnd : string) :
  let fleet := fleetMetrics vehicleMetrics periodStart periodEnd in
  (vehicleMetrics = [] ->
   fleet = createEmptyFleetMetrics periodStart periodEnd) /\
  FleetMetrics.totalVehicles fleet = ofNat (List.length vehicleMetrics) /\
  List.length (FleetMetrics.vehiclesByEfficiency fleet)
  = List.length vehicleMetrics /\
  List.length (FleetMetrics.vehiclesByRisk fleet)
  = List.length vehicleMetrics /\
  FleetMetrics.totalDistanceKm fleet
  = sumNum (map (fun m => BaseVehicleMetrics.totalDistanceKm
                            (DerivedVehicleMetrics.base m)) vehicleMetrics) /\
  FleetMetrics.totalIdleTimeMinutes fleet
  = sumNum (map (fun m => BaseVehicleMetrics.totalIdleTimeMinutes
                            (DerivedVehicleMetrics.base m)) vehicleMetrics) /\
  FleetMetrics.totalMovingTimeMinutes fleet
  = sumNum (map (fun m => BaseVehicleMetrics.totalMovingTimeMinutes
                            (DerivedVehicleMetrics.base m)) vehicleMetrics) /\
  (Forall
     (fun m =>
        inRange0to100 (DerivedVehicleMetrics.efficiencyScore m) /\
        inRange0to100 (DerivedVehicleMetrics.riskScore m) /\
        inUnitInterval (DerivedVehicleMetrics.idleRatio m))
     vehicleMetrics ->
   inRange0to100 (FleetMetrics.averageEfficiencyScore fleet) /\
   inRange0to100 (FleetMetrics.averageRiskScore fleet) /\
   inUnitInterval (FleetMetrics.averageIdleRatio fleet)).
Proof.
  cbv zeta. destruct vehicleMetrics as [| m l].
  - unfold aggregateFleetMetrics. simpl.
    repeat split; try reflexivity.
    + apply inRange_zero.
    + apply inRange_zero.
    + exists 0. split; [reflexivity | lra].
  - rewrite aggregateFleetMetrics_nonempty. cbv zeta.
    rewrite addVehicleMetrics_sums.
    cbn [FleetMetrics.totalVehicles FleetMetrics.vehiclesByEfficiency
         FleetMetrics.vehiclesByRisk FleetMetrics.totalDistanceKm
         FleetMetrics.totalIdleTimeMinutes FleetMetrics.totalMovingTimeMinutes
         FleetMetrics.averageEfficiencyScore FleetMetrics.averageRiskScore
         FleetMetrics.averageIdleRatio
         FleetSums.totalDistanceKm FleetSums.totalIdleTimeMinutes
         FleetSums.totalMovingTimeMinutes FleetSums.sumIdleRatio
         FleetSums.sumEfficiencyScore FleetSums.sumRiskScore zeroFleetSums].
    split; [discriminate |]. split; [reflexivity |].
    split; [rewrite rankByEfficiency_entries, rankEntries_length;
            apply length_map |].
    split; [rewrite rankByRisk_entries, rankEntries_length; apply length_map |].
    split; [reflexivity |]. split; [reflexivity |]. split; [reflexivity |].
    intros Hall.
    assert (Hne : m :: l <> []) by discriminate.
    split; [| split].
    + apply (mean_within DerivedVehicleMetrics.efficiencyScore 0 100 (m :: l)
               Hne).
      eapply Forall_impl; [| exact Hall]. intros x (H & _). exact H.
    + apply (mean_within DerivedVehicleMetrics.riskScore 0 100 (m :: l) Hne).
      eapply Forall_impl; [| exact Hall]. intros x (_ & H & _). exact H.
    + apply (mean_within DerivedVehicleMetrics.idleRatio 0 1 (m :: l) Hne).
      eapply Forall_impl; [| exact Hall]. intros x (_ & _ & H). exact H.
Qed.

End FleetMetricsProperties.

Lemma sampleFleet_in_range :
  Forall
    (fun m =>
       inRange0to100 (DerivedVehicleMetrics.efficiencyScore m) /\
       inRange0to100 (DerivedVehicleMetrics.riskScore m) /\
       inUnitInterval (DerivedVehicleMetrics.idleRatio m))
    sampleFleet.
Proof.
  repeat constructor;
    try (apply inRange_Fin; lra);
    try (eexists; split; [reflexivity | lra]).
Qed.

Lemma fleet_averages_stay_in_range_witness :
  inRange0to100
    (FleetMetrics.averageRiskScore
       (aggregateFleetMetrics lexCompare sampleFleet "2024-01-15T09:00:00Z"
          "2024-01-15T10:00:00Z")) /\
  aggregateFleetMetrics lexCompare [] "2024-01-15T09:00:00Z"
    "2024-01-15T10:00:00Z"
  = createEmptyFleetMetrics "2024-01-15T09:00:00Z" "2024-01-15T10:00:00Z".
Proof.
  destruct (fleet_averages_stay_in_range lexCompare sampleFleet
              "2024-01-15T09:00:00Z" "2024-01-15T10:00:00Z")
    as (_ & _ & _ & _ & _ & _ & _ & H).
  destruct (fleet_averages_stay_in_range lexCompare []
              "2024-01-15T09:00:00Z" "2024-01-15T10:00:00Z") as (He & _).
  split; [apply (H sampleFleet_in_range) | apply He; reflexivity].
Defined.

(** ** The top of the risk ranking *)

Lemma INR_as_IZR (k : nat) : INR k = IZR (Z.of_nat k).
Proof. apply INR_IZR_INZ. Qed.

Lemma firstn_min {A : Type} (k : nat) (l : list A) :
  firstn (Nat.min k (List.length l)) l = firstn k l.
Proof.
  destruct (Nat.le_ge_cases k (List.length l)) as [H | H].
  - rewrite Nat.min_l by exact H. reflexivity.
  - rewrite Nat.min_r by exact H.
    rewrite firstn_all. symmetry. apply firstn_all2. exact H.
Qed.

Lemma slice_count {A : Type} (l : list A) (k : nat) :
  Array_slice_from_0 l (ofNat k) = firstn k l.
Proof.
  unfold Array_slice_from_0, sliceEnd, ofNat. cbv zeta.
  rewrite INR_as_IZR, Rtrunc_IZR.
  replace (Z.of_nat k <? 0)%Z with false by (symmetry; apply Z.ltb_ge; lia).
  rewrite Nat2Z.id. apply firstn_min.
Qed.

Lemma slice_from_the_end {A : Type} (l : list A) (k : nat) :
  (0 < k)%nat ->
  Array_slice_from_0 l (Fin (- INR k)) = firstn (List.length l - k) l.
Proof.
  intros Hk. unfold Array_slice_from_0, sliceEnd. cbv zeta.
  rewrite INR_as_IZR, <- opp_IZR, Rtrunc_IZR.
  replace (- Z.of_nat k <? 0)%Z with true by (symmetry; apply Z.ltb_lt; lia).
  f_equal. lia.
Qed.

Lemma in_skipn {A : Type} (x : A) (l : list A) :
  forall n : nat, In x (skipn n l) -> In x l.
Proof.
  induction l as [| y l IH]; intros n H.
  - destruct n; exact H.
  - destruct n as [| n]; [exact H |]. right. exact (IH n H).
Qed.

Lemma firstn_of_seq (n : nat) :
  forall start len : nat,
    firstn n (seq start len) = seq start (Nat.min n len).
Proof.
  induction n as [| n IH]; intros start len; [reflexivity |].
  destruct len as [| len]; [reflexivity |].
  cbn [seq firstn Nat.min]. rewrite IH. reflexivity.
Qed.

Lemma sorted_prefix_leads {A : Type} (R : A -> A -> Prop) (l : list A) :
  StronglySorted R l ->
  forall (n : nat) (a b : A),
    In a (firstn n l) -> In b (skipn n l) -> R a b.
Proof.
  induction 1 as [| x l Hs IH Hx]; intros n a b Ha Hb.
  - destruct n; contradiction.
  - destruct n as [| n]; [contradiction |].
    cbn [firstn skipn] in Ha, Hb. destruct Ha as [<- | Ha].
    + rewrite Forall_forall in Hx. apply Hx.
      exact (in_skipn b l n Hb).
    + exact (IH n a b Ha Hb).
Qed.

Section TopRiskProperties.

Variable localeCompare : string -> string -> Z.

(** X27 -- [getTopRiskVehicles(riskRankings, count)] is
    [riskRankings.slice(0, count)]: the first [count] entries for a
    whole count (all of them when there are fewer), no entry for a NaN
    count, and all but the last [k] for a count of [-k].  In
    [aggregateFleetMetrics] the top risk vehicles are the first three
    entries of the risk ranking: they carry the ranks 1, 2, 3 (as far as
    there are vehicles), and when no risk score is NaN (the collation
    being a total order) each of them may stand before every vehicle left
    out: a higher risk score, or the same score and an identifier not
    later in the collation. *)
Theorem top_risk_vehicles_lead_the_ranking
  (vehicleMetrics : list DerivedVehicleMetrics.t)
  (periodStart periodEnd : string) :
  let fleet :=
    aggregateFleetMetrics localeCompare vehicleMetrics periodStart periodEnd in
  (forall (riskRankings : list VehicleRanking.t) (k : nat),
     getTopRiskVehicles riskRankings (ofNat k) = firstn k riskRankings /\
     getTopRiskVehicles riskRankings NaN = [] /\
     ((0 < k)%nat ->
      getTopRiskVehicles riskRankings (Fin (- INR k))
      = firstn (List.length riskRankings - k) riskRankings)) /\
  FleetMetrics.topRiskVehicles fleet
  = firstn 3 (FleetMetrics.vehiclesByRisk fleet) /\
  map VehicleRanking.rank (FleetMetrics.topRiskVehicles fleet)
  = seq 1 (Nat.min 3 (List.length vehicleMetrics)) /\
  (collationIsTotalOrder localeCompare ->
   Forall (fun m => isNaN (DerivedVehicleMetrics.riskScore m) = false)
          vehicleMetrics ->
   forall top other : VehicleRanking.t,
     In top (FleetMetrics.topRiskVehicles fleet) ->
     In other (skipn 3 (FleetMetrics.vehiclesByRisk fleet)) ->
     rankedBefore localeCompare top other).
Proof.
  cbv zeta.
  assert (Hslice : forall (riskRankings : list VehicleRanking.t),
            getTopRiskVehicles riskRankings (Fin 3) = firstn 3 riskRankings).
  { intros r. unfold getTopRiskVehicles.
    replace (Fin 3) with (ofNat 3) by (unfold ofNat; f_equal; simpl; lra).
    apply slice_count. }
  split.
  { intros r k. unfold getTopRiskVehicles. split; [apply slice_count |].
    split; [reflexivity | apply slice_from_the_end]. }
  assert (Htop :
    FleetMetrics.topRiskVehicles
      (aggregateFleetMetrics localeCompare vehicleMetrics periodStart periodEnd)
    = firstn 3
        (FleetMetrics.vehiclesByRisk
           (aggregateFleetMetrics localeCompare vehicleMetrics periodStart
              periodEnd))).
  { destruct vehicleMetrics as [| m l]; [reflexivity |].
    rewrite aggregateFleetMetrics_nonempty. cbv zeta.
    cbn [FleetMetrics.topRiskVehicles FleetMetrics.vehiclesByRisk].
    apply Hslice. }
  assert (Hrisk :
    FleetMetrics.vehiclesByRisk
      (aggregateFleetMetrics localeCompare vehicleMetrics periodStart periodEnd)
    = rankEntries localeCompare (map riskEntry vehicleMetrics)).
  { destruct vehicleMetrics as [| m l]; [reflexivity |].
    rewrite aggregateFleetMetrics_nonempty. cbv zeta.
    cbn [FleetMetrics.vehiclesByRisk]. apply rankByRisk_entries. }
  split; [exact Htop |]. rewrite Htop, Hrisk. split.
  - rewrite <- firstn_map. unfold rankEntries. cbv zeta.
    rewrite ranking_ranks.
    assert (Hlen : List.length (Array_sort (compareByScoreDesc localeCompare)
                                  (map riskEntry vehicleMetrics))
                   = List.length vehicleMetrics).
    { rewrite (Permutation_length (Array_sort_perm _ _)). apply length_map. }
    rewrite Hlen. cbn [Nat.add]. apply firstn_of_seq.
  - intros Hcoll Hscores top other Htopin Hother.
    assert (Hentries : Forall hasScore (map riskEntry vehicleMetrics)).
    { apply Forall_forall. intros e He. apply in_map_iff in He.
      destruct He as (m & <- & Hm). rewrite Forall_forall in Hscores.
      apply (Hscores m Hm). }
    destruct (rankEntries_is_ranking localeCompare Hcoll _ Hentries)
      as (_ & Hsorted & _).
    exact (sorted_prefix_leads _ _ Hsorted 3 top other Htopin Hother).
Qed.

End TopRiskProperties.

Lemma top_risk_vehicles_lead_the_ranking_witness :
  getTopRiskVehicles [] (Fin (- INR 1)) = [] /\
  forall top other : VehicleRanking.t,
    In top
      (FleetMetrics.topRiskVehicles
         (aggregateFleetMetrics lexCompare sampleFleet "2024-01-15T09:00:00Z"
            "2024-01-15T10:00:00Z")) ->
    In other
      (skipn 3
         (FleetMetrics.vehiclesByRisk
            (aggregateFleetMetrics lexCompare sampleFleet
               "2024-01-15T09:00:00Z" "2024-01-15T10:00:00Z"))) ->
    rankedBefore lexCompare top other.
Proof.
  destruct (top_risk_vehicles_lead_the_ranking lexCompare sampleFleet
              "2024-01-15T09:00:00Z" "2024-01-15T10:00:00Z")
    as (Hslice & _ & _ & H).
  split.
  - destruct (Hslice [] 1%nat) as (_ & _ & Hneg). apply Hneg. lia.
  - apply H; [exact lexCompare_total_order | repeat constructor].
Defined.

(** ** Vehicles at risk *)

Lemma filter_length_le {A : Type} (f : A -> bool) (l : list A) :
  (List.length (filter f l) <= List.length l)%nat.
Proof.
  induction l as [| x l IH]; [simpl; lia |].
  cbn [filter]. destruct (f x); simpl; lia.
Qed.

(** X28 -- [calculateHighRiskPercentage] is, for every fleet and every
    threshold (NaN scores and thresholds included), a finite percentage
    in [0, 100]: 0 for an empty fleet, and otherwise 100 times the share
    of vehicles whose risk score is at or above the threshold.  Every
    vehicle it counts is listed by [getVehiclesNeedingAttention] called
    with the same risk threshold, which lists exactly the vehicles with
    an efficiency score below the efficiency threshold or a risk score
    at or above the risk threshold. *)
Theorem high_risk_share_is_a_percentage
  (vehicleMetrics : list DerivedVehicleMetrics.t)
  (efficiencyThreshold riskThreshold : num) :
  let highRisk :=
    filter (fun m => (DerivedVehicleMetrics.riskScore m >=? riskThreshold)%js)
           vehicleMetrics in
  (exists share : R,
     calculateHighRiskPercentage vehicleMetrics riskThreshold = Fin share /\
     0 <= share <= 100 /\
     share * INR (List.length vehicleMetrics)
     = 100 * INR (List.length highRisk) /\
     (vehicleMetrics = [] -> share = 0)) /\
  (forall m, In m highRisk ->
     In (DerivedVehicleMetrics.vehicleId m)
        (getVehiclesNeedingAttention vehicleMetrics efficiencyThreshold
           riskThreshold)) /\
  (forall vehicleId : string,
     In vehicleId
        (getVehiclesNeedingAttention vehicleMetrics efficiencyThreshold
           riskThreshold)
     <-> exists m, In m vehicleMetrics /\
                   DerivedVehicleMetrics.vehicleId m = vehicleId /\
                   ((DerivedVehicleMetrics.efficiencyScore m
                     <? efficiencyThreshold)%js = true \/
                    (DerivedVehicleMetrics.riskScore m
                     >=? riskThreshold)%js = true)).
Proof.
  cbv zeta. split; [| split].
  - unfold calculateHighRiskPercentage.
    destruct vehicleMetrics as [| m l].
    + exists 0. simpl. split; [reflexivity |].
      split; [lra |]. split; [lra | reflexivity].
    + cbn [List.length Nat.eqb]. cbv zeta.
      set (all := m :: l).
      set (high := filter _ all).
      pose proof (filter_length_le
                    (fun m => (DerivedVehicleMetrics.riskScore m
                               >=? riskThreshold)%js) all) as Hle.
      fold high in Hle.
      change (S (List.length l)) with (List.length all).
      assert (Hn : 0 < INR (List.length all)).
      { apply lt_0_INR. unfold all. simpl. lia. }
      assert (Hh : 0 <= INR (List.length high) <= INR (List.length all)).
      { split; [apply pos_INR | apply le_INR; exact Hle]. }
      unfold ofNat.
      destruct (percentage_of (INR (List.length high)) (INR (List.length all)))
        as (p & Ep & Hp & _ & Hp1); [lra | lra | lra |].
      exists p. split; [exact Ep |]. split; [exact Hp |].
      split; [rewrite Hp1 by lra; field; lra | discriminate].
  - intros m Hm. unfold getVehiclesNeedingAttention.
    apply in_map. apply filter_In in Hm. destruct Hm as [Hin Hrisk].
    apply filter_In. split; [exact Hin |]. rewrite Hrisk. apply orb_true_r.
  - intros vehicleId. unfold getVehiclesNeedingAttention.
    rewrite in_map_iff. split.
    + intros (m & E & Hm). apply filter_In in Hm. destruct Hm as [Hin H].
      exists m. split; [exact Hin |]. split; [exact E |].
      apply orb_true_iff. exact H.
    + intros (m & Hin & E & H). exists m. split; [exact E |].
      apply filter_In. split; [exact Hin |]. apply orb_true_iff. exact H.
Qed.

Lemma high_risk_share_is_a_percentage_witness :
  In "v1" (getVehiclesNeedingAttention sampleFleet (Fin 50) (Fin 30)).
Proof.
  destruct (high_risk_share_is_a_percentage sampleFleet (Fin 50) (Fin 30))
    as (_ & H & _).
  apply (H (scoredVehicle "v1" (Fin 70) (Fin 35))).
  apply filter_In. split; [right; left; reflexivity |].
  apply ge_Fin. lra.
Defined.

(** ** The whole pipeline for one vehicle *)

Lemma EFFICIENCY_WEIGHTS_finite : finiteEfficiencyWeights EFFICIENCY_WEIGHTS.
Proof. repeat split. Qed.

Lemma RISK_WEIGHTS_finite : finiteRiskWeights RISK_WEIGHTS.
Proof. repeat split. Qed.

Section PipelineProperties.

Variable Date_getTime : string -> option Z.

(** X29 -- [computeFullMetrics] followed by [computeVehicleCosts], on
    every track whatever its points, timestamps and coordinates are: the
    efficiency score and the risk score lie in [0, 100], the idle ratio
    and the aggressive driving ratio in [0, 1], and the costs computed
    from them with the default financial constants are finite and
    non-negative, with a speeding risk cost of at most 360 (2400 * 0.15),
    a monthly cost of 22 daily costs and an annual loss of 12 monthly
    costs plus the speeding risk cost. *)
Theorem full_metrics_and_costs_are_well_formed (track : GPSTrackResponse.t) :
  let metrics := computeFullMetrics Date_getTime track in
  let costs := computeVehicleCosts metrics in
  DerivedVehicleMetrics.base metrics
  = computeBaseMetrics Date_getTime track ANALYTICS_CONFIG /\
  inRange0to100 (DerivedVehicleMetrics.efficiencyScore metrics) /\
  inRange0to100 (DerivedVehicleMetrics.riskScore metrics) /\
  inUnitInterval (DerivedVehicleMetrics.idleRatio metrics) /\
  inUnitInterval (DerivedVehicleMetrics.aggressiveDrivingRatio metrics) /\
  exists daily monthly speeding annual : R,
    VehicleCostEstimation.dailyIdleCost costs = Fin daily /\
    VehicleCostEstimation.monthlyProjectedIdleCost costs = Fin monthly /\
    VehicleCostEstimation.speedingRiskCost costs = Fin speeding /\
    VehicleCostEstimation.annualProjectedLoss costs = Fin annual /\
    0 <= daily /\ monthly = daily * 22 /\ 0 <= speeding <= 360 /\
    annual = monthly * 12 + speeding.
Proof.
  cbv zeta.
  destruct (derived_ratios_hold Date_getTime track ANALYTICS_CONFIG)
    as (Hidle & _ & Haggr).
  cbv zeta in Hidle, Haggr.
  destruct Haggr as [_ Haggr]; [apply le_Fin; lra |].
  assert (Hnan :
    isNaN (DerivedVehicleMetrics.aggressiveDrivingRatio
             (computeDerivedMetrics Date_getTime
                (computeBaseMetrics Date_getTime track ANALYTICS_CONFIG)
                track ANALYTICS_CONFIG)) = false).
  { destruct Haggr as (q & -> & _). reflexivity. }
  pose proof (calculateEfficiencyScore_range
                (computeBaseMetrics Date_getTime track ANALYTICS_CONFIG)
                EFFICIENCY_WEIGHTS ANALYTICS_CONFIG
                EFFICIENCY_WEIGHTS_finite eq_refl) as Heff.
  pose proof (calculateRiskScore_range
                (computeDerivedMetrics Date_getTime
                   (computeBaseMetrics Date_getTime track ANALYTICS_CONFIG)
                   track ANALYTICS_CONFIG)
                RISK_WEIGHTS ANALYTICS_CONFIG
                RISK_WEIGHTS_finite eq_refl Hnan) as Hrisk.
  unfold computeFullMetrics. cbv zeta.
  cbn [DerivedVehicleMetrics.base DerivedVehicleMetrics.efficiencyScore
       DerivedVehicleMetrics.riskScore DerivedVehicleMetrics.idleRatio
       DerivedVehicleMetrics.aggressiveDrivingRatio].
  split; [reflexivity |]. split; [exact Heff |]. split; [exact Hrisk |].
  split; [exact Hidle |]. split; [exact Haggr |].
  destruct (moving_idle_finite Date_getTime track ANALYTICS_CONFIG)
    as (m & i & _ & Ei & _ & Hi).
  destruct Hrisk as (r & Er & Hr).
  unfold computeVehicleCosts, calculateVehicleCosts. cbv zeta.
  cbn [VehicleCostEstimation.dailyIdleCost
       VehicleCostEstimation.monthlyProjectedIdleCost
       VehicleCostEstimation.speedingRiskCost
       VehicleCostEstimation.annualProjectedLoss
       DerivedVehicleMetrics.base DerivedVehicleMetrics.riskScore].
  assert (Hbase :
    DerivedVehicleMetrics.base
      (computeDerivedMetrics Date_getTime
         (computeBaseMetrics Date_getTime track ANALYTICS_CONFIG) track
         ANALYTICS_CONFIG)
    = computeBaseMetrics Date_getTime track ANALYTICS_CONFIG) by reflexivity.
  rewrite !Hbase, Ei, Er.
  rewrite (dailyIdleCost_value i FINANCIAL_DEFAULTS (185 / 100) (25 / 10)
             eq_refl eq_refl).
  destruct (clampedScore_spec (Fin r) eq_refl) as (c & Ec & Hc & Hzero & _).
  destruct (premium_value (Fin r) FINANCIAL_DEFAULTS (115 / 100) 2400 c
              eq_refl eq_refl Ec Hzero) as [_ Ecost].
  rewrite Ecost.
  unfold calculateMonthlyProjectedIdleCost, calculateAnnualProjectedLoss,
    MONTHS_PER_YEAR.
  cbn [FINANCIAL_DEFAULTS FinancialConstants.operatingDaysPerMonth].
  rewrite !mul_Fin, add_Fin.
  rewrite Rmax_right by exact Hi.
  eexists _, _, _, _.
  split; [reflexivity |]. split; [reflexivity |]. split; [reflexivity |].
  split; [reflexivity |].
  split; [lra |]. split; [reflexivity |]. split; [lra | reflexivity].
Qed.

End PipelineProperties.

(** ** The variance of the moving speeds *)

Lemma movingSpeeds_are_the_moving_points (config : AnalyticsConfig.t)
  (points : list GPSTrackPoint.t) :
  movingSpeeds points config
  = map GPSTrackPoint.speed
      (filter
         (fun p => VehicleState_eqb (classifyPointState p config) moving)
         points).
Proof.
  unfold movingSpeeds.
  assert (H : forall (l : list GPSTrackPoint.t) (acc : list num),
            fold_left
              (fun movingSpeeds point =>
                 if VehicleState_eqb (classifyPointState point config) moving
                 then movingSpeeds ++ [GPSTrackPoint.speed point]
                 else movingSpeeds) l acc
            = acc ++ map GPSTrackPoint.speed
                       (filter
                          (fun p => VehicleState_eqb
                                      (classifyPointState p config) moving)
                          l)).
  { induction l as [| p l IH]; intros acc; [simpl; rewrite app_nil_r; reflexivity |].
    cbn [fold_left filter]. rewrite IH.
    destruct (VehicleState_eqb (classifyPointState p config) moving);
      [cbn [map]; rewrite <- app_assoc; reflexivity | reflexivity]. }
  apply (H points []).
Qed.

Lemma sum_of_finite (l : list num) :
  Forall (fun x => isFinite x = true) l ->
  forall a : R, exists t : R, fold_left JS.add l (Fin a) = Fin t.
Proof.
  induction l as [| x l IH]; intros Hall a; [exists a; reflexivity |].
  inversion Hall as [| x' l' Hx Hl]; subst.
  destruct x as [r | | |]; try discriminate Hx.
  cbn [fold_left]. rewrite add_Fin. apply IH. exact Hl.
Qed.

(** X30 -- [calculateSpeedVariance]: 0 whenever fewer than two points
    classify as moving; and on a track (an array, of fewer than [2^32]
    points) whose speeds are all numbers of magnitude at most [10^100],
    a finite non-negative number, so that [calculateSpeedStdDev] is its
    square root and never NaN. *)
Theorem speed_variance_is_non_negative (track : GPSTrackResponse.t)
  (config : AnalyticsConfig.t) :
  ((List.length (movingSpeeds (GPSTrackResponse.points track) config) < 2)%nat ->
   calculateSpeedVariance track config = Fin 0 /\
   calculateSpeedStdDev track config = Fin 0) /\
  ((Z.of_nat (List.length (GPSTrackResponse.points track)) < 2 ^ 32)%Z ->
   Forall (fun p => withinMagnitude (10 ^ 100) (GPSTrackPoint.speed p))
          (GPSTrackResponse.points track) ->
   exists variance : R,
     calculateSpeedVariance track config = Fin variance /\
     0 <= variance /\
     calculateSpeedStdDev track config = Fin (R_sqrt.sqrt variance)).
Proof.
  assert (Hfew :
    (List.length (movingSpeeds (GPSTrackResponse.points track) config) < 2)%nat ->
    calculateSpeedVariance track config = Fin 0).
  { intros Hlt. unfold calculateSpeedVariance. cbv zeta.
    apply Nat.ltb_lt in Hlt. rewrite Hlt. reflexivity. }
  split.
  - intros Hlt. split; [exact (Hfew Hlt) |].
    unfold calculateSpeedStdDev. cbv zeta. rewrite (Hfew Hlt).
    unfold JS.sqrt. rewrite Rltb_false by lra. f_equal. apply sqrt_0.
  - intros _ Hmoderate.
    assert (Hfin : Forall (fun p => isFinite (GPSTrackPoint.speed p) = true)
                          (GPSTrackResponse.points track)).
    { eapply Forall_impl; [| exact Hmoderate].
      intros p (r & -> & _). reflexivity. }
    assert (Hvar : exists variance : R,
              calculateSpeedVariance track config = Fin variance /\
              0 <= variance).
    { destruct (Nat.lt_ge_cases
                  (List.length
                     (movingSpeeds (GPSTrackResponse.points track) config)) 2)
        as [Hlt | Hge].
      - exists 0. split; [exact (Hfew Hlt) | lra].
      - unfold calculateSpeedVariance. cbv zeta.
        apply Nat.ltb_ge in Hge. rewrite Hge.
        set (speeds := movingSpeeds (GPSTrackResponse.points track) config)
          in *.
        assert (Hspeeds : Forall (fun x => isFinite x = true) speeds).
        { unfold speeds. rewrite movingSpeeds_are_the_moving_points.
          apply Forall_forall. intros x Hx. apply in_map_iff in Hx.
          destruct Hx as (p & <- & Hp). apply filter_In in Hp.
          rewrite Forall_forall in Hfin. apply Hfin. apply Hp. }
        assert (Hn : INR (List.length speeds) <> 0).
        { apply not_0_INR. apply Nat.ltb_ge in Hge. lia. }
        destruct (sum_of_finite speeds Hspeeds 0) as (total & Etotal).
        change (fold_left (fun acc speed : num => (acc + speed)%js) speeds
                  (Fin 0))
          with (fold_left JS.add speeds (Fin 0)).
        rewrite Etotal. unfold ofNat. rewrite div_Fin by exact Hn.
        set (mean := total / INR (List.length speeds)).
        destruct (sum_bounds_members
                    (fun speed : num =>
                       ((speed - Fin mean) * (speed - Fin mean))%js)
                    speeds) with (a := 0) as (squares & Esq & Hsq & _).
        { eapply Forall_impl; [| exact Hspeeds].
          intros x Hx. destruct x as [r | | |]; try discriminate Hx.
          cbv beta. rewrite sub_Fin, mul_Fin. eexists. split; [reflexivity |].
          apply Rle_0_sqr. }
        change (fold_left (fun acc sq : num => (acc + sq)%js)
                  (map (fun speed : num =>
                          ((speed - Fin mean) * (speed - Fin mean))%js)
                       speeds) (Fin 0))
          with (fold_left JS.add
                  (map (fun speed : num =>
                          ((speed - Fin mean) * (speed - Fin mean))%js)
                       speeds) (Fin 0)).
        rewrite Esq, div_Fin by exact Hn.
        exists (squares / INR (List.length speeds)). split; [reflexivity |].
        assert (Hpos : 0 < INR (List.length speeds)).
        { apply lt_0_INR. apply Nat.ltb_ge in Hge. lia. }
        apply Rmult_le_reg_r with (INR (List.length speeds)); [exact Hpos |].
        unfold Rdiv. rewrite Rmult_assoc, Rinv_l by exact Hn. lra. }
    destruct Hvar as (variance & Ev & Hv).
    exists variance. split; [exact Ev |]. split; [exact Hv |].
    unfold calculateSpeedStdDev. cbv zeta. rewrite Ev.
    unfold JS.sqrt. rewrite Rltb_false by lra. reflexivity.
Qed.

(** ** Instances on the sample inputs *)

Lemma filterValidPoints_keeps_the_valid_witness :
  In (samplePoint (Fin 60) "2024-01-15T09:00:00Z" true)
     (filterValidPoints sampleDrive).
Proof.
  destruct (filterValidPoints_keeps_the_valid sampleDrive) as (_ & Hin & _).
  apply Hin. split; [left; reflexivity |].
  exists (407128 / 10000), (- (74006 / 1000)).
  repeat split; lra.
Defined.

Lemma max_speed_is_highest_ignition_on_speed_witness :
  BaseVehicleMetrics.maxSpeedKmh
    (computeBaseMetrics sampleDate_getTime (sampleTrack sampleDrive)
       ANALYTICS_CONFIG)
  = ignitionOnMaxSpeed (Fin 0) sampleDrive /\
  (Fin 50 >? BaseVehicleMetrics.maxSpeedKmh
               (computeBaseMetrics sampleDate_getTime (sampleTrack sampleDrive)
                  ANALYTICS_CONFIG))%js = false.
Proof.
  destruct (max_speed_is_highest_ignition_on_speed sampleDate_getTime
              (sampleTrack sampleDrive) ANALYTICS_CONFIG) as (Hmax & Hall & _).
  split.
  - apply Hmax. simpl. lia.
  - apply (Hall (samplePoint (Fin 50) "2024-01-15T10:00:00Z" true));
      [simpl; auto | reflexivity].
Defined.

(** A track whose declared start does not parse. *)
Lemma operational_ratio_non_negative_witness :
  getOperationalRatio
    (computeBaseMetrics sampleDate_getTime
       {| GPSTrackResponse.vehicleId := "vehicle-001";
          GPSTrackResponse.startTime := "yesterday";
          GPSTrackResponse.endTime := "2024-01-15T10:00:00Z";
          GPSTrackResponse.points := sampleDrive |}
       ANALYTICS_CONFIG)
  = Fin 0.
Proof.
  destruct (operational_ratio_non_negative sampleDate_getTime
              {| GPSTrackResponse.vehicleId := "vehicle-001";
                 GPSTrackResponse.startTime := "yesterday";
                 GPSTrackResponse.endTime := "2024-01-15T10:00:00Z";
                 GPSTrackResponse.points := sampleDrive |}
              ANALYTICS_CONFIG) as (_ & _ & H).
  apply H. apply duration_invalid. left. reflexivity.
Defined.

Lemma derived_ratios_are_ratios_witness :
  inUnitInterval
    (DerivedVehicleMetrics.aggressiveDrivingRatio
       (computeDerivedMetrics sampleDate_getTime
          (computeBaseMetrics sampleDate_getTime (sampleTrack sampleDrive)
             ANALYTICS_CONFIG)
          (sampleTrack sampleDrive) ANALYTICS_CONFIG)).
Proof.
  destruct (derived_ratios_are_ratios sampleDate_getTime
              (sampleTrack sampleDrive) ANALYTICS_CONFIG)
    as (_ & _ & _ & _ & _ & H).
  apply H. apply le_Fin. lra.
Defined.

Lemma speed_variance_is_non_negative_witness :
  exists variance : R,
    calculateSpeedVariance (sampleTrack sampleDrive) ANALYTICS_CONFIG
    = Fin variance /\ 0 <= variance.
Proof.
  destruct (speed_variance_is_non_negative (sampleTrack sampleDrive)
              ANALYTICS_CONFIG) as [_ H].
  destruct H as (variance & E & Hv & _).
  - simpl. lia.
  - assert (H100 : 10 ^ 4 <= 10 ^ 100) by (apply Rle_pow; [lra | lia]).
    repeat (constructor;
            [eexists; split; [reflexivity | apply Rabs_le; lra] |]).
    constructor.
  - exists variance. split; assumption.
Defined.

(* ================================================================== *)
(** ** Non-negative metrics *)
(* ================================================================== *)

Section NonNegativeMetrics.

Variable Date_getTime : string -> option Z.

Local Abbreviation minutes := (segmentMinutes Date_getTime).
Local Abbreviation baseMetrics := (computeBaseMetrics Date_getTime).

Lemma runMinutes_nonneg (r : IdleRun) :
  exists d : R, runMinutes Date_getTime r = Fin d /\ 0 <= d.
Proof.
  unfold runMinutes, sumNum.
  destruct (sum_bounds_members minutes (segments (runSamples r))
              (segment_minutes_nonneg Date_getTime _) 0)
    as (total & E & H0 & _).
  exists total. split; [exact E | exact H0].
Qed.

Lemma event_minutes_nonneg (track : GPSTrackResponse.t)
  (config : AnalyticsConfig.t) :
  Forall (fun e => exists d : R, IdleEvent.durationMinutes e = Fin d /\ 0 <= d)
    (BaseVehicleMetrics.longIdleEvents (baseMetrics track config)).
Proof.
  destruct (Nat.eq_dec (List.length (GPSTrackResponse.points track)) 1)
    as [H1 | H1].
  - unfold computeBaseMetrics.
    destruct (GPSTrackResponse.points track) as [| p [| q rest]];
      try discriminate H1.
    constructor.
  - rewrite (baseMetrics_events Date_getTime track config H1).
    pose proof (emittedEvents_long_runs Date_getTime config _
                  (collectRuns_nonempty config
                     (GPSTrackResponse.points track) [])) as HF.
    apply Forall2_right_exists in HF.
    eapply Forall_impl; [| exact HF].
    intros e (r & _ & (_ & _ & Hd) & _). rewrite Hd.
    apply runMinutes_nonneg.
Qed.

End NonNegativeMetrics.

